(* ===== verification/_CoqProject ===== *)
-Q . S2P
Prelude.v
PyInt.v
QNum.v
Interp.v
QuantileMapping.v
RNum.v
Mat2.v
Kalman.v
Trend.v
Anomaly.v
BMA.v
BMAReport.v
Arima.v
Processor.v
Quantum.v
LSTM.v
Ensemble.v
MLModels.v
CorrectionReport.v
Api.v
Server.v
Packages.v
