(* ===== verification/Prelude.v ===== *)
(** * A verification library for the weather-forecasting backend

    The repository (src/python-backend) is a FastAPI service ([main.py])
    whose endpoints call one algorithm module each.  Every module of the
    service is modelled, each as the class it defines plus its entry-point
    function:

    - [algorithms/scientific/bias_correction.py]: [QuantileMappingCorrection]
      ([fit], [transform], [compute_statistics]) and [run_correction];
    - [algorithms/scientific/bayesian_ensemble.py]: [BayesianModelAveraging]
      ([estimate_variance], [compute_log_likelihood], [compute_weights],
      [predict]) and [run_bma];
    - [algorithms/scientific/anomaly_detection.py]: [WeatherAnomalyDetector]
      and [detect];
    - [algorithms/scientific/kalman_filter.py]: [WeatherKalmanFilter]
      ([configure], [filter_data], [forecast]) and [run_filter];
    - [algorithms/scientific/trend_analysis.py]: [TrendAnalyzer]
      ([mann_kendall_test], [sens_slope], [analyze]) and [analyze];
    - [algorithms/scientific/arima_model.py]: [WeatherARIMA] ([fit],
      [forecast], [diagnostics], [get_equation]) and [run_forecast];
    - [algorithms/ml/ensemble_voting.py]: [WeatherEnsembleVoting] ([train],
      [predict], [predict_all_models]) and [train_and_predict];
    - [algorithms/ml/random_forest.py], [gradient_boosting.py],
      [xgboost_predictor.py]: the three single-model wrappers ([train],
      [predict], [predict_with_uncertainty], [train_and_predict]);
    - [algorithms/ml/lstm_predictor.py]: [WeatherLSTM] and
      [train_and_predict] on its request dictionary;
    - [algorithms/quantum/*.py]: [GroverSearch], [WeatherQAOA],
      [WeatherQNN], [WeatherQSVM], [WeatherVQE] and their module functions
      (numpy arithmetic and random draws, no circuit);
    - [services/weather_processor.py]: [normalize_features] and
      [create_sequences];
    - [main.py]: the request models, the sixteen endpoints, [health_check],
      [list_algorithms] and [get_algorithm_code]; the application, its
      route table and the [__main__] start-up; its import statements;
    - the package initialisers [algorithms/__init__.py] and those of
      [scientific], [ml] and [quantum], which [main.py]'s imports run;
    - [services/ibm_quantum_service.py]: its environment reads and
      [get_backend].

    The algorithm components share no state.  Each entry point builds a
    fresh object, fits it and queries it; a method of an object is an
    operation of the state and exception monad [PyM] on the object's
    attributes, so the composition of the entry points is the monad's
    sequencing and a raise keeps the mutations made before it.  The
    endpoints of [main.py] compose the entry points with the request
    defaults and turn every exception into an HTTP 500 ([Api.v]); the
    quantum endpoints thread numpy's global random generator, the only
    state that survives a request.

    ** Files (in dependency order)
    - [Prelude.v] (this file): exceptions ([py_exn]), the monad [PyM] with
      its notations in [py_scope], Python dictionaries as ordered
      association lists ([dict_get], [dict_set]), slicing ([py_slice]),
      [str] of integers, [str.join], numpy broadcasting of two arrays, and
      the list lemmas the components share.
    - [PyInt.v]: Python's [int] of a string (whitespace, sign, digits and
      underscores, [ValueError]), the fuel of the printer [digits_of] and
      the round trip [int(str(z)) = z].
    - [QNum.v]: exact rationals for the quantile-mapping component: numpy's
      [inf] and [nan] ([fq]), [np.sort] as a merge sort, [np.mean],
      [np.var], sortedness and permutation lemmas.
    - [Interp.v]: [scipy.interpolate.interp1d] (linear, [bounds_error=False],
      a [(below, above)] fill value) through [numpy.interp].
    - [QuantileMapping.v]: [QuantileMappingCorrection]'s attributes as a
      record and [fit]/[transform] for the three methods; scipy's gamma
      distribution and [np.sqrt] are the interface [SciPyStats].  The
      object's life cycle is a transition system: the calls [qm_call]
      label the steps [qm_after], and [qm_reachable m] (an inductive
      predicate, equal to the states [qm_run_calls] produces from
      [__init__(m)]) collects every state a client can reach, raised calls
      included.
    - [RNum.v]: real statistics ([np.mean], [np.var], [np.sort],
      [np.percentile], [np.median], [np.std], [np.min], [np.max]),
      Python's [round], [int], [min], [max], [l[-1]], [l[i]], and
      Samuelson's inequality.
    - [Mat2.v]: 2x2 matrices, quadratic forms, positive semi-definiteness.
    - [Kalman.v]: filterpy's [KalmanFilter] for [dim_x = 2], [dim_z = 1]
      (module [FilterPy]: [predict], the Joseph-form [update]),
      [WeatherKalmanFilter] (module [WeatherKF]), [run_filter] (module
      [KalmanReport]) and their theorems (module [KalmanFacts]).
    - [Trend.v]: [TrendAnalyzer] (module [TrendAnalyzer]), [analyze]
      (module [TrendReport]); [scipy.stats.norm] is the interface
      [NormalDist], [linregress] and [pymannkendall] the interface
      [TrendLibs]; theorems in [TrendFacts].
    - [Anomaly.v]: [WeatherAnomalyDetector] (module [AnomalyDetector]),
      [detect] (module [AnomalyReport]), theorems in [AnomalyFacts].
    - [BMA.v]: [BayesianModelAveraging] over the reals with numpy's [-inf],
      [inf] and [nan] ([xr]); [scipy.special.logsumexp] with its max shift.
    - [BMAReport.v]: [run_bma] and its metrics (module [RunBMA]).
    - [Arima.v]: [WeatherARIMA] (module [WeatherARIMA]) and [run_forecast]
      (module [ArimaForecast]); statsmodels is the interface [StatsModels]
      with the law [StatsModelsLaws] (one residual per observation);
      numpy's [np.diff] and broadcasting division; theorems in
      [ArimaFacts].
    - [Processor.v]: [weather_processor.py] (module [WeatherProcessor]),
      [np.array]'s ragged-row error; theorems in [ProcessorFacts].
    - [Quantum.v]: numpy's global generator as the interface [NumpyRandom]
      (laws [NumpyRandomLaws]: sizes and ranges of the draws), threaded as
      the state of [PyM]; modules [Grover], [QAOA], [QNN], [QSVM], [VQE];
      theorems in [QuantumFacts].
    - [LSTM.v]: numpy arrays of dimension 0 to 3 ([ndarray]) with their
      shape lookups; Keras as the interface [Keras] (with [HAS_TF]);
      the layer stack of [_build_model] ([layer], [build_layers]);
      modules [WeatherLSTM] and [LSTMPredictor]; theorems in [LSTMFacts].
    - [Ensemble.v]: [WeatherEnsembleVoting] (module [EnsembleVoting]);
      scikit-learn is the interface [SkLearn] (an estimator's [predict]
      may raise; laws [SkLearnLaws]: a fitted estimator predicts on
      non-empty rows of its training width, [train_test_split] returns
      non-empty parts made of the given rows), [VotingRegressor]'s checks
      and average and the metric functions are written out.
    - [MLModels.v]: modules [RandomForest], [GradientBoosting] and
      [XGBoost]; the fitted estimators are the interfaces [ForestLib]
      (laws [ForestLaws]: on non-empty rows of the training width every
      tree predicts and the forest predicts the mean of its trees),
      [BoostLib] ([BoostLaws]) and [XGBLib] (with [HAS_XGB]); theorems in
      [MLFacts].
    - [CorrectionReport.v]: [compute_statistics] and [run_correction];
      [stats.ks_2samp] is the interface [KS2Samp].
    - [Api.v]: [main.py] (module [Main]): the request records with [None]
      for an omitted field, [http_result] (200, 500 with the exception, 404),
      the endpoints in a Section over every library interface, the
      listings and [get_algorithm_code]; theorems in [MainFacts].
    - [Server.v]: the application around the endpoints (module [App]):
      the [FastAPI] and CORS configuration, the route table of the
      decorators, Starlette's dispatch (first match, 405, 307 trailing
      slash redirect, 404), [serve] from a request (method, path, decoded
      body) to its status code, and the start-up [main]; theorems in
      [ServerFacts].
    - [Packages.v]: the four [__init__] files as statement lists and the
      import statements of [main.py], run on a model of Python's import
      system (module [Imports]: [sys.modules] as the state of [PyM],
      parents first, a module registered before its body runs and removed
      if it raises, [_handle_fromlist] and [IMPORT_FROM]); the fuel of the
      import recursion (module [ImportFacts]); the [get_source_code]
      function of every algorithm module and the code endpoint's call of
      it (modules [SourceCode], [SourceFacts]); [ibm_quantum_service.py]
      (module [IBMQuantumService]).

    Interfaces are type classes: a class of operations ([SciPyStats],
    [KS2Samp], [NormalDist], [TrendLibs], [StatsModels], [SkLearn],
    [NumpyRandom], [ForestLib], [BoostLib], [XGBLib], [Keras]) and a class
    of the laws the theorems use ([SciPyStatsLaws], [KS2SampLaws],
    [NormalDistLaws], [StatsModelsLaws], [SkLearnLaws], [NumpyRandomLaws],
    [ForestLaws], [BoostLaws]).  The theorems are proved against the
    interface, in Sections with [Context]; a witness instantiates it with a
    concrete instance that satisfies the laws.

    ** What the theorems show (claims C1-C34 of the manifest)
    - Quantile mapping: corrected values stay between the smallest and the
      largest observation (also after the gamma fallback); the correction is
      rank preserving: monotone, and it maps the k-th smallest model value
      to the k-th smallest observation; a failed
      re-fit leaves a mixed state (finding), and after a gamma fit a
      failed fallback re-fit leaves an object marked fitted whose
      [transform] raises [AttributeError] (finding); liveness: from every
      reachable state of an object with a known method, one [fit] on valid
      series makes every later [transform] return (the method invariant is
      proved by induction on the calls); the normal method is the
      identity on identical data and [nan] on constant data (finding);
      [run_correction]'s linear method removes the bias and its quantile
      method reproduces the observed percentiles.
    - Bayesian model averaging: the shifted log-sum-exp equals
      [ln (sum exp)] and the weights are Bayes' rule; they lie in [0,1] and
      sum to one; an exact model dominates; [predict]'s mean is a convex
      combination and its standard deviation the mixture's; [predict]
      raises [IndexError] on a model without weight placed before a
      weighted one (finding); [run_bma] on the spec's scenario reports
      [skill_improvement = nan] (finding).
    - Anomaly detection: no z-score of [n] values exceeds [sqrt (n - 1)], so
      the docstring's example flags nothing (finding), and every report
      counts each value once with an anomaly rate in [[0, 100]]; IQR
      bounds are ordered; the severity classes partition [|z| > 2] and
      threshold 3 flags the moderate and severe ones; error paths.
    - Kalman filter: covariances stay positive semi-definite, gains lie in
      [[0,1)] and uncertainties in [[0,R]]; each filtered value is the
      measurement minus [(1 - gain)] times the innovation; [forecast] is the
      linear extrapolation and restores the state; [run_filter]'s
      contract.
    - Trend analysis: a strictly increasing series is reported
      ["increasing"] exactly from five points on (finding: four points are
      accepted); Mann-Kendall is antisymmetric under negation; Sen's slope
      recovers a linear series.
    - Ensemble voting: [train] with the default models on a rectangular
      matrix always raises while unpacking [estimators_], after setting
      [is_trained], so [predict] on rows of the training width then
      succeeds (finding).
    - ARIMA: [run_forecast]'s [mape] divides [n] residuals by [n - 1]
      values, so it raises numpy's broadcasting [ValueError] whenever the
      values after the first are non-zero (finding); a successful run has a
      zero among them, [mape = None], the trend of the sign of
      [data[-1] - data[0]] and [0 <= mae <= rmse].
    - Random forest: on rows of the training width the uncertainty band
      contains the mean, which is the forest's prediction.
    - LSTM: without TensorFlow the prediction is the last value of each
      row (persistence); [main.py]'s [run_lstm] passes ["X_predict"] even
      when it is [None], so every request without prediction rows answers
      500 (finding).
    - Services: [create_sequences] round-trips (windows plus targets give
      back the series); [normalize_features] standardises.
    - Quantum: [VQE]'s contract (weights a distribution for at least four
      parameters, [IndexError] or [ValueError] below, finding); [QSVM]
      predicts class keys.
    - [main.py]: the names [health_check] and [list_algorithms] advertise
      and the keys of [get_algorithm_code] differ for five algorithms
      (finding); routing is deterministic (no two routes of a method share
      a path); the composed service answers 500 to an LSTM request without
      prediction rows, 404 for the five names, 405 and 307 on a wrong
      method or a trailing slash; the start-up reads back any [str(z)]
      from [PORT], with no range check (finding).
    - [PyInt.v]: [int] reads back what [str] prints (used by the
      start-up's port).
    - [Packages.v]: with fuel 5 or more, [import algorithms] succeeds and
      each subpackage binds exactly its [__all__], which is exactly the set
      of modules [get_algorithm_code] maps its category to; [main.py]'s
      imports bind every module that mapping names.

    ** Modelling choices
    - Floating-point rounding is not modelled: arithmetic is exact (rationals
      for quantile mapping, reals elsewhere).  What the floats make
      observable ([inf] and [nan] after a division by zero or the logarithm
      of zero, [np.mean] of an empty array) is modelled explicitly.  Float
      constants are exact ([1e-10] is [/ 10 ^ 10], [0.6745] is
      [6745 / 10000], [1.96] is [196 / 100]).
    - Loops over arrays are structural recursions over lists: no fuel is
      needed and every operation is total.  The one fuelled definition,
      the digit loop of [str] ([digits_of]), is given the fuel [n + 1],
      enough since [int] reads back [n] for every [n]
      ([PyInt.py_int_of_nat_string]).  The import recursion
      of [Packages.v] carries a fuel too: more fuel never changes a result
      that did not run out of it ([ImportFacts.import_module_fuel]), and 5
      is enough, the depth of [main] importing [algorithms.scientific],
      whose parent [algorithms] imports the subpackage, which imports its
      modules, each importing its parent first.  The code has no unbounded
      loop, no concurrency and no waiting; the liveness property stated is
      that of the quantile-mapping object's life cycle (a usable state is
      always one [fit] away).
    - Libraries (scipy, statsmodels, scikit-learn, xgboost, Keras, numpy's
      random generator) are interfaces with laws, never assumed code.
    - Not modelled: library behaviour of the HTTP stack beyond routing
      (JSON decoding, pydantic's per-field validation, the CORS headers,
      the OpenAPI and documentation routes, [uvicorn]'s serving),
      [inspect.getsource] itself (the text of a class, a parameter
      [getsource] of the modules' [get_source_code], [Packages.v]),
      the bodies of the algorithm modules as Python executes them on
      import (class and function definitions and third-party imports,
      assumed to succeed), and the constant description strings of the
      reports. *)

From Stdlib Require Import String Ascii List Bool Arith ZArith Lia Permutation.
Import ListNotations.

Declare Scope py_scope.
Delimit Scope py_scope with py.

(** ** Python exceptions raised by the modelled code *)

Inductive py_exn : Type :=
| ValueError (msg : string)
| IndexError
| ZeroDivisionError
| UnboundLocalError (var : string)
| AttributeError (attr : string)
| LinAlgError (msg : string)
| KeyError (key : string)
| TypeError (msg : string)
| ImportError (msg : string)
(** [ModuleNotFoundError] carries the module's dotted name, its [name]. *)
| ModuleNotFoundError (name : string)
| RecursionError.

(** ** A state and exception monad

    A method of a Python object runs on the object's attributes [S] and
    either returns a value or raises.  Mutations performed before the
    raise persist: a failed run still returns the state reached. *)

Definition PyM (S A : Type) : Type := S -> (py_exn + A) * S.

Definition py_ret {S A} (a : A) : PyM S A := fun s => (inr a, s).
Definition py_bind {S A B} (m : PyM S A) (k : A -> PyM S B) : PyM S B :=
  fun s => match m s with
           | (inl e, s') => (inl e, s')
           | (inr a, s') => k a s'
           end.
Definition py_raise {S A} (e : py_exn) : PyM S A := fun s => (inl e, s).
Definition py_get {S} : PyM S S := fun s => (inr s, s).
Definition py_put {S} (s : S) : PyM S unit := fun _ => (inr tt, s).
Definition py_modify {S} (f : S -> S) : PyM S unit := fun s => (inr tt, f s).

Notation "x <- m ;; k" := (py_bind m (fun x => k))
  (at level 61, m at next level, right associativity) : py_scope.
Notation "m ;; k" := (py_bind m (fun _ => k))
  (at level 61, right associativity) : py_scope.

(** Lift a computation that may raise but does not touch the state. *)
Definition py_lift {S A} (r : py_exn + A) : PyM S A := fun s => (r, s).

Lemma py_bind_ret {S A B} (a : A) (k : A -> PyM S B) s :
  py_bind (py_ret a) k s = k a s.
Proof. reflexivity. Qed.

Lemma py_bind_inr {S A B} (m : PyM S A) (k : A -> PyM S B) s a s' :
  m s = (inr a, s') -> py_bind m k s = k a s'.
Proof. unfold py_bind. intros ->. reflexivity. Qed.

Lemma py_bind_inl {S A B} (m : PyM S A) (k : A -> PyM S B) s e s' :
  m s = (inl e, s') -> py_bind m k s = (inl e, s').
Proof. unfold py_bind. intros ->. reflexivity. Qed.

(** ** Python dictionaries

    A [dict] with string keys keeps its insertion order, which the code
    iterates over; it is an association list whose keys are distinct when
    built by [dict_set]. *)

Definition dict (V : Type) := list (string * V).

Fixpoint dict_get {V} (d : dict V) (k : string) : option V :=
  match d with
  | [] => None
  | (k', v) :: d' => if String.eqb k k' then Some v else dict_get d' k
  end.

Definition dict_mem {V} (d : dict V) (k : string) : bool :=
  match dict_get d k with Some _ => true | None => false end.

(** [d[k] = v]: overwrite in place when [k] is present, append otherwise. *)
Fixpoint dict_set {V} (d : dict V) (k : string) (v : V) : dict V :=
  match d with
  | [] => [(k, v)]
  | (k', v') :: d' => if String.eqb k k' then (k', v) :: d' else (k', v') :: dict_set d' k v
  end.

(** [d.get(k, default)] *)
Definition dict_get_or {V} (d : dict V) (k : string) (default : V) : V :=
  match dict_get d k with Some v => v | None => default end.

Definition dict_keys {V} (d : dict V) : list string := map fst d.

Create HintDb pyfacts.

Lemma dict_get_set_eq {V} (d : dict V) k v : dict_get (dict_set d k v) k = Some v.
Proof.
  induction d as [|[k' v'] d IH]; simpl; [now rewrite String.eqb_refl|].
  destruct (String.eqb k k') eqn:E; simpl; rewrite ?E, ?String.eqb_refl; auto.
Qed.

Lemma dict_get_set_ne {V} (d : dict V) k k2 v :
  k2 <> k -> dict_get (dict_set d k v) k2 = dict_get d k2.
Proof.
  intros Hne. induction d as [|[k' v'] d IH]; simpl.
  - destruct (String.eqb k2 k) eqn:E; [apply String.eqb_eq in E; congruence | reflexivity].
  - destruct (String.eqb k k') eqn:E; simpl.
    + apply String.eqb_eq in E; subst.
      destruct (String.eqb k2 k') eqn:E2; [apply String.eqb_eq in E2; congruence | reflexivity].
    + destruct (String.eqb k2 k'); auto.
Qed.

Lemma dict_keys_set {V} (d : dict V) k v :
  dict_keys (dict_set d k v) = if dict_mem d k then dict_keys d else dict_keys d ++ [k].
Proof.
  unfold dict_mem. induction d as [|[k' v'] d IH]; simpl; [reflexivity|].
  destruct (String.eqb k k') eqn:E; simpl; [reflexivity|].
  rewrite IH. destruct (dict_get d k); reflexivity.
Qed.

Lemma dict_get_In {V} (d : dict V) k v : dict_get d k = Some v -> In (k, v) d.
Proof.
  induction d as [|[k' v'] d IH]; simpl; [discriminate|].
  destruct (String.eqb k k') eqn:E; [apply String.eqb_eq in E; subst; injection 1 as ->; now left|].
  intros H; right; auto.
Qed.

Lemma dict_get_Some_mem {V} (d : dict V) k v : dict_get d k = Some v -> dict_mem d k = true.
Proof. unfold dict_mem. now intros ->. Qed.

Lemma dict_mem_keys {V} (d : dict V) k : dict_mem d k = true <-> In k (dict_keys d).
Proof.
  unfold dict_mem. induction d as [|[k' v'] d IH]; simpl; [split; [discriminate|tauto]|].
  destruct (String.eqb k k') eqn:E.
  - apply String.eqb_eq in E; subst. tauto.
  - rewrite IH. apply String.eqb_neq in E. split; [tauto|intros [->|H]; [congruence|exact H]].
Qed.

#[export] Hint Resolve dict_get_set_eq dict_get_In dict_get_Some_mem : pyfacts.

(** ** Python's [str] of an integer and [str.join] *)

Fixpoint digits_of (fuel n : nat) (acc : string) : string :=
  match fuel with
  | O => acc
  | S f =>
      let acc' := String (ascii_of_nat (48 + n mod 10)) acc in
      if Nat.ltb n 10 then acc' else digits_of f (n / 10) acc'
  end.

(** [str(n)] for a natural number: its decimal digits. *)
Definition string_of_nat (n : nat) : string := digits_of (S n) n EmptyString.

(** [str(z)] for an integer. *)
Definition string_of_Z (z : Z) : string :=
  if Z.ltb z 0 then ("-" ++ string_of_nat (Z.to_nat (- z)))%string
  else string_of_nat (Z.to_nat z).

(** [sep.join(l)]. *)
Fixpoint py_join (sep : string) (l : list string) : string :=
  match l with
  | [] => EmptyString
  | [s] => s
  | s :: t => (s ++ sep ++ py_join sep t)%string
  end.

(** ** Python sequences: slices *)

(** A slice bound as Python normalises it: a negative bound counts from
    the end, and the result is clamped to [0, len]. *)
Definition slice_bound (n k : Z) : Z :=
  if Z.ltb k 0 then Z.max 0 (k + n) else Z.min k n.

(** [l[start:stop]]: never raises; empty when [stop <= start] after
    normalisation. *)
Definition py_slice {A} (l : list A) (start stop : Z) : list A :=
  let n := Z.of_nat (length l) in
  let a := slice_bound n start in
  let b := slice_bound n stop in
  firstn (Z.to_nat (b - a)) (skipn (Z.to_nat a) l).

(** ** Element-wise operations on equal-length arrays *)

Fixpoint zip_with {A B C} (f : A -> B -> C) (l1 : list A) (l2 : list B) : list C :=
  match l1, l2 with
  | a :: l1', b :: l2' => f a b :: zip_with f l1' l2'
  | _, _ => []
  end.

Lemma length_zip_with {A B C} (f : A -> B -> C) l1 l2 :
  length (zip_with f l1 l2) = Nat.min (length l1) (length l2).
Proof. revert l2; induction l1; destruct l2; simpl; auto. Qed.

Lemma nth_error_zip_with {A B C} (f : A -> B -> C) l1 l2 i a b :
  nth_error l1 i = Some a -> nth_error l2 i = Some b ->
  nth_error (zip_with f l1 l2) i = Some (f a b).
Proof.
  revert l2 i; induction l1 as [|x l1 IH]; intros [|y l2] [|i]; simpl; try discriminate.
  - congruence.
  - apply IH.
Qed.

(** ** Element-wise binary operations with numpy broadcasting

    Two one-dimensional arrays combine when their lengths agree or one of
    them has length one; otherwise numpy raises [ValueError]. *)
Definition np_broadcast {A} (f : A -> A -> A) (a b : list A) : py_exn + list A :=
  if Nat.eqb (length a) (length b) then inr (zip_with f a b)
  else match a, b with
       | [x], _ => inr (map (f x) b)
       | _, [y] => inr (map (fun x => f x y) a)
       | _, _ => inl (ValueError "operands could not be broadcast together"%string)
       end.

Lemma np_broadcast_same {A} (f : A -> A -> A) a b :
  length a = length b -> np_broadcast f a b = inr (zip_with f a b).
Proof. intros H. unfold np_broadcast. now rewrite (proj2 (Nat.eqb_eq _ _) H). Qed.

(** Tactic: case on the outcome of a monadic step and continue. *)
Ltac py_step H :=
  match goal with
  | |- context [py_bind ?m _ ?s] => destruct (m s) as [[?e|?a] ?s'] eqn:H
  end.

Lemma py_bind_inr_inv {S A B} (m : PyM S A) (k : A -> PyM S B) s b s' :
  py_bind m k s = (inr b, s') -> exists a s1, m s = (inr a, s1) /\ k a s1 = (inr b, s').
Proof.
  unfold py_bind. destruct (m s) as [[e|a] s1]; [discriminate|]. eauto.
Qed.

Lemma dict_set_Forall {V} (P : V -> Prop) (d : dict V) k v :
  Forall (fun kv => P (snd kv)) d -> P v -> Forall (fun kv => P (snd kv)) (dict_set d k v).
Proof.
  intros Hd Hv. induction Hd as [|[k' v'] d Hh Hd IH]; simpl; [now repeat constructor|].
  destruct (String.eqb k k'); constructor; auto.
Qed.

Lemma dict_keys_set_In {V} (d : dict V) k v k' :
  In k' (dict_keys (dict_set d k v)) -> In k' (dict_keys d) \/ k' = k.
Proof.
  rewrite dict_keys_set. destruct (dict_mem d k); [now left|].
  rewrite in_app_iff. intros [H|[H|[]]]; [now left|now right].
Qed.

Lemma dict_keys_set_same {V W} (d1 : dict V) (d2 : dict W) k a b :
  dict_keys d1 = dict_keys d2 -> dict_keys (dict_set d1 k a) = dict_keys (dict_set d2 k b).
Proof.
  intros H. rewrite !dict_keys_set, H.
  assert (Hm : dict_mem d1 k = dict_mem d2 k).
  { destruct (dict_mem d1 k) eqn:E1, (dict_mem d2 k) eqn:E2; auto;
      [apply dict_mem_keys in E1; rewrite H in E1; apply dict_mem_keys in E1; congruence|
       apply dict_mem_keys in E2; rewrite <- H in E2; apply dict_mem_keys in E2; congruence]. }
  now rewrite Hm.
Qed.

Lemma dict_set_Forall_kv {V} (P : string -> V -> Prop) (d : dict V) k v :
  Forall (fun kv => P (fst kv) (snd kv)) d -> P k v ->
  Forall (fun kv => P (fst kv) (snd kv)) (dict_set d k v).
Proof.
  intros Hd Hv. induction Hd as [|[k' v'] d Hh Hd IH]; simpl; [now repeat constructor|].
  destruct (String.eqb k k') eqn:E; constructor; auto.
  apply String.eqb_eq in E. subst. exact Hv.
Qed.

Lemma dict_keys_set_incl {V} (d : dict V) k v k' :
  In k' (dict_keys d) \/ k' = k -> In k' (dict_keys (dict_set d k v)).
Proof.
  rewrite dict_keys_set. destruct (dict_mem d k) eqn:E.
  - intros [H| ->]; [exact H|]. now apply dict_mem_keys.
  - rewrite in_app_iff. intros [H| ->]; [now left|right; now left].
Qed.

Lemma dict_get_or_const {V} (d : dict V) k c :
  Forall (fun kv => snd kv = c) d -> dict_get_or d k c = c.
Proof.
  intros H. unfold dict_get_or. destruct (dict_get d k) eqn:E; [|reflexivity].
  apply dict_get_In in E. rewrite Forall_forall in H. exact (H _ E).
Qed.

(** A comprehension [{k: f(k, v) for k, v in d.items()}]. *)
Lemma dict_get_map {V W} (g : string * V -> W) (d : dict V) k :
  dict_get (map (fun kv => (fst kv, g kv)) d) k = option_map (fun v => g (k, v)) (dict_get d k).
Proof.
  induction d as [|[k' v'] d IH]; simpl; [reflexivity|].
  destruct (String.eqb k k') eqn:E; [|exact IH]. apply String.eqb_eq in E. now subst.
Qed.

Lemma nth_zip_with {A B C} (f : A -> B -> C) l1 l2 j d1 d2 d :
  (j < length l1)%nat -> (j < length l2)%nat -> nth j (zip_with f l1 l2) d = f (nth j l1 d1) (nth j l2 d2).
Proof.
  revert l2 j; induction l1 as [|a l1 IH]; intros [|b l2] [|j] H1 H2; simpl in *; try lia; auto.
  apply IH; lia.
Qed.

Lemma nth_map_lt {A B} (f : A -> B) l j d d' :
  (j < length l)%nat -> nth j (map f l) d = f (nth j l d').
Proof. intros H. rewrite (nth_indep _ d (f d')) by (now rewrite length_map). apply map_nth. Qed.

Lemma zip_with_map {A B C D} (f : B -> C -> D) (g : A -> B) (h : A -> C) l :
  zip_with f (map g l) (map h l) = map (fun x => f (g x) (h x)) l.
Proof. induction l as [|x l IH]; simpl; [reflexivity|now rewrite IH]. Qed.

Lemma Forall2_nth_error_l {A B} (P : A -> B -> Prop) l1 l2 i a :
  Forall2 P l1 l2 -> nth_error l1 i = Some a -> exists b, nth_error l2 i = Some b /\ P a b.
Proof.
  intros H. revert i. induction H as [|x y l1 l2 Hxy _ IH]; intros [|i] Hi; try discriminate.
  - injection Hi as <-. exists y. split; [reflexivity|exact Hxy].
  - apply IH, Hi.
Qed.

Lemma Forall2_map_r {A B C} (P : A -> C -> Prop) (f : B -> C) l1 l2 :
  Forall2 (fun a b => P a (f b)) l1 l2 -> Forall2 P l1 (map f l2).
Proof. induction 1; constructor; assumption. Qed.

Lemma Forall2_In_r {A B} (P : A -> B -> Prop) l1 l2 b :
  Forall2 P l1 l2 -> In b l2 -> exists a, In a l1 /\ P a b.
Proof.
  induction 1 as [|x y l1 l2 Hxy _ IH]; [intros []|]. intros [<-|Hb].
  - exists x. split; [left; reflexivity|exact Hxy].
  - destruct (IH Hb) as [a [Ha Hp]]. exists a. split; [right; exact Ha|exact Hp].
Qed.

Lemma map_Forall_const {A B} (f : A -> B) (b : B) l :
  Forall (fun a => f a = b) l -> map f l = repeat b (length l).
Proof. induction 1 as [|a l Ha _ IH]; [reflexivity|]. simpl. rewrite Ha, IH. reflexivity. Qed.

Lemma Permutation_filter_l {A} (f : A -> bool) l l' :
  Permutation l l' -> Permutation (filter f l) (filter f l').
Proof.
  induction 1 as [|x l l' _ IH|x y l|l l' l'' _ IH1 _ IH2]; cbn [filter].
  - constructor.
  - destruct (f x); [constructor|]; exact IH.
  - destruct (f x), (f y); try constructor; reflexivity.
  - etransitivity; eassumption.
Qed.
