(* ===== verification/PyInt.v ===== *)
(** Python's [int] on a string and [str] on an integer, as the service
    uses them: [int(os.getenv("PORT", 8000))] at the start of [main.py],
    and the [str] of the integers printed by [WeatherARIMA.get_equation],
    [WeatherLSTM.get_architecture] and numpy's error messages
    ([Prelude.string_of_nat]).  The printer [digits_of] carries a fuel
    argument; this file shows that with the fuel [string_of_nat] gives it
    [int] reads back what [str] prints. *)

From Stdlib Require Import String Ascii List Bool Arith ZArith Lia.
From S2P Require Import Prelude.
Import ListNotations.

(** ** [int(s)] for a string [s], base 10

    CPython strips the whitespace around the literal ([str.isspace]: the
    ASCII codes 9 to 13 and 28 to 32), reads an optional sign and then
    decimal digits, where a single underscore may separate two digits.
    Anything else raises [ValueError]; the message quotes the argument
    (its [repr] for a string without quotes, backslashes or control
    characters). *)

Definition py_isspace (c : ascii) : bool :=
  let n := nat_of_ascii c in
  ((9 <=? n) && (n <=? 13)) || ((28 <=? n) && (n <=? 32)).

Definition digit_val (c : ascii) : option nat :=
  let n := nat_of_ascii c in
  if (48 <=? n) && (n <=? 57) then Some (n - 48) else None.

Fixpoint skip_space (l : list ascii) : list ascii :=
  match l with
  | c :: t => if py_isspace c then skip_space t else l
  | [] => []
  end.

(** The digits from [l] on, accumulated into [acc]; stops at the first
    character that is neither a digit nor an underscore followed by a
    digit, and returns the rest. *)
Fixpoint read_digits (l : list ascii) (acc : nat) : nat * list ascii :=
  match l with
  | c :: t =>
      match digit_val c with
      | Some d => read_digits t (acc * 10 + d)
      | None =>
          if Ascii.eqb c "_" then
            match t with
            | c' :: t' =>
                match digit_val c' with
                | Some d => read_digits t' (acc * 10 + d)
                | None => (acc, l)
                end
            | [] => (acc, l)
            end
          else (acc, l)
      end
  | [] => (acc, [])
  end.

Definition int_error (s : string) : py_exn :=
  ValueError ("invalid literal for int() with base 10: '" ++ s ++ "'")%string.

(** The sign: [(negative, rest)]. *)
Definition read_sign (l : list ascii) : bool * list ascii :=
  match l with
  | c :: t =>
      if Ascii.eqb c "-" then (true, t)
      else if Ascii.eqb c "+" then (false, t) else (false, l)
  | [] => (false, [])
  end.

Definition py_int_of_string (s : string) : py_exn + Z :=
  let '(neg, l1) := read_sign (skip_space (list_ascii_of_string s)) in
  match l1 with
  | c :: _ =>
      match digit_val c with
      | Some _ =>
          let '(v, rest) := read_digits l1 0 in
          if forallb py_isspace rest
          then inr (if neg then (- Z.of_nat v)%Z else Z.of_nat v)
          else inl (int_error s)
      | None => inl (int_error s)
      end
  | [] => inl (int_error s)
  end.

(** ** The printer [digits_of] and its fuel *)

Lemma digit_val_digit n : (n < 10)%nat -> digit_val (ascii_of_nat (48 + n)) = Some n.
Proof. intros Hn. do 10 (destruct n as [|n]; [reflexivity|]). lia. Qed.

Lemma digit_val_mod n : digit_val (ascii_of_nat (48 + n mod 10)) = Some (n mod 10).
Proof. apply digit_val_digit, Nat.mod_upper_bound. discriminate. Qed.

Lemma digit_not_space c d : digit_val c = Some d -> py_isspace c = false.
Proof.
  unfold digit_val, py_isspace. destruct (48 <=? nat_of_ascii c) eqn:E1; [|discriminate].
  destruct (nat_of_ascii c <=? 57) eqn:E2; [|discriminate]. intros _.
  apply Nat.leb_le in E1. apply Nat.leb_le in E2.
  repeat match goal with |- context [?a <=? ?b] => destruct (Nat.leb_spec a b) end;
    simpl; lia.
Qed.

Lemma digit_not_sign c d : digit_val c = Some d -> Ascii.eqb c "-" = false /\ Ascii.eqb c "+" = false.
Proof.
  intros Hd. split.
  - destruct (Ascii.eqb_spec c "-") as [->|]; [discriminate|reflexivity].
  - destruct (Ascii.eqb_spec c "+") as [->|]; [discriminate|reflexivity].
Qed.

Lemma pow10_succ k : (10 ^ S k = 10 * 10 ^ k)%nat.
Proof. reflexivity. Qed.

(** What the printer leaves in front of [s], read back by [read_digits]:
    some number [k] of digits whose value is [n]. *)
Lemma digits_of_read f n s :
  (0 < f)%nat -> (n < 10 ^ f)%nat ->
  exists k, forall a,
    read_digits (list_ascii_of_string (digits_of f n s)) a =
    read_digits (list_ascii_of_string s) (a * 10 ^ k + n).
Proof.
  revert n s. induction f as [|f IH]; intros n s Hf Hn; [lia|].
  cbn [digits_of]. destruct (Nat.ltb_spec n 10) as [Hlt|Hge].
  - exists 1%nat. intros a. cbn [list_ascii_of_string read_digits].
    rewrite digit_val_mod, Nat.mod_small by exact Hlt; f_equal; lia.
  - assert (Hq : (n / 10 < 10 ^ f)%nat).
    { apply Nat.Div0.div_lt_upper_bound. rewrite <- pow10_succ. exact Hn. }
    destruct f as [|f]; [cbn in Hn; lia|].
    destruct (IH (n / 10) (String (ascii_of_nat (48 + n mod 10)) s) ltac:(lia) Hq) as [k Hk].
    exists (S k). intros a. rewrite Hk. cbn [list_ascii_of_string read_digits].
    rewrite digit_val_mod; f_equal.
    pose proof (Nat.div_mod n 10 ltac:(discriminate)). rewrite pow10_succ. nia.
Qed.

(** The printer's output starts with a digit. *)
Lemma digits_of_head f n s :
  exists c r d, list_ascii_of_string (digits_of (S f) n s) = c :: r /\ digit_val c = Some d.
Proof.
  revert n s. induction f as [|f IH]; intros n s; cbn [digits_of].
  - destruct (n <? 10); do 3 eexists; split; [reflexivity|apply digit_val_mod|reflexivity|apply digit_val_mod].
  - destruct (n <? 10); [do 3 eexists; split; [reflexivity|apply digit_val_mod]|apply IH].
Qed.

Lemma lt_pow10 n : (n < 10 ^ S n)%nat.
Proof.
  pose proof (Nat.pow_gt_lin_r 10 n ltac:(lia)). rewrite pow10_succ. lia.
Qed.

Lemma read_digits_nil a : read_digits [] a = (a, []).
Proof. reflexivity. Qed.

(** [int(str(n))] on the digits alone. *)
Lemma read_string_of_nat n :
  exists c r d, list_ascii_of_string (string_of_nat n) = c :: r /\ digit_val c = Some d /\
    read_digits (c :: r) 0 = (n, []).
Proof.
  unfold string_of_nat. destruct (digits_of_head n n EmptyString) as (c & r & d & Hcr & Hd).
  exists c, r, d. split; [exact Hcr|]. split; [exact Hd|].
  destruct (digits_of_read (S n) n EmptyString ltac:(lia) (lt_pow10 n)) as [k Hk].
  rewrite <- Hcr, Hk. reflexivity.
Qed.

Lemma py_int_of_nat_string n :
  py_int_of_string (string_of_nat n) = inr (Z.of_nat n).
Proof.
  destruct (read_string_of_nat n) as (c & r & d & Hcr & Hd & Hr).
  unfold py_int_of_string. rewrite Hcr. cbn [skip_space]. rewrite (digit_not_space _ _ Hd).
  cbn [read_sign]. destruct (digit_not_sign _ _ Hd) as [-> ->]. rewrite Hd, Hr. reflexivity.
Qed.

Lemma list_ascii_app s1 s2 :
  list_ascii_of_string (s1 ++ s2) = list_ascii_of_string s1 ++ list_ascii_of_string s2.
Proof. induction s1; simpl; congruence. Qed.

(** [int(str(z))] gives back [z], for every integer. *)
Lemma py_int_of_Z_string z : py_int_of_string (string_of_Z z) = inr z.
Proof.
  unfold string_of_Z. destruct (Z.ltb_spec z 0) as [Hz|Hz].
  - destruct (read_string_of_nat (Z.to_nat (- z))) as (c & r & d & Hcr & Hd & Hr).
    unfold py_int_of_string. rewrite list_ascii_app, Hcr. cbn [skip_space read_sign app].
    replace (skip_space _) with ("-"%char :: c :: r) by reflexivity. cbn [read_sign].
    replace (Ascii.eqb "-" "-") with true by reflexivity. rewrite Hd, Hr. cbn. f_equal. lia.
  - pose proof (py_int_of_nat_string (Z.to_nat z)) as H. rewrite H. f_equal. lia.
Qed.

