(* ===== verification/QNum.v ===== *)
(** Numbers of the quantile-mapping component as exact rationals: numpy's
    [np.sort] (a merge sort on [Qle_bool]), [np.mean] and [np.var]
    (population variance, [ddof=0]), and the facts on sorted lists that the
    interpolation lemmas use: the head of a sorted list is its minimum and
    its last element its maximum. *)

From Stdlib Require Import String Arith ZArith QArith Qminmax Lqa List Sorted Permutation Mergesort Orders Lia.
From S2P Require Import Prelude.
Import ListNotations.
Open Scope Q_scope.

(** ** [np.sort] *)

Module QLe <: TotalLeBool.
Definition t := Q.
Definition leb := Qle_bool.
Theorem leb_total : forall a b, leb a b = true \/ leb b a = true.
Proof.
  intros a b. unfold leb. rewrite !Qle_bool_iff.
  destruct (Qlt_le_dec a b) as [H|H]; [left; apply Qlt_le_weak, H | right; exact H].
Qed.
End QLe.

Module QSort := Sort QLe.

(** [np.sort(a)]: the ascending rearrangement of [a]. *)
Definition np_sort (l : list Q) : list Q := QSort.sort l.

(** A list sorted for [<=] on [Q], in the form the lemmas use. *)
Definition qsorted (l : list Q) : Prop := Sorted Qle l.

Lemma np_sort_sorted l : qsorted (np_sort l).
Proof.
  unfold qsorted, np_sort.
  apply Sorted_LocallySorted_iff.
  generalize (QSort.LocallySorted_sort l).
  induction 1; constructor; auto. now apply Qle_bool_iff.
Qed.

Lemma np_sort_perm l : Permutation l (np_sort l).
Proof. apply QSort.Permuted_sort. Qed.

Lemma np_sort_length l : length (np_sort l) = length l.
Proof. symmetry. apply Permutation_length, np_sort_perm. Qed.

Lemma qsorted_strongly l : qsorted l -> StronglySorted Qle l.
Proof.
  intros H. apply Sorted_StronglySorted; [|exact H].
  intros x y z. apply Qle_trans.
Qed.

(** ** Sums, means and variances *)

Definition qsum (l : list Q) : Q := fold_right Qplus 0 l.

(** [np.mean(a)]; numpy returns [nan] on an empty array, which the callers
    never reach, and [Q] division by zero gives [0] there. *)
Definition np_mean (l : list Q) : Q := qsum l / inject_Z (Z.of_nat (length l)).

(** [np.var(a)], population variance ([ddof=0]). *)
Definition np_var (l : list Q) : Q :=
  let m := np_mean l in np_mean (map (fun x => (x - m) * (x - m)) l).

(** ** Minimum and maximum of a sorted list *)

Definition qhead (l : list Q) (d : Q) : Q := match l with [] => d | x :: _ => x end.
Definition qlast (l : list Q) (d : Q) : Q := last l d.

Lemma sorted_head_le l x : qsorted l -> In x l -> qhead l 0 <= x.
Proof.
  intros Hs Hin. apply qsorted_strongly in Hs.
  destruct l as [|a l]; [destruct Hin|]. simpl.
  destruct Hin as [->|Hin]; [apply Qle_refl|].
  inversion Hs; subst. rewrite Forall_forall in *. auto.
Qed.

Lemma last_In {A} (l : list A) d : l <> [] -> In (last l d) l.
Proof.
  induction l as [|a l IH]; [congruence|]. intros _.
  destruct l as [|b l]; [now left|]. right. apply IH. discriminate.
Qed.

Lemma sorted_le_last l x d : qsorted l -> In x l -> x <= qlast l d.
Proof.
  intros Hs. apply qsorted_strongly in Hs. unfold qlast.
  induction Hs as [|a l Hs IH Hall]; [intros []|].
  intros [->|Hin].
  - destruct l as [|b l]; [apply Qle_refl|].
    rewrite Forall_forall in Hall. apply Hall, (last_In (b :: l) d). discriminate.
  - destruct l as [|b l]; [destruct Hin|]. simpl in IH |- *. now apply IH.
Qed.

Lemma sorted_head_le_last l d : qsorted l -> l <> [] -> qhead l 0 <= qlast l d.
Proof.
  intros Hs Hne. destruct l as [|a l]; [congruence|].
  apply sorted_le_last; [exact Hs| now left].
Qed.

Lemma sorted_cons_inv a l : qsorted (a :: l) -> qsorted l.
Proof. unfold qsorted. intros H. now inversion H. Qed.

Lemma sorted_cons_head a b l : qsorted (a :: b :: l) -> a <= b.
Proof. unfold qsorted. intros H. inversion H as [|? ? _ Hh]; subst. now inversion Hh. Qed.

Lemma last_cons {A} (a b : A) l d : last (a :: b :: l) d = last (b :: l) d.
Proof. reflexivity. Qed.

Create HintDb qnum.
#[export] Hint Resolve np_sort_sorted sorted_cons_inv sorted_cons_head Qle_refl : qnum.

(** The two outcomes of the comparison the code makes. *)
Lemma Qle_bool_false_lt a b : Qle_bool a b = false -> b < a.
Proof.
  intros E. apply Qnot_le_lt. intros H. apply Qle_bool_iff in H. congruence.
Qed.

Lemma Qle_bool_true_le a b : Qle_bool a b = true -> a <= b.
Proof. apply Qle_bool_iff. Qed.

#[export] Hint Resolve Qle_bool_false_lt Qle_bool_true_le : qnum.

(** ** Floats that may be non-finite

    numpy divides by zero without raising: the result is [inf] or [nan],
    and any further [+], [-], [*] or [/] on it stays non-finite (the code
    never divides a finite value by an infinite one, the only case where
    a non-finite operand gives a finite result).  [fq] keeps the finite
    values exactly and collapses [inf] and [nan] into [NonFinite]. *)

Inductive fq : Type :=
| Fin (q : Q)
| NonFinite.

Definition fq_lift2 (f : Q -> Q -> Q) (a b : fq) : fq :=
  match a, b with Fin x, Fin y => Fin (f x y) | _, _ => NonFinite end.

Definition fq_add := fq_lift2 Qplus.
Definition fq_sub := fq_lift2 Qminus.
Definition fq_mul := fq_lift2 Qmult.

(** [a / b] on float64: non-finite when [b] is zero. *)
Definition fq_div (a b : fq) : fq :=
  match a, b with
  | Fin x, Fin y => if Qeq_bool y 0 then NonFinite else Fin (x / y)
  | _, _ => NonFinite
  end.

Definition fq_eq (a b : fq) : Prop :=
  match a, b with
  | Fin x, Fin y => x == y
  | NonFinite, NonFinite => True
  | _, _ => False
  end.

(** [np.mean] on a possibly empty array: [nan] when it is empty. *)
Definition np_mean_f (l : list Q) : fq :=
  match l with [] => NonFinite | _ => Fin (np_mean l) end.

(** [np.var] on a possibly empty array. *)
Definition np_var_f (l : list Q) : fq :=
  match l with [] => NonFinite | _ => Fin (np_var l) end.

Lemma qsum_nonneg l : Forall (fun x => 0 <= x) l -> 0 <= qsum l.
Proof. induction 1; simpl; [apply Qle_refl|]. unfold qsum in *. simpl. lra. Qed.

Lemma Qdiv_nonneg a b : 0 <= a -> 0 <= b -> 0 <= a / b.
Proof.
  intros Ha Hb. unfold Qdiv. apply Qmult_le_0_compat; [exact Ha|]. now apply Qinv_le_0_compat.
Qed.

Lemma np_mean_nonneg l : Forall (fun x => 0 <= x) l -> 0 <= np_mean l.
Proof.
  intros H. unfold np_mean. apply Qdiv_nonneg; [now apply qsum_nonneg|].
  change 0 with (inject_Z 0). rewrite <- Zle_Qle. apply Zle_0_nat.
Qed.

Lemma Qsquare_nonneg d : 0 <= d * d.
Proof.
  destruct (Qlt_le_dec d 0) as [H|H].
  - setoid_replace (d * d) with ((- d) * (- d)) by ring. apply Qmult_le_0_compat; lra.
  - now apply Qmult_le_0_compat.
Qed.

Lemma np_var_nonneg l : 0 <= np_var l.
Proof.
  unfold np_var. apply np_mean_nonneg. apply Forall_forall.
  intros y Hy. apply in_map_iff in Hy as [x [<- _]]. apply Qsquare_nonneg.
Qed.

(** ** Rearrangements

    Sums do not depend on the order of the terms, and two sorted
    rearrangements of one list agree element by element up to [Qeq] (the
    merge sort is stable, so elements that are [Qeq] but written
    differently may come out in another order). *)

Lemma qsum_perm l1 l2 : Permutation l1 l2 -> qsum l1 == qsum l2.
Proof. induction 1; unfold qsum in *; simpl; lra. Qed.

Lemma np_mean_perm l1 l2 : Permutation l1 l2 -> np_mean l1 == np_mean l2.
Proof.
  intros Hp. unfold np_mean. rewrite (qsum_perm _ _ Hp), (Permutation_length Hp). reflexivity.
Qed.

Lemma Forall2_In_l {A B} (R : A -> B -> Prop) l l' x :
  In x l -> Forall2 R l l' -> exists y, In y l' /\ R x y.
Proof.
  intros Hin H. induction H as [|a b l l' Hab H IH]; [destruct Hin|].
  destruct Hin as [->|Hin]; [exists b; split; [now left|exact Hab]|].
  destruct (IH Hin) as [y [Hy Hxy]]. exists y. split; [now right|exact Hxy].
Qed.

Lemma Forall2_Qeq_replace u a a' v t :
  a' == a -> Forall2 Qeq (u ++ a :: v) t -> Forall2 Qeq (u ++ a' :: v) t.
Proof.
  intros Ha. revert t; induction u as [|x u IH]; intros t H; simpl in *; inversion H; subst.
  - constructor; [now rewrite Ha|assumption].
  - constructor; [assumption|now apply IH].
Qed.

Lemma sorted_perm_eqv l1 : forall l l2,
  qsorted l1 -> qsorted l2 -> Permutation l1 l -> Forall2 Qeq l l2 -> Forall2 Qeq l1 l2.
Proof.
  induction l1 as [|a t1 IH]; intros l l2 H1 H2 Hp Hf.
  - apply Permutation_nil in Hp. subst. inversion Hf. constructor.
  - destruct l2 as [|b t2].
    { inversion Hf; subst. apply Permutation_sym, Permutation_nil in Hp. discriminate. }
    assert (Hal : In a l) by (apply (Permutation_in _ Hp); now left).
    destruct l as [|l0 lt]; [inversion Hf|]. inversion Hf as [|? ? ? ? Hl0 Hft]; subst.
    assert (Hba : b <= a).
    { destruct (Forall2_In_l _ _ _ _ Hal Hf) as [y [Hy Hay]].
      pose proof (sorted_head_le _ _ H2 Hy) as Hb. simpl in Hb. rewrite Hay. exact Hb. }
    assert (Hab : a <= b).
    { assert (Hl0in : In l0 (a :: t1)) by (apply (Permutation_in _ (Permutation_sym Hp)); now left).
      pose proof (sorted_head_le _ _ H1 Hl0in) as Ha. simpl in Ha. rewrite <- Hl0. exact Ha. }
    assert (Heq : a == b) by (apply Qle_antisym; assumption).
    constructor; [exact Heq|].
    apply in_split in Hal as [u [v Huv]]. rewrite Huv in Hp, Hf.
    apply Permutation_cons_app_inv in Hp.
    destruct u as [|u0 u'].
    + simpl in Hf. inversion Hf; subst.
      apply (IH v); [eapply sorted_cons_inv; eauto|eapply sorted_cons_inv; eauto|exact Hp|assumption].
    + simpl in Hf. inversion Hf as [|? ? ? ? Hu0 Hf']; subst.
      apply (IH (u' ++ u0 :: v)); [eapply sorted_cons_inv; eauto|eapply sorted_cons_inv; eauto| |].
      * rewrite Hp. simpl. apply Permutation_middle.
      * apply (Forall2_Qeq_replace u' a u0 v t2); [|exact Hf']. rewrite Hu0. symmetry. exact Heq.
Qed.

Lemma Forall2_Qeq_nth a b : Forall2 Qeq a b -> forall k, nth k a 0 == nth k b 0.
Proof. induction 1; intros [|k]; simpl; auto; reflexivity. Qed.
