(* ===== verification/Interp.v ===== *)
(** [scipy.interpolate.interp1d(x, y, kind='linear', bounds_error=False,
    fill_value=(below, above))], as [bias_correction.py] builds it.

    The constructor checks that [x] and [y] have the same length and that
    there is at least one point, then reorders the pairs by a stable
    argsort of [x] ([np.argsort(x, kind="mergesort")]).  A call on a value
    [v] returns [below] when [v < x[0]], [above] when [v > x[-1]], and
    otherwise [numpy.interp(v, x, y)]: the segment [j] with
    [x[j] <= v < x[j+1]] is found ([binary_search_with_guess]; the last
    such [j] when knots repeat), [y[j]] is returned when [v = x[j]] or [j]
    is the last index, and the point on the segment otherwise.  This is the
    path scipy takes for one-dimensional float64 data ([_call_linear_np]). *)

From Stdlib Require Import String Arith QArith Qminmax Lqa List Sorted Permutation Lia.
From S2P Require Import Prelude QNum.
Import ListNotations.
Open Scope Q_scope.

(** ** The segment formula of [numpy.interp] *)

(** [slope*(x_val - dx[j]) + dy[j]] with
    [slope = (dy[j+1] - dy[j]) / (dx[j+1] - dx[j])]. *)
Definition lerp (x0 y0 x1 y1 x : Q) : Q := (y1 - y0) / (x1 - x0) * (x - x0) + y0.

(** The search for the segment, walking the knots from [(x0, y0)] on; the
    caller guarantees [x0 <= x <= x[-1]]. *)
Fixpoint interp_from (x x0 y0 : Q) (xs ys : list Q) : Q :=
  match xs, ys with
  | x1 :: xs', y1 :: ys' =>
      if Qle_bool x1 x then interp_from x x1 y1 xs' ys'
      else if Qeq_bool x0 x then y0 else lerp x0 y0 x1 y1 x
  | _, _ => y0
  end.

(** ** The interpolator object *)

Record interp1d := {
  ip_x : list Q;
  ip_y : list Q;
  ip_below : Q;
  ip_above : Q
}.

(** The stable argsort of the constructor, on the pairs [(x_i, y_i)]. *)
Fixpoint insert_pair (p : Q * Q) (l : list (Q * Q)) : list (Q * Q) :=
  match l with
  | [] => [p]
  | q :: l' => if Qle_bool (fst p) (fst q) then p :: l else q :: insert_pair p l'
  end.

Definition argsort_pairs (l : list (Q * Q)) : list (Q * Q) := fold_right insert_pair [] l.

Definition interp1d_new (x y : list Q) (below above : Q) : py_exn + interp1d :=
  if negb (Nat.eqb (length x) (length y)) then
    inl (ValueError "x and y arrays must be equal in length along interpolation axis."%string)
  else
    match argsort_pairs (combine x y) with
    | [] => inl (ValueError "x and y arrays must have at least 1 entries"%string)
    | s => inr {| ip_x := map fst s; ip_y := map snd s; ip_below := below; ip_above := above |}
    end.

Definition interp1d_eval (f : interp1d) (v : Q) : Q :=
  match ip_x f, ip_y f with
  | x0 :: xs, y0 :: ys =>
      if Qle_bool x0 v then
        if Qle_bool v (last (x0 :: xs) x0) then interp_from v x0 y0 xs ys else ip_above f
      else ip_below f
  | _, _ => ip_below f
  end.

(** The constructor's postcondition, which every evaluation lemma assumes. *)
Definition interp_wf (f : interp1d) : Prop :=
  qsorted (ip_x f) /\ length (ip_x f) = length (ip_y f) /\ ip_x f <> [].

(** ** Arithmetic of one segment *)

Lemma lerp_param x0 y0 x1 y1 x :
  x0 < x1 -> lerp x0 y0 x1 y1 x == y0 + ((x - x0) / (x1 - x0)) * (y1 - y0).
Proof.
  intros H. unfold lerp. field. intros E. lra.
Qed.

Lemma seg_param_bounds x0 x1 x :
  x0 < x1 -> x0 <= x <= x1 -> 0 <= (x - x0) / (x1 - x0) <= 1.
Proof.
  intros H [H1 H2]. assert (Hp : 0 < x1 - x0) by lra. split.
  - apply Qle_shift_div_l; lra.
  - apply Qle_shift_div_r; lra.
Qed.

Lemma convex_between lo hi a b t :
  0 <= t <= 1 -> lo <= a <= hi -> lo <= b <= hi -> lo <= a + t * (b - a) <= hi.
Proof. intros. nra. Qed.

Lemma lerp_between lo hi x0 y0 x1 y1 x :
  x0 < x1 -> x0 <= x <= x1 -> lo <= y0 <= hi -> lo <= y1 <= hi ->
  lo <= lerp x0 y0 x1 y1 x <= hi.
Proof.
  intros Hx Hin Hy0 Hy1. rewrite lerp_param by exact Hx.
  apply convex_between; auto using seg_param_bounds.
Qed.

Lemma lerp_mono x0 y0 x1 y1 x x' :
  x0 < x1 -> y0 <= y1 -> x <= x' -> lerp x0 y0 x1 y1 x <= lerp x0 y0 x1 y1 x'.
Proof.
  intros Hx Hy Hle. rewrite !lerp_param by exact Hx.
  assert (Ht : (x - x0) / (x1 - x0) <= (x' - x0) / (x1 - x0)).
  { apply Qmult_le_compat_r; [lra|]. apply Qlt_le_weak, Qinv_lt_0_compat. lra. }
  nra.
Qed.

Lemma lerp_at_left x0 y0 x1 y1 x : x0 == x -> lerp x0 y0 x1 y1 x == y0.
Proof. intros H. unfold lerp. rewrite <- H. ring. Qed.

(** The value of one step of the search, as a point of the segment. *)
Lemma seg_value_lerp x0 y0 x1 y1 x :
  (if Qeq_bool x0 x then y0 else lerp x0 y0 x1 y1 x) == lerp x0 y0 x1 y1 x.
Proof.
  destruct (Qeq_bool x0 x) eqn:E; [|reflexivity].
  symmetry. apply lerp_at_left, Qeq_bool_iff, E.
Qed.

(** ** The segment search *)

Lemma interp_from_bounds lo hi x x0 y0 xs ys :
  qsorted (x0 :: xs) -> x0 <= x -> lo <= y0 <= hi -> Forall (fun y => lo <= y <= hi) ys ->
  lo <= interp_from x x0 y0 xs ys <= hi.
Proof.
  revert x0 y0 ys. induction xs as [|x1 xs IH]; intros x0 y0 ys Hs Hx Hy0 Hys;
    destruct ys as [|y1 ys]; simpl; auto.
  inversion Hys; subst.
  destruct (Qle_bool x1 x) eqn:E.
  - apply IH; eauto with qnum.
  - assert (Hlt : x < x1) by (now apply Qle_bool_false_lt).
    pose proof (sorted_cons_head _ _ _ Hs) as Hx01.
    rewrite seg_value_lerp. apply lerp_between; auto; lra.
Qed.

Lemma interp_from_ge_head x x0 y0 xs ys :
  qsorted (x0 :: xs) -> qsorted (y0 :: ys) -> x0 <= x -> y0 <= interp_from x x0 y0 xs ys.
Proof.
  revert x0 y0 ys. induction xs as [|x1 xs IH]; intros x0 y0 ys Hs Hys Hx;
    destruct ys as [|y1 ys]; simpl; try apply Qle_refl.
  pose proof (sorted_cons_head _ _ _ Hys) as Hy.
  destruct (Qle_bool x1 x) eqn:E.
  - apply Qle_trans with y1; auto.
    apply IH; eauto with qnum.
  - assert (Hlt : x < x1) by (now apply Qle_bool_false_lt).
    pose proof (sorted_cons_head _ _ _ Hs) as Hx01.
    rewrite seg_value_lerp. apply (lerp_between y0 y1); lra.
Qed.

Lemma interp_from_mono x x' x0 y0 xs ys :
  qsorted (x0 :: xs) -> qsorted (y0 :: ys) -> x0 <= x -> x <= x' ->
  interp_from x x0 y0 xs ys <= interp_from x' x0 y0 xs ys.
Proof.
  revert x0 y0 ys. induction xs as [|x1 xs IH]; intros x0 y0 ys Hs Hys Hx Hxx;
    destruct ys as [|y1 ys]; simpl; try apply Qle_refl.
  pose proof (sorted_cons_head _ _ _ Hys) as Hy.
  pose proof (sorted_cons_head _ _ _ Hs) as Hx01.
  destruct (Qle_bool x1 x) eqn:E; destruct (Qle_bool x1 x') eqn:E'.
  - apply IH; eauto with qnum.
  - apply Qle_bool_iff in E. apply Qle_bool_false_lt in E'. lra.
  - assert (Hlt : x < x1) by (now apply Qle_bool_false_lt).
    apply Qle_trans with y1.
    + rewrite seg_value_lerp. apply (lerp_between y0 y1); lra.
    + apply interp_from_ge_head; eauto with qnum.
  - assert (Hlt : x' < x1) by (now apply Qle_bool_false_lt).
    rewrite !seg_value_lerp. apply lerp_mono; lra.
Qed.

Lemma interp_from_knot i x0 y0 xs ys :
  StronglySorted Qlt (x0 :: xs) -> length xs = length ys -> (i <= length xs)%nat ->
  interp_from (nth i (x0 :: xs) 0) x0 y0 xs ys = nth i (y0 :: ys) 0.
Proof.
  revert i x0 y0 ys. induction xs as [|x1 xs IH]; intros i x0 y0 ys Hs Hl Hi;
    destruct ys as [|y1 ys]; simpl in Hl, Hi; try discriminate.
  - destruct i; [reflexivity|lia].
  - inversion Hs as [|? ? Hs' Hall]; subst. rewrite Forall_forall in Hall.
    destruct i as [|i].
    + assert (Hnle : Qle_bool x1 x0 = false).
      { apply Bool.not_true_iff_false. intros H. apply Qle_bool_iff in H.
        specialize (Hall x1 (or_introl eq_refl)). lra. }
      simpl. rewrite Hnle. now rewrite (proj2 (Qeq_bool_iff x0 x0) (Qeq_refl x0)).
    + change (interp_from (nth i (x1 :: xs) 0) x0 y0 (x1 :: xs) (y1 :: ys) = nth i (y1 :: ys) 0).
      assert (Hle : Qle_bool x1 (nth i (x1 :: xs) 0) = true).
      { apply Qle_bool_iff. destruct i as [|i]; [apply Qle_refl|].
        inversion Hs' as [|? ? _ Hall']; subst. rewrite Forall_forall in Hall'.
        simpl. apply Qlt_le_weak, Hall', nth_In. lia. }
      set (v := nth i (x1 :: xs) 0) in *. simpl. rewrite Hle.
      apply IH; [exact Hs'|congruence|lia].
Qed.

Lemma interp_from_in_range x x0 y0 xs ys :
  qsorted (x0 :: xs) -> qsorted (y0 :: ys) -> x0 <= x ->
  y0 <= interp_from x x0 y0 xs ys <= qlast (y0 :: ys) 0.
Proof.
  intros Hx Hy Hle. split; [now apply interp_from_ge_head|].
  apply (interp_from_bounds y0 (qlast (y0 :: ys) 0)); auto.
  - split; [apply Qle_refl|]. apply sorted_le_last; [exact Hy|now left].
  - apply Forall_forall. intros y Hin. split.
    + apply (sorted_head_le (y0 :: ys)); [exact Hy|now right].
    + apply sorted_le_last; [exact Hy|now right].
Qed.

Lemma strict_sorted_qsorted l : StronglySorted Qlt l -> qsorted l.
Proof.
  intros H. apply StronglySorted_Sorted in H. unfold qsorted.
  induction H as [|a l Hs IH Hh]; constructor; auto.
  destruct Hh; constructor. now apply Qlt_le_weak.
Qed.

(** ** Evaluation *)

Lemma interp1d_eval_bounds lo hi f v :
  interp_wf f -> lo <= ip_below f <= hi -> lo <= ip_above f <= hi ->
  Forall (fun y => lo <= y <= hi) (ip_y f) -> lo <= interp1d_eval f v <= hi.
Proof.
  destruct f as [[|x0 xs] [|y0 ys] b a]; intros [Hs [Hl Hne]] Hb Ha Hy;
    simpl in *; try congruence.
  inversion Hy; subst. unfold interp1d_eval; simpl.
  destruct (Qle_bool x0 v) eqn:E1; [|exact Hb].
  destruct (Qle_bool v _); [|exact Ha].
  apply interp_from_bounds; auto with qnum.
Qed.

Lemma interp1d_eval_mono f v v' :
  interp_wf f -> qsorted (ip_y f) ->
  ip_below f <= qhead (ip_y f) 0 -> qlast (ip_y f) 0 <= ip_above f ->
  v <= v' -> interp1d_eval f v <= interp1d_eval f v'.
Proof.
  destruct f as [[|x0 xs] [|y0 ys] b a]; intros [Hs [Hl Hne]] Hy Hb Ha Hv;
    cbn [ip_x ip_y ip_below ip_above qhead length] in *; try congruence.
  unfold interp1d_eval; cbn [ip_x ip_y ip_below ip_above].
  pose proof (sorted_head_le_last (x0 :: xs) x0 Hs ltac:(discriminate)) as Hxr.
  pose proof (sorted_head_le_last (y0 :: ys) 0 Hy ltac:(discriminate)) as Hyr.
  cbn [qhead] in Hxr, Hyr. unfold qlast in *.
  destruct (Qle_bool x0 v) eqn:E1; destruct (Qle_bool x0 v') eqn:E1';
    try apply Qle_bool_true_le in E1; try apply Qle_bool_true_le in E1';
    try apply Qle_bool_false_lt in E1; try apply Qle_bool_false_lt in E1'.
  - pose proof (interp_from_in_range v x0 y0 xs ys Hs Hy E1).
    pose proof (interp_from_in_range v' x0 y0 xs ys Hs Hy E1').
    destruct (Qle_bool v (last (x0 :: xs) x0)) eqn:E2;
      destruct (Qle_bool v' (last (x0 :: xs) x0)) eqn:E2';
      try apply Qle_bool_true_le in E2; try apply Qle_bool_true_le in E2';
      try apply Qle_bool_false_lt in E2; try apply Qle_bool_false_lt in E2';
      unfold qlast in *; try lra.
    now apply interp_from_mono.
  - lra.
  - destruct (Qle_bool v' _); [|lra].
    pose proof (interp_from_in_range v' x0 y0 xs ys Hs Hy E1'). lra.
  - apply Qle_refl.
Qed.

Lemma interp1d_eval_knot f i :
  StronglySorted Qlt (ip_x f) -> length (ip_x f) = length (ip_y f) ->
  (i < length (ip_x f))%nat ->
  interp1d_eval f (nth i (ip_x f) 0) = nth i (ip_y f) 0.
Proof.
  destruct f as [[|x0 xs] [|y0 ys] b a]; intros Hs Hl Hi;
    cbn [ip_x ip_y length] in *; try lia.
  pose proof (strict_sorted_qsorted _ Hs) as Hq.
  assert (Hin : In (nth i (x0 :: xs) 0) (x0 :: xs)) by (apply nth_In; simpl; lia).
  assert (H0 : x0 <= nth i (x0 :: xs) 0) by exact (sorted_head_le _ _ Hq Hin).
  assert (H1 : nth i (x0 :: xs) 0 <= last (x0 :: xs) x0) by exact (sorted_le_last _ _ x0 Hq Hin).
  rewrite <- (interp_from_knot i x0 y0 xs ys Hs ltac:(congruence) ltac:(lia)).
  set (v := nth i (x0 :: xs) 0) in *.
  unfold interp1d_eval. cbn [ip_x ip_y].
  rewrite (proj2 (Qle_bool_iff _ _) H0), (proj2 (Qle_bool_iff _ _) H1). reflexivity.
Qed.

(** ** The constructor *)

Definition fst_le (p q : Q * Q) : Prop := fst p <= fst q.

Lemma insert_pair_perm p l : Permutation (p :: l) (insert_pair p l).
Proof.
  induction l as [|q l IH]; simpl; [reflexivity|].
  destruct (Qle_bool (fst p) (fst q)); [reflexivity|].
  rewrite perm_swap. now constructor.
Qed.

Lemma argsort_pairs_perm l : Permutation l (argsort_pairs l).
Proof.
  induction l as [|p l IH]; simpl; [reflexivity|].
  rewrite <- insert_pair_perm. now constructor.
Qed.

Lemma insert_pair_hdrel a p l :
  HdRel fst_le a l -> fst_le a p -> HdRel fst_le a (insert_pair p l).
Proof.
  destruct l as [|q l]; simpl; intros Hh Hp; [now constructor|].
  destruct (Qle_bool (fst p) (fst q)); constructor; [exact Hp|now inversion Hh].
Qed.

Lemma insert_pair_sorted p l : Sorted fst_le l -> Sorted fst_le (insert_pair p l).
Proof.
  induction 1 as [|q l Hs IH Hh]; simpl; [now repeat constructor|].
  destruct (Qle_bool (fst p) (fst q)) eqn:E.
  - constructor; [now constructor|]. constructor. unfold fst_le. auto with qnum.
  - constructor; [exact IH|]. apply insert_pair_hdrel; [exact Hh|].
    unfold fst_le. apply Qlt_le_weak. auto with qnum.
Qed.

Lemma argsort_pairs_sorted l : Sorted fst_le (argsort_pairs l).
Proof. induction l; simpl; [constructor|now apply insert_pair_sorted]. Qed.

(** On data already sorted by [x], the stable argsort keeps the order. *)
Lemma argsort_pairs_id l : Sorted fst_le l -> argsort_pairs l = l.
Proof.
  induction 1 as [|p l Hs IH Hh]; simpl; [reflexivity|]. rewrite IH.
  destruct Hh as [|q l Hq]; simpl; [reflexivity|].
  now rewrite (proj2 (Qle_bool_iff _ _) Hq).
Qed.

Lemma sorted_fst_map l : Sorted fst_le l <-> qsorted (map fst l).
Proof.
  unfold qsorted. split.
  - induction 1 as [|p l Hs IH Hh]; simpl; constructor; [exact IH|].
    destruct Hh; simpl; now constructor.
  - induction l as [|p l IH]; simpl; intros H; constructor; inversion H; subst; auto.
    destruct l; simpl in *; constructor. now inversion H3.
Qed.

Lemma map_fst_combine {A B} (x : list A) (y : list B) :
  length x = length y -> map fst (combine x y) = x.
Proof. revert y; induction x; destruct y; simpl; intros; f_equal; auto; discriminate. Qed.

Lemma map_snd_combine {A B} (x : list A) (y : list B) :
  length x = length y -> map snd (combine x y) = y.
Proof. revert y; induction x; destruct y; simpl; intros; f_equal; auto; discriminate. Qed.

Lemma interp1d_new_ok x y b a f :
  interp1d_new x y b a = inr f ->
  interp_wf f /\ Permutation y (ip_y f) /\ ip_below f = b /\ ip_above f = a.
Proof.
  unfold interp1d_new. destruct (Nat.eqb (length x) (length y)) eqn:E; simpl; [|discriminate].
  apply Nat.eqb_eq in E. pose proof (argsort_pairs_sorted (combine x y)) as Hs.
  pose proof (argsort_pairs_perm (combine x y)) as Hp.
  destruct (argsort_pairs (combine x y)) as [|p s] eqn:Es; [discriminate|].
  injection 1 as <-. unfold interp_wf. cbn [ip_x ip_y ip_below ip_above].
  split; [split; [|split]|split; [|split; reflexivity]].
  - exact (proj1 (sorted_fst_map (p :: s)) Hs).
  - simpl. now rewrite !length_map.
  - discriminate.
  - rewrite <- (map_snd_combine x y E) at 1. exact (Permutation_map snd Hp).
Qed.

Lemma interp1d_new_sorted x y b a :
  qsorted x -> length x = length y -> x <> [] ->
  interp1d_new x y b a = inr {| ip_x := x; ip_y := y; ip_below := b; ip_above := a |}.
Proof.
  intros Hs Hl Hne. unfold interp1d_new. rewrite (proj2 (Nat.eqb_eq _ _) Hl). simpl.
  rewrite argsort_pairs_id by (apply sorted_fst_map; now rewrite map_fst_combine).
  destruct x as [|x0 x]; [congruence|]. destruct y as [|y0 y]; [discriminate|].
  simpl. f_equal. f_equal; [apply (map_fst_combine (x0 :: x) (y0 :: y))|
    apply (map_snd_combine (x0 :: x) (y0 :: y))]; exact Hl.
Qed.

Lemma interp1d_new_mismatch x y b a :
  length x <> length y ->
  interp1d_new x y b a =
    inl (ValueError "x and y arrays must be equal in length along interpolation axis."%string).
Proof.
  intros H. unfold interp1d_new. now rewrite (proj2 (Nat.eqb_neq _ _) H).
Qed.

Lemma interp1d_new_empty b a :
  interp1d_new [] [] b a = inl (ValueError "x and y arrays must have at least 1 entries"%string).
Proof. reflexivity. Qed.
