(* ===== verification/QuantileMapping.v ===== *)
(** The class [QuantileMappingCorrection] of
    [algorithms/scientific/bias_correction.py]: [__init__], [fit] and
    [transform] ([compute_statistics] and the entry point [run_correction]
    are in [CorrectionReport.v]).

    The object's attributes are the record [qm_state]; an attribute that
    the code has not assigned yet is [None] (reading it raises
    [AttributeError]).  [fit] and [transform] are operations of the state
    and exception monad [PyM] of the prelude, so that a [fit] that raises
    half-way leaves the attributes it already assigned, as Python does.
    The numerical routines of numpy and scipy that the parametric methods
    call and whose values are not rational ([np.std]'s square root and
    [stats.gamma]'s [fit], [cdf] and [ppf]) form the interface
    [SciPyStats]; the theorems assume only the laws of [SciPyStatsLaws].
    The last Section makes the object's life cycle a transition system
    (any sequence of [fit] and [transform] calls, raised ones included)
    and shows its method invariant and its liveness. *)

From Stdlib Require Import String Arith ZArith QArith Qminmax Qabs Lqa List Sorted Permutation Lia.
From S2P Require Import Prelude QNum Interp.
Import ListNotations.
Open Scope Q_scope.
Open Scope py_scope.

(** ** The library interface *)

(** Parameters [(shape, loc, scale)] returned by [stats.gamma.fit]. *)
Definition gamma_params := (Q * Q * Q)%type.

Class SciPyStats := {
  (** the square root taken by [np.std] *)
  np_sqrt : Q -> Q;
  (** [stats.gamma.fit(data, floc=0)] *)
  gamma_fit : list Q -> gamma_params;
  (** [stats.gamma.cdf(x, *params)] and [stats.gamma.ppf(q, *params)] *)
  gamma_cdf : gamma_params -> Q -> Q;
  gamma_ppf : gamma_params -> Q -> Q
}.

Class SciPyStatsLaws `{SciPyStats} := {
  np_sqrt_nonneg : forall v, 0 <= v -> 0 <= np_sqrt v;
  np_sqrt_zero : forall v, 0 <= v -> (np_sqrt v == 0 <-> v == 0);
  gamma_cdf_range : forall p x, 0 <= gamma_cdf p x <= 1;
  gamma_ppf_nonneg : forall p q, 0 <= q <= 1 -> 0 <= gamma_ppf p q
}.

Section QuantileMapping.
Context `{SciPyStats}.

(** [np.std(a)] *)
Definition np_std_f (l : list Q) : fq :=
  match np_var_f l with Fin v => Fin (np_sqrt v) | NonFinite => NonFinite end.

(** ** The object's attributes *)

Record qm_state := {
  qm_method : string;
  qm_fitted : bool;
  qm_model_data : option (list Q);
  qm_obs_data : option (list Q);
  qm_quantiles : option (list Q);
  qm_model_to_quantile : option interp1d;
  qm_quantile_to_obs : option interp1d;
  (** [model_mean], [model_std], [obs_mean], [obs_std] *)
  qm_normal : option (fq * fq * fq * fq);
  (** [model_gamma], [obs_gamma] *)
  qm_gamma : option (gamma_params * gamma_params)
}.

(** [__init__(method)]: [model_cdf] and [obs_cdf] are set to [None] and
    never read again, so they are not kept. *)
Definition qm_init (method : string) : qm_state :=
  {| qm_method := method; qm_fitted := false; qm_model_data := None; qm_obs_data := None;
     qm_quantiles := None; qm_model_to_quantile := None; qm_quantile_to_obs := None;
     qm_normal := None; qm_gamma := None |}.

(** Assignments to the attributes. *)
Definition set_data (md od : list Q) (s : qm_state) : qm_state :=
  {| qm_method := qm_method s; qm_fitted := qm_fitted s; qm_model_data := Some md;
     qm_obs_data := Some od; qm_quantiles := qm_quantiles s;
     qm_model_to_quantile := qm_model_to_quantile s; qm_quantile_to_obs := qm_quantile_to_obs s;
     qm_normal := qm_normal s; qm_gamma := qm_gamma s |}.

Definition set_quantiles (qs : list Q) (s : qm_state) : qm_state :=
  {| qm_method := qm_method s; qm_fitted := qm_fitted s; qm_model_data := qm_model_data s;
     qm_obs_data := qm_obs_data s; qm_quantiles := Some qs;
     qm_model_to_quantile := qm_model_to_quantile s; qm_quantile_to_obs := qm_quantile_to_obs s;
     qm_normal := qm_normal s; qm_gamma := qm_gamma s |}.

Definition set_model_to_quantile (f : interp1d) (s : qm_state) : qm_state :=
  {| qm_method := qm_method s; qm_fitted := qm_fitted s; qm_model_data := qm_model_data s;
     qm_obs_data := qm_obs_data s; qm_quantiles := qm_quantiles s;
     qm_model_to_quantile := Some f; qm_quantile_to_obs := qm_quantile_to_obs s;
     qm_normal := qm_normal s; qm_gamma := qm_gamma s |}.

Definition set_quantile_to_obs (f : interp1d) (s : qm_state) : qm_state :=
  {| qm_method := qm_method s; qm_fitted := qm_fitted s; qm_model_data := qm_model_data s;
     qm_obs_data := qm_obs_data s; qm_quantiles := qm_quantiles s;
     qm_model_to_quantile := qm_model_to_quantile s; qm_quantile_to_obs := Some f;
     qm_normal := qm_normal s; qm_gamma := qm_gamma s |}.

Definition set_normal (p : fq * fq * fq * fq) (s : qm_state) : qm_state :=
  {| qm_method := qm_method s; qm_fitted := qm_fitted s; qm_model_data := qm_model_data s;
     qm_obs_data := qm_obs_data s; qm_quantiles := qm_quantiles s;
     qm_model_to_quantile := qm_model_to_quantile s; qm_quantile_to_obs := qm_quantile_to_obs s;
     qm_normal := Some p; qm_gamma := qm_gamma s |}.

Definition set_gamma (p : gamma_params * gamma_params) (s : qm_state) : qm_state :=
  {| qm_method := qm_method s; qm_fitted := qm_fitted s; qm_model_data := qm_model_data s;
     qm_obs_data := qm_obs_data s; qm_quantiles := qm_quantiles s;
     qm_model_to_quantile := qm_model_to_quantile s; qm_quantile_to_obs := qm_quantile_to_obs s;
     qm_normal := qm_normal s; qm_gamma := Some p |}.

Definition set_method (m : string) (s : qm_state) : qm_state :=
  {| qm_method := m; qm_fitted := qm_fitted s; qm_model_data := qm_model_data s;
     qm_obs_data := qm_obs_data s; qm_quantiles := qm_quantiles s;
     qm_model_to_quantile := qm_model_to_quantile s; qm_quantile_to_obs := qm_quantile_to_obs s;
     qm_normal := qm_normal s; qm_gamma := qm_gamma s |}.

Definition set_fitted (s : qm_state) : qm_state :=
  {| qm_method := qm_method s; qm_fitted := true; qm_model_data := qm_model_data s;
     qm_obs_data := qm_obs_data s; qm_quantiles := qm_quantiles s;
     qm_model_to_quantile := qm_model_to_quantile s; qm_quantile_to_obs := qm_quantile_to_obs s;
     qm_normal := qm_normal s; qm_gamma := qm_gamma s |}.

(** ** [fit] *)

(** The rank quantile [(i - 0.5) / n] of rank [i] among [n] values. *)
Definition rank_quantile (n i : nat) : Q :=
  (inject_Z (Z.of_nat i) - (1 # 2)) / inject_Z (Z.of_nat n).

(** [(np.arange(1, n + 1) - 0.5) / n] *)
Definition empirical_quantiles (n : nat) : list Q := map (rank_quantile n) (seq 1 n).

(** The branch [self.method == "empirical"] of [fit], on the sorted data
    already stored in [self.model_data] and [self.obs_data]. *)
Definition fit_empirical (md od : list Q) : PyM qm_state unit :=
  let qs := empirical_quantiles (length md) in
  py_modify (set_quantiles qs) ;;
  m2q <- py_lift (interp1d_new md qs 0 1) ;;
  py_modify (set_model_to_quantile m2q) ;;
  match od with
  | [] => py_raise IndexError
  | o0 :: _ =>
      q2o <- py_lift (interp1d_new qs od o0 (last od o0)) ;;
      py_modify (set_quantile_to_obs q2o)
  end.

(** [model_data[model_data > 0]] *)
Definition positives (l : list Q) : list Q := filter (fun x => negb (Qle_bool x 0)) l.

(** [fit(model_data, obs_data)].  The gamma branch's fallback sets
    [self.method = "empirical"] and calls [fit] again; that call runs the
    sorting assignments, the empirical branch and [self.fitted = True],
    which is what the fallback below executes. *)
Definition qm_fit (model_data obs_data : list Q) : PyM qm_state unit :=
  let md := np_sort model_data in
  let od := np_sort obs_data in
  py_modify (set_data md od) ;;
  s <- py_get ;;
  if String.eqb (qm_method s) "empirical" then
    fit_empirical md od ;; py_modify set_fitted
  else if String.eqb (qm_method s) "parametric_normal" then
    py_modify (set_normal (np_mean_f model_data, np_std_f model_data,
                           np_mean_f obs_data, np_std_f obs_data)) ;;
    py_modify set_fitted
  else if String.eqb (qm_method s) "parametric_gamma" then
    let model_pos := positives model_data in
    let obs_pos := positives obs_data in
    if Nat.ltb 2 (length model_pos) && Nat.ltb 2 (length obs_pos) then
      py_modify (set_gamma (gamma_fit model_pos, gamma_fit obs_pos)) ;;
      py_modify set_fitted
    else
      py_modify (set_method "empirical") ;;
      py_modify (set_data md od) ;;
      fit_empirical md od ;;
      py_modify set_fitted
  else py_modify set_fitted.

(** ** [transform] *)

(** [(x - model_mean) / model_std * obs_std + obs_mean] *)
Definition normal_correct (p : fq * fq * fq * fq) (x : Q) : fq :=
  let '(mm, ms, om, os) := p in
  fq_add (fq_mul (fq_div (fq_sub (Fin x) mm) ms) os) om.

(** Non-positive values stay [0]; positive ones go through the model CDF
    and the observation quantile function. *)
Definition gamma_correct (p : gamma_params * gamma_params) (x : Q) : Q :=
  let '(mg, og) := p in
  if Qle_bool x 0 then 0 else gamma_ppf og (gamma_cdf mg x).

Definition empirical_correct (m2q q2o : interp1d) (x : Q) : Q :=
  interp1d_eval q2o (interp1d_eval m2q x).

Definition qm_transform (model_values : list Q) : PyM qm_state (list fq) :=
  s <- py_get ;;
  if negb (qm_fitted s) then py_raise (ValueError "Must call fit() first")
  else if String.eqb (qm_method s) "empirical" then
    match qm_model_to_quantile s, qm_quantile_to_obs s with
    | Some m2q, Some q2o => py_ret (map (fun x => Fin (empirical_correct m2q q2o x)) model_values)
    | None, _ => py_raise (AttributeError "model_to_quantile")
    | _, None => py_raise (AttributeError "quantile_to_obs")
    end
  else if String.eqb (qm_method s) "parametric_normal" then
    match qm_normal s with
    | Some p => py_ret (map (normal_correct p) model_values)
    | None => py_raise (AttributeError "model_mean")
    end
  else if String.eqb (qm_method s) "parametric_gamma" then
    match qm_gamma s with
    | Some p => py_ret (map (fun x => Fin (gamma_correct p x)) model_values)
    | None => py_raise (AttributeError "model_gamma")
    end
  else py_raise (UnboundLocalError "corrected").

End QuantileMapping.

(** ** The empirical quantiles *)

Lemma empirical_quantiles_length n : length (empirical_quantiles n) = n.
Proof. unfold empirical_quantiles. now rewrite length_map, length_seq. Qed.

Lemma nat_Q_lt i j : (i < j)%nat -> inject_Z (Z.of_nat i) < inject_Z (Z.of_nat j).
Proof. intros Hij. rewrite <- Zlt_Qlt. now apply Nat2Z.inj_lt. Qed.

Lemma nat_Q_le i j : (i <= j)%nat -> inject_Z (Z.of_nat i) <= inject_Z (Z.of_nat j).
Proof. intros Hij. rewrite <- Zle_Qle. now apply Nat2Z.inj_le. Qed.

Lemma rank_quantile_lt n i j : (0 < n)%nat -> (i < j)%nat -> rank_quantile n i < rank_quantile n j.
Proof.
  intros Hn Hij. unfold rank_quantile, Qdiv.
  pose proof (nat_Q_lt 0 n Hn) as Hn'. pose proof (nat_Q_lt i j Hij).
  apply Qmult_lt_r; [apply Qinv_lt_0_compat; exact Hn'|]. lra.
Qed.

Lemma rank_quantile_range n i : (1 <= i <= n)%nat -> 0 <= rank_quantile n i <= 1.
Proof.
  intros [H1 H2]. pose proof (nat_Q_le 1 i H1) as Hi. pose proof (nat_Q_le i n H2) as Hin.
  assert (Hn : 0 < inject_Z (Z.of_nat n)) by (apply (nat_Q_lt 0 n); lia).
  change (inject_Z (Z.of_nat 1)) with 1 in Hi. unfold rank_quantile. split.
  - apply Qle_shift_div_l; [exact Hn|]. lra.
  - apply Qle_shift_div_r; [exact Hn|]. lra.
Qed.

Lemma empirical_quantiles_strict n : StronglySorted Qlt (empirical_quantiles n).
Proof.
  unfold empirical_quantiles. apply Sorted_StronglySorted; [exact Qlt_trans|].
  destruct n as [|n]; [constructor|].
  generalize 1%nat. induction (S n) as [|k IH] at 2; intros a; simpl; constructor; [apply IH|].
  destruct k; simpl; constructor. apply rank_quantile_lt; lia.
Qed.

Lemma empirical_quantiles_range n : Forall (fun q => 0 <= q <= 1) (empirical_quantiles n).
Proof.
  apply Forall_forall. unfold empirical_quantiles. intros q Hq.
  apply in_map_iff in Hq as [i [<- Hi]]. apply in_seq in Hi.
  apply rank_quantile_range. lia.
Qed.

(** ** The interpolators a successful empirical [fit] builds *)

Definition m2q_of (md : list Q) : interp1d :=
  {| ip_x := md; ip_y := empirical_quantiles (length md); ip_below := 0; ip_above := 1 |}.

Definition q2o_of (n : nat) (od : list Q) : interp1d :=
  {| ip_x := empirical_quantiles n; ip_y := od; ip_below := hd 0 od; ip_above := last od 0 |}.

(** The attributes after a successful empirical fit on the sorted series
    [mds] and [ods]. *)
Definition emp_fitted (s : qm_state) (mds ods : list Q) : Prop :=
  qm_method s = "empirical"%string /\ qm_fitted s = true /\
  qsorted mds /\ qsorted ods /\ length mds = length ods /\ mds <> [] /\
  qm_model_to_quantile s = Some (m2q_of mds) /\
  qm_quantile_to_obs s = Some (q2o_of (length mds) ods).

Lemma last_default_irrel {A} (l : list A) d d' : l <> [] -> last l d = last l d'.
Proof.
  induction l as [|a l IH]; [congruence|]. intros _.
  destruct l; [reflexivity|]. simpl. apply IH. discriminate.
Qed.

Lemma fit_empirical_ok md od s :
  qsorted md -> length md = length od -> md <> [] ->
  exists s', fit_empirical md od s = (inr tt, s') /\
    qm_model_to_quantile s' = Some (m2q_of md) /\
    qm_quantile_to_obs s' = Some (q2o_of (length md) od) /\
    qm_method s' = qm_method s /\ qm_fitted s' = qm_fitted s.
Proof.
  intros Hs Hl Hne. destruct od as [|o0 od']; [destruct md; simpl in Hl; congruence|].
  pose proof (empirical_quantiles_strict (length md)) as Hq.
  unfold fit_empirical, py_bind, py_modify, py_lift.
  rewrite interp1d_new_sorted; [|exact Hs|now rewrite empirical_quantiles_length|exact Hne].
  rewrite interp1d_new_sorted;
    [|exact (strict_sorted_qsorted _ Hq)|now rewrite empirical_quantiles_length|].
  - eexists. split; [reflexivity|]. cbn. split; [reflexivity|]. split; [|tauto].
    unfold q2o_of. simpl. destruct od' as [|o1 od'']; [reflexivity|].
    now rewrite (last_default_irrel (o1 :: od'') o0 0) by discriminate.
  - rewrite <- length_zero_iff_nil, empirical_quantiles_length, Hl. discriminate.
Qed.

Lemma fit_empirical_mismatch md od s :
  length md <> length od ->
  exists e s', fit_empirical md od s = (inl e, s').
Proof.
  intros Hl. unfold fit_empirical, py_bind, py_modify, py_lift. cbv beta zeta.
  destruct (interp1d_new md (empirical_quantiles (length md)) 0 1) as [e|f]; [eauto|].
  destruct od as [|o0 od']; [do 2 eexists; reflexivity|]. cbv beta iota.
  rewrite interp1d_new_mismatch by (now rewrite empirical_quantiles_length). eauto.
Qed.

Lemma fit_empirical_empty od s : exists e s', fit_empirical [] od s = (inl e, s').
Proof. unfold fit_empirical, py_bind, py_modify, py_lift. simpl. eauto. Qed.

Lemma Forall_perm {A} (P : A -> Prop) l l' : Permutation l l' -> Forall P l -> Forall P l'.
Proof.
  intros Hp Hf. rewrite Forall_forall in *. intros x Hx.
  apply Hf. eapply Permutation_in; [symmetry; exact Hp|exact Hx].
Qed.

Lemma hd_In {A} (l : list A) d : l <> [] -> In (hd d l) l.
Proof. destruct l; [congruence|now left]. Qed.

(** ** Empirical correction *)

Lemma same_length_ne {A B} (l : list A) (l' : list B) : length l = length l' -> l <> [] -> l' <> [].
Proof. destruct l, l'; simpl; congruence. Qed.

Lemma empirical_quantiles_ne (l : list Q) : l <> [] -> empirical_quantiles (length l) <> [].
Proof. destruct l; [congruence|]. intros _. discriminate. Qed.

Lemma q2o_of_wf (mds ods : list Q) :
  length mds = length ods -> mds <> [] -> interp_wf (q2o_of (length mds) ods).
Proof.
  intros Hl Hne. unfold interp_wf, q2o_of; cbn [ip_x ip_y].
  split; [exact (strict_sorted_qsorted _ (empirical_quantiles_strict _))|].
  rewrite empirical_quantiles_length. split; [exact Hl|now apply empirical_quantiles_ne].
Qed.

Lemma m2q_of_wf mds : qsorted mds -> mds <> [] -> interp_wf (m2q_of mds).
Proof.
  intros Hs Hne. unfold interp_wf, m2q_of; cbn [ip_x ip_y].
  split; [exact Hs|]. now rewrite empirical_quantiles_length.
Qed.

Lemma empirical_correct_range (mds ods : list Q) x lo hi :
  length mds = length ods -> mds <> [] -> Forall (fun o => lo <= o <= hi) ods ->
  lo <= empirical_correct (m2q_of mds) (q2o_of (length mds) ods) x <= hi.
Proof.
  intros Hl Hne Hf. pose proof (same_length_ne _ _ Hl Hne) as Hne'.
  rewrite Forall_forall in Hf.
  apply interp1d_eval_bounds; cbn [q2o_of ip_below ip_above ip_y].
  - now apply q2o_of_wf.
  - apply Hf, hd_In, Hne'.
  - apply Hf, last_In, Hne'.
  - now apply Forall_forall.
Qed.

Lemma empirical_correct_mono (mds ods : list Q) x y :
  qsorted mds -> qsorted ods -> length mds = length ods -> mds <> [] -> x <= y ->
  empirical_correct (m2q_of mds) (q2o_of (length mds) ods) x <=
  empirical_correct (m2q_of mds) (q2o_of (length mds) ods) y.
Proof.
  intros Hs Ho Hl Hne Hxy. unfold empirical_correct.
  pose proof (same_length_ne _ _ Hl Hne) as Hne'.
  pose proof (empirical_quantiles_range (length mds)) as Hr.
  pose proof (strict_sorted_qsorted _ (empirical_quantiles_strict (length mds))) as Hqs.
  pose proof (empirical_quantiles_ne _ Hne) as Hqne.
  rewrite Forall_forall in Hr.
  apply interp1d_eval_mono; cbn [q2o_of ip_below ip_above ip_y]; [now apply q2o_of_wf|exact Ho| | |].
  - destruct ods; [congruence|apply Qle_refl].
  - apply Qle_refl.
  - apply interp1d_eval_mono; cbn [m2q_of ip_below ip_above ip_y];
      [now apply m2q_of_wf|exact Hqs| | |exact Hxy].
    + destruct (empirical_quantiles (length mds)) eqn:E; [congruence|].
      apply Hr. now left.
    + apply Hr, last_In, Hqne.
Qed.

Lemma empirical_correct_knot (mds ods : list Q) i :
  StronglySorted Qlt mds -> length mds = length ods -> (i < length mds)%nat ->
  empirical_correct (m2q_of mds) (q2o_of (length mds) ods) (nth i mds 0) = nth i ods 0.
Proof.
  intros Hs Hl Hi. unfold empirical_correct.
  change mds with (ip_x (m2q_of mds)) at 3.
  rewrite interp1d_eval_knot; cbn [m2q_of ip_x ip_y];
    [|exact Hs|now rewrite empirical_quantiles_length|exact Hi].
  change (empirical_quantiles (length mds)) with (ip_x (q2o_of (length mds) ods)).
  rewrite interp1d_eval_knot; cbn [q2o_of ip_x ip_y]; [reflexivity| |
    now rewrite empirical_quantiles_length|now rewrite empirical_quantiles_length].
  apply empirical_quantiles_strict.
Qed.

(** On distinct sorted model values the correction sends the model values,
    in order, exactly to the sorted observations. *)
Lemma empirical_correct_sorted (mds ods : list Q) :
  StronglySorted Qlt mds -> length mds = length ods ->
  map (empirical_correct (m2q_of mds) (q2o_of (length mds) ods)) mds = ods.
Proof.
  intros Hs Hl. set (T := empirical_correct (m2q_of mds) (q2o_of (length mds) ods)).
  apply (nth_ext _ _ 0 0); [now rewrite length_map|]. intros i Hi. rewrite length_map in Hi.
  rewrite (nth_indep _ 0 (T 0)) by (now rewrite length_map). rewrite map_nth.
  now apply empirical_correct_knot.
Qed.

(** ** [fit] and [transform] on the empirical method *)

Section QMTheory.
Context {St : SciPyStats}.

Lemma qm_fit_empirical_inv md od s s' :
  qm_method s = "empirical"%string -> qm_fit md od s = (inr tt, s') ->
  emp_fitted s' (np_sort md) (np_sort od).
Proof.
  intros Hm Hfit. unfold qm_fit, py_bind at 1 2, py_modify at 1, py_get in Hfit.
  cbn [qm_method set_data] in Hfit. rewrite Hm, String.eqb_refl in Hfit. cbv iota in Hfit.
  set (s1 := set_data (np_sort md) (np_sort od) s) in Hfit.
  assert (Hl : length (np_sort md) = length (np_sort od)).
  { destruct (Nat.eq_dec (length (np_sort md)) (length (np_sort od))) as [E|E]; [exact E|].
    destruct (fit_empirical_mismatch _ _ s1 E) as [e [s2 Hf]].
    rewrite (py_bind_inl _ _ _ _ _ Hf) in Hfit. discriminate. }
  assert (Hne : np_sort md <> []).
  { intros E. rewrite E in Hfit. destruct (fit_empirical_empty (np_sort od) s1) as [e [s2 Hf]].
    rewrite (py_bind_inl _ _ _ _ _ Hf) in Hfit. discriminate. }
  destruct (fit_empirical_ok _ _ s1 (np_sort_sorted md) Hl Hne)
    as [s2 [Hf [Hm2q [Hq2o [Hmeth Hfd]]]]].
  rewrite (py_bind_inr _ _ _ _ _ Hf) in Hfit. unfold py_modify in Hfit. injection Hfit as <-.
  unfold emp_fitted, set_fitted; cbn [qm_method qm_fitted qm_model_to_quantile qm_quantile_to_obs].
  rewrite Hmeth. repeat split; auto using np_sort_sorted.
Qed.

(** An empirical [fit] on non-empty series of one length succeeds. *)
Lemma qm_fit_empirical_ok md od s :
  qm_method s = "empirical"%string -> length md = length od -> md <> [] ->
  exists s', qm_fit md od s = (inr tt, s').
Proof.
  intros Hm Hl Hne. unfold qm_fit, py_bind at 1 2, py_modify at 1, py_get.
  cbn [qm_method set_data]. rewrite Hm, String.eqb_refl. cbv iota.
  destruct (fit_empirical_ok (np_sort md) (np_sort od) (set_data (np_sort md) (np_sort od) s)
              (np_sort_sorted md)) as [s2 [Hf _]].
  - now rewrite !np_sort_length.
  - intros E. apply Hne. apply length_zero_iff_nil. rewrite <- np_sort_length, E. reflexivity.
  - rewrite (py_bind_inr _ _ _ _ _ Hf). eexists. reflexivity.
Qed.

Lemma qm_transform_emp s mds ods vs :
  emp_fitted s mds ods ->
  qm_transform vs s =
    (inr (map (fun x => Fin (empirical_correct (m2q_of mds) (q2o_of (length mds) ods) x)) vs), s).
Proof.
  intros (Hm & Hf & _ & _ & _ & _ & Hm2q & Hq2o).
  unfold qm_transform, py_bind, py_get. rewrite Hf, Hm, Hm2q, Hq2o. reflexivity.
Qed.

(** What every empirical fit guarantees of [transform]. *)
Lemma emp_fitted_transform_range s' md od vs :
  emp_fitted s' (np_sort md) (np_sort od) ->
  exists out, qm_transform vs s' = (inr out, s') /\
    Forall (fun y => exists q, y = Fin q /\
              forall lo hi, Forall (fun o => lo <= o <= hi) od -> lo <= q <= hi) out.
Proof.
  intros He. eexists. split; [exact (qm_transform_emp _ _ _ vs He)|].
  destruct He as (_ & _ & _ & _ & Hl & Hne & _).
  apply Forall_forall. intros y Hy. apply in_map_iff in Hy as [x [<- _]].
  eexists. split; [reflexivity|]. intros lo hi Hlh.
  apply empirical_correct_range; [exact Hl|exact Hne|].
  exact (Forall_perm _ _ _ (np_sort_perm od) Hlh).
Qed.

(** C1: After a successful empirical [fit], [transform] succeeds on any input
    and every corrected value lies within every interval that contains all
    the observations, that is between their minimum and their maximum
    (the clamping invariant of the spec). *)
Theorem qm_transform_in_obs_range md od vs s s' :
  qm_method s = "empirical"%string -> qm_fit md od s = (inr tt, s') ->
  exists out, qm_transform vs s' = (inr out, s') /\
    Forall (fun y => exists q, y = Fin q /\
              forall lo hi, Forall (fun o => lo <= o <= hi) od -> lo <= q <= hi) out.
Proof.
  intros Hm Hfit. apply (emp_fitted_transform_range s' md od vs).
  exact (qm_fit_empirical_inv _ _ _ _ Hm Hfit).
Qed.

(** Quantile mapping proper: when the model values are pairwise distinct,
    the fitted correction maps the k-th smallest model value to the k-th
    smallest observation, for every k. *)
Theorem qm_transform_sorted_model md od s s' :
  qm_method s = "empirical"%string -> StronglySorted Qlt (np_sort md) ->
  qm_fit md od s = (inr tt, s') ->
  qm_transform (np_sort md) s' = (inr (map Fin (np_sort od)), s').
Proof.
  intros Hm Hs Hfit. pose proof (qm_fit_empirical_inv _ _ _ _ Hm Hfit) as He.
  rewrite (qm_transform_emp _ _ _ _ He). destruct He as (_ & _ & _ & _ & Hl & _).
  do 2 f_equal. rewrite <- (map_map _ Fin). f_equal. exact (empirical_correct_sorted _ _ Hs Hl).
Qed.

(** The empirical correction preserves order (it is rank preserving): for
    [x <= y] the corrected values satisfy [T x <= T y]. *)
Theorem qm_transform_monotone md od s s' x y :
  qm_method s = "empirical"%string -> qm_fit md od s = (inr tt, s') -> x <= y ->
  exists qx qy, qm_transform [x; y] s' = (inr [Fin qx; Fin qy], s') /\ qx <= qy.
Proof.
  intros Hm Hfit Hxy. pose proof (qm_fit_empirical_inv _ _ _ _ Hm Hfit) as He.
  do 2 eexists. split; [exact (qm_transform_emp _ _ _ [x; y] He)|].
  destruct He as (_ & _ & Hs & Ho & Hl & Hne & _).
  now apply empirical_correct_mono.
Qed.

(** C2: The empirical correction is rank preserving: after a successful
    empirical [fit], when the model values are pairwise distinct the k-th
    smallest model value is mapped to the k-th smallest observation, and
    for any [x <= y] the corrected values satisfy [T x <= T y]. *)
Theorem qm_transform_rank_preserving md od s s' :
  qm_method s = "empirical"%string -> qm_fit md od s = (inr tt, s') ->
  (StronglySorted Qlt (np_sort md) ->
     qm_transform (np_sort md) s' = (inr (map Fin (np_sort od)), s')) /\
  (forall x y, x <= y ->
     exists qx qy, qm_transform [x; y] s' = (inr [Fin qx; Fin qy], s') /\ qx <= qy).
Proof.
  intros Hm Hfit. split; [intros Hs|intros x y Hxy].
  - exact (qm_transform_sorted_model md od s s' Hm Hs Hfit).
  - exact (qm_transform_monotone md od s s' x y Hm Hfit Hxy).
Qed.

End QMTheory.

(** ** Errors, the gamma fallback and the normal method *)

Lemma np_sort_ne l : l <> [] -> np_sort l <> [].
Proof. intros H. apply (same_length_ne l); [symmetry; apply np_sort_length|exact H]. Qed.

Lemma fit_empirical_mismatch_state md od s :
  qsorted md -> md <> [] -> od <> [] -> length md <> length od ->
  fit_empirical md od s =
    (inl (ValueError "x and y arrays must be equal in length along interpolation axis."%string),
     set_model_to_quantile (m2q_of md) (set_quantiles (empirical_quantiles (length md)) s)).
Proof.
  intros Hs Hne Hne' Hl. destruct od as [|o0 od']; [congruence|].
  unfold fit_empirical, py_bind, py_modify, py_lift.
  rewrite interp1d_new_sorted; [|exact Hs|now rewrite empirical_quantiles_length|exact Hne].
  cbv beta iota.
  rewrite interp1d_new_mismatch by (now rewrite empirical_quantiles_length). reflexivity.
Qed.

(** The gamma branch's test [len(model_pos) > 2 and len(obs_pos) > 2]
    fails when one series has at most two positive values. *)
Lemma few_positives_fallback md od :
  (length (positives md) <= 2 \/ length (positives od) <= 2)%nat ->
  (Nat.ltb 2 (length (positives md)) && Nat.ltb 2 (length (positives od)))%bool = false.
Proof.
  intros Hpos. apply Bool.andb_false_iff.
  destruct Hpos as [H|H]; [left|right]; apply Nat.ltb_ge; exact H.
Qed.

Section QMFallback.
Context {St : SciPyStats}.

Lemma qm_fit_gamma_fallback_eq md od s :
  qm_method s = "parametric_gamma"%string ->
  (Nat.ltb 2 (length (positives md)) && Nat.ltb 2 (length (positives od)))%bool = false ->
  qm_fit md od s = qm_fit md od (set_method "empirical" (set_data (np_sort md) (np_sort od) s)).
Proof.
  intros Hm Hp. unfold qm_fit, py_bind, py_modify, py_get. cbv beta zeta.
  cbn [qm_method set_data set_method]. rewrite Hm, Hp. reflexivity.
Qed.

Lemma qm_fit_normal md od s :
  qm_method s = "parametric_normal"%string ->
  qm_fit md od s =
    (inr tt, set_fitted (set_normal (np_mean_f md, np_std_f md, np_mean_f od, np_std_f od)
                                    (set_data (np_sort md) (np_sort od) s))).
Proof.
  intros Hm. unfold qm_fit, py_bind, py_modify, py_get. cbv beta zeta.
  cbn [qm_method set_data]. rewrite Hm. reflexivity.
Qed.

Lemma qm_transform_normal s p vs :
  qm_fitted s = true -> qm_method s = "parametric_normal"%string -> qm_normal s = Some p ->
  qm_transform vs s = (inr (map (normal_correct p) vs), s).
Proof. intros Hf Hm Hp. unfold qm_transform, py_bind, py_get. rewrite Hf, Hm, Hp. reflexivity. Qed.

(** [transform] on an object that has not been fitted raises
    [ValueError("Must call fit() first")] and changes nothing. *)
Theorem qm_transform_unfitted vs s :
  qm_fitted s = false ->
  qm_transform vs s = (inl (ValueError "Must call fit() first"%string), s).
Proof. intros Hf. unfold qm_transform, py_bind, py_get. now rewrite Hf. Qed.

(** An empirical [fit] on non-empty series of different lengths raises
    after assigning [model_to_quantile], and before [quantile_to_obs]
    and [fitted]. *)
Lemma qm_fit_empirical_mismatch md od s :
  qm_method s = "empirical"%string -> md <> [] -> od <> [] -> length md <> length od ->
  exists e s', qm_fit md od s = (inl e, s') /\ qm_fitted s' = qm_fitted s /\
    qm_method s' = "empirical"%string /\
    qm_model_to_quantile s' = Some (m2q_of (np_sort md)) /\
    qm_quantile_to_obs s' = qm_quantile_to_obs s.
Proof.
  intros Hm Hne Hne' Hl. unfold qm_fit at 1, py_bind at 1 2, py_modify at 1, py_get.
  cbn [qm_method set_data]. rewrite Hm, String.eqb_refl. cbv iota.
  rewrite (py_bind_inl _ _ _ _ _ (fit_empirical_mismatch_state _ _ _ (np_sort_sorted md)
             (np_sort_ne _ Hne) (np_sort_ne _ Hne') ltac:(now rewrite !np_sort_length))).
  do 2 eexists. split; [reflexivity|]. cbn. auto.
Qed.

(** C11: A re-fit of a fitted empirical corrector on series of different
    lengths raises [ValueError], but only after replacing
    [model_to_quantile]: the object stays marked fitted with the new
    forward map and the previous inverse map, so a later [transform]
    mixes the two fits. *)
Theorem qm_refit_mismatch_mixed_state md od md' od' s s1 :
  qm_method s = "empirical"%string -> qm_fit md od s = (inr tt, s1) ->
  length md' <> length od' -> md' <> [] -> od' <> [] ->
  exists e s2, qm_fit md' od' s1 = (inl e, s2) /\ qm_fitted s2 = true /\
    qm_method s2 = "empirical"%string /\
    qm_model_to_quantile s2 = Some (m2q_of (np_sort md')) /\
    qm_quantile_to_obs s2 = qm_quantile_to_obs s1.
Proof.
  intros Hm Hfit Hl Hne Hne'.
  destruct (qm_fit_empirical_inv _ _ _ _ Hm Hfit) as (Hm1 & Hf1 & _).
  destruct (qm_fit_empirical_mismatch md' od' s1 Hm1 Hne Hne' Hl) as (e & s2 & H & Hf & Hm2 & Hq).
  exists e, s2. rewrite Hf1 in Hf. auto.
Qed.

(** C13: The gamma method with fewer than three positive values in either
    series falls back to the empirical method: after a successful [fit]
    the object's method is ["empirical"] and every corrected value lies
    between the smallest and the largest observation. *)
Theorem qm_fit_gamma_fallback md od vs s s' :
  qm_method s = "parametric_gamma"%string ->
  (length (positives md) <= 2 \/ length (positives od) <= 2)%nat ->
  qm_fit md od s = (inr tt, s') ->
  qm_method s' = "empirical"%string /\
  exists out, qm_transform vs s' = (inr out, s') /\
    Forall (fun y => exists q, y = Fin q /\
              forall lo hi, Forall (fun o => lo <= o <= hi) od -> lo <= q <= hi) out.
Proof.
  intros Hm Hpos Hfit. rewrite qm_fit_gamma_fallback_eq in Hfit; [|exact Hm|].
  - apply qm_fit_empirical_inv in Hfit; [|reflexivity].
    split; [exact (proj1 Hfit)|]. now apply (emp_fitted_transform_range s' md od vs).
  - exact (few_positives_fallback _ _ Hpos).
Qed.

End QMFallback.

Lemma normal_correct_same m d x :
  ~ d == 0 -> fq_eq (normal_correct (Fin m, Fin d, Fin m, Fin d) x) (Fin x).
Proof.
  intros Hd. unfold normal_correct, fq_add, fq_mul, fq_sub, fq_div, fq_lift2.
  destruct (Qeq_bool d 0) eqn:E; [apply Qeq_bool_iff in E; contradiction|].
  simpl. field. exact Hd.
Qed.

Lemma normal_correct_zero m d x :
  d == 0 -> normal_correct (Fin m, Fin d, Fin m, Fin d) x = NonFinite.
Proof.
  intros Hd. unfold normal_correct, fq_add, fq_mul, fq_sub, fq_div, fq_lift2.
  now rewrite (proj2 (Qeq_bool_iff d 0) Hd).
Qed.

Section QMNormal.
Context {St : SciPyStats} {StL : SciPyStatsLaws}.

Lemma np_std_f_nonempty l : l <> [] -> np_std_f l = Fin (np_sqrt (np_var l)).
Proof. destruct l; [congruence|reflexivity]. Qed.

Lemma Forall2_map_same {A B C} (R : B -> C -> Prop) (f : A -> B) (g : A -> C) l :
  (forall x, R (f x) (g x)) -> Forall2 R (map f l) (map g l).
Proof. intros H. induction l; simpl; constructor; auto. Qed.

(** The normal method with identical model and observation series
    corrects nothing: when the series is not constant, every corrected
    value equals its input. *)
Theorem qm_normal_same_data_identity md vs s s' :
  qm_method s = "parametric_normal"%string -> md <> [] -> ~ np_var md == 0 ->
  qm_fit md md s = (inr tt, s') ->
  exists out, qm_transform vs s' = (inr out, s') /\ Forall2 fq_eq out (map Fin vs).
Proof.
  intros Hm Hne Hv Hfit. rewrite qm_fit_normal in Hfit by exact Hm. injection Hfit as <-.
  eexists. split; [exact (qm_transform_normal (set_fitted (set_normal _ (set_data _ _ s))) _ vs eq_refl Hm eq_refl)|].
  rewrite (np_std_f_nonempty _ Hne). destruct md as [|m0 md']; [congruence|]. cbn [np_mean_f].
  apply Forall2_map_same. intros x. apply normal_correct_same.
  intros Hz. apply Hv. exact (proj1 (np_sqrt_zero _ (np_var_nonneg _)) Hz).
Qed.

(** With identical but constant series (zero standard deviation) the
    normal method divides by zero: every corrected value is [nan], where
    the spec expects the identity. *)
Theorem qm_normal_constant_nonfinite md vs s s' :
  qm_method s = "parametric_normal"%string -> md <> [] -> np_var md == 0 ->
  qm_fit md md s = (inr tt, s') ->
  qm_transform vs s' = (inr (map (fun _ => NonFinite) vs), s').
Proof.
  intros Hm Hne Hv Hfit. rewrite qm_fit_normal in Hfit by exact Hm. injection Hfit as <-.
  rewrite (qm_transform_normal (set_fitted (set_normal _ (set_data _ _ s))) _ vs eq_refl Hm eq_refl). do 2 f_equal.
  rewrite (np_std_f_nonempty _ Hne). destruct md as [|m0 md']; [congruence|]. cbn [np_mean_f].
  apply map_ext. intros x. apply normal_correct_zero.
  exact (proj2 (np_sqrt_zero _ (np_var_nonneg _)) Hv).
Qed.

(** C14: The normal method fitted on identical model and observation series:
    when the series is not constant every corrected value equals its input;
    when it is constant (zero standard deviation) the method divides by zero
    and every corrected value is [nan], where the spec expects the identity. *)
Theorem qm_normal_same_data md vs s s' :
  qm_method s = "parametric_normal"%string -> md <> [] ->
  qm_fit md md s = (inr tt, s') ->
  (~ np_var md == 0 -> exists out, qm_transform vs s' = (inr out, s') /\ Forall2 fq_eq out (map Fin vs)) /\
  (np_var md == 0 -> qm_transform vs s' = (inr (map (fun _ => NonFinite) vs), s')).
Proof.
  intros Hm Hne Hfit. split; intros Hv.
  - exact (qm_normal_same_data_identity md vs s s' Hm Hne Hv Hfit).
  - exact (qm_normal_constant_nonfinite md vs s s' Hm Hne Hv Hfit).
Qed.

End QMNormal.

(** ** The object's life cycle

    A client constructs [QuantileMappingCorrection(method)] and then calls
    [fit] and [transform] in any order.  A call that raises leaves the
    attributes it has already assigned (the client may catch the exception
    and keep the object), and [transform] assigns nothing.  The calls are
    the labels of a transition system on [qm_state]; [qm_reachable m] is
    the set of states that some sequence of calls leads to from
    [__init__(m)]. *)

Section QMLifecycle.
Context {St : SciPyStats}.

Inductive qm_call : Type :=
| CallFit (model_data obs_data : list Q)
| CallTransform (model_values : list Q).

Definition qm_call_run (c : qm_call) : PyM qm_state unit :=
  match c with
  | CallFit md od => qm_fit md od
  | CallTransform vs => _ <- qm_transform vs ;; py_ret tt
  end.

(** The attributes after the call, whether it returned or raised. *)
Definition qm_after (s : qm_state) (c : qm_call) : qm_state := snd (qm_call_run c s).

Fixpoint qm_run_calls (s : qm_state) (cs : list qm_call) : qm_state :=
  match cs with
  | [] => s
  | c :: cs' => qm_run_calls (qm_after s c) cs'
  end.

Inductive qm_reachable (m : string) : qm_state -> Prop :=
| qm_reach_init : qm_reachable m (qm_init m)
| qm_reach_call s c : qm_reachable m s -> qm_reachable m (qm_after s c).

(** The methods [transform] has a branch for. *)
Definition qm_known_method (m : string) : bool :=
  String.eqb m "empirical" || String.eqb m "parametric_normal" || String.eqb m "parametric_gamma".

(** [transform] returns on every input and assigns nothing. *)
Definition qm_ready (s : qm_state) : Prop :=
  forall vs, exists out, qm_transform vs s = (inr out, s).

Lemma qm_run_calls_app s cs c :
  qm_run_calls s (cs ++ [c]) = qm_after (qm_run_calls s cs) c.
Proof. revert s. induction cs as [|c' cs IH]; intros s; [reflexivity|apply IH]. Qed.

(** The inductive reachability is the executable one: the states that a
    finite list of calls produces. *)
Lemma qm_reachable_calls m s :
  qm_reachable m s <-> exists cs, s = qm_run_calls (qm_init m) cs.
Proof.
  split.
  - induction 1 as [|s c _ [cs ->]]; [now exists []|].
    exists (cs ++ [c]). now rewrite qm_run_calls_app.
  - intros [cs ->]. assert (H := qm_reach_init m). revert H.
    generalize (qm_init m). induction cs as [|c cs IH]; intros s0 H; [exact H|].
    apply IH. now constructor.
Qed.

Lemma qm_transform_state vs s : snd (qm_transform vs s) = s.
Proof.
  unfold qm_transform, py_bind, py_get, py_raise, py_ret. cbv beta iota.
  destruct (negb (qm_fitted s)); [reflexivity|].
  destruct (String.eqb _ "empirical");
    [destruct (qm_model_to_quantile s), (qm_quantile_to_obs s); reflexivity|].
  destruct (String.eqb _ "parametric_normal"); [destruct (qm_normal s); reflexivity|].
  destruct (String.eqb _ "parametric_gamma"); [destruct (qm_gamma s)|]; reflexivity.
Qed.

Lemma qm_after_transform s vs : qm_after s (CallTransform vs) = s.
Proof.
  pose proof (qm_transform_state vs s) as H. unfold qm_after, qm_call_run, py_bind at 1.
  destruct (qm_transform vs s) as [[e|out] s']; exact H.
Qed.

Lemma fit_empirical_method md od s : qm_method (snd (fit_empirical md od s)) = qm_method s.
Proof.
  unfold fit_empirical, py_bind, py_modify, py_lift, py_raise. cbv beta iota.
  destruct (interp1d_new md _ _ _); [reflexivity|].
  destruct od; [reflexivity|]. destruct (interp1d_new _ _ _ _); reflexivity.
Qed.

Lemma then_fitted_method (m : PyM qm_state unit) s :
  qm_method (snd ((m ;; py_modify set_fitted) s)) = qm_method (snd (m s)).
Proof. unfold py_bind, py_modify. now destruct (m s) as [[e|[]] s1]. Qed.

(** [fit] keeps the method, except the gamma fallback's switch to the
    empirical one. *)
Lemma qm_fit_method md od s :
  qm_method (snd (qm_fit md od s)) =
  if String.eqb (qm_method s) "parametric_gamma"
     && negb (Nat.ltb 2 (length (positives md)) && Nat.ltb 2 (length (positives od)))
  then "empirical"%string else qm_method s.
Proof.
  unfold qm_fit, py_bind at 1 2, py_modify at 1, py_get.
  replace (qm_method (set_data (np_sort md) (np_sort od) s)) with (qm_method s) by reflexivity.
  destruct (String.eqb_spec (qm_method s) "empirical") as [E|].
  - rewrite then_fitted_method, fit_empirical_method.
    change (qm_method (set_data _ _ s)) with (qm_method s). rewrite E. reflexivity.
  - destruct (String.eqb_spec (qm_method s) "parametric_normal") as [E|]; [now rewrite E|].
    destruct (String.eqb_spec (qm_method s) "parametric_gamma") as [E|]; [|reflexivity].
    destruct (Nat.ltb 2 (length (positives md)) && Nat.ltb 2 (length (positives od)))%bool;
      [reflexivity|].
    rewrite (py_bind_inr (py_modify _) _ _ tt _ eq_refl), (py_bind_inr (py_modify _) _ _ tt _ eq_refl).
    now rewrite then_fitted_method, fit_empirical_method.
Qed.

(** Invariant, by induction on the calls: the method is the constructor's,
    or ["empirical"] after a gamma fallback. *)
Lemma qm_reachable_method m s :
  qm_reachable m s ->
  qm_method s = m \/ (m = "parametric_gamma"%string /\ qm_method s = "empirical"%string).
Proof.
  induction 1 as [|s [md od|vs] _ IH]; [now left| |now rewrite qm_after_transform].
  unfold qm_after, qm_call_run. rewrite qm_fit_method.
  destruct (String.eqb_spec (qm_method s) "parametric_gamma") as [Hg|]; [|exact IH].
  destruct (negb _); [|exact IH]. right. split; [|reflexivity].
  destruct IH as [<-|[-> _]]; [exact Hg|reflexivity].
Qed.


Lemma qm_run_transforms s vss : qm_run_calls s (map CallTransform vss) = s.
Proof. induction vss as [|vs vss IH]; [reflexivity|]. cbn. now rewrite qm_after_transform. Qed.

Lemma qm_transform_gamma s p vs :
  qm_fitted s = true -> qm_method s = "parametric_gamma"%string -> qm_gamma s = Some p ->
  qm_transform vs s = (inr (map (fun x => Fin (gamma_correct p x)) vs), s).
Proof. intros Hf Hm Hp. unfold qm_transform, py_bind, py_get. rewrite Hf, Hm, Hp. reflexivity. Qed.

Lemma qm_fit_gamma md od s :
  qm_method s = "parametric_gamma"%string ->
  (Nat.ltb 2 (length (positives md)) && Nat.ltb 2 (length (positives od)))%bool = true ->
  qm_fit md od s =
    (inr tt, set_fitted (set_gamma (gamma_fit (positives md), gamma_fit (positives od))
                                   (set_data (np_sort md) (np_sort od) s))).
Proof.
  intros Hm Hp. unfold qm_fit, py_bind, py_modify, py_get. cbv beta zeta.
  cbn [qm_method set_data]. rewrite Hm, Hp. reflexivity.
Qed.

Lemma qm_fit_empirical_ready md od s :
  qm_method s = "empirical"%string -> length md = length od -> md <> [] ->
  exists s', qm_fit md od s = (inr tt, s') /\ qm_ready s'.
Proof.
  intros Hm Hl Hne. destruct (qm_fit_empirical_ok md od s Hm Hl Hne) as [s' Hf].
  exists s'. split; [exact Hf|]. intros vs.
  eexists. exact (qm_transform_emp _ _ _ vs (qm_fit_empirical_inv _ _ _ _ Hm Hf)).
Qed.

(** For each method [transform] has a branch for, a [fit] on non-empty
    series of one length returns, and [transform] returns afterwards. *)
Lemma qm_fit_ready md od s :
  qm_known_method (qm_method s) = true -> length md = length od -> md <> [] ->
  exists s', qm_fit md od s = (inr tt, s') /\ qm_ready s'.
Proof.
  intros Hk Hl Hne. unfold qm_known_method in Hk.
  destruct (String.eqb_spec (qm_method s) "empirical") as [He|_]; [now apply qm_fit_empirical_ready|].
  destruct (String.eqb_spec (qm_method s) "parametric_normal") as [Hn|_].
  - eexists. split; [exact (qm_fit_normal md od s Hn)|]. intros vs. eexists.
    apply qm_transform_normal; [reflexivity|exact Hn|reflexivity].
  - destruct (String.eqb_spec (qm_method s) "parametric_gamma") as [Hg|_]; [|discriminate].
    destruct (Nat.ltb 2 (length (positives md)) && Nat.ltb 2 (length (positives od)))%bool eqn:Ep.
    + eexists. split; [exact (qm_fit_gamma md od s Hg Ep)|]. intros vs. eexists.
      apply qm_transform_gamma; [reflexivity|exact Hg|reflexivity].
    + rewrite (qm_fit_gamma_fallback_eq md od s Hg Ep). now apply qm_fit_empirical_ready.
Qed.

Lemma qm_reachable_known m s :
  qm_known_method m = true -> qm_reachable m s -> qm_known_method (qm_method s) = true.
Proof. intros Hk Hr. destruct (qm_reachable_method m s Hr) as [->|[_ ->]]; [exact Hk|reflexivity]. Qed.

Lemma qm_reachable_fit m s md od :
  qm_reachable m s -> qm_reachable m (snd (qm_fit md od s)).
Proof. exact (fun Hr => qm_reach_call m s (CallFit md od) Hr). Qed.



(** C12: A failed gamma fallback leaves a fitted object whose [transform]
    raises: after a [fit] of a ["parametric_gamma"] object that fitted the
    gamma distributions, a second [fit] on non-empty series of different
    lengths, one of them with at most two positive values, switches the
    method to ["empirical"] and raises inside the empirical fit.  The
    object stays marked fitted, and every later [transform] raises
    [AttributeError] on [quantile_to_obs] rather than the
    [ValueError("Must call fit() first")] of an object never fitted. *)
Theorem qm_gamma_refit_transform_raises md od md' od' s1 vs :
  qm_fit md od (qm_init "parametric_gamma") = (inr tt, s1) ->
  qm_method s1 = "parametric_gamma"%string ->
  (length (positives md') <= 2 \/ length (positives od') <= 2)%nat ->
  md' <> [] -> od' <> [] -> length md' <> length od' ->
  exists e s2, qm_fit md' od' s1 = (inl e, s2) /\ qm_fitted s2 = true /\
    qm_method s2 = "empirical"%string /\
    qm_transform vs s2 = (inl (AttributeError "quantile_to_obs"), s2).
Proof.
  intros Hfit Hg Hpos Hne Hne' Hl.
  assert (Hs1 : qm_fitted s1 = true /\ qm_quantile_to_obs s1 = None).
  { destruct (Nat.ltb 2 (length (positives md)) && Nat.ltb 2 (length (positives od)))%bool eqn:Ep.
    - rewrite (qm_fit_gamma md od (qm_init "parametric_gamma") eq_refl Ep) in Hfit.
      injection Hfit as <-. split; reflexivity.
    - pose proof (qm_fit_method md od (qm_init "parametric_gamma")) as Hm.
      rewrite Hfit, Ep in Hm. cbn in Hm. congruence. }
  destruct Hs1 as [Hf1 Hq1].
  rewrite (qm_fit_gamma_fallback_eq md' od' s1 Hg (few_positives_fallback _ _ Hpos)).
  destruct (qm_fit_empirical_mismatch md' od' (set_method "empirical" (set_data (np_sort md') (np_sort od') s1))
              eq_refl Hne Hne' Hl) as (e & s2 & H & Hf & Hm & Hm2q & Hq).
  cbn in Hf, Hq. rewrite Hf1 in Hf. rewrite Hq1 in Hq.
  exists e, s2. split; [exact H|]. split; [exact Hf|]. split; [exact Hm|].
  unfold qm_transform, py_bind, py_get. rewrite Hf, Hm, Hm2q, Hq. reflexivity.
Qed.

End QMLifecycle.

(** ** A rational instance of the library interface

    The square root of [np.std] rounded down to a multiple of [2^-20], and
    the log-logistic family (CDF [x / (x + scale)]) in place of the gamma
    family, fitted by the mean.  The laws hold for it, so they are
    satisfiable, and it lets the model run on concrete inputs. *)

Definition approx_sqrt (v : Q) : Q :=
  Qmake (Z.sqrt (Qnum v * Zpos (Qden v) * 2 ^ 40)) (Qden v * 2 ^ 20).

Definition loglogistic_cdf (p : gamma_params) (x : Q) : Q :=
  let '(_, _, scale) := p in if Qle_bool x 0 then 0 else x / (x + Qabs scale).

Definition loglogistic_ppf (p : gamma_params) (q : Q) : Q :=
  let '(_, _, scale) := p in if Qle_bool 1 q then 0 else Qabs scale * q / (1 - q).

#[local] Instance rational_stats : SciPyStats := {|
  np_sqrt := approx_sqrt;
  gamma_fit := fun l => (1, 0, np_mean l);
  gamma_cdf := loglogistic_cdf;
  gamma_ppf := loglogistic_ppf
|}.

Lemma approx_sqrt_nonneg v : 0 <= approx_sqrt v.
Proof.
  unfold approx_sqrt. set (r := Z.sqrt _). assert (Hr : (0 <= r)%Z) by apply Z.sqrt_nonneg.
  unfold Qle. simpl. lia.
Qed.

Lemma approx_sqrt_zero v : 0 <= v -> (approx_sqrt v == 0 <-> v == 0).
Proof.
  destruct v as [n d]. unfold approx_sqrt, Qle, Qeq. simpl. rewrite !Z.mul_1_r. intros Hn.
  assert (Hp : (0 < 2 ^ 40)%Z) by reflexivity.
  split; intros H.
  - destruct (Z.eq_dec n 0) as [->|Hne]; [reflexivity|].
    assert (Hpos : (0 < n * Z.pos d * 2 ^ 40)%Z).
    { apply Z.mul_pos_pos; [apply Z.mul_pos_pos; lia|exact Hp]. }
    apply Z.sqrt_pos in Hpos. change (Z.pow_pos 2 40) with (2 ^ 40)%Z in H. lia.
  - rewrite H. reflexivity.
Qed.

Lemma loglogistic_cdf_range p x : 0 <= loglogistic_cdf p x <= 1.
Proof.
  destruct p as [[a l] sc]. unfold loglogistic_cdf.
  destruct (Qle_bool x 0) eqn:E; [lra|]. apply Qle_bool_false_lt in E.
  pose proof (Qabs_nonneg sc). split.
  - apply Qdiv_nonneg; lra.
  - apply Qle_shift_div_r; lra.
Qed.

Lemma loglogistic_ppf_nonneg p q : 0 <= q <= 1 -> 0 <= loglogistic_ppf p q.
Proof.
  destruct p as [[a l] sc]. unfold loglogistic_ppf. intros [H0 H1].
  destruct (Qle_bool 1 q) eqn:E; [lra|]. apply Qle_bool_false_lt in E.
  pose proof (Qabs_nonneg sc). apply Qdiv_nonneg; [apply Qmult_le_0_compat|]; lra.
Qed.

#[local] Instance rational_stats_laws : SciPyStatsLaws := {|
  np_sqrt_nonneg := fun v _ => approx_sqrt_nonneg v;
  np_sqrt_zero := approx_sqrt_zero;
  gamma_cdf_range := loglogistic_cdf_range;
  gamma_ppf_nonneg := loglogistic_ppf_nonneg
|}.

(** ** The theorems on concrete runs *)

(** The spec's scenario: model [1..5], observations [2..6]. *)
Definition qm_demo_fitted : qm_state :=
  snd (qm_fit [1; 2; 3; 4; 5] [2; 3; 4; 5; 6] (qm_init "empirical")).

Lemma qm_transform_in_obs_range_witness :
  qm_fit [1; 2; 3; 4; 5] [2; 3; 4; 5; 6] (qm_init "empirical") = (inr tt, qm_demo_fitted) /\
  exists out, qm_transform [0; 7; 5 # 2] qm_demo_fitted = (inr out, qm_demo_fitted) /\
    Forall (fun y => exists q, y = Fin q /\
      forall lo hi, Forall (fun o => lo <= o <= hi) [2; 3; 4; 5; 6] -> lo <= q <= hi) out.
Proof.
  split; [vm_compute; reflexivity|].
  apply (qm_transform_in_obs_range [1; 2; 3; 4; 5] [2; 3; 4; 5; 6] _ (qm_init "empirical"));
    [reflexivity|vm_compute; reflexivity].
Defined.

Lemma qm_transform_rank_preserving_witness :
  qm_transform (np_sort [1; 2; 3; 4; 5]) qm_demo_fitted =
    (inr (map Fin (np_sort [2; 3; 4; 5; 6])), qm_demo_fitted) /\
  exists qx qy, qm_transform [3 # 2; 7] qm_demo_fitted = (inr [Fin qx; Fin qy], qm_demo_fitted) /\
    qx <= qy.
Proof.
  destruct (qm_transform_rank_preserving [1; 2; 3; 4; 5] [2; 3; 4; 5; 6] (qm_init "empirical") qm_demo_fitted)
    as [H1 H2]; [reflexivity|vm_compute; reflexivity|].
  split; [apply H1; vm_compute; repeat constructor|apply H2; vm_compute; discriminate].
Defined.

Lemma qm_refit_mismatch_mixed_state_witness :
  exists e s2, qm_fit [10; 20] [1] qm_demo_fitted = (inl e, s2) /\ qm_fitted s2 = true /\
    qm_method s2 = "empirical"%string /\
    qm_model_to_quantile s2 = Some (m2q_of (np_sort [10; 20])) /\
    qm_quantile_to_obs s2 = qm_quantile_to_obs qm_demo_fitted.
Proof.
  apply (qm_refit_mismatch_mixed_state [1; 2; 3; 4; 5] [2; 3; 4; 5; 6] _ _ (qm_init "empirical"));
    [reflexivity|vm_compute; reflexivity|simpl; lia|discriminate|discriminate].
Defined.

Definition qm_gamma_demo : qm_state :=
  snd (qm_fit [0; 0; 1; 2] [0; 3; 4; 5] (qm_init "parametric_gamma")).

Lemma qm_fit_gamma_fallback_witness :
  qm_method qm_gamma_demo = "empirical"%string /\
  exists out, qm_transform [1; 9] qm_gamma_demo = (inr out, qm_gamma_demo) /\
    Forall (fun y => exists q, y = Fin q /\
      forall lo hi, Forall (fun o => lo <= o <= hi) [0; 3; 4; 5] -> lo <= q <= hi) out.
Proof.
  apply (qm_fit_gamma_fallback [0; 0; 1; 2] [0; 3; 4; 5] _ (qm_init "parametric_gamma"));
    [reflexivity|left; vm_compute; lia|vm_compute; reflexivity].
Defined.

Lemma qm_normal_same_data_witness :
  (exists out, qm_transform [0; 10] (snd (qm_fit [1; 2; 3] [1; 2; 3] (qm_init "parametric_normal")))
    = (inr out, snd (qm_fit [1; 2; 3] [1; 2; 3] (qm_init "parametric_normal"))) /\
    Forall2 fq_eq out (map Fin [0; 10])) /\
  qm_transform [0; 10] (snd (qm_fit [4; 4] [4; 4] (qm_init "parametric_normal")))
    = (inr [NonFinite; NonFinite], snd (qm_fit [4; 4] [4; 4] (qm_init "parametric_normal"))).
Proof.
  split.
  - apply (proj1 (qm_normal_same_data [1; 2; 3] [0; 10] (qm_init "parametric_normal") _
      eq_refl ltac:(discriminate) ltac:(vm_compute; reflexivity))).
    vm_compute; discriminate.
  - apply (proj2 (qm_normal_same_data [4; 4] [0; 10] (qm_init "parametric_normal") _
      eq_refl ltac:(discriminate) ltac:(vm_compute; reflexivity))).
    vm_compute; reflexivity.
Defined.


Lemma qm_gamma_refit_transform_raises_witness :
  exists e s2, qm_fit [1; 2] [0; 0; 5] (snd (qm_fit [1; 2; 3] [2; 3; 4] (qm_init "parametric_gamma")))
      = (inl e, s2) /\ qm_fitted s2 = true /\ qm_method s2 = "empirical"%string /\
    qm_transform [1] s2 = (inl (AttributeError "quantile_to_obs"), s2).
Proof.
  apply (qm_gamma_refit_transform_raises [1; 2; 3] [2; 3; 4]);
    [vm_compute; reflexivity|vm_compute; reflexivity|right; vm_compute; lia
    |discriminate|discriminate|simpl; lia].
Defined.
