(* ===== verification/RNum.v ===== *)
(** Real-number statistics shared by the components computed over [R]:
    [np.sum], [np.mean] and [np.var] (population variance) of a real
    array, [np.sort] as an insertion sort on [Rle], [np.percentile] at an
    integer percentage, [np.median], [np.std], [np.min] and [np.max],
    Python's [round], [min], [max] and [l[-1]], with the facts on sums,
    variances and sorted lists the components' proofs use. *)

From Stdlib Require Import String.
From Stdlib Require Import List Arith ZArith Lia Reals Lra Sorted Permutation.

From S2P Require Import Prelude.
Import ListNotations.
Open Scope R_scope.

(** ** Sums, means and variances *)

Definition rsum (l : list R) : R := fold_right Rplus 0 l.
Definition rmean (l : list R) : R := rsum l / INR (length l).
Definition rvar (l : list R) : R := rmean (map (fun x => (x - rmean l) ^ 2) l).

Lemma rsum_map_div {A} (f : A -> R) c l :
  c <> 0 -> rsum (map (fun x => f x / c) l) = rsum (map f l) / c.
Proof. intros Hc. induction l as [|x l IH]; simpl; [field; exact Hc|]. rewrite IH. field. exact Hc. Qed.

Lemma rsum_nonneg l : Forall (fun x => 0 <= x) l -> 0 <= rsum l.
Proof. induction 1; simpl; lra. Qed.

Lemma Rdiv_nonneg a b : 0 <= a -> 0 <= b -> 0 <= a / b.
Proof.
  intros Ha [Hb| <-].
  - apply Rmult_le_pos; [exact Ha|left; now apply Rinv_0_lt_compat].
  - unfold Rdiv. rewrite Rinv_0. lra.
Qed.

Lemma rvar_nonneg l : 0 <= rvar l.
Proof.
  unfold rvar, rmean at 1. apply Rdiv_nonneg; [|apply pos_INR].
  apply rsum_nonneg, Forall_forall. intros y Hy. apply in_map_iff in Hy as [x [<- _]].
  apply pow2_ge_0.
Qed.

Lemma rsum_pos l : Forall (fun x => 0 < x) l -> l <> [] -> 0 < rsum l.
Proof.
  intros H Hne. destruct H as [|x l Hx Hl]; [congruence|]. simpl.
  enough (0 <= rsum l) by lra. apply rsum_nonneg. eapply Forall_impl; [|exact Hl]. intros; lra.
Qed.

Lemma rsum_zeros l : Forall (fun x => x = 0) l -> rsum l = 0.
Proof. induction 1; simpl; [reflexivity|]. subst. lra. Qed.

Lemma squares_zeros l : Forall (fun x => x = 0) l -> Forall (fun x => x = 0) (map (fun r => r ^ 2) l).
Proof. intros H. apply Forall_map. eapply Forall_impl; [|exact H]. intros x ->. ring. Qed.

Lemma rvar_zeros l : Forall (fun x => x = 0) l -> rvar l = 0.
Proof.
  intros H. unfold rvar.
  assert (Hm : rmean l = 0) by (unfold rmean; rewrite rsum_zeros by exact H; unfold Rdiv; ring).
  rewrite Hm. unfold rmean. rewrite rsum_zeros; [unfold Rdiv; ring|].
  apply Forall_map. eapply Forall_impl; [|exact H]. intros x ->. ring.
Qed.

Lemma rsum_map_add {A} (f g : A -> R) l :
  rsum (map (fun x => f x + g x) l) = rsum (map f l) + rsum (map g l).
Proof. induction l as [|x l IH]; simpl; [ring|]. rewrite IH. ring. Qed.

(** ** [np.sort] on real arrays *)

(** [np.sort] returns the values in ascending order; on a total order the
    sorted rearrangement is unique, so an insertion sort computes it. *)
Fixpoint r_insert (x : R) (s : list R) : list R :=
  match s with
  | [] => [x]
  | y :: s' => if Rle_dec x y then x :: y :: s' else y :: r_insert x s'
  end.

Fixpoint r_sort (l : list R) : list R :=
  match l with
  | [] => []
  | x :: l' => r_insert x (r_sort l')
  end.

Lemma r_insert_perm x s : Permutation (x :: s) (r_insert x s).
Proof.
  induction s as [|y s IH]; simpl; [reflexivity|].
  destruct (Rle_dec x y); [reflexivity|]. rewrite perm_swap. constructor. exact IH.
Qed.

Lemma r_insert_hdrel x y s : y <= x -> HdRel Rle y s -> HdRel Rle y (r_insert x s).
Proof.
  intros Hyx Hs. destruct s as [|z s]; simpl; [constructor; exact Hyx|].
  destruct (Rle_dec x z); constructor; [exact Hyx|]. inversion Hs; assumption.
Qed.

Lemma r_insert_sorted x s : Sorted Rle s -> Sorted Rle (r_insert x s).
Proof.
  induction 1 as [|y s Hs IH Hhd]; simpl; [repeat constructor|].
  destruct (Rle_dec x y) as [Hxy|Hxy].
  - constructor; [constructor; assumption|constructor; exact Hxy].
  - constructor; [exact IH|]. apply r_insert_hdrel; [lra|exact Hhd].
Qed.

Lemma r_sort_sorted l : Sorted Rle (r_sort l).
Proof. induction l as [|x l IH]; simpl; [constructor|]. apply r_insert_sorted, IH. Qed.

Lemma r_sort_perm l : Permutation l (r_sort l).
Proof.
  induction l as [|x l IH]; simpl; [reflexivity|].
  rewrite <- r_insert_perm. constructor. exact IH.
Qed.

Lemma r_sort_length l : length (r_sort l) = length l.
Proof. symmetry. apply Permutation_length, r_sort_perm. Qed.

(** In a sorted array, a later element is not smaller. *)
Lemma sorted_nth_le s i j : Sorted Rle s -> (i <= j)%nat -> (j < length s)%nat -> nth i s 0 <= nth j s 0.
Proof.
  intros Hs. apply Sorted_StronglySorted in Hs; [|intros x y z; apply Rle_trans].
  revert i j. induction Hs as [|a s Hs IH Hall]; intros i j Hij Hj; simpl in Hj; [lia|].
  destruct i as [|i], j as [|j]; simpl; try lra; try lia.
  - rewrite Forall_forall in Hall. apply Hall, nth_In. lia.
  - apply IH; lia.
Qed.

(** ** [np.percentile(a, p)] at an integer percentage [p], linear method

    On the sorted array of length [n] the virtual index is
    [(n - 1) * p / 100]; with [p] an integer its integer part and its
    fraction are those of the natural-number division by [100].  An empty
    array raises [IndexError]. *)

(** The value at integer part [lo] and fraction [f] of the index. *)
Definition interp_at (s : list R) (lo : nat) (f : R) : R :=
  nth lo s 0 + f * (nth (Nat.min (S lo) (length s - 1)) s 0 - nth lo s 0).

Definition percentile_sorted_nat (s : list R) (p : nat) : R :=
  let k := ((length s - 1) * p)%nat in
  interp_at s (k / 100) (INR (k mod 100) / 100).

Definition np_percentile_r (a : list R) (p : nat) : py_exn + R :=
  match a with
  | [] => inl IndexError
  | _ => inr (percentile_sorted_nat (r_sort a) p)
  end.

(** [np.median(a)]: the middle element, or the mean of the two middle
    elements.  numpy gives [nan] on an empty array; the callers read no
    median of an empty array, and this definition gives [0] there. *)
Definition np_median (a : list R) : R :=
  let s := r_sort a in
  let n := length s in
  if Nat.even n then (nth (n / 2 - 1) s 0 + nth (n / 2) s 0) / 2 else nth (n / 2) s 0.

Lemma interp_at_bounds s lo f :
  Sorted Rle s -> (lo < length s)%nat -> 0 <= f <= 1 ->
  nth lo s 0 <= interp_at s lo f <= nth (Nat.min (S lo) (length s - 1)) s 0.
Proof.
  intros Hs Hlo Hf. unfold interp_at.
  assert (nth lo s 0 <= nth (Nat.min (S lo) (length s - 1)) s 0) by (apply sorted_nth_le; auto; lia).
  nra.
Qed.

(** The interpolated value grows with the position. *)
Lemma interp_at_mono s lo1 f1 lo2 f2 :
  Sorted Rle s -> (lo1 < length s)%nat -> (lo2 < length s)%nat -> 0 <= f1 <= 1 -> 0 <= f2 <= 1 ->
  ((lo1 < lo2)%nat \/ (lo1 = lo2 /\ f1 <= f2)) -> interp_at s lo1 f1 <= interp_at s lo2 f2.
Proof.
  intros Hs H1 H2 Hf1 Hf2 [Hlt|[-> Hle]].
  - destruct (interp_at_bounds s lo1 f1 Hs H1 Hf1) as [_ Hb1].
    destruct (interp_at_bounds s lo2 f2 Hs H2 Hf2) as [Hb2 _].
    assert (nth (Nat.min (S lo1) (length s - 1)) s 0 <= nth lo2 s 0) by (apply sorted_nth_le; auto; lia).
    lra.
  - unfold interp_at.
    assert (nth lo2 s 0 <= nth (Nat.min (S lo2) (length s - 1)) s 0) by (apply sorted_nth_le; auto; lia).
    nra.
Qed.

Lemma INR_mod_100_range k : 0 <= INR (k mod 100) / 100 <= 1.
Proof.
  assert (H : (k mod 100 < 100)%nat) by (apply Nat.mod_upper_bound; lia).
  apply lt_INR in H. pose proof (pos_INR (k mod 100)).
  replace (INR 100) with 100 in H by (rewrite INR_IZR_INZ; reflexivity).
  split; [apply Rdiv_nonneg; lra|]. apply Rmult_le_reg_r with 100; [lra|]. unfold Rdiv.
  rewrite Rmult_assoc, Rinv_l by lra. lra.
Qed.

(** Percentiles grow with the percentage. *)
Lemma percentile_sorted_nat_mono s p1 p2 :
  Sorted Rle s -> s <> [] -> (p1 <= p2 <= 100)%nat ->
  percentile_sorted_nat s p1 <= percentile_sorted_nat s p2.
Proof.
  intros Hs Hne Hp. unfold percentile_sorted_nat.
  set (n := length s). assert (Hn : (0 < n)%nat) by (unfold n; destruct s; [congruence|simpl; lia]).
  set (k1 := ((n - 1) * p1)%nat). set (k2 := ((n - 1) * p2)%nat).
  assert (Hk : (k1 <= k2)%nat) by (apply Nat.mul_le_mono_l; lia).
  assert (Hk2 : (k2 <= (n - 1) * 100)%nat) by (apply Nat.mul_le_mono_l; lia).
  assert (Hlo2 : (k2 / 100 < n)%nat).
  { apply Nat.le_lt_trans with (n - 1)%nat; [|lia]. apply Nat.Div0.div_le_upper_bound; lia. }
  assert (Hlo : (k1 / 100 <= k2 / 100)%nat) by (apply Nat.Div0.div_le_mono; lia).
  apply interp_at_mono; [exact Hs|lia|exact Hlo2|apply INR_mod_100_range|apply INR_mod_100_range|].
  destruct (Nat.eq_dec (k1 / 100) (k2 / 100)) as [E|E]; [right|left; lia].
  split; [exact E|]. unfold Rdiv. apply Rmult_le_compat_r; [lra|]. apply le_INR.
  rewrite (Nat.div_mod_eq k1 100), (Nat.div_mod_eq k2 100) in Hk. rewrite E in Hk. lia.
Qed.

(** ** Samuelson's inequality

    No element of an array of [n] values lies further than
    [sqrt (n - 1)] population standard deviations from the mean. *)

Lemma rsum_cons a l : rsum (a :: l) = a + rsum l.
Proof. reflexivity. Qed.

Lemma rsum_app l1 l2 : rsum (l1 ++ l2) = rsum l1 + rsum l2.
Proof. induction l1 as [|x l1 IH]; [simpl; ring|]. rewrite <- app_comm_cons, !rsum_cons, IH. ring. Qed.

(** Cauchy-Schwarz for a sum of [k] terms: [(sum a)^2 <= k * sum a^2]. *)
Lemma rsum_sq_bound l : rsum l ^ 2 <= INR (length l) * rsum (map (fun x => x ^ 2) l).
Proof.
  induction l as [|a l IH]; [simpl; lra|].
  change (rsum (a :: l)) with (a + rsum l). rewrite map_cons.
  change (rsum (a ^ 2 :: map (fun x => x ^ 2) l)) with (a ^ 2 + rsum (map (fun x => x ^ 2) l)).
  rewrite length_cons, S_INR.
  set (S := rsum l) in *. set (Q := rsum (map (fun x => x ^ 2) l)) in *. set (k := INR (length l)) in *.
  assert (Hk : 0 <= k) by apply pos_INR.
  assert (HQ : 0 <= Q).
  { apply rsum_nonneg, Forall_forall. intros y Hy. apply in_map_iff in Hy as [z [<- _]]. apply pow2_ge_0. }
  destruct (Req_dec k 0) as [Hk0|Hk0].
  - assert (S ^ 2 <= 0) by (rewrite Hk0 in IH; lra). assert (S = 0) by nra. subst S. rewrite Hk0. nra.
  - assert (Hkp : 0 < k) by lra. assert (0 <= (k * a - S) ^ 2) by apply pow2_ge_0.
    assert (2 * a * S <= k * a ^ 2 + Q).
    { apply (Rmult_le_reg_l k); [exact Hkp|]. nra. }
    nra.
Qed.

Lemma rsum_map_sub_const l c : rsum (map (fun x => x - c) l) = rsum l - INR (length l) * c.
Proof.
  induction l as [|x l IH]; [simpl; ring|].
  rewrite map_cons, length_cons, S_INR, !rsum_cons, IH. ring.
Qed.

Lemma samuelson l x : In x l -> (x - rmean l) ^ 2 <= (INR (length l) - 1) * rvar l.
Proof.
  intros Hin. set (m := rmean l).
  assert (Hn : 0 < INR (length l)) by (apply lt_0_INR; destruct l; [destruct Hin|simpl; lia]).
  assert (Hsum : rsum (map (fun y => y - m) l) = 0).
  { rewrite rsum_map_sub_const. unfold m, rmean. field. lra. }
  unfold rvar, rmean at 1. fold m. rewrite length_map.
  set (Qt := rsum (map (fun y => (y - m) ^ 2) l)).
  apply in_split in Hin as [u [v Huv]].
  set (ds := map (fun y => y - m) (u ++ v)).
  assert (Hds : rsum ds = - (x - m)).
  { unfold ds. rewrite Huv, map_app, rsum_app in Hsum. rewrite map_app, rsum_app.
    rewrite map_cons, rsum_cons in Hsum. lra. }
  assert (HQ : Qt = rsum (map (fun y => y ^ 2) ds) + (x - m) ^ 2).
  { unfold Qt, ds. rewrite Huv, map_map, !map_app, !rsum_app, map_cons, rsum_cons. ring. }
  assert (Hlen : INR (length ds) = INR (length l) - 1).
  { unfold ds. rewrite length_map.
    assert (Hl : length l = S (length (u ++ v))) by (rewrite Huv, !length_app; simpl; lia).
    rewrite Hl, S_INR. ring. }
  pose proof (rsum_sq_bound ds) as Hcs. rewrite Hds, Hlen in Hcs.
  set (n := INR (length l)) in *. set (d := x - m) in *. set (q := rsum (map (fun y => y ^ 2) ds)) in *.
  assert (Hkey : n * d ^ 2 <= (n - 1) * Qt) by (rewrite HQ; nra).
  apply (Rmult_le_reg_l n); [exact Hn|].
  replace (n * ((n - 1) * (Qt / n))) with ((n - 1) * Qt) by (field; lra). exact Hkey.
Qed.

(** ** Python built-ins on real numbers *)

(** [round(x, ndigits)] on a float: the nearest multiple of [10 ^ -ndigits],
    ties to even, of the exact value. *)
Definition round_half_even (y : R) : Z :=
  let f := Int_part y in
  let d := y - IZR f in
  if Rlt_dec d (1 / 2) then f
  else if Rlt_dec (1 / 2) d then (f + 1)%Z
  else if Z.even f then f else (f + 1)%Z.

Definition py_round (x : R) (ndigits : nat) : R :=
  IZR (round_half_even (x * 10 ^ ndigits)) / 10 ^ ndigits.

(** [min(l)] and [max(l)]: [ValueError] on an empty sequence. *)
Definition py_min (l : list R) : py_exn + R :=
  match l with
  | [] => inl (ValueError "min() arg is an empty sequence"%string)
  | x :: t => inr (fold_left Rmin t x)
  end.

Definition py_max (l : list R) : py_exn + R :=
  match l with
  | [] => inl (ValueError "max() arg is an empty sequence"%string)
  | x :: t => inr (fold_left Rmax t x)
  end.

(** [np.std] (population standard deviation). *)
Definition np_std (a : list R) : R := sqrt (rvar a).

(** [np.min] / [np.max]: a [ValueError] on an empty array. *)
Definition np_min (a : list R) : py_exn + R :=
  match a with
  | [] => inl (ValueError "zero-size array to reduction operation minimum which has no identity"%string)
  | x :: t => inr (fold_left Rmin t x)
  end.

Definition np_max (a : list R) : py_exn + R :=
  match a with
  | [] => inl (ValueError "zero-size array to reduction operation maximum which has no identity"%string)
  | x :: t => inr (fold_left Rmax t x)
  end.

(** [l[-1]]: [IndexError] on an empty list. *)
Definition py_last (l : list R) : py_exn + R :=
  match l with
  | [] => inl IndexError
  | x :: t => inr (last t x)
  end.

(** Python's [int()] on a float: truncation towards zero. *)
Definition py_int (x : R) : Z := if Rle_dec 0 x then Int_part x else (- Int_part (- x))%Z.

(** [a[i]] for an integer index: negative indices count from the end. *)
Definition py_index (l : list R) (i : Z) : py_exn + R :=
  let n := Z.of_nat (length l) in
  if Z_le_dec 0 i then (if Z_lt_dec i n then inr (nth (Z.to_nat i) l 0) else inl IndexError)
  else if Z_le_dec (- n) i then inr (nth (Z.to_nat (n + i)) l 0) else inl IndexError.

(** [l[-k:]]: the last [k] elements (all of them when there are fewer). *)
Definition py_slice_last {A} (k : nat) (l : list A) : list A := skipn (length l - k) l.

Lemma py_last_In l x : py_last l = inr x -> In x l.
Proof.
  destruct l as [|y t]; [discriminate|]. intros H. injection H as <-.
  destruct t as [|a t' _] using rev_ind; [left; reflexivity|].
  rewrite last_last. right. apply in_or_app. right. left. reflexivity.
Qed.

Lemma py_last_ok l : l <> [] -> exists x, py_last l = inr x.
Proof. destruct l; [contradiction|]. intros _. eexists. reflexivity. Qed.

Lemma py_min_ok l : l <> [] -> exists x, py_min l = inr x.
Proof. destruct l; [contradiction|]. intros _. eexists. reflexivity. Qed.

Lemma py_max_ok l : l <> [] -> exists x, py_max l = inr x.
Proof. destruct l; [contradiction|]. intros _. eexists. reflexivity. Qed.

Lemma Forall_r_sort (P : R -> Prop) l : Forall P l -> Forall P (r_sort l).
Proof.
  rewrite !Forall_forall. intros H x Hx. apply H. apply (Permutation_in x (Permutation_sym (r_sort_perm l)) Hx).
Qed.

(** The median of an array whose values all equal [b] is [b]. *)
Lemma np_median_const l b : Forall (fun x => x = b) l -> l <> [] -> np_median l = b.
Proof.
  intros Hall Hne. pose proof (Forall_r_sort _ l Hall) as Hs. rewrite Forall_forall in Hs.
  assert (Hn : (0 < length (r_sort l))%nat) by (rewrite r_sort_length; destruct l; [contradiction|simpl; lia]).
  assert (Hnth : forall k, (k < length (r_sort l))%nat -> nth k (r_sort l) 0 = b) by (intros k Hk; apply Hs, nth_In, Hk).
  unfold np_median. destruct (Nat.even _).
  - assert (Hd : (length (r_sort l) / 2 < length (r_sort l))%nat) by (apply Nat.div_lt; lia).
    rewrite !Hnth by lia. field.
  - apply Hnth, Nat.div_lt; lia.
Qed.

Lemma np_std_nonneg a : 0 <= np_std a.
Proof. apply sqrt_pos. Qed.

Lemma np_std_sq a : np_std a ^ 2 = rvar a.
Proof. unfold np_std. rewrite <- Rsqr_pow2. apply Rsqr_sqrt, rvar_nonneg. Qed.

Lemma py_index_in l i :
  (0 <= i < Z.of_nat (length l))%Z -> py_index l i = inr (nth (Z.to_nat i) l 0).
Proof.
  intros [H0 H1]. unfold py_index. destruct (Z_le_dec 0 i) as [_|]; [|lia].
  destruct (Z_lt_dec i _) as [_|]; [reflexivity|lia].
Qed.

Lemma py_int_range x : 0 <= x -> (0 <= py_int x)%Z /\ IZR (py_int x) <= x.
Proof.
  intros Hx. unfold py_int. destruct (Rle_dec 0 x) as [_|]; [|lra].
  unfold Int_part. destruct (archimed x) as [Hup _]. split.
  - assert (0 < up x)%Z by (apply lt_IZR; lra). lia.
  - destruct (archimed x) as [_ Hup']. rewrite minus_IZR. lra.
Qed.
