(* ===== verification/Mat2.v ===== *)
(** Two-by-two real matrices and two-vectors, the shapes of the Kalman
    filter of [kalman_filter.py] ([dim_x = 2], [dim_z = 1]): products,
    transposes, the outer product of two vectors, the quadratic form
    [v^T A v], and positive semi-definiteness with the lemmas that a
    congruence [F P F^T] and a sum keep it. *)

From Stdlib Require Import Reals Lra.
Open Scope R_scope.

Record v2 : Type := V2 { v0 : R; v1 : R }.
Record m22 : Type := M22 { a00 : R; a01 : R; a10 : R; a11 : R }.

Definition eye2 : m22 := M22 1 0 0 1.
Definition mscale (c : R) (A : m22) : m22 := M22 (c * a00 A) (c * a01 A) (c * a10 A) (c * a11 A).
Definition madd (A B : m22) : m22 :=
  M22 (a00 A + a00 B) (a01 A + a01 B) (a10 A + a10 B) (a11 A + a11 B).
Definition msub (A B : m22) : m22 :=
  M22 (a00 A - a00 B) (a01 A - a01 B) (a10 A - a10 B) (a11 A - a11 B).
Definition mt (A : m22) : m22 := M22 (a00 A) (a10 A) (a01 A) (a11 A).
Definition mm (A B : m22) : m22 :=
  M22 (a00 A * a00 B + a01 A * a10 B) (a00 A * a01 B + a01 A * a11 B)
      (a10 A * a00 B + a11 A * a10 B) (a10 A * a01 B + a11 A * a11 B).
(** [A @ x] for a column vector [x]. *)
Definition mv (A : m22) (x : v2) : v2 := V2 (a00 A * v0 x + a01 A * v1 x) (a10 A * v0 x + a11 A * v1 x).
Definition vadd (x y : v2) : v2 := V2 (v0 x + v0 y) (v1 x + v1 y).
Definition vscale (c : R) (x : v2) : v2 := V2 (c * v0 x) (c * v1 x).
(** [h @ x] for a row vector [h] (a [1 x 2] matrix). *)
Definition dot (h x : v2) : R := v0 h * v0 x + v1 h * v1 x.
(** [k @ h] for a column [k] and a row [h]. *)
Definition outer (k h : v2) : m22 := M22 (v0 k * v0 h) (v0 k * v1 h) (v1 k * v0 h) (v1 k * v1 h).

(** The quadratic form [v^T A v]. *)
Definition quad (A : m22) (v : v2) : R :=
  v0 v * (a00 A * v0 v + a01 A * v1 v) + v1 v * (a10 A * v0 v + a11 A * v1 v).

Definition symmetric (A : m22) : Prop := a01 A = a10 A.
Definition psd (A : m22) : Prop := symmetric A /\ forall v, 0 <= quad A v.

Lemma quad_congr F P v : quad (mm (mm F P) (mt F)) v = quad P (mv (mt F) v).
Proof. destruct F, P, v; unfold quad, mm, mt, mv; simpl; ring. Qed.

Lemma quad_add A B v : quad (madd A B) v = quad A v + quad B v.
Proof. destruct A, B, v; unfold quad, madd; simpl; ring. Qed.

Lemma quad_outer_scale r k v : quad (mscale r (outer k k)) v = r * (dot k v) ^ 2.
Proof. destruct k, v; unfold quad, mscale, outer, dot; simpl; ring. Qed.

Lemma psd_congr F P : psd P -> psd (mm (mm F P) (mt F)).
Proof.
  intros [Hs Hq]. split.
  - destruct F, P; unfold symmetric, mm, mt in *; simpl in *. rewrite Hs. ring.
  - intros v. rewrite quad_congr. apply Hq.
Qed.

Lemma psd_add A B : psd A -> psd B -> psd (madd A B).
Proof.
  intros [HsA HqA] [HsB HqB]. split.
  - unfold symmetric, madd in *; simpl. rewrite HsA, HsB. reflexivity.
  - intros v. rewrite quad_add. specialize (HqA v). specialize (HqB v). lra.
Qed.

Lemma psd_outer_scale r k : 0 <= r -> psd (mscale r (outer k k)).
Proof.
  intros Hr. split; [unfold symmetric, mscale, outer; simpl; ring|].
  intros v. rewrite quad_outer_scale. apply Rmult_le_pos; [exact Hr|apply pow2_ge_0].
Qed.

Lemma psd_diag A : psd A -> 0 <= a00 A /\ 0 <= a11 A.
Proof.
  intros [_ Hq]. split.
  - specialize (Hq (V2 1 0)). unfold quad in Hq; simpl in Hq. lra.
  - specialize (Hq (V2 0 1)). unfold quad in Hq; simpl in Hq. lra.
Qed.

Lemma psd_scale c A : 0 <= c -> psd A -> psd (mscale c A).
Proof.
  intros Hc [Hs Hq]. split; [unfold symmetric, mscale in *; simpl; rewrite Hs; reflexivity|].
  intros v. specialize (Hq v).
  replace (quad (mscale c A) v) with (c * quad A v) by (unfold quad, mscale; simpl; ring).
  apply Rmult_le_pos; assumption.
Qed.
