(* ===== verification/Kalman.v ===== *)
(** Model of [algorithms/scientific/kalman_filter.py]: the class
    [WeatherKalmanFilter] (constructor, [configure], [filter_data],
    [forecast]) around filterpy's [KalmanFilter], and the entry point
    [run_filter].  filterpy 1.4.5 is a library the source calls: its
    [KalmanFilter.__init__], [predict] and [update] (Joseph-form covariance
    update, [np.linalg.inv] of the innovation covariance) are modelled for
    [dim_x = 2], [dim_z = 1] in the module [FilterPy].  The filter object is
    the state of the monad [PyM]. *)

From Stdlib Require Import String.
From Stdlib Require Import List Arith ZArith Lia Reals Lra.
From S2P Require Import Prelude RNum Mat2.
Import ListNotations.
Open Scope R_scope.

Module FilterPy.

(** The attributes of a [KalmanFilter(dim_x=2, dim_z=1)] the code reads or
    writes: [x], [P], [Q], [R] (a [1 x 1] matrix, its entry here), [F],
    [H] (a [1 x 2] row) and the gain [K] (a [2 x 1] column). *)
Record kf : Type := mk_kf { kx : v2; kP : m22; kQ : m22; kR : R; kF : m22; kH : v2; kK : v2 }.

(** [KalmanFilter.__init__]: [x = zeros], [P = Q = F = eye], [R = eye(1)],
    [H = zeros], [K = zeros]. *)
Definition kf_init : kf := mk_kf (V2 0 0) eye2 eye2 1 eye2 (V2 0 0) (V2 0 0).

(** [self._alpha_sq], the fading-memory factor, [1.] by default. *)
Definition alpha_sq : R := 1.

(** [predict()]: [x = F x], [P = alpha_sq * F P F^T + Q]. *)
Definition predict : PyM kf unit :=
  py_modify (fun s =>
    mk_kf (mv (kF s) (kx s)) (madd (mscale alpha_sq (mm (mm (kF s) (kP s)) (mt (kF s)))) (kQ s))
          (kQ s) (kR s) (kF s) (kH s) (kK s)).

(** [update(z)]: innovation [y = z - H x], [S = H P H^T + R], [K = P H^T S^-1]
    ([np.linalg.inv] raises on the singular [S = 0] before [K], [x] and [P]
    are assigned), [x = x + K y], and the Joseph form
    [P = (I - K H) P (I - K H)^T + K R K^T]. *)
Definition update (z : R) : PyM kf unit :=
  fun s =>
    let y := z - dot (kH s) (kx s) in
    let PHT := mv (kP s) (kH s) in
    let S := dot (kH s) PHT + kR s in
    if Req_EM_T S 0 then (inl (LinAlgError "Singular matrix"), s) else
    let K := vscale (/ S) PHT in
    let I_KH := msub eye2 (outer K (kH s)) in
    (inr tt, mk_kf (vadd (kx s) (vscale y K))
                   (madd (mm (mm I_KH (kP s)) (mt I_KH)) (mscale (kR s) (outer K K)))
                   (kQ s) (kR s) (kF s) (kH s) K).

End FilterPy.

Module WeatherKF.
Import FilterPy.

(** The constant-velocity transition [[1, 1], [0, 1]]. *)
Definition F_cv : m22 := M22 1 1 0 1.
(** The measurement row [[1, 0]]. *)
Definition H_pos : v2 := V2 1 0.

(** [WeatherKalmanFilter.__init__] (default [dim_x = 2], [dim_z = 1]):
    [F], [H], [P *= 1000], [x = [[0], [0]]]. *)
Definition init : kf :=
  let k := kf_init in
  mk_kf (V2 0 0) (mscale 1000 (kP k)) (kQ k) (kR k) F_cv H_pos (kK k).

(** [configure]: [Q = [[0.25, 0.5], [0.5, 1.0]] * process_noise],
    [R = [[measurement_noise]]]. *)
Definition Q_unit : m22 := M22 (1 / 4) (1 / 2) (1 / 2) 1.

Definition configure (process_noise measurement_noise : R) : PyM kf unit :=
  py_modify (fun s => mk_kf (kx s) (kP s) (mscale process_noise Q_unit) measurement_noise
                            (kF s) (kH s) (kK s)).

(** What one iteration of the loop of [filter_data] appends. *)
Record step_out : Type := mk_step
  { st_filtered : R; st_velocity : R; st_gain : R; st_uncertainty : R; st_innovation : R }.

(** One iteration: predict, the innovation [z - H x], update, then the
    entries [x[0,0]], [x[1,0]], [K[0,0]], [P[0,0]]. *)
Definition filter_step (z : R) : PyM kf step_out :=
  (predict ;;
   s <- py_get ;;
   let innovation := z - dot (kH s) (kx s) in
   update z ;;
   s' <- py_get ;;
   py_ret (mk_step (v0 (kx s')) (v1 (kx s')) (v0 (kK s')) (a00 (kP s')) innovation))%py.

Fixpoint filter_loop (obs : list R) : PyM kf (list step_out) :=
  match obs with
  | [] => py_ret []
  | z :: zs => (o <- filter_step z ;; os <- filter_loop zs ;; py_ret (o :: os))%py
  end.

Record filter_result : Type := mk_filter_result
  { filtered : list R; velocities : list R; kalman_gains : list R;
    uncertainties : list R; innovations : list R;
    final_state : R * R; final_covariance : m22 }.

(** [filter_data]: [observations[0]] raises [IndexError] on an empty list;
    the state is reset to [[obs[0]], [0]] and the loop runs over all the
    observations. *)
Definition filter_data (observations : list R) : PyM kf filter_result :=
  match observations with
  | [] => py_raise IndexError
  | o0 :: _ =>
      (py_modify (fun s => mk_kf (V2 o0 0) (kP s) (kQ s) (kR s) (kF s) (kH s) (kK s)) ;;
       outs <- filter_loop observations ;;
       s <- py_get ;;
       py_ret (mk_filter_result (map st_filtered outs) (map st_velocity outs) (map st_gain outs)
                 (map st_uncertainty outs) (map st_innovation outs)
                 (v0 (kx s), v1 (kx s)) (kP s)))%py
  end.

Fixpoint forecast_loop (steps : nat) : PyM kf (list R) :=
  match steps with
  | O => py_ret []
  | S n => (predict ;; s <- py_get ;; rest <- forecast_loop n ;; py_ret (v0 (kx s) :: rest))%py
  end.

(** [forecast]: back up [x] and [P], iterate [predict], restore them. *)
Definition forecast (steps : nat) : PyM kf (list R) :=
  (s <- py_get ;;
   let x_backup := kx s in
   let P_backup := kP s in
   forecasts <- forecast_loop steps ;;
   py_modify (fun s' => mk_kf x_backup P_backup (kQ s') (kR s') (kF s') (kH s') (kK s')) ;;
   py_ret forecasts)%py.

End WeatherKF.

Module KalmanReport.
Import FilterPy WeatherKF.

(** The dictionary returned by [run_filter]; the constant description
    entries ([algorithm], [library], [version], [reference],
    [mathematical_formulation]) are left out. *)
Record report : Type := mk_report
  { data_points : nat; in_process_noise : R; in_measurement_noise : R;
    data_min : R; data_max : R; data_mean : R;
    filtered_all : list R; filtered_last_10 : list R; forecast_7_days : list R;
    velocities_last_5 : list R; out_final_state : R * R;
    avg_kalman_gain : R; final_kalman_gain : R; final_uncertainty : R; avg_innovation : R;
    noise_reduction_percent : R; rmse : R; signal_to_noise_improvement : R }.

(** [run_filter]: at least three points, a fresh configured filter,
    [filter_data], a 7-step [forecast] on the filter state it leaves, then
    the metrics in the order the dictionary evaluates them. *)
Definition run_filter (data : list R) (process_noise measurement_noise : R) : py_exn + report :=
  if Nat.ltb (length data) 3 then inl (ValueError "At least 3 data points required"%string) else
  let '(_, s1) := configure process_noise measurement_noise init in
  match filter_data data s1 with
  | (inl e, _) => inl e
  | (inr result, s2) =>
      match forecast 7 s2 with
      | (inl e, _) => inl e
      | (inr fc, _) =>
          let original_variance := rvar data in
          let filtered_variance := rvar (filtered result) in
          let noise_reduction :=
            if Rlt_dec 0 original_variance then (1 - filtered_variance / original_variance) * 100 else 0 in
          let rmse := sqrt (rmean (map (fun d => d ^ 2) (zip_with Rminus data (filtered result)))) in
          let avg_innovation := rmean (map Rabs (innovations result)) in
          match py_min data, py_max data, py_last (kalman_gains result), py_last (uncertainties result) with
          | inl e, _, _, _ | _, inl e, _, _ | _, _, inl e, _ | _, _, _, inl e => inl e
          | inr mn, inr mx, inr g_last, inr u_last =>
              inr (mk_report (length data) process_noise measurement_noise mn mx (rmean data)
                     (filtered result) (py_slice_last 10 (filtered result)) fc
                     (py_slice_last 5 (velocities result)) (final_state result)
                     (rmean (kalman_gains result)) g_last u_last avg_innovation
                     (py_round (Rmax 0 noise_reduction) 2) (py_round rmse 4)
                     (py_round (if Rlt_dec 0 filtered_variance then original_variance / filtered_variance else 1) 2))
          end
      end
  end.

End KalmanReport.

(** ** The filter invariant *)

Module KalmanFacts.
Import FilterPy WeatherKF KalmanReport.

(** The covariances are symmetric positive semi-definite and the
    measurement noise is positive. *)
Definition kf_inv (s : kf) : Prop := psd (kP s) /\ psd (kQ s) /\ 0 < kR s.

(** The shape [WeatherKalmanFilter] gives the filter. *)
Definition wkf_inv (s : kf) : Prop := kf_inv s /\ kF s = F_cv /\ kH s = H_pos.

Definition predicted (s : kf) : kf :=
  mk_kf (mv (kF s) (kx s)) (madd (mscale alpha_sq (mm (mm (kF s) (kP s)) (mt (kF s)))) (kQ s))
        (kQ s) (kR s) (kF s) (kH s) (kK s).

Lemma predict_run s : predict s = (inr tt, predicted s).
Proof. reflexivity. Qed.

Lemma predicted_inv s : kf_inv s -> kf_inv (predicted s).
Proof.
  intros [HP [HQ Hr]]. split; [|split; [exact HQ|exact Hr]].
  apply psd_add; [apply psd_scale; [unfold alpha_sq; lra|apply psd_congr, HP]|exact HQ].
Qed.

Lemma quad_dot P h : quad P h = dot h (mv P h).
Proof. unfold quad, dot, mv. simpl. ring. Qed.

(** The innovation covariance [S = H P H^T + R] is positive. *)
Lemma innovation_cov_pos s : kf_inv s -> 0 < dot (kH s) (mv (kP s) (kH s)) + kR s.
Proof.
  intros [[_ HP] [_ Hr]]. rewrite <- quad_dot. specialize (HP (kH s)). lra.
Qed.

Definition updated (z : R) (s : kf) : kf :=
  let S := dot (kH s) (mv (kP s) (kH s)) + kR s in
  let K := vscale (/ S) (mv (kP s) (kH s)) in
  let I_KH := msub eye2 (outer K (kH s)) in
  mk_kf (vadd (kx s) (vscale (z - dot (kH s) (kx s)) K))
        (madd (mm (mm I_KH (kP s)) (mt I_KH)) (mscale (kR s) (outer K K)))
        (kQ s) (kR s) (kF s) (kH s) K.

Lemma update_run z s : kf_inv s -> update z s = (inr tt, updated z s).
Proof.
  intros Hinv. pose proof (innovation_cov_pos s Hinv) as HS. unfold update.
  destruct (Req_EM_T _ 0) as [E|_]; [lra|reflexivity].
Qed.

Lemma updated_inv z s : kf_inv s -> kf_inv (updated z s).
Proof.
  intros Hinv. pose proof Hinv as [HP [HQ Hr]]. split; [|split; [exact HQ|exact Hr]].
  apply psd_add; [apply psd_congr, HP|apply psd_outer_scale; lra].
Qed.

Lemma wkf_predicted s : wkf_inv s -> wkf_inv (predicted s).
Proof. intros [H1 [H2 H3]]. split; [apply predicted_inv, H1|split; assumption]. Qed.

Lemma wkf_updated z s : wkf_inv s -> wkf_inv (updated z s).
Proof. intros [H1 [H2 H3]]. split; [apply updated_inv, H1|split; assumption]. Qed.

Lemma mv_H_pos P : mv P H_pos = V2 (a00 P) (a10 P).
Proof. unfold mv, H_pos. simpl. f_equal; ring. Qed.

Lemma dot_H_pos x : dot H_pos x = v0 x.
Proof. unfold dot, H_pos. simpl. ring. Qed.

(** With [H = [1, 0]] the gain is [P H^T / (P00 + R)]. *)
Lemma updated_gain z s :
  kH s = H_pos -> kK (updated z s) = V2 (a00 (kP s) / (a00 (kP s) + kR s)) (a10 (kP s) / (a00 (kP s) + kR s)).
Proof.
  intros Hh. unfold updated. rewrite Hh, mv_H_pos, !dot_H_pos. unfold vscale. simpl. f_equal; unfold Rdiv; ring.
Qed.

(** ... the filtered position moves the prediction towards the
    measurement by the gain ... *)
Lemma updated_x0 z s :
  kH s = H_pos -> v0 (kx (updated z s)) = v0 (kx s) + v0 (kK (updated z s)) * (z - v0 (kx s)).
Proof. intros Hh. rewrite (updated_gain z s Hh). unfold updated. rewrite Hh, mv_H_pos, !dot_H_pos. simpl. unfold Rdiv. ring. Qed.

(** ... and the posterior position variance is [P00 R / (P00 + R)]. *)
Lemma updated_P00 z s :
  kH s = H_pos -> symmetric (kP s) -> 0 < a00 (kP s) + kR s ->
  a00 (kP (updated z s)) = a00 (kP s) * kR s / (a00 (kP s) + kR s).
Proof.
  intros Hh Hs HS. unfold updated. rewrite Hh, mv_H_pos, !dot_H_pos.
  destruct (kP s) as [p00 p01 p10 p11]. unfold symmetric in Hs. simpl in *.
  unfold madd, mm, mt, msub, mscale, outer, eye2, vscale, H_pos. simpl. field. lra.
Qed.

Lemma gain_range p r : 0 <= p -> 0 < r -> 0 <= p / (p + r) < 1.
Proof.
  intros Hp Hr. split; [apply Rdiv_nonneg; lra|].
  apply Rmult_lt_reg_r with (p + r); [lra|]. unfold Rdiv. rewrite Rmult_assoc, Rinv_l by lra. lra.
Qed.

Lemma posterior_var_range p r : 0 <= p -> 0 < r -> 0 <= p * r / (p + r) <= r.
Proof.
  intros Hp Hr. split; [apply Rdiv_nonneg; nra|].
  apply Rmult_le_reg_r with (p + r); [lra|]. unfold Rdiv. rewrite Rmult_assoc, Rinv_l by lra. nra.
Qed.

(** What one step of [filter_data] guarantees: a gain in [[0, 1)], a
    position variance in [[0, R]], and a filtered position that moves the
    measurement back towards the prediction by [1 - gain] of the
    innovation. *)
Definition step_prop (r z : R) (o : step_out) : Prop :=
  0 <= st_gain o < 1 /\ 0 <= st_uncertainty o <= r /\
  st_filtered o = z - (1 - st_gain o) * st_innovation o.

Lemma filter_step_run z s :
  wkf_inv s ->
  filter_step z s =
    (inr (mk_step (v0 (kx (updated z (predicted s)))) (v1 (kx (updated z (predicted s))))
            (v0 (kK (updated z (predicted s)))) (a00 (kP (updated z (predicted s))))
            (z - dot (kH (predicted s)) (kx (predicted s)))),
     updated z (predicted s)).
Proof.
  intros Hw. destruct (wkf_predicted s Hw) as [Hp _].
  cbv [filter_step py_bind py_get py_ret]. rewrite predict_run, (update_run z _ Hp). reflexivity.
Qed.

Lemma filter_step_prop z s :
  wkf_inv s -> step_prop (kR s) z
    (mk_step (v0 (kx (updated z (predicted s)))) (v1 (kx (updated z (predicted s))))
       (v0 (kK (updated z (predicted s)))) (a00 (kP (updated z (predicted s))))
       (z - dot (kH (predicted s)) (kx (predicted s)))).
Proof.
  intros Hw. destruct (wkf_predicted s Hw) as [[[HPs HPq] [_ Hr]] [_ Hh]].
  pose proof (psd_diag _ (conj HPs HPq)) as [Hp00 _].
  change (kR s) with (kR (predicted s)) in *. unfold step_prop. cbn [st_gain st_uncertainty st_filtered st_innovation].
  rewrite (updated_gain z _ Hh), (updated_P00 z _ Hh HPs) by lra. cbn [v0].
  split; [apply gain_range; assumption|]. split; [apply posterior_var_range; assumption|].
  rewrite (updated_x0 z _ Hh), (updated_gain z _ Hh), Hh, dot_H_pos. cbn [v0]. ring.
Qed.

Lemma filter_loop_run obs s :
  wkf_inv s ->
  exists outs s', filter_loop obs s = (inr outs, s') /\ wkf_inv s' /\ kR s' = kR s /\
    Forall2 (step_prop (kR s)) obs outs.
Proof.
  revert s. induction obs as [|z zs IH]; intros s Hw.
  - exists [], s. split; [reflexivity|]. split; [exact Hw|]. split; [reflexivity|constructor].
  - destruct (IH _ (wkf_updated z _ (wkf_predicted s Hw))) as [outs [s' [Hrun [Hw' [Hr' Hall]]]]].
    eexists _, s'. cbn [filter_loop]. unfold py_bind at 1. rewrite (filter_step_run z s Hw).
    unfold py_bind. rewrite Hrun. split; [reflexivity|]. split; [exact Hw'|]. split; [exact Hr'|].
    constructor; [apply filter_step_prop, Hw|exact Hall].
Qed.


Lemma filter_data_run obs s :
  wkf_inv s -> obs <> [] ->
  exists outs s', filter_data obs s =
    (inr (mk_filter_result (map st_filtered outs) (map st_velocity outs) (map st_gain outs)
            (map st_uncertainty outs) (map st_innovation outs) (v0 (kx s'), v1 (kx s')) (kP s')), s') /\
    wkf_inv s' /\ Forall2 (step_prop (kR s)) obs outs.
Proof.
  intros Hw Hne. destruct obs as [|o0 rest]; [contradiction|].
  set (s0 := mk_kf (V2 o0 0) (kP s) (kQ s) (kR s) (kF s) (kH s) (kK s)).
  assert (Hw0 : wkf_inv s0) by exact Hw.
  destruct (filter_loop_run (o0 :: rest) s0 Hw0) as [outs [s' [Hrun [Hw' [_ Hall]]]]].
  exists outs, s'. cbv [filter_data py_bind py_modify py_get py_ret]. fold s0. rewrite Hrun.
  split; [reflexivity|]. split; [exact Hw'|exact Hall].
Qed.

(** on a filter of the shape [WeatherKalmanFilter] gives it, with
    symmetric positive semi-definite covariances and a positive
    measurement noise [R], [filter_data] on a non-empty series succeeds
    (no singular innovation covariance), keeps the invariant, returns one
    filtered value per observation, every Kalman gain in [[0, 1)] and every
    reported uncertainty [P[0,0]] in [[0, R]]. *)
Theorem filter_data_bounded obs s :
  wkf_inv s -> obs <> [] ->
  exists res s', filter_data obs s = (inr res, s') /\ wkf_inv s' /\
    length (filtered res) = length obs /\
    Forall (fun g => 0 <= g < 1) (kalman_gains res) /\
    Forall (fun u => 0 <= u <= kR s) (uncertainties res).
Proof.
  intros Hw Hne. destruct (filter_data_run obs s Hw Hne) as [outs [s' [Hrun [Hw' Hall]]]].
  eexists _, s'. split; [exact Hrun|]. split; [exact Hw'|]. cbn [filtered kalman_gains uncertainties].
  split; [rewrite length_map; symmetry; exact (Forall2_length Hall)|].
  split; apply Forall_map; apply Forall_forall; intros o Ho;
    destruct (Forall2_In_r _ _ _ _ Hall Ho) as [z [_ [Hg [Hu _]]]]; assumption.
Qed.

(** each filtered position [f] is the measurement [z] moved back
    towards the prediction by [1 - g] of the innovation [y]:
    [f = z - (1 - g) * y], so it lies between the prediction and the
    measurement and [|f - z| <= |y|]. *)
Theorem filter_data_tracks_measurement obs s :
  wkf_inv s -> obs <> [] ->
  exists res s', filter_data obs s = (inr res, s') /\
    forall i z, nth_error obs i = Some z ->
      exists f g y, nth_error (filtered res) i = Some f /\ nth_error (kalman_gains res) i = Some g /\
        nth_error (innovations res) i = Some y /\ f = z - (1 - g) * y /\ Rabs (f - z) <= Rabs y.
Proof.
  intros Hw Hne. destruct (filter_data_run obs s Hw Hne) as [outs [s' [Hrun [_ Hall]]]].
  eexists _, s'. split; [exact Hrun|]. intros i z Hz.
  destruct (Forall2_nth_error_l _ _ _ _ _ Hall Hz) as [o [Ho [[Hg0 Hg1] [_ Hf]]]].
  exists (st_filtered o), (st_gain o), (st_innovation o). cbn [filtered kalman_gains innovations].
  rewrite !nth_error_map, Ho. do 3 (split; [reflexivity|]). split; [exact Hf|].
  rewrite Hf. replace (z - (1 - st_gain o) * st_innovation o - z) with (- ((1 - st_gain o) * st_innovation o)) by ring.
  rewrite Rabs_Ropp, Rabs_mult, (Rabs_pos_eq (1 - st_gain o)) by lra.
  pose proof (Rabs_pos (st_innovation o)). nra.
Qed.

(** C21: the contract of [filter_data] on the filter [WeatherKalmanFilter]
    builds (positive semi-definite covariances, positive measurement noise
    [R]): on a non-empty series it succeeds and keeps that invariant,
    returns one filtered value per measurement, gains in [[0, 1)] and
    uncertainties in [[0, R]]; and each filtered value is the measurement
    moved back by [(1 - gain)] times the innovation, so it is never
    further from the measurement than the innovation. *)
Theorem filter_data_contract obs s :
  wkf_inv s -> obs <> [] ->
  (exists res s', filter_data obs s = (inr res, s') /\ wkf_inv s' /\
    length (filtered res) = length obs /\
    Forall (fun g => 0 <= g < 1) (kalman_gains res) /\
    Forall (fun u => 0 <= u <= kR s) (uncertainties res)) /\
  (exists res s', filter_data obs s = (inr res, s') /\
    forall i z, nth_error obs i = Some z ->
      exists f g y, nth_error (filtered res) i = Some f /\ nth_error (kalman_gains res) i = Some g /\
        nth_error (innovations res) i = Some y /\ f = z - (1 - g) * y /\ Rabs (f - z) <= Rabs y).
Proof.
  intros Hs Hne. split; [exact (filter_data_bounded obs s Hs Hne)|].
  exact (filter_data_tracks_measurement obs s Hs Hne).
Qed.


(** ** [forecast] *)

Lemma mv_F_cv x : mv F_cv x = V2 (v0 x + v1 x) (v1 x).
Proof. unfold mv, F_cv. simpl. f_equal; ring. Qed.

Lemma forecast_loop_run n s :
  kF s = F_cv ->
  exists s', forecast_loop n s = (inr (map (fun i => v0 (kx s) + INR i * v1 (kx s)) (seq 1 n)), s') /\
    kQ s' = kQ s /\ kR s' = kR s /\ kF s' = kF s /\ kH s' = kH s /\ kK s' = kK s.
Proof.
  revert s. induction n as [|n IH]; intros s HF; [exists s; repeat split|].
  destruct (IH (predicted s) HF) as [s' [Hrun Heq]].
  exists s'. cbn [forecast_loop]. cbv [py_bind py_get py_ret]. rewrite predict_run. cbv beta iota. rewrite Hrun.
  split; [|exact Heq]. unfold predicted at 1 2 3. cbn [kx]. rewrite HF, mv_F_cv. cbn [v0 v1].
  change (seq 1 (S n)) with (1%nat :: seq 2 n). rewrite <- (seq_shift n 1).
  cbn [map]. rewrite map_map. apply (f_equal (fun l => (inr l, s'))). f_equal; [simpl; ring|].
  apply map_ext. intros i. rewrite S_INR. ring.
Qed.

Lemma forecast_run steps s :
  kF s = F_cv -> forecast steps s = (inr (map (fun i => v0 (kx s) + INR i * v1 (kx s)) (seq 1 steps)), s).
Proof.
  intros HF. destruct (forecast_loop_run steps s HF) as [s' [Hrun [HQ [HR [HF' [HH HK]]]]]].
  cbv [forecast py_bind py_get py_ret py_modify]. rewrite Hrun. f_equal.
  rewrite HQ, HR, HF', HH, HK. destruct s; reflexivity.
Qed.

(** [forecast] leaves the filter exactly as it found it and, with the
    constant-velocity transition, returns the linear extrapolation
    [x + k v] of the current position [x] and velocity [v] for
    [k = 1 .. steps]. *)
Theorem forecast_linear_restores steps s :
  kF s = F_cv ->
  forecast steps s = (inr (map (fun i => v0 (kx s) + INR i * v1 (kx s)) (seq 1 steps)), s).
Proof. apply forecast_run. Qed.

(** ** A constant series *)

Lemma constant_step c s :
  wkf_inv s -> kx s = V2 c 0 ->
  kx (updated c (predicted s)) = V2 c 0 /\ c - dot (kH (predicted s)) (kx (predicted s)) = 0.
Proof.
  intros [_ [HF Hh]] Hx.
  assert (Hp : kx (predicted s) = V2 c 0) by (cbn [predicted kx]; rewrite HF, Hx, mv_F_cv; cbn; f_equal; ring).
  assert (Hi : c - dot (kH (predicted s)) (kx (predicted s)) = 0)
    by (rewrite Hp; cbn [predicted kH]; rewrite Hh, dot_H_pos; cbn; ring).
  split; [|exact Hi]. unfold updated at 1. cbn [kx]. rewrite Hi, Hp. unfold vadd, vscale. cbn. f_equal; ring.
Qed.

Lemma constant_loop c n s :
  wkf_inv s -> kx s = V2 c 0 ->
  exists outs s', filter_loop (repeat c n) s = (inr outs, s') /\ length outs = n /\
    Forall (fun o => st_filtered o = c /\ st_velocity o = 0 /\ st_innovation o = 0) outs.
Proof.
  revert s. induction n as [|n IH]; intros s Hw Hx; [exists [], s; repeat constructor|].
  destruct (constant_step c s Hw Hx) as [Hx' Hi].
  destruct (IH _ (wkf_updated c _ (wkf_predicted s Hw)) Hx') as [outs [s' [Hrun [Hl Hall]]]].
  eexists _, s'. cbn [repeat filter_loop]. unfold py_bind at 1. rewrite (filter_step_run c s Hw).
  unfold py_bind. rewrite Hrun. split; [reflexivity|]. split; [cbn; rewrite Hl; reflexivity|].
  constructor; [|exact Hall]. cbn [st_filtered st_velocity st_innovation]. rewrite Hx', Hi. cbn. auto.
Qed.

(** On a constant series [c, c, ..., c] the filter starts at
    [[c], [0]] and never moves: every filtered value is [c], every velocity
    and every innovation [0]. *)
Theorem filter_data_constant c n s :
  wkf_inv s -> (0 < n)%nat ->
  exists res s', filter_data (repeat c n) s = (inr res, s') /\
    filtered res = repeat c n /\ velocities res = repeat 0 n /\ innovations res = repeat 0 n.
Proof.
  intros Hw Hn. destruct n as [|n]; [lia|].
  set (s0 := mk_kf (V2 c 0) (kP s) (kQ s) (kR s) (kF s) (kH s) (kK s)).
  destruct (constant_loop c (S n) s0 Hw eq_refl) as [outs [s' [Hrun [Hl Hall]]]].
  eexists _, s'. cbv [filter_data py_bind py_modify py_get py_ret]. cbn [repeat]. fold s0.
  change (c :: repeat c n) with (repeat c (S n)). rewrite Hrun. split; [reflexivity|].
  assert (Hconst : forall (f : step_out -> R) b, (forall o, st_filtered o = c /\ st_velocity o = 0 /\ st_innovation o = 0 -> f o = b) ->
            map f outs = repeat b (S n)).
  { intros f b Hfb. rewrite <- Hl. apply map_Forall_const. eapply Forall_impl; [exact Hfb|exact Hall]. }
  cbn [filtered velocities innovations].
  split; [|split]; apply Hconst; tauto.
Qed.

(** ** [run_filter] *)

Lemma configured_inv q r :
  0 <= q -> 0 < r -> wkf_inv (snd (configure q r init)).
Proof.
  intros Hq Hr. split; [|split; reflexivity]. split; [|split; [|exact Hr]].
  - apply psd_scale; [lra|]. split; [reflexivity|]. intros v. unfold quad, eye2. cbn.
    pose proof (pow2_ge_0 (v0 v)). pose proof (pow2_ge_0 (v1 v)). nra.
  - apply psd_scale; [exact Hq|]. split; [reflexivity|]. intros v. unfold quad, Q_unit. cbn.
    pose proof (pow2_ge_0 (v0 v / 2 + v1 v)). nra.
Qed.

Lemma step_prop_in_map r obs outs (f : step_out -> R) x (P : R -> Prop) :
  Forall2 (step_prop r) obs outs -> (forall z o, step_prop r z o -> P (f o)) -> In x (map f outs) -> P x.
Proof.
  intros Hall HP Hx. apply in_map_iff in Hx as [o [<- Ho]].
  destruct (Forall2_In_r _ _ _ _ Hall Ho) as [z [_ Hzo]]. exact (HP z o Hzo).
Qed.

(** C32: the contract of [run_filter]: on fewer than three points it
    raises [ValueError("At least 3 data points required")]; with a
    non-negative process noise and a positive measurement noise it
    succeeds on at least three points, filters every point, its 7-day
    forecast is the linear extrapolation of the final position and
    velocity, the final Kalman gain is in [[0, 1)] and the final
    uncertainty in [[0, measurement_noise]]. *)
Theorem run_filter_contract data q r :
  ((length data < 3)%nat -> run_filter data q r = inl (ValueError "At least 3 data points required"%string)) /\
  (0 <= q -> 0 < r -> (3 <= length data)%nat ->
  exists rep, run_filter data q r = inr rep /\
    length (filtered_all rep) = length data /\
    forecast_7_days rep =
      map (fun i => fst (out_final_state rep) + INR i * snd (out_final_state rep)) (seq 1 7) /\
    0 <= final_kalman_gain rep < 1 /\ 0 <= final_uncertainty rep <= r).
Proof.
  split; [intros H; unfold run_filter; apply Nat.ltb_lt in H; rewrite H; reflexivity|].
  intros Hq Hr Hn. assert (Hne : data <> []) by (intros ->; simpl in Hn; lia).
  pose proof (configured_inv q r Hq Hr) as Hw1.
  destruct (filter_data_run data _ Hw1 Hne) as [outs [s2 [Hrun [Hw2 Hall]]]].
  pose proof (forecast_run 7 s2 (proj1 (proj2 Hw2))) as Hfc.
  assert (Hout : outs <> []) by (intros ->; inversion Hall; subst; contradiction).
  destruct (py_min_ok data Hne) as [mn Hmn]. destruct (py_max_ok data Hne) as [mx Hmx].
  destruct (py_last_ok (map st_gain outs)) as [g Hg]; [intros E; apply map_eq_nil in E; contradiction|].
  destruct (py_last_ok (map st_uncertainty outs)) as [u Hu]; [intros E; apply map_eq_nil in E; contradiction|].
  unfold run_filter. replace (Nat.ltb (length data) 3) with false by (symmetry; apply Nat.ltb_ge; exact Hn).
  replace (configure q r init) with (inr tt : py_exn + unit, snd (configure q r init)) by reflexivity.
  cbv beta iota. rewrite Hrun. cbv beta iota. rewrite Hfc. cbv beta iota.
  cbn [kalman_gains uncertainties]. rewrite Hmn, Hmx, Hg, Hu.
  eexists. split; [reflexivity|]. cbn [filtered_all forecast_7_days out_final_state final_kalman_gain final_uncertainty filtered fst snd].
  split; [rewrite length_map; symmetry; exact (Forall2_length Hall)|]. split; [reflexivity|].
  change (0 <= u <= r) with (0 <= u <= kR (snd (configure q r init))).
  split; [apply (step_prop_in_map _ _ _ st_gain g (fun x => 0 <= x < 1) Hall); [intros z o [H _]; exact H|apply py_last_In, Hg]|].
  apply (step_prop_in_map _ _ _ st_uncertainty u (fun x => 0 <= x <= kR (snd (configure q r init))) Hall);
    [intros z o [_ [H _]]; exact H|apply py_last_In, Hu].
Qed.


(** ** Witnesses on the example of the docstring of [run_filter] *)

Definition kalman_demo_data : list R := [201 / 10; 205 / 10; 212 / 10; 208 / 10; 215 / 10; 22].
Definition kalman_demo_state : kf := snd (configure (1 / 10) 1 init).

Lemma filter_data_contract_witness :
  (exists res s', filter_data kalman_demo_data kalman_demo_state = (inr res, s') /\ wkf_inv s' /\
    length (filtered res) = length kalman_demo_data /\
    Forall (fun g => 0 <= g < 1) (kalman_gains res) /\
    Forall (fun u => 0 <= u <= kR kalman_demo_state) (uncertainties res)) /\
  (exists res s', filter_data kalman_demo_data kalman_demo_state = (inr res, s') /\
    forall i z, nth_error kalman_demo_data i = Some z ->
      exists f g y, nth_error (filtered res) i = Some f /\ nth_error (kalman_gains res) i = Some g /\
        nth_error (innovations res) i = Some y /\ f = z - (1 - g) * y /\ Rabs (f - z) <= Rabs y).
Proof. apply filter_data_contract; [apply configured_inv; lra|discriminate]. Defined.

Lemma run_filter_contract_witness :
  exists rep, run_filter kalman_demo_data (1 / 10) 1 = inr rep /\
    length (filtered_all rep) = length kalman_demo_data /\
    forecast_7_days rep =
      map (fun i => fst (out_final_state rep) + INR i * snd (out_final_state rep)) (seq 1 7) /\
    0 <= final_kalman_gain rep < 1 /\ 0 <= final_uncertainty rep <= 1.
Proof. apply run_filter_contract; [lra|lra|simpl; lia]. Defined.

End KalmanFacts.
