(* ===== verification/Trend.v ===== *)
(** Model of [algorithms/scientific/trend_analysis.py]: the class
    [TrendAnalyzer] ([mann_kendall_test], [sens_slope], [analyze]) and the
    module-level [analyze].  The series is a list of reals; the Mann-Kendall
    statistic [S] is an integer; [np.unique] groups equal values.  scipy's
    normal distribution ([stats.norm.cdf], [stats.norm.ppf]),
    [stats.linregress] and the optional [pymannkendall] tests are library
    calls, given by the classes [NormalDist] and [TrendLibs]. *)

From Stdlib Require Import String.
From Stdlib Require Import List Arith ZArith Lia Reals Lra Sorted Permutation.
From S2P Require Import Prelude RNum.
Import ListNotations.
Open Scope R_scope.

(** [scipy.stats.norm]: the standard normal distribution's CDF and its
    inverse. *)
Class NormalDist : Type := { norm_cdf : R -> R; norm_ppf : R -> R }.

(** What the theorems use of it: the CDF is strictly increasing and its
    0.975 quantile lies between 1.959 and 1.96 (it is 1.95996...). *)
Class NormalDistLaws `{NormalDist} : Prop := {
  norm_cdf_strict : forall a b, a < b -> norm_cdf a < norm_cdf b;
  norm_cdf_1959 : norm_cdf (1959 / 1000) < 975 / 1000;
  norm_cdf_196 : 975 / 1000 < norm_cdf (196 / 100) }.

(** [np.unique(data, return_counts=True)]: the sorted distinct values and
    how often each occurs. *)
Fixpoint dedup_sorted (l : list R) : list R :=
  match l with
  | x :: ((y :: _) as t) => if Req_EM_T x y then dedup_sorted t else x :: dedup_sorted t
  | _ => l
  end.

Fixpoint r_count (x : R) (l : list R) : nat :=
  match l with
  | [] => O
  | y :: t => ((if Req_EM_T y x then 1 else 0) + r_count x t)%nat
  end.

Definition np_unique_counts (data : list R) : list R * list nat :=
  let unique := dedup_sorted (r_sort data) in (unique, map (fun u => r_count u data) unique).

Module TrendAnalyzer.
Section WithNorm.
Context `{NormalDist}.

(** [TrendAnalyzer.__init__]. *)
Record analyzer : Type := mk_analyzer { alpha : R }.

(** [sgn(x_j - x_i)] as the loop of [mann_kendall_test] adds it. *)
Definition sgn_diff (a b : R) : Z :=
  if Rlt_dec 0 (b - a) then 1%Z else if Rlt_dec (b - a) 0 then (-1)%Z else 0%Z.

(** The inner loop [for j in range(i + 1, n)] for a fixed [x_i], adding
    to the running [s]. *)
Definition s_row (s : Z) (xi : R) (later : list R) : Z :=
  fold_left (fun s xj => (s + sgn_diff xi xj)%Z) later s.

(** The outer loop over [i]; the last [i] (outside [range(n - 1)]) would
    have an empty inner loop. *)
Fixpoint s_loop (s : Z) (data : list R) : Z :=
  match data with
  | [] => s
  | xi :: later => s_loop (s_row s xi later) later
  end.

(** [S = sum_{i<j} sgn(x_j - x_i)], starting from [s = 0]. *)
Definition s_statistic (data : list R) : Z := s_loop 0%Z data.

(** [n (n - 1) (2 n + 5)] and the tie correction [t (t - 1) (2 t + 5)]. *)
Definition tie_term (t : nat) : Z := (Z.of_nat t * (Z.of_nat t - 1) * (2 * Z.of_nat t + 5))%Z.

Definition tie_groups (data : list R) : list nat :=
  filter (fun c => Nat.ltb 1 c) (snd (np_unique_counts data)).

Definition var_s (data : list R) : R :=
  IZR (fold_left (fun v t => v - tie_term t)%Z (tie_groups data) (tie_term (length data))) / 18.

Definition z_statistic (s : Z) (v : R) : R :=
  if Z_lt_dec 0 s then (IZR s - 1) / sqrt v
  else if Z_lt_dec s 0 then (IZR s + 1) / sqrt v
  else 0.

Record mk_result : Type := mk_mk
  { s_stat : Z; var_stat : R; z_stat : R; p_value : R; trend : string;
    significant : bool; n_ties : nat; mk_alpha : R }.

(** [mann_kendall_test]. *)
Definition mann_kendall_test (a : analyzer) (data : list R) : mk_result :=
  let s := s_statistic data in
  let v := var_s data in
  let z := z_statistic s v in
  let p := 2 * (1 - norm_cdf (Rabs z)) in
  let sig := if Rlt_dec p (alpha a) then true else false in
  let trend := if sig then (if Rlt_dec 0 z then "increasing"%string else "decreasing"%string) else "no_trend"%string in
  mk_mk s v z p trend sig (length (tie_groups data)) (alpha a).


(** The slopes [(x_j - x_i) / (j - i)] of the row [i], for [d = j - i]
    from [1]. *)
Fixpoint row_slopes (xi : R) (later : list R) (d : nat) : list R :=
  match later with
  | [] => []
  | xj :: t => (xj - xi) / INR d :: row_slopes xi t (S d)
  end.

(** All the pairwise slopes, in the order the double loop appends them. *)
Fixpoint pair_slopes (data : list R) : list R :=
  match data with
  | [] => []
  | xi :: later => row_slopes xi later 1 ++ pair_slopes later
  end.

Record sens_result : Type := mk_sens
  { median_slope : R; slope_per_unit : R; lower_ci : option R; upper_ci : option R;
    n_slopes_computed : nat; intercept : R }.

(** [sens_slope]: the median slope, the approximate confidence bounds
    [sorted_slopes[lower_idx]] and [sorted_slopes[upper_idx]] when the
    index is below the length, and the median intercept. *)
Definition sens_slope (a : analyzer) (data : list R) : py_exn + sens_result :=
  let n := length data in
  let slopes := pair_slopes data in
  let m := np_median slopes in
  let sorted_slopes := r_sort slopes in
  let n_slopes := length sorted_slopes in
  let z_alpha := norm_ppf (1 - alpha a / 2) in
  let c_alpha := z_alpha * sqrt (INR (n * (n - 1) * (2 * n + 5)) / 18) in
  let lower_idx := py_int (Rmax 0 ((INR n_slopes - c_alpha) / 2)) in
  let upper_idx := py_int (Rmin (INR n_slopes - 1) ((INR n_slopes + c_alpha) / 2)) in
  let ci (i : Z) : py_exn + option R :=
    if Z_lt_dec i (Z.of_nat n_slopes) then
      match py_index sorted_slopes i with inl e => inl e | inr v => inr (Some v) end
    else inr None in
  match ci lower_idx, ci upper_idx with
  | inl e, _ | _, inl e => inl e
  | inr lo, inr up =>
      inr (mk_sens m m lo up n_slopes
             (np_median (zip_with (fun x i => x - m * INR i) data (seq 0 n))))
  end.

Record analysis : Type := mk_analysis
  { mann_kendall : mk_result; sens : sens_result;
    trend_direction : string; is_significant : bool; summary_slope : R;
    change_per_decade : R; total_change : R; percent_change : option R }.

(** [TrendAnalyzer.analyze]; [data[0]] raises [IndexError] on an empty
    series. *)
Definition analyze (a : analyzer) (data : list R) : py_exn + analysis :=
  let mk := mann_kendall_test a data in
  match sens_slope a data with
  | inl e => inl e
  | inr sr =>
      let n := length data in
      let change_per_decade := median_slope sr * 10 in
      let total_change := median_slope sr * (INR n - 1) in
      match data with
      | [] => inl IndexError
      | x0 :: _ =>
          inr (mk_analysis mk sr (trend mk) (significant mk) (median_slope sr)
                 change_per_decade total_change
                 (if Req_EM_T x0 0 then None else Some (total_change / x0 * 100)))
      end
  end.

End WithNorm.
End TrendAnalyzer.

(** ** The module-level [analyze] *)

(** The fields of [pymannkendall]'s [original_test] and [seasonal_test]
    results that the code reads. *)
Record pmk_result : Type := mk_pmk
  { pmk_trend : string; pmk_h : bool; pmk_p : R; pmk_z : R; pmk_tau : R;
    pmk_s : R; pmk_slope : R; pmk_intercept : R }.

Record seasonal_result : Type := mk_seasonal { seas_trend : string; seas_p : R; seas_z : R }.

(** The library calls of the module-level [analyze]: whether
    [pymannkendall] imported ([HAS_MK]), its two tests ([None] when
    [seasonal_test] raises, which the bare [except] swallows) and
    [stats.linregress] returning [(slope, intercept, r_value, p_value,
    std_err)]. *)
Class TrendLibs : Type := {
  HAS_MK : bool;
  mk_original_test : list R -> pmk_result;
  mk_seasonal_test : list R -> option seasonal_result;
  linregress : list R -> list R -> R * R * R * R * R }.

Module TrendReport.
Import TrendAnalyzer.
Section WithLibs.
Context `{NormalDist} `{TrendLibs}.

Record linear_regression : Type := mk_linreg
  { lr_slope : R; lr_intercept : R; r_squared : R; lr_p_value : R; std_error : R }.

Record report : Type := mk_report
  { n_observations : nat; first_value : R; last_value : R; data_mean : R; data_std : R;
    mann_kendall_test_result : mk_result; sens_slope_result : sens_result;
    linear : linear_regression;
    pymannkendall : option (pmk_result * option seasonal_result);
    summary : analysis }.

Definition analyze (data : list R) : py_exn + report :=
  if Nat.ltb (length data) 4 then
    inl (ValueError "At least 4 data points required for trend analysis"%string)
  else
    let pmk :=
      if HAS_MK then
        let seasonal := if Nat.leb 12 (length data) then mk_seasonal_test data else None in
        Some (mk_original_test data, seasonal)
      else None in
    match TrendAnalyzer.analyze (mk_analyzer (5 / 100)) data with
    | inl e => inl e
    | inr custom =>
        let x := map INR (seq 0 (length data)) in
        let '(slope, icpt, r_value, p_value, std_err) := linregress x data in
        match py_index data 0, py_index data (-1) with
        | inl e, _ | _, inl e => inl e
        | inr first, inr last =>
            inr (mk_report (length data) first last (rmean data) (sqrt (rvar data))
                   (mann_kendall custom) (sens custom)
                   (mk_linreg slope icpt (r_value ^ 2) p_value std_err) pmk custom)
        end
    end.

End WithLibs.
End TrendReport.

(** ** Strictly increasing series *)

Module TrendFacts.
Import TrendAnalyzer TrendReport.

Lemma sgn_diff_pos a b : a < b -> sgn_diff a b = 1%Z.
Proof. intros H. unfold sgn_diff. destruct (Rlt_dec 0 (b - a)); [reflexivity|lra]. Qed.

Lemma s_row_incr s xi later :
  Forall (fun x => xi < x) later -> s_row s xi later = (s + Z.of_nat (length later))%Z.
Proof.
  unfold s_row. revert s. induction later as [|x l IH]; intros s Hall; [cbn; lia|].
  inversion Hall as [|? ? Hx Hl]; subst. cbn [fold_left]. rewrite IH by exact Hl.
  rewrite sgn_diff_pos by exact Hx. cbn [length]. lia.
Qed.

Lemma s_loop_incr s data :
  StronglySorted Rlt data ->
  (2 * (s_loop s data - s) = Z.of_nat (length data) * (Z.of_nat (length data) - 1))%Z.
Proof.
  revert s. induction data as [|x l IH]; intros s Hs; [cbn [s_loop length Z.of_nat]; lia|].
  apply StronglySorted_inv in Hs as [Hl Hx]. cbn [s_loop length].
  rewrite s_row_incr by exact Hx. specialize (IH (s + Z.of_nat (length l))%Z Hl).
  rewrite Nat2Z.inj_succ. nia.
Qed.

Lemma r_count_strict u data : StronglySorted Rlt data -> (r_count u data <= 1)%nat.
Proof.
  induction 1 as [|x l Hl IH Hx]; cbn; [lia|].
  destruct (Req_EM_T x u) as [<-|_]; [|exact IH].
  enough (r_count x l = O) by lia. clear IH Hl. induction Hx as [|y l Hy _ IH]; [reflexivity|].
  cbn. destruct (Req_EM_T y x); [lra|exact IH].
Qed.

Lemma tie_groups_strict data : StronglySorted Rlt data -> tie_groups data = [].
Proof.
  intros Hs. unfold tie_groups, np_unique_counts. cbn [snd].
  induction (dedup_sorted (r_sort data)) as [|u us IH]; [reflexivity|].
  cbn [map filter]. pose proof (r_count_strict u data Hs).
  replace (Nat.ltb 1 (r_count u data)) with false by (symmetry; apply Nat.ltb_ge; lia). exact IH.
Qed.

Lemma var_s_strict data : StronglySorted Rlt data -> var_s data = IZR (tie_term (length data)) / 18.
Proof. intros Hs. unfold var_s. rewrite tie_groups_strict by exact Hs. reflexivity. Qed.

(** Comparisons of [a / sqrt v] with a constant, by squaring. *)
Lemma gt_div_sqrt a v c : 0 < v -> 0 <= c -> 0 < a -> c ^ 2 * v < a ^ 2 -> c < a / sqrt v.
Proof.
  intros Hv Hc Ha H. pose proof (sqrt_lt_R0 v Hv) as Hs. pose proof (sqrt_sqrt v (Rlt_le _ _ Hv)) as Hss.
  apply Rmult_lt_reg_r with (sqrt v); [exact Hs|]. unfold Rdiv. rewrite Rmult_assoc, Rinv_l by lra.
  rewrite Rmult_1_r. nra.
Qed.

Lemma lt_div_sqrt a v c : 0 < v -> 0 <= a -> 0 <= c -> a ^ 2 < c ^ 2 * v -> a / sqrt v < c.
Proof.
  intros Hv Ha Hc H. pose proof (sqrt_lt_R0 v Hv) as Hs. pose proof (sqrt_sqrt v (Rlt_le _ _ Hv)) as Hss.
  apply Rmult_lt_reg_r with (sqrt v); [exact Hs|]. unfold Rdiv. rewrite Rmult_assoc, Rinv_l by lra.
  rewrite Rmult_1_r. destruct (Rlt_or_le a (c * sqrt v)) as [Hlt|Hge]; [exact Hlt|exfalso].
  assert (Hcs : 0 <= c * sqrt v) by nra.
  assert (c * sqrt v * (c * sqrt v) <= a * a) by (apply Rmult_le_compat; assumption).
  nra.
Qed.


Lemma IZR_tie_term k : IZR (tie_term k) = INR k * (INR k - 1) * (2 * INR k + 5).
Proof. unfold tie_term. rewrite !mult_IZR, minus_IZR, plus_IZR, mult_IZR, <- INR_IZR_INZ. reflexivity. Qed.

Lemma s_statistic_strict data :
  StronglySorted Rlt data -> 2 * IZR (s_statistic data) = INR (length data) * (INR (length data) - 1).
Proof.
  intros Hs. pose proof (s_loop_incr 0 data Hs) as H. rewrite Z.sub_0_r in H. unfold s_statistic.
  apply (f_equal IZR) in H. rewrite !mult_IZR, minus_IZR, <- INR_IZR_INZ in H. exact H.
Qed.

Section Decision.
Context `{NormalDistLaws}.

Lemma not_significant_below z : Rabs z < 1959 / 1000 -> ~ (2 * (1 - norm_cdf (Rabs z)) < 5 / 100).
Proof. intros Hz. pose proof (norm_cdf_strict _ _ Hz). pose proof norm_cdf_1959. lra. Qed.

Lemma significant_above z : 196 / 100 < Rabs z -> 2 * (1 - norm_cdf (Rabs z)) < 5 / 100.
Proof. intros Hz. pose proof (norm_cdf_strict _ _ Hz). pose proof norm_cdf_196. lra. Qed.

Lemma trend_below a data :
  alpha a = 5 / 100 -> Rabs (z_stat (mann_kendall_test a data)) < 1959 / 1000 ->
  trend (mann_kendall_test a data) = "no_trend"%string.
Proof.
  intros Ha Hz. apply not_significant_below in Hz. unfold mann_kendall_test in *. cbn [trend z_stat] in *.
  rewrite Ha. destruct (Rlt_dec _ (5 / 100)); [contradiction|reflexivity].
Qed.

Lemma trend_above a data :
  alpha a = 5 / 100 -> 196 / 100 < z_stat (mann_kendall_test a data) ->
  trend (mann_kendall_test a data) = "increasing"%string.
Proof.
  intros Ha Hz. assert (Hp := significant_above (z_stat (mann_kendall_test a data))).
  rewrite Rabs_pos_eq in Hp by lra. specialize (Hp Hz).
  unfold mann_kendall_test in *. cbn [trend z_stat] in *. rewrite Rabs_pos_eq by lra. rewrite Ha.
  destruct (Rlt_dec _ (5 / 100)); [|contradiction]. destruct (Rlt_dec 0 _); [reflexivity|lra].
Qed.

End Decision.

Lemma z_small s N :
  2 * IZR s = N * (N - 1) -> (N = 0 \/ N = 1 \/ N = 2 \/ N = 3 \/ N = 4) ->
  Rabs (z_statistic s (N * (N - 1) * (2 * N + 5) / 18)) < 1959 / 1000.
Proof.
  intros HS HN. unfold z_statistic.
  destruct (Z_lt_dec 0 s) as [Hp|Hp]; [|destruct (Z_lt_dec s 0) as [Hn|Hn]].
  - assert (H1 : 1 <= IZR s) by (apply IZR_le; lia).
    assert (Hv : 0 < N * (N - 1) * (2 * N + 5) / 18)
      by (destruct HN as [->|[->|[->|[->| ->]]]]; lra).
    rewrite Rabs_pos_eq by (apply Rdiv_nonneg; [lra|apply sqrt_pos]).
    apply lt_div_sqrt; [exact Hv|lra|lra|].
    replace (IZR s) with (N * (N - 1) / 2) by lra.
    destruct HN as [->|[->|[->|[->| ->]]]]; lra.
  - apply IZR_lt in Hn. destruct HN as [->|[->|[->|[->| ->]]]]; lra.
  - rewrite Rabs_R0. lra.
Qed.

Lemma z_large s N :
  2 * IZR s = N * (N - 1) -> 5 <= N ->
  196 / 100 < z_statistic s (N * (N - 1) * (2 * N + 5) / 18).
Proof.
  intros HS HN. assert (Hs : IZR s = N * (N - 1) / 2) by lra.
  assert (Hp : (0 < s)%Z) by (apply lt_IZR; nra).
  unfold z_statistic. destruct (Z_lt_dec 0 s) as [_|]; [|lia].
  apply gt_div_sqrt; [nra|lra|nra|]. rewrite Hs.
  assert (Ht : 0 <= N - 5) by lra. set (t := N - 5) in *. replace N with (5 + t) by (unfold t; ring).
  clearbody t. assert (H2 : 0 <= t * t) by nra.
  assert (H3 : 0 <= t * t * t) by (apply Rmult_le_pos; assumption).
  assert (H4 : 0 <= t * t * t * t) by (apply Rmult_le_pos; assumption).
  match goal with |- ?a < ?b =>
    assert (E : b - a = 1273 / 75 + 19643 / 450 * t + 166553 / 7500 * (t * t)
                        + 45823 / 11250 * (t * t * t) + 1 / 4 * (t * t * t * t)) by (field; lra) end.
  lra.
Qed.

Section Claims.
Context `{NormalDistLaws}.

(** on a strictly increasing series (no ties), the Mann-Kendall test
    with the [alpha = 0.05] of [analyze] reports ["increasing"] exactly
    when the series has at least five points; with four points (the
    minimum [analyze] accepts) [z = 5 / sqrt (26/3) < 1.96] and even a
    perfect trend is ["no_trend"]. *)
Lemma mann_kendall_strictly_increasing data :
  StronglySorted Rlt data ->
  trend (mann_kendall_test (mk_analyzer (5 / 100)) data) =
    if Nat.leb 5 (length data) then "increasing"%string else "no_trend"%string.
Proof.
  intros Hs. pose proof (s_statistic_strict data Hs) as HS.
  assert (Hz : z_stat (mann_kendall_test (mk_analyzer (5 / 100)) data) = z_statistic (s_statistic data) (var_s data))
    by reflexivity.
  rewrite var_s_strict, IZR_tie_term in Hz by exact Hs.
  destruct (Nat.leb_spec 5 (length data)) as [H5|H5].
  - apply trend_above; [reflexivity|]. rewrite Hz. apply z_large; [exact HS|].
    replace 5 with (INR 5) by (simpl; lra). apply le_INR, H5.
  - apply trend_below; [reflexivity|]. rewrite Hz. apply z_small; [exact HS|].
    assert (Hn : (length data = 0 \/ length data = 1 \/ length data = 2 \/ length data = 3 \/ length data = 4)%nat) by lia.
    destruct Hn as [E|[E|[E|[E|E]]]]; rewrite E; simpl; lra.
Qed.

End Claims.

(** ** Sen's slope on a linear series *)

Definition linear (a b : R) (i : nat) : R := a + b * INR i.

Lemma row_slopes_linear a b i d m :
  (1 <= d)%nat -> Forall (fun x => x = b) (row_slopes (linear a b i) (map (linear a b) (seq (i + d) m)) d).
Proof.
  revert d. induction m as [|m IH]; intros d Hd; [constructor|]. cbn [seq map row_slopes].
  constructor.
  - unfold linear. rewrite plus_INR. field. apply not_0_INR. lia.
  - replace (S (i + d)) with (i + S d)%nat by lia. apply IH. lia.
Qed.

Lemma pair_slopes_linear a b i n :
  Forall (fun x => x = b) (pair_slopes (map (linear a b) (seq i n))).
Proof.
  revert i. induction n as [|n IH]; intros i; [constructor|]. cbn [seq map pair_slopes].
  apply Forall_app. split; [|apply IH]. replace (S i) with (i + 1)%nat by lia. apply row_slopes_linear. lia.
Qed.

Lemma pair_slopes_ne data : (2 <= length data)%nat -> pair_slopes data <> [].
Proof. destruct data as [|x [|y t]]; cbn; [lia|lia|]. discriminate. Qed.

Lemma intercept_linear a b n :
  Forall (fun x => x = a) (zip_with (fun x i => x - b * INR i) (map (linear a b) (seq 0 n)) (seq 0 n)).
Proof.
  generalize 0%nat. induction n as [|n IH]; intros i; [constructor|]. cbn [seq map zip_with].
  constructor; [unfold linear; ring|apply IH].
Qed.

Section SensClaims.
Context `{NormalDist}.

(** C34: on an exactly linear series [x_i = a + b i] of at least two
    points (with a non-negative normal quantile [z_alpha]), [sens_slope]
    succeeds and returns the slope [b], the intercept [a], and a
    confidence interval collapsed onto [b]. *)
Theorem sens_slope_linear an a b n :
  0 <= norm_ppf (1 - alpha an / 2) -> (2 <= n)%nat ->
  exists sr, sens_slope an (map (linear a b) (seq 0 n)) = inr sr /\
    median_slope sr = b /\ intercept sr = a /\ lower_ci sr = Some b /\ upper_ci sr = Some b.
Proof.
  intros Hz Hn. set (data := map (linear a b) (seq 0 n)).
  assert (Hlen : length data = n) by (unfold data; rewrite length_map, length_seq; reflexivity).
  pose proof (pair_slopes_linear a b 0 n) as Hall. fold data in Hall.
  pose proof (pair_slopes_ne data ltac:(lia)) as Hne.
  assert (Hm : np_median (pair_slopes data) = b) by (apply np_median_const; assumption).
  pose proof (Forall_r_sort _ _ Hall) as Hsorted. rewrite Forall_forall in Hsorted.
  set (ns := length (r_sort (pair_slopes data))).
  assert (Hns : (1 <= ns)%nat) by (unfold ns; rewrite r_sort_length; destruct (pair_slopes data); [contradiction|simpl; lia]).
  assert (Hci : forall x, 0 <= x < INR ns ->
            (if Z_lt_dec (py_int x) (Z.of_nat ns) then
               match py_index (r_sort (pair_slopes data)) (py_int x) with inl e => inl e | inr v => inr (Some v) end
             else inr None) = inr (Some b) :> (py_exn + option R)).
  { intros x [Hx0 Hx1]. destruct (py_int_range x Hx0) as [Hi0 Hi1].
    assert (Hlt : (py_int x < Z.of_nat ns)%Z) by (apply lt_IZR; rewrite <- INR_IZR_INZ; lra).
    destruct (Z_lt_dec _ _) as [_|]; [|lia]. rewrite py_index_in by (unfold ns in Hlt; lia).
    do 2 f_equal. apply Hsorted, nth_In. unfold ns in Hlt. lia. }
  assert (Hc : 0 <= norm_ppf (1 - alpha an / 2) * sqrt (INR (n * (n - 1) * (2 * n + 5)) / 18))
    by (apply Rmult_le_pos; [exact Hz|apply sqrt_pos]).
  assert (HnsR : 1 <= INR ns) by (replace 1 with (INR 1) by reflexivity; apply le_INR; exact Hns).
  unfold sens_slope. rewrite Hlen. fold ns. rewrite Hm.
  rewrite (Hci (Rmax 0 ((INR ns - _) / 2))) by (split; [apply Rmax_l|apply Rmax_lub_lt; lra]).
  rewrite (Hci (Rmin (INR ns - 1) ((INR ns + _) / 2))) by (split; [apply Rmin_glb; lra|eapply Rle_lt_trans; [apply Rmin_l|lra]]).
  eexists. split; [reflexivity|]. cbn [median_slope intercept lower_ci upper_ci].
  split; [reflexivity|]. split; [|split; reflexivity].
  apply np_median_const; [apply intercept_linear|].
  unfold data. destruct n as [|[|n]]; [lia|lia|]. discriminate.
Qed.

End SensClaims.

(** ** Negating the series *)

Lemma dedup_sorted_cons2 x y t :
  dedup_sorted (x :: y :: t) = if Req_EM_T x y then dedup_sorted (y :: t) else x :: dedup_sorted (y :: t).
Proof. reflexivity. Qed.

Lemma dedup_sorted_In l x : In x (dedup_sorted l) <-> In x l.
Proof.
  induction l as [|y t IH]; [reflexivity|]. destruct t as [|z t']; [reflexivity|].
  rewrite dedup_sorted_cons2. destruct (Req_EM_T y z) as [<-|_].
  - rewrite IH. split; [intros H; right; exact H|intros [<-|H]; [left; reflexivity|exact H]].
  - cbn [In]. rewrite IH. reflexivity.
Qed.

Lemma dedup_sorted_NoDup l : StronglySorted Rle l -> NoDup (dedup_sorted l).
Proof.
  induction 1 as [|y t Ht IH Hy]; [constructor|]. destruct t as [|z t']; [repeat constructor; intros []|].
  rewrite dedup_sorted_cons2. destruct (Req_EM_T y z) as [_|Hyz]; [exact IH|]. constructor; [|exact IH].
  rewrite dedup_sorted_In. intros Hin. rewrite Forall_forall in Hy.
  destruct Hin as [<-|Hin]; [contradiction|].
  pose proof (Hy z (or_introl eq_refl)). apply StronglySorted_inv in Ht as [_ Hz].
  rewrite Forall_forall in Hz. pose proof (Hz y Hin). lra.
Qed.

Lemma unique_NoDup data : NoDup (fst (np_unique_counts data)).
Proof. apply dedup_sorted_NoDup, Sorted_StronglySorted; [intros x y z; apply Rle_trans|apply r_sort_sorted]. Qed.

Lemma unique_In data x : In x (fst (np_unique_counts data)) <-> In x data.
Proof.
  cbn [np_unique_counts fst]. rewrite dedup_sorted_In. split; apply Permutation_in;
    [apply Permutation_sym|]; apply r_sort_perm.
Qed.

Lemma unique_neg_perm data :
  Permutation (fst (np_unique_counts (map Ropp data))) (map Ropp (fst (np_unique_counts data))).
Proof.
  apply NoDup_Permutation; [apply unique_NoDup| |].
  - apply Finite.Injective_map_NoDup; [intros x y E; lra|apply unique_NoDup].
  - intros x. rewrite (unique_In (map Ropp data) x), !in_map_iff.
    split; intros [y [<- Hy]]; exists y; (split; [reflexivity|]); apply (unique_In data y); exact Hy.
Qed.

Lemma r_count_neg u data : r_count (- u) (map Ropp data) = r_count u data.
Proof.
  induction data as [|y t IH]; [reflexivity|]. cbn [map r_count]. rewrite IH.
  destruct (Req_EM_T (- y) (- u)), (Req_EM_T y u); try reflexivity; exfalso; lra.
Qed.


Lemma counts_neg_perm data :
  Permutation (snd (np_unique_counts (map Ropp data))) (snd (np_unique_counts data)).
Proof.
  change (snd (np_unique_counts (map Ropp data)))
    with (map (fun u => r_count u (map Ropp data)) (fst (np_unique_counts (map Ropp data)))).
  change (snd (np_unique_counts data)) with (map (fun u => r_count u data) (fst (np_unique_counts data))).
  rewrite (Permutation_map _ (unique_neg_perm data)), map_map.
  apply Permutation_refl'. apply map_ext. intros u. apply r_count_neg.
Qed.

Lemma tie_groups_neg_perm data : Permutation (tie_groups (map Ropp data)) (tie_groups data).
Proof. apply Permutation_filter_l, counts_neg_perm. Qed.

Lemma fold_tie_perm G G' init :
  Permutation G G' ->
  fold_left (fun v t => (v - tie_term t)%Z) G init = fold_left (fun v t => (v - tie_term t)%Z) G' init.
Proof.
  intros HP. revert init. induction HP as [|x l l' _ IH|x y l|l l' l'' _ IH1 _ IH2]; intros init; cbn [fold_left].
  - reflexivity.
  - apply IH.
  - f_equal. lia.
  - rewrite IH1. apply IH2.
Qed.

Lemma var_s_neg data : var_s (map Ropp data) = var_s data.
Proof. unfold var_s. rewrite length_map, (fold_tie_perm _ _ _ (tie_groups_neg_perm data)). reflexivity. Qed.

Lemma sgn_diff_neg a b : sgn_diff (- a) (- b) = (- sgn_diff a b)%Z.
Proof.
  unfold sgn_diff. destruct (Rlt_dec 0 (b - a)), (Rlt_dec (b - a) 0), (Rlt_dec 0 (- b - - a)), (Rlt_dec (- b - - a) 0);
    try reflexivity; exfalso; lra.
Qed.

Lemma s_row_neg s x t : s_row (- s) (- x) (map Ropp t) = (- s_row s x t)%Z.
Proof.
  unfold s_row. revert s. induction t as [|y t IH]; intros s; [reflexivity|].
  cbn [map fold_left]. rewrite sgn_diff_neg, <- IH. f_equal. lia.
Qed.

Lemma s_loop_neg s data : s_loop (- s) (map Ropp data) = (- s_loop s data)%Z.
Proof.
  revert s. induction data as [|x t IH]; intros s; [reflexivity|]. cbn [map s_loop].
  rewrite s_row_neg. apply IH.
Qed.

Lemma z_statistic_neg s v : z_statistic (- s) v = - z_statistic s v.
Proof.
  unfold z_statistic. rewrite opp_IZR.
  destruct (Z_lt_dec 0 (- s)), (Z_lt_dec 0 s), (Z_lt_dec (- s) 0), (Z_lt_dec s 0); try lia; unfold Rdiv; ring.
Qed.


Section NegClaims.
Context `{NormalDist}.

(** the Mann-Kendall test is antisymmetric: on the negated series
    [S] and [z] change sign while the tie-corrected variance, the p-value,
    the significance and the number of tie groups are unchanged, so an
    ["increasing"] verdict becomes ["decreasing"] and ["no_trend"] stays. *)
Lemma mann_kendall_negation a data :
  let r := mann_kendall_test a data in
  let r' := mann_kendall_test a (map Ropp data) in
  s_stat r' = (- s_stat r)%Z /\ var_stat r' = var_stat r /\ z_stat r' = - z_stat r /\
  p_value r' = p_value r /\ significant r' = significant r /\ n_ties r' = n_ties r /\
  (trend r = "increasing"%string -> trend r' = "decreasing"%string) /\
  (trend r = "no_trend"%string -> trend r' = "no_trend"%string).
Proof.
  cbv zeta. unfold mann_kendall_test. cbn [s_stat var_stat z_stat p_value significant n_ties trend].
  assert (HS : s_statistic (map Ropp data) = (- s_statistic data)%Z)
    by (unfold s_statistic; rewrite <- s_loop_neg; reflexivity).
  rewrite HS, var_s_neg, z_statistic_neg, Rabs_Ropp, (Permutation_length (tie_groups_neg_perm data)).
  set (z := z_statistic (s_statistic data) (var_s data)).
  destruct (Rlt_dec (2 * (1 - norm_cdf (Rabs z))) (alpha a)).
  - do 6 (split; [reflexivity|]).
    destruct (Rlt_dec 0 z), (Rlt_dec 0 (- z)); split; intros Ht; try discriminate Ht; try reflexivity; lra.
  - do 6 (split; [reflexivity|]). split; intros Ht; [discriminate Ht|reflexivity].
Qed.

End NegClaims.

Section MKClaim.
Context `{NormalDistLaws}.

(** C33: the contract of the Mann-Kendall test: on a strictly increasing
    series the test with the [alpha = 0.05] of [analyze] reports
    ["increasing"] exactly when the series has at least five points (with
    four, the minimum [analyze] accepts, [z = 5 / sqrt (26/3) < 1.96] and
    even a perfect trend is ["no_trend"]); and for every [alpha] the test
    is antisymmetric: on the negated series [S] and [z] change sign while
    the tie-corrected variance, the p-value, the significance and the
    number of tie groups are unchanged, so ["increasing"] becomes
    ["decreasing"] and ["no_trend"] stays. *)
Theorem mann_kendall_contract a data :
  (StronglySorted Rlt data ->
   trend (mann_kendall_test (mk_analyzer (5 / 100)) data) =
     if Nat.leb 5 (length data) then "increasing"%string else "no_trend"%string) /\
  (let r := mann_kendall_test a data in
   let r' := mann_kendall_test a (map Ropp data) in
   s_stat r' = (- s_stat r)%Z /\ var_stat r' = var_stat r /\ z_stat r' = - z_stat r /\
   p_value r' = p_value r /\ significant r' = significant r /\ n_ties r' = n_ties r /\
   (trend r = "increasing"%string -> trend r' = "decreasing"%string) /\
   (trend r = "no_trend"%string -> trend r' = "no_trend"%string)).
Proof. split; [apply mann_kendall_strictly_increasing|apply mann_kendall_negation]. Qed.

End MKClaim.

(** ** Witnesses *)

(** A strictly increasing function crossing [0.975] between [1.959] and
    [1.96]: it satisfies the laws the theorems use (it is not a
    distribution function), so the hypotheses are met. *)
Definition cdf_stand_in : NormalDist :=
  {| norm_cdf := fun x => 975 / 1000 + (x - 19595 / 10000); norm_ppf := fun _ => 196 / 100 |}.

Lemma cdf_stand_in_laws : @NormalDistLaws cdf_stand_in.
Proof. split; cbn; intros; lra. Qed.

(** The example of the docstring of [analyze]. *)
Definition trend_docstring_temps : list R := [20; 41 / 2; 21; 43 / 2; 22; 45 / 2; 23].

Lemma mann_kendall_contract_witness :
  StronglySorted Rlt trend_docstring_temps /\
  trend (@mann_kendall_test cdf_stand_in (mk_analyzer (5 / 100)) trend_docstring_temps) = "increasing"%string.
Proof.
  assert (Hs : StronglySorted Rlt trend_docstring_temps) by (repeat (constructor; try lra)).
  split; [exact Hs|].
  exact (proj1 (@mann_kendall_contract cdf_stand_in cdf_stand_in_laws (mk_analyzer (5 / 100))
                  trend_docstring_temps) Hs).
Defined.

Lemma sens_slope_linear_witness :
  exists sr, @sens_slope cdf_stand_in (mk_analyzer (5 / 100)) (map (linear 20 (1 / 2)) (seq 0 7)) = inr sr /\
    median_slope sr = 1 / 2 /\ intercept sr = 20 /\ lower_ci sr = Some (1 / 2) /\ upper_ci sr = Some (1 / 2).
Proof. apply (@sens_slope_linear cdf_stand_in); [cbn; lra|lia]. Defined.

End TrendFacts.
