(* ===== verification/Anomaly.v ===== *)
(** Model of [algorithms/scientific/anomaly_detection.py]: the
    [WeatherAnomalyDetector] class (z-score, IQR and MAD-based
    modified z-score detectors, the [detect] dispatcher and the severity
    classification) and the module-level [detect] report.  Arrays are lists
    of reals, [np.where] a list of indices and boolean indexing a
    selection by the mask; the errors numpy and Python raise on these paths
    are values of [py_exn]. *)

From Stdlib Require Import List Arith Bool Lia Reals Lra String.
From S2P Require Import Prelude RNum.
Import ListNotations.
Open Scope R_scope.

(** ** numpy helpers on masks *)

(** [np.where(mask)[0]] with indices starting at [i]. *)
Fixpoint np_where_from (i : nat) (m : list bool) : list nat :=
  match m with
  | [] => []
  | b :: m' => if b then i :: np_where_from (S i) m' else np_where_from (S i) m'
  end.

Definition np_where (m : list bool) : list nat := np_where_from 0 m.

(** [data[mask]]: the elements where the mask is true. *)
Definition mask_select {A} (d : list A) (m : list bool) : list A :=
  map fst (filter snd (combine d m)).

(** [int(np.sum(mask))]. *)
Definition mask_count (m : list bool) : nat := List.length (filter (fun b => b) m).

(** [x > y] on floats as a boolean. *)
Definition Rgtb (x y : R) : bool := if Rlt_dec y x then true else false.

Module AnomalyDetector.

(** The [1e-10] added to the denominators. *)
Definition std_eps : R := / 10 ^ 10.

(** [WeatherAnomalyDetector.__init__]: the configured method and threshold. *)
Record detector : Type := mk_detector { method : string; threshold : R }.

(** [detect_zscore]: returns [(anomaly_mask, z_scores)]. *)
Definition detect_zscore (d : detector) (data : list R) : list bool * list R :=
  let mean := rmean data in
  let std := np_std data in
  let z_scores := map (fun x => (x - mean) / (std + std_eps)) data in
  (map (fun z => Rgtb (Rabs z) (threshold d)) z_scores, z_scores).

(** The [bounds] dictionary of [detect_iqr]. *)
Record bounds : Type := mk_bounds
  { q1 : R; q3 : R; iqr : R; lower_bound : R; upper_bound : R }.

(** [detect_iqr]: [np.percentile] raises [IndexError] on an empty array. *)
Definition detect_iqr (d : detector) (data : list R) : py_exn + (list bool * bounds) :=
  match np_percentile_r data 25, np_percentile_r data 75 with
  | inl e, _ => inl e
  | _, inl e => inl e
  | inr q1, inr q3 =>
      let iqr := q3 - q1 in
      let lower_bound := q1 - threshold d * iqr in
      let upper_bound := q3 + threshold d * iqr in
      let anomaly_mask := map (fun x => orb (Rgtb lower_bound x) (Rgtb x upper_bound)) data in
      inr (anomaly_mask, mk_bounds q1 q3 iqr lower_bound upper_bound)
  end.

(** [detect_modified_zscore]; [0.6745] is written as [6745/10000]. *)
Definition detect_modified_zscore (d : detector) (data : list R) : list bool * list R :=
  let median := np_median data in
  let mad := np_median (map (fun x => Rabs (x - median)) data) in
  let modified_z := map (fun x => 6745 / 10000 * (x - median) / (mad + std_eps)) data in
  (map (fun z => Rgtb (Rabs z) (threshold d)) modified_z, modified_z).

(** The [method_specific] entry of the result. *)
Inductive method_specific : Type :=
| MZScores (z_scores : list R)
| MBounds (b : bounds)
| MModifiedZ (modified_z_scores : list R).

Record detection : Type := mk_detection
  { mask : list bool; anomaly_indices : list nat; anomaly_values : list R;
    n_anomalies : nat; specific : method_specific }.

(** [WeatherAnomalyDetector.detect]. *)
Definition detect (d : detector) (data : list R) : py_exn + detection :=
  let finish (m : list bool) (ms : method_specific) :=
    inr (mk_detection m (np_where m) (mask_select data m) (mask_count m) ms) in
  if String.eqb (method d) "zscore" then
    let '(m, scores) := detect_zscore d data in finish m (MZScores scores)
  else if String.eqb (method d) "iqr" then
    match detect_iqr d data with
    | inl e => inl e
    | inr (m, b) => finish m (MBounds b)
    end
  else if String.eqb (method d) "modified_zscore" then
    let '(m, scores) := detect_modified_zscore d data in finish m (MModifiedZ scores)
  else inl (ValueError (String.append "Unknown method: " (method d))).

(** [get_anomaly_classification]. *)
Record classification : Type := mk_classification
  { mild : list nat; moderate : list nat; severe : list nat }.

Definition get_anomaly_classification (d : detector) (data : list R) : classification :=
  let mean := rmean data in
  let std := np_std data in
  let z_scores := map (fun x => Rabs ((x - mean) / (std + std_eps))) data in
  mk_classification
    (np_where (map (fun z => andb (Rgtb z 2) (negb (Rgtb z 3))) z_scores))
    (np_where (map (fun z => andb (Rgtb z 3) (negb (Rgtb z 4))) z_scores))
    (np_where (map (fun z => Rgtb z 4) z_scores)).

End AnomalyDetector.

Module AnomalyReport.
Import AnomalyDetector.

Record stats : Type := mk_stats { st_mean : R; st_std : R; st_min : R; st_max : R }.

(** The dictionary returned by the module-level [detect]; the constant
    entries ([algorithm], [library], [mathematical_formulation]) are left
    out. *)
Record report : Type := mk_report
  { rep_method : string; rep_threshold : R;
    total_points : nat; rep_n_anomalies : nat; anomaly_rate : R;
    rep_indices : list nat; rep_values : list R;
    severity_classification : classification;
    method_details : method_specific;
    original : stats; cleaned : option stats }.

(** The [mean], [std], [min], [max] entries of [data_statistics]. *)
Definition summary_stats (a : list R) : py_exn + stats :=
  match np_min a, np_max a with
  | inl e, _ => inl e
  | _, inl e => inl e
  | inr mn, inr mx => inr (mk_stats (rmean a) (np_std a) mn mx)
  end.

(** The module-level [detect]: the detection, the severity
    classification, the cleaned data [data_array[~mask]], then the result
    dictionary in its evaluation order ([n_anomalies / len(data)] raises
    [ZeroDivisionError] on an empty list before [np.min] is reached). *)
Definition detect (data : list R) (method : string) (threshold : R) : py_exn + report :=
  let detector := mk_detector method threshold in
  match AnomalyDetector.detect detector data with
  | inl e => inl e
  | inr detection_result =>
      let classification := get_anomaly_classification detector data in
      let clean_data := mask_select data (map negb (mask detection_result)) in
      if Nat.eqb (List.length data) 0 then inl ZeroDivisionError else
      let rate := INR (n_anomalies detection_result) / INR (List.length data) * 100 in
      match summary_stats data with
      | inl e => inl e
      | inr orig =>
          let cleaned :=
            if Nat.ltb 0 (List.length clean_data)
            then match summary_stats clean_data with inl e => inl e | inr s => inr (Some s) end
            else inr None in
          match cleaned with
          | inl e => inl e
          | inr cl =>
              inr (mk_report method threshold (List.length data) (n_anomalies detection_result) rate
                     (anomaly_indices detection_result) (anomaly_values detection_result)
                     classification (specific detection_result) orig cl)
          end
      end
  end.

End AnomalyReport.

(** ** Masks, [np.where] and boolean indexing *)

Lemma np_where_from_In i m j :
  In j (np_where_from i m) <-> (i <= j /\ nth (j - i) m false = true)%nat.
Proof.
  revert i. induction m as [|b m IH]; intros i; simpl.
  - split; [intros []|]. intros [_ H]. destruct (j - i)%nat; discriminate.
  - destruct b; simpl; rewrite IH; split.
    + intros [<-|[Hle Hn]]; [rewrite Nat.sub_diag; split; [lia|reflexivity]|].
      split; [lia|]. replace (j - i)%nat with (S (j - S i)) by lia. exact Hn.
    + intros [Hle Hn]. destruct (Nat.eq_dec i j) as [<-|Hne]; [left; reflexivity|right].
      split; [lia|]. replace (j - i)%nat with (S (j - S i)) in Hn by lia. exact Hn.
    + intros [Hle Hn]. split; [lia|]. replace (j - i)%nat with (S (j - S i)) by lia. exact Hn.
    + intros [Hle Hn]. destruct (Nat.eq_dec i j) as [<-|Hne]; [rewrite Nat.sub_diag in Hn; discriminate|].
      split; [lia|]. replace (j - i)%nat with (S (j - S i)) in Hn by lia. exact Hn.
Qed.

Lemma np_where_In m j : In j (np_where m) <-> nth j m false = true.
Proof. unfold np_where. rewrite np_where_from_In, Nat.sub_0_r. split; [tauto|]. split; [lia|assumption]. Qed.

Lemma np_where_from_length i m : List.length (np_where_from i m) = mask_count m.
Proof.
  revert i. unfold mask_count. induction m as [|b m IH]; intros i; [reflexivity|].
  destruct b; simpl; rewrite IH; reflexivity.
Qed.

Lemma mask_select_from {A} (d : list A) m i (x0 : A) :
  List.length d = List.length m ->
  mask_select d m = map (fun j => nth (j - i) d x0) (np_where_from i m).
Proof.
  unfold mask_select. revert m i. induction d as [|x d IH]; intros [|b m] i Hl; try discriminate; [reflexivity|].
  injection Hl as Hl. cbn [combine filter np_where_from].
  assert (Hrest : map (fun j => nth (j - i) (x :: d) x0) (np_where_from (S i) m)
                  = map fst (filter snd (combine d m))).
  { rewrite (IH m (S i) Hl). apply map_ext_in. intros j Hj.
    apply np_where_from_In in Hj as [Hj _]. replace (j - i)%nat with (S (j - S i)) by lia. reflexivity. }
  destruct b; cbn [snd filter map]; rewrite ?Nat.sub_diag, Hrest; reflexivity.
Qed.

Lemma mask_select_where {A} (d : list A) m (x0 : A) :
  List.length d = List.length m -> mask_select d m = map (fun j => nth j d x0) (np_where m).
Proof.
  intros Hl. rewrite (mask_select_from d m 0 x0 Hl). unfold np_where.
  apply map_ext. intros j. rewrite Nat.sub_0_r. reflexivity.
Qed.

Lemma mask_count_le m : (mask_count m <= List.length m)%nat.
Proof. unfold mask_count. induction m as [|[|] m IH]; simpl; lia. Qed.

Lemma mask_count_negb m : (mask_count m + mask_count (map negb m) = List.length m)%nat.
Proof. unfold mask_count. induction m as [|[|] m IH]; simpl; lia. Qed.

Lemma mask_select_length {A} (d : list A) m :
  List.length d = List.length m -> List.length (mask_select d m) = mask_count m.
Proof.
  intros Hl. destruct d as [|x0 d']; [destruct m; [reflexivity|discriminate]|].
  rewrite (mask_select_where (x0 :: d') m x0 Hl), length_map. apply np_where_from_length.
Qed.

(** ** Comparisons *)

Lemma Rgtb_true_iff x y : Rgtb x y = true <-> y < x.
Proof. unfold Rgtb. destruct (Rlt_dec y x); split; intros; easy. Qed.

Lemma Rgtb_false x y : x <= y -> Rgtb x y = false.
Proof. unfold Rgtb. destruct (Rlt_dec y x); [lra|reflexivity]. Qed.

Lemma std_eps_pos : 0 < AnomalyDetector.std_eps.
Proof. unfold AnomalyDetector.std_eps. apply Rinv_0_lt_compat, pow_lt. lra. Qed.

(** A z-score of an array of [n] values is at most [t] when
    [t ^ 2 >= n - 1] (Samuelson's inequality). *)
Lemma zscore_bounded data x t :
  In x data -> 0 <= t -> INR (List.length data) - 1 <= t ^ 2 ->
  Rabs ((x - rmean data) / (np_std data + AnomalyDetector.std_eps)) <= t.
Proof.
  intros Hin Ht Hn. pose proof (samuelson data x Hin) as Hs.
  pose proof std_eps_pos as He. pose proof (np_std_nonneg data) as Hsd.
  pose proof (np_std_sq data) as Hsq. pose proof (rvar_nonneg data) as Hv.
  set (s := np_std data) in *. set (e := AnomalyDetector.std_eps) in *.
  assert (Hd : Rabs (x - rmean data) <= t * s).
  { rewrite <- (Rabs_pos_eq (t * s)) by nra. apply Rsqr_le_abs_0. rewrite !Rsqr_pow2.
    apply Rle_trans with ((INR (List.length data) - 1) * rvar data); [exact Hs|]. nra. }
  unfold Rdiv. rewrite Rabs_mult, Rabs_inv, (Rabs_pos_eq (s + e)) by lra.
  apply Rmult_le_reg_r with (s + e); [lra|]. rewrite Rmult_assoc, Rinv_l by lra. nra.
Qed.

(** ** Shape of a detection *)

Module AnomalyFacts.
Import AnomalyDetector AnomalyReport.

Lemma detect_inv d data r :
  AnomalyDetector.detect d data = inr r ->
  List.length (mask r) = List.length data /\
  r = mk_detection (mask r) (np_where (mask r)) (mask_select data (mask r)) (mask_count (mask r)) (specific r).
Proof.
  unfold AnomalyDetector.detect, detect_zscore, detect_modified_zscore, detect_iqr.
  destruct (String.eqb (method d) "zscore");
    [intros H; injection H as <-; simpl; rewrite !length_map; split; reflexivity|].
  destruct (String.eqb (method d) "iqr").
  - destruct (np_percentile_r data 25), (np_percentile_r data 75); try discriminate.
    intros H; injection H as <-; simpl; rewrite length_map; split; reflexivity.
  - destruct (String.eqb (method d) "modified_zscore"); [|discriminate].
    intros H; injection H as <-; simpl; rewrite !length_map; split; reflexivity.
Qed.

Lemma summary_stats_ok a : a <> [] -> exists s, summary_stats a = inr s.
Proof. destruct a; [contradiction|]. intros _. eexists. reflexivity. Qed.

(** On a non-empty list the report is assembled from the detection. *)
Lemma report_of_detection d data r :
  AnomalyDetector.detect d data = inr r -> data <> [] ->
  exists orig cl, AnomalyReport.detect data (method d) (threshold d) =
    inr (mk_report (method d) (threshold d) (List.length data) (n_anomalies r)
           (INR (n_anomalies r) / INR (List.length data) * 100)
           (anomaly_indices r) (anomaly_values r)
           (get_anomaly_classification d data) (specific r) orig cl).
Proof.
  intros Hd Hne. unfold AnomalyReport.detect. destruct d as [m t]. simpl. rewrite Hd.
  destruct data as [|x0 data']; [contradiction|]. cbn [List.length Nat.eqb].
  destruct (summary_stats_ok (x0 :: data') Hne) as [orig Ho]. rewrite Ho.
  destruct (mask_select _ _) as [|c cs]; eexists orig, _; reflexivity.
Qed.


Lemma np_where_map_In {A} (f : A -> bool) l i :
  In i (np_where (map f l)) <-> exists x, nth_error l i = Some x /\ f x = true.
Proof.
  rewrite np_where_In. revert i. induction l as [|x l IH]; intros [|i]; simpl.
  - split; [discriminate|]. intros [y [H _]]; discriminate.
  - split; [discriminate|]. intros [y [H _]]; discriminate.
  - split; [intros H; exists x; split; [reflexivity|exact H]|]. intros [y [Hy Hf]]. injection Hy as <-. exact Hf.
  - apply IH.
Qed.

(** The z-score of the [i]-th value, as [detect_zscore] computes it. *)
Definition zscore_at (data : list R) (x : R) : R :=
  (x - rmean data) / (np_std data + std_eps).

Lemma detect_zscore_flagged d data i :
  In i (np_where (fst (detect_zscore d data))) <->
  exists x, nth_error data i = Some x /\ threshold d < Rabs (zscore_at data x).
Proof.
  unfold detect_zscore. cbn [fst]. rewrite map_map, np_where_map_In.
  setoid_rewrite Rgtb_true_iff. reflexivity.
Qed.


Lemma detect_zscore_method_detect d data :
  method d = "zscore"%string ->
  AnomalyDetector.detect d data =
    inr (mk_detection (fst (detect_zscore d data)) (np_where (fst (detect_zscore d data)))
           (mask_select data (fst (detect_zscore d data)))
           (mask_count (fst (detect_zscore d data))) (MZScores (snd (detect_zscore d data)))).
Proof. intros Hm. unfold AnomalyDetector.detect. rewrite Hm. reflexivity. Qed.

(** with a threshold [t >= 0] such that [t ^ 2 >= n - 1], the
    z-score method flags nothing in an array of [n] values: no z-score can
    exceed [sqrt (n - 1)].  With the default threshold [3] every array of
    at most ten values passes clean, the seven-value example of the
    docstring of [detect] included. *)
Lemma zscore_small_sample_flags_nothing data t :
  data <> [] -> 0 <= t -> INR (List.length data) - 1 <= t ^ 2 ->
  exists rep, AnomalyReport.detect data "zscore" t = inr rep /\
    rep_indices rep = [] /\ rep_n_anomalies rep = 0%nat /\ anomaly_rate rep = 0.
Proof.
  intros Hne Ht Hn. set (d := mk_detector "zscore" t).
  assert (Hnone : np_where (fst (detect_zscore d data)) = []).
  { destruct (np_where _) as [|i l] eqn:Hw; [reflexivity|exfalso].
    assert (Hi : In i (np_where (fst (detect_zscore d data)))) by (rewrite Hw; left; reflexivity).
    apply detect_zscore_flagged in Hi as [x [Hx Hlt]]. apply nth_error_In in Hx.
    pose proof (zscore_bounded data x t Hx Ht Hn). unfold zscore_at in Hlt. simpl in Hlt. lra. }
  assert (Hcount : mask_count (fst (detect_zscore d data)) = 0%nat)
    by (rewrite <- (np_where_from_length 0); unfold np_where in Hnone; rewrite Hnone; reflexivity).
  destruct (report_of_detection d data _ (detect_zscore_method_detect d data eq_refl) Hne) as [orig [cl Hr]].
  eexists. split; [exact Hr|]. cbn [rep_indices rep_n_anomalies anomaly_rate n_anomalies anomaly_indices]. rewrite Hnone, Hcount. split; [reflexivity|split; [reflexivity|]].
  cbn [INR]. unfold Rdiv. ring.
Qed.


(** A detection is consistent: the mask has one entry per value,
    [n_anomalies] counts the reported indices, the indices are exactly the
    positions where the mask is set, and the reported values are the data
    at those indices, in order. *)
Theorem detect_result_consistent d data r :
  AnomalyDetector.detect d data = inr r ->
  List.length (mask r) = List.length data /\
  n_anomalies r = List.length (anomaly_indices r) /\
  (forall i, In i (anomaly_indices r) <-> nth i (mask r) false = true) /\
  anomaly_values r = map (fun i => nth i data 0) (anomaly_indices r).
Proof.
  intros H. destruct (detect_inv d data r H) as [Hl Hr]. rewrite Hr. cbn [mask anomaly_indices n_anomalies anomaly_values].
  split; [exact Hl|]. split; [symmetry; apply np_where_from_length|].
  split; [intros i; apply np_where_In|]. apply mask_select_where. symmetry. exact Hl.
Qed.

(** C29: the error paths of the module-level [detect].  On an empty list
    it raises [IndexError] from [np.percentile] for the IQR method,
    [ValueError] for an unknown method, and [ZeroDivisionError] from the
    anomaly rate for the two z-score methods, whose numpy statistics of an
    empty array do not raise; and a method other than ["zscore"],
    ["iqr"] and ["modified_zscore"] raises
    [ValueError("Unknown method: ...")] whatever the data. *)
Theorem detect_error_paths data m t :
  AnomalyReport.detect [] m t =
    inl (if orb (String.eqb m "zscore") (String.eqb m "modified_zscore") then ZeroDivisionError
         else if String.eqb m "iqr" then IndexError
         else ValueError (String.append "Unknown method: " m)) /\
  (m <> "zscore"%string -> m <> "iqr"%string -> m <> "modified_zscore"%string ->
   AnomalyReport.detect data m t = inl (ValueError (String.append "Unknown method: " m))).
Proof.
  unfold AnomalyReport.detect, AnomalyDetector.detect. cbn [method threshold]. split.
  - destruct (String.eqb_spec m "zscore") as [->|H1]; [reflexivity|].
    destruct (String.eqb_spec m "iqr") as [->|H2]; [reflexivity|].
    destruct (String.eqb_spec m "modified_zscore") as [->|H3]; reflexivity.
  - intros H1 H2 H3. apply String.eqb_neq in H1, H2, H3. rewrite H1, H2, H3. reflexivity.
Qed.

Lemma negb_Rgtb_iff x y : negb (Rgtb x y) = true <-> x <= y.
Proof. unfold Rgtb. destruct (Rlt_dec y x); simpl; split; intros; try lra; easy. Qed.

Lemma classification_In d data i :
  let c := get_anomaly_classification d data in
  (In i (mild c) <-> exists x, nth_error data i = Some x /\ 2 < Rabs (zscore_at data x) <= 3) /\
  (In i (moderate c) <-> exists x, nth_error data i = Some x /\ 3 < Rabs (zscore_at data x) <= 4) /\
  (In i (severe c) <-> exists x, nth_error data i = Some x /\ 4 < Rabs (zscore_at data x)).
Proof.
  unfold get_anomaly_classification. cbn [mild moderate severe]. rewrite !map_map, !np_where_map_In.
  setoid_rewrite andb_true_iff. setoid_rewrite negb_Rgtb_iff. setoid_rewrite Rgtb_true_iff.
  repeat split; intros [x Hx]; exists x; exact Hx.
Qed.

(** The severity classes partition the values whose absolute z-score
    exceeds 2: every such index is in exactly one of [mild], [moderate] and
    [severe], and no other index is in any. *)
Theorem classification_partition d data i :
  let c := get_anomaly_classification d data in
  ((In i (mild c) \/ In i (moderate c) \/ In i (severe c)) <->
     exists x, nth_error data i = Some x /\ 2 < Rabs (zscore_at data x)) /\
  ~ (In i (mild c) /\ In i (moderate c)) /\ ~ (In i (moderate c) /\ In i (severe c)) /\
  ~ (In i (mild c) /\ In i (severe c)).
Proof.
  cbv zeta. destruct (classification_In d data i) as [Hmi [Hmo Hse]].
  rewrite Hmi, Hmo, Hse. repeat split.
  - intros [[x [Hx Hz]]|[[x [Hx Hz]]|[x [Hx Hz]]]]; exists x; split; auto; lra.
  - intros [x [Hx Hz]]. destruct (Rle_dec (Rabs (zscore_at data x)) 3); [left; eauto|right].
    destruct (Rle_dec (Rabs (zscore_at data x)) 4); [left|right]; exists x; split; auto; lra.
  - intros [[x [Hx Hz]] [y [Hy Hz']]]. rewrite Hx in Hy. injection Hy as <-. lra.
  - intros [[x [Hx Hz]] [y [Hy Hz']]]. rewrite Hx in Hy. injection Hy as <-. lra.
  - intros [[x [Hx Hz]] [y [Hy Hz']]]. rewrite Hx in Hy. injection Hy as <-. lra.
Qed.

(** With the default threshold [3] the z-score method flags exactly
    the indices the classification calls moderate or severe. *)
Theorem zscore_default_flags_moderate_or_severe data :
  let d := mk_detector "zscore" 3 in
  let c := get_anomaly_classification d data in
  exists r, AnomalyDetector.detect d data = inr r /\
    forall i, In i (anomaly_indices r) <-> In i (moderate c) \/ In i (severe c).
Proof.
  cbv zeta. eexists. split; [apply detect_zscore_method_detect; reflexivity|]. intros i.
  cbn [anomaly_indices]. rewrite detect_zscore_flagged.
  destruct (classification_In (mk_detector "zscore" 3) data i) as [_ [Hmo Hse]].
  rewrite Hmo, Hse. cbn [threshold]. split.
  - intros [x [Hx Hz]]. destruct (Rle_dec (Rabs (zscore_at data x)) 4); [left|right]; exists x; split; auto; lra.
  - intros [[x [Hx Hz]]|[x [Hx Hz]]]; exists x; split; auto; lra.
Qed.

(** C30: the severity classification of [get_anomaly_classification]: the
    classes [mild], [moderate] and [severe] partition the indices whose
    absolute z-score exceeds 2 (each such index is in exactly one class, no
    other index in any), and with the default threshold [3] the z-score
    method of [detect] flags exactly the moderate and severe indices. *)
Theorem severity_classification_contract d data :
  (forall i, let c := get_anomaly_classification d data in
    ((In i (mild c) \/ In i (moderate c) \/ In i (severe c)) <->
       exists x, nth_error data i = Some x /\ 2 < Rabs (zscore_at data x)) /\
    ~ (In i (mild c) /\ In i (moderate c)) /\ ~ (In i (moderate c) /\ In i (severe c)) /\
    ~ (In i (mild c) /\ In i (severe c))) /\
  (let d3 := mk_detector "zscore" 3 in
   let c := get_anomaly_classification d3 data in
   exists r, AnomalyDetector.detect d3 data = inr r /\
     forall i, In i (anomaly_indices r) <-> In i (moderate c) \/ In i (severe c)).
Proof.
  split; [intros i; apply classification_partition|apply zscore_default_flags_moderate_or_severe].
Qed.


(** The quartiles of a non-empty array, as [np.percentile] computes them. *)
Lemma quartiles_ordered data :
  data <> [] -> percentile_sorted_nat (r_sort data) 25 <= percentile_sorted_nat (r_sort data) 75.
Proof.
  intros Hne. apply percentile_sorted_nat_mono; [apply r_sort_sorted| |lia].
  intros Hs. apply Hne, length_zero_iff_nil. rewrite <- r_sort_length, Hs. reflexivity.
Qed.

Lemma detect_iqr_flagged d data m b i :
  detect_iqr d data = inr (m, b) ->
  In i (np_where m) <-> exists x, nth_error data i = Some x /\ (x < lower_bound b \/ upper_bound b < x).
Proof.
  unfold detect_iqr. destruct (np_percentile_r data 25), (np_percentile_r data 75); try discriminate.
  intros H. injection H as <- <-. cbn [lower_bound upper_bound]. rewrite np_where_map_In.
  setoid_rewrite orb_true_iff. setoid_rewrite Rgtb_true_iff. reflexivity.
Qed.

Lemma detect_iqr_ok d data :
  data <> [] -> exists m, detect_iqr d data = inr (m,
    let q1 := percentile_sorted_nat (r_sort data) 25 in
    let q3 := percentile_sorted_nat (r_sort data) 75 in
    mk_bounds q1 q3 (q3 - q1) (q1 - threshold d * (q3 - q1)) (q3 + threshold d * (q3 - q1))).
Proof. destruct data; [contradiction|]. intros _. eexists. reflexivity. Qed.

(** on a non-empty array with a threshold [k >= 0] the IQR method
    computes [lower_bound <= q1 <= q3 <= upper_bound] and flags exactly
    the values below [lower_bound] or above [upper_bound]; no value between
    the quartiles is flagged. *)
Theorem iqr_bounds_ordered d data :
  data <> [] -> 0 <= threshold d ->
  exists m b, detect_iqr d data = inr (m, b) /\
    lower_bound b <= q1 b <= q3 b /\ q3 b <= upper_bound b /\
    (forall i, In i (np_where m) <->
       exists x, nth_error data i = Some x /\ (x < lower_bound b \/ upper_bound b < x)).
Proof.
  intros Hne Ht. destruct (detect_iqr_ok d data Hne) as [m Hm].
  pose proof (quartiles_ordered data Hne) as Hq.
  eexists m, _. split; [exact Hm|]. cbn [lower_bound upper_bound q1 q3].
  split; [split; nra|]. split; [nra|]. intros i. exact (detect_iqr_flagged d data _ _ i Hm).
Qed.

(** Raising the IQR multiplier never flags more: every index flagged
    with the larger threshold is flagged with the smaller one. *)
Theorem iqr_threshold_monotone d1 d2 data :
  data <> [] -> 0 <= threshold d1 <= threshold d2 ->
  exists m1 b1 m2 b2, detect_iqr d1 data = inr (m1, b1) /\ detect_iqr d2 data = inr (m2, b2) /\
    incl (np_where m2) (np_where m1).
Proof.
  intros Hne Ht. destruct (detect_iqr_ok d1 data Hne) as [m1 H1]. destruct (detect_iqr_ok d2 data Hne) as [m2 H2].
  pose proof (quartiles_ordered data Hne) as Hq.
  do 4 eexists. split; [exact H1|]. split; [exact H2|]. intros i Hi.
  rewrite (detect_iqr_flagged d2 data _ _ i H2) in Hi. rewrite (detect_iqr_flagged d1 data _ _ i H1).
  destruct Hi as [x [Hx Hout]]. exists x. split; [exact Hx|]. cbn [lower_bound upper_bound] in *.
  destruct Hout; [left|right]; nra.
Qed.


Lemma percentage_bounds n N : (n <= N)%nat -> (0 < N)%nat -> 0 <= INR n / INR N * 100 <= 100.
Proof.
  intros Hle Hpos. apply le_INR in Hle. apply lt_0_INR in Hpos. pose proof (pos_INR n).
  split; [apply Rmult_le_pos; [apply Rdiv_nonneg|]; lra|].
  enough (INR n / INR N <= 1) by lra. apply Rmult_le_reg_r with (INR N); [exact Hpos|].
  unfold Rdiv. rewrite Rmult_assoc, Rinv_l by lra. lra.
Qed.

(** a report counts every value once: [total_points] is the length of
    the data, [n_anomalies] the number of reported indices, the anomaly
    rate a percentage in [[0, 100]], and the cleaned statistics are [None]
    exactly when every value is flagged. *)
Lemma report_rate_and_cleaned data m t rep :
  AnomalyReport.detect data m t = inr rep ->
  total_points rep = List.length data /\ rep_n_anomalies rep = List.length (rep_indices rep) /\
  0 <= anomaly_rate rep <= 100 /\
  (cleaned rep = None <-> rep_n_anomalies rep = total_points rep).
Proof.
  unfold AnomalyReport.detect. destruct (AnomalyDetector.detect _ data) as [e|r] eqn:Hd; [discriminate|].
  destruct (detect_inv _ _ _ Hd) as [Hl Hr].
  assert (Hn : n_anomalies r = mask_count (mask r)) by (rewrite Hr; reflexivity).
  assert (Hi : anomaly_indices r = np_where (mask r)) by (rewrite Hr; reflexivity).
  pose proof (mask_count_negb (mask r)) as Hneg. pose proof (mask_count_le (mask r)) as Hle.
  assert (Hc : List.length (mask_select data (map negb (mask r))) = mask_count (map negb (mask r)))
    by (apply mask_select_length; rewrite length_map; symmetry; exact Hl).
  destruct data as [|x0 data']; [discriminate|]. cbn [List.length Nat.eqb summary_stats np_min np_max].
  revert Hc. destruct (mask_select (x0 :: data') (map negb (mask r))) as [|c cs]; intros Hc H;
    injection H as <-; cbn [total_points rep_n_anomalies rep_indices anomaly_rate cleaned];
    rewrite Hn, Hi; unfold np_where; rewrite np_where_from_length; cbn [List.length] in *;
    (split; [reflexivity|split; [reflexivity|split; [apply (percentage_bounds (mask_count (mask r)) (S (List.length data'))); lia|]]]);
    split; intros; try discriminate; try reflexivity; lia.
Qed.


(** C31: the contract of a detection report: every report counts each
    value once ([total_points] is the length of the data, [n_anomalies]
    the number of reported indices), its anomaly rate is a percentage in
    [[0, 100]] and its cleaned statistics are [None] exactly when every
    value is flagged; and with a threshold [t >= 0] such that
    [t ^ 2 >= n - 1] the z-score method flags nothing in [n] values, since
    no z-score can exceed [sqrt (n - 1)] (with the default threshold [3],
    every array of at most ten values passes clean). *)
Theorem detect_report_contract data t :
  (forall m rep, AnomalyReport.detect data m t = inr rep ->
   total_points rep = List.length data /\ rep_n_anomalies rep = List.length (rep_indices rep) /\
   0 <= anomaly_rate rep <= 100 /\
   (cleaned rep = None <-> rep_n_anomalies rep = total_points rep)) /\
  (data <> [] -> 0 <= t -> INR (List.length data) - 1 <= t ^ 2 ->
   exists rep, AnomalyReport.detect data "zscore" t = inr rep /\
     rep_indices rep = [] /\ rep_n_anomalies rep = 0%nat /\ anomaly_rate rep = 0).
Proof.
  split; [intros m rep; apply report_rate_and_cleaned|apply zscore_small_sample_flags_nothing].
Qed.

(** ** Witnesses on the example of the docstring of [detect] *)

Definition docstring_temps : list R := [20; 21; 22; 50; 21; 22; 20].

Lemma detect_report_contract_witness :
  exists rep, AnomalyReport.detect docstring_temps "zscore" 3 = inr rep /\
    rep_indices rep = [] /\ rep_n_anomalies rep = 0%nat /\ anomaly_rate rep = 0 /\
    total_points rep = List.length docstring_temps /\ 0 <= anomaly_rate rep <= 100.
Proof.
  destruct (detect_report_contract docstring_temps 3) as [H1 H2].
  destruct H2 as [rep [Hr Hrest]]; [discriminate|lra|simpl; lra|].
  exists rep. split; [exact Hr|]. split; [tauto|]. split; [tauto|]. split; [tauto|].
  destruct (H1 "zscore"%string rep Hr) as [Ht [_ [Hb _]]]. split; [exact Ht|exact Hb].
Defined.

End AnomalyFacts.
