(* ===== verification/BMA.v ===== *)
(** The class [BayesianModelAveraging] of
    [algorithms/scientific/bayesian_ensemble.py] over the reals.

    Predictions and observations are finite reals.  The values the code
    computes from them can leave the reals: [np.log] of a zero prior is
    [-inf], [np.var] of an empty array is [nan], and [exp (-inf - -inf)] is
    [nan].  These values are the type [xr], with numpy's rules for [+],
    [-], [exp], [log] and [max] on them.  The object's attributes are the
    record [bma_state]; [compute_weights] and [predict] are operations of
    the monad [PyM] of the prelude.

    [scipy.special.logsumexp] is modelled as scipy 1.11 to 1.14 implement
    it: the maximum is subtracted before exponentiating (a non-finite
    maximum is replaced by [0]) and added back after the logarithm; an
    empty input raises [ValueError] from [np.amax]. *)

From Stdlib Require Import String List Arith Lia Reals Lra.
From S2P Require Import Prelude RNum.
Import ListNotations.
Open Scope R_scope.
Open Scope py_scope.

(** ** Extended float values *)

Inductive xr : Type :=
| XFin (r : R)
| XNegInf
| XPosInf
| XNaN.

Definition xr_neg (a : xr) : xr :=
  match a with XFin x => XFin (- x) | XNegInf => XPosInf | XPosInf => XNegInf | XNaN => XNaN end.

Definition xr_add (a b : xr) : xr :=
  match a, b with
  | XNaN, _ | _, XNaN => XNaN
  | XFin x, XFin y => XFin (x + y)
  | XNegInf, XPosInf | XPosInf, XNegInf => XNaN
  | XNegInf, _ | _, XNegInf => XNegInf
  | XPosInf, _ | _, XPosInf => XPosInf
  end.

Definition xr_sub (a b : xr) : xr := xr_add a (xr_neg b).

Definition xr_exp (a : xr) : xr :=
  match a with XFin x => XFin (exp x) | XNegInf => XFin 0 | XPosInf => XPosInf | XNaN => XNaN end.

(** [np.log]: [-inf] at zero, [nan] below zero. *)
Definition np_log (a : xr) : xr :=
  match a with
  | XFin x =>
      if Rlt_dec 0 x then XFin (ln x) else if Req_EM_T x 0 then XNegInf else XNaN
  | XPosInf => XPosInf
  | XNegInf | XNaN => XNaN
  end.

(** [np.maximum]: [nan] wins. *)
Definition xr_max (a b : xr) : xr :=
  match a, b with
  | XNaN, _ | _, XNaN => XNaN
  | XPosInf, _ | _, XPosInf => XPosInf
  | XNegInf, y => y
  | x, XNegInf => x
  | XFin x, XFin y => XFin (Rmax x y)
  end.

Definition xr_sum (l : list xr) : xr := fold_right xr_add (XFin 0) l.

Definition xr_is_fin (a : xr) : bool := match a with XFin _ => true | _ => false end.

(** The real value of a finite float (used only under [xr_is_fin]). *)
Definition xr_val (a : xr) : R := match a with XFin x => x | _ => 0 end.

(** The [1e-10] added to every variance estimate. *)
Definition var_floor : R := / 10 ^ 10.

(** ** [scipy.special.logsumexp] *)

Definition logsumexp (a : list xr) : py_exn + xr :=
  match a with
  | [] => inl (ValueError "zero-size array to reduction operation maximum which has no identity"%string)
  | x :: l =>
      let a_max := match fold_left xr_max l x with XFin m => m | _ => 0 end in
      let s := xr_sum (map (fun v => xr_exp (xr_sub v (XFin a_max))) (x :: l)) in
      inr (xr_add (np_log s) (XFin a_max))
  end.

(** ** The object's attributes *)

Record bma_state := {
  bma_model_names : list string;
  bma_n_models : nat;
  bma_posterior_weights : option (dict xr);
  bma_model_variances : option (dict xr)
}.

(** [__init__(model_names)] *)
Definition bma_init (model_names : list string) : bma_state :=
  {| bma_model_names := model_names; bma_n_models := length model_names;
     bma_posterior_weights := None; bma_model_variances := None |}.

Definition set_variances (v : dict xr) (s : bma_state) : bma_state :=
  {| bma_model_names := bma_model_names s; bma_n_models := bma_n_models s;
     bma_posterior_weights := bma_posterior_weights s; bma_model_variances := Some v |}.

Definition set_weights (w : dict xr) (s : bma_state) : bma_state :=
  {| bma_model_names := bma_model_names s; bma_n_models := bma_n_models s;
     bma_posterior_weights := Some w; bma_model_variances := bma_model_variances s |}.

(** ** [estimate_variance] and [compute_log_likelihood] *)

(** [np.var(observations - predictions, ddof=0) + 1e-10] *)
Definition estimate_variance (predictions observations : list R) : py_exn + xr :=
  match np_broadcast Rminus observations predictions with
  | inl e => inl e
  | inr [] => inr XNaN
  | inr residuals => inr (XFin (rvar residuals + var_floor))
  end.

(** [-n/2 * np.log(2 * np.pi * variance) - rss / (2 * variance)] *)
Definition compute_log_likelihood (predictions observations : list R) (variance : xr)
  : py_exn + xr :=
  match np_broadcast Rminus observations predictions with
  | inl e => inl e
  | inr residuals =>
      let n := INR (length observations) in
      let rss := rsum (map (fun r => r ^ 2) residuals) in
      match variance with
      | XFin v => inr (XFin (- n / 2 * ln (2 * PI * v) - rss / (2 * v)))
      | _ => inr XNaN
      end
  end.

(** ** [compute_weights] *)

(** The first loop: variance and log-likelihood of every model of
    [model_names] that has predictions. *)
Fixpoint likelihood_loop (names : list string) (mp : dict (list R)) (obs : list R)
  (variances lls : dict xr) : py_exn + (dict xr * dict xr) :=
  match names with
  | [] => inr (variances, lls)
  | name :: rest =>
      match dict_get mp name with
      | None => likelihood_loop rest mp obs variances lls
      | Some preds =>
          match estimate_variance preds obs with
          | inl e => inl e
          | inr var =>
              match compute_log_likelihood preds obs var with
              | inl e => inl e
              | inr ll => likelihood_loop rest mp obs (dict_set variances name var)
                                          (dict_set lls name ll)
              end
          end
      end
  end.

(** The second loop: [log(prior) + log-likelihood]; a model without a prior
    gets [1.0 / n_models] ([n_models >= 1] whenever the loop runs). *)
Definition log_posteriors (prior : dict R) (n_models : nat) (lls : dict xr) : dict xr :=
  map (fun '(name, ll) =>
         (name, xr_add (np_log (XFin (dict_get_or prior name (1 / INR n_models)))) ll)) lls.

(** The last step: [exp(log_post - logsumexp(log_posts))] for every model. *)
Definition normalize_log (lps : dict xr) : py_exn + dict xr :=
  match logsumexp (map snd lps) with
  | inl e => inl e
  | inr lse => inr (map (fun '(name, lp) => (name, xr_exp (xr_sub lp lse))) lps)
  end.

(** [{name: 1.0 / n_models for name in model_names}] *)
Definition uniform_prior (names : list string) (n_models : nat) : dict R :=
  fold_left (fun d name => dict_set d name (1 / INR n_models)) names [].

(** [if prior_weights is None: prior_weights = {...}] *)
Definition effective_prior (prior_weights : option (dict R)) (s : bma_state) : dict R :=
  match prior_weights with
  | Some p => p
  | None => uniform_prior (bma_model_names s) (bma_n_models s)
  end.

Definition compute_weights (models_predictions : dict (list R)) (observations : list R)
  (prior_weights : option (dict R)) : PyM bma_state (dict xr) :=
  s <- py_get ;;
  let prior := effective_prior prior_weights s in
  vl <- py_lift (likelihood_loop (bma_model_names s) models_predictions observations [] []) ;;
  let '(variances, lls) := vl in
  py_modify (set_variances variances) ;;
  weights <- py_lift (normalize_log (log_posteriors prior (bma_n_models s) lls)) ;;
  py_modify (set_weights weights) ;;
  py_ret weights.

(** ** [predict] *)

Record bma_output := {
  out_mean : list xr;
  out_std : list xr;
  out_lower_95 : list xr;
  out_upper_95 : list xr
}.

(** [np.array(all_preds).shape[1]]: a ragged list raises [ValueError]; an
    empty one gives a one-dimensional array whose [shape[1]] raises
    [IndexError]. *)
Definition rows_shape (rows : list (list R)) : py_exn + nat :=
  match rows with
  | [] => inl IndexError
  | r :: rs =>
      if forallb (fun r' => Nat.eqb (length r') (length r)) rs then inr (length r)
      else inl (ValueError "setting an array element with a sequence"%string)
  end.

(** [np.sum(weights[:, np.newaxis] * all_preds, axis=0)] *)
Definition weighted_sum (ws : list R) (rows : list (list R)) (len : nat) : list R :=
  fold_right (fun wr acc => zip_with Rplus (map (Rmult (fst wr)) (snd wr)) acc)
             (repeat 0 len) (combine ws rows).

(** The second loop of [predict]: [i] counts the keys of
    [models_predictions], and row [i] of [all_preds] is read for the key's
    weight.  [self.model_variances.get] is called before [all_preds[i]] is
    read, so a missing variance dictionary raises first. *)
Fixpoint variance_loop (W : dict xr) (V : option (dict xr)) (rows : list (list R)) (mean : list R)
  (i : nat) (keys : list string) (within between : list R) : py_exn + (list R * list R) :=
  match keys with
  | [] => inr (within, between)
  | name :: rest =>
      match dict_get W name with
      | None => variance_loop W V rows mean (S i) rest within between
      | Some w =>
          match V with
          | None => inl (AttributeError "get"%string)
          | Some Vd =>
              let var := dict_get_or Vd name (XFin 1) in
              match nth_error rows i with
              | None => inl IndexError
              | Some row =>
                  variance_loop W V rows mean (S i) rest
                    (map (fun x => x + xr_val w * xr_val var) within)
                    (zip_with (fun b d => b + xr_val w * d ^ 2) between (zip_with Rminus row mean))
              end
          end
      end
  end.

(** An array that is finite when [ok] holds and [nan] everywhere otherwise. *)
Definition fin_or_nan (ok : bool) (l : list R) : list xr :=
  if ok then map XFin l else repeat XNaN (length l).

Definition predict (models_predictions : dict (list R)) : PyM bma_state bma_output :=
  s <- py_get ;;
  match bma_posterior_weights s with
  | None => py_raise (ValueError "Weights must be computed first"%string)
  | Some W =>
      let used := filter (fun kv => dict_mem W (fst kv)) models_predictions in
      let rows := map snd used in
      let ws := map (fun kv => dict_get_or W (fst kv) XNaN) used in
      len <- py_lift (rows_shape rows) ;;
      let mean := weighted_sum (map xr_val ws) rows len in
      wb <- py_lift (variance_loop W (bma_model_variances s) rows mean 0 (map fst models_predictions)
                                   (repeat 0 len) (repeat 0 len)) ;;
      let '(within, between) := wb in
      let std := map sqrt (zip_with Rplus within between) in
      let mean_ok := forallb xr_is_fin ws in
      let var_ok := andb mean_ok
        (forallb (fun kv => match bma_model_variances s with
                            | Some V => xr_is_fin (dict_get_or V (fst kv) (XFin 1))
                            | None => false
                            end) used) in
      py_ret {| out_mean := fin_or_nan mean_ok mean;
                out_std := fin_or_nan var_ok std;
                out_lower_95 := fin_or_nan var_ok (zip_with (fun m d => m - 196 / 100 * d) mean std);
                out_upper_95 := fin_or_nan var_ok (zip_with (fun m d => m + 196 / 100 * d) mean std) |}
  end.

(** ** Arithmetic of the extended values *)

(** A log-weight the code can produce from a non-negative prior: finite,
    or [-inf] for a zero prior. *)
Definition lp_ok (a : xr) : Prop := match a with XFin _ | XNegInf => True | _ => False end.

(** [exp] of such a log-weight, as a real. *)
Definition xr_weight (a : xr) : R := match a with XFin x => exp x | _ => 0 end.

Lemma xr_weight_nonneg a : 0 <= xr_weight a.
Proof. destruct a; simpl; try lra. left; apply exp_pos. Qed.

Lemma xr_sum_fin l : xr_sum (map XFin l) = XFin (rsum l).
Proof.
  induction l as [|x l IH]; [reflexivity|].
  change (xr_add (XFin x) (xr_sum (map XFin l)) = XFin (x + rsum l)). now rewrite IH.
Qed.



Lemma rsum_weights_pos (a : list xr) :
  Exists (fun v => xr_is_fin v = true) a -> 0 < rsum (map xr_weight a).
Proof.
  induction 1 as [v l Hv|v l _ IH]; simpl.
  - destruct v; try discriminate. simpl. pose proof (exp_pos r).
    pose proof (rsum_nonneg (map xr_weight l)) as Hn.
    enough (0 <= rsum (map xr_weight l)) by lra.
    apply Hn, Forall_forall. intros y Hy. apply in_map_iff in Hy as [z [<- _]]. apply xr_weight_nonneg.
  - pose proof (xr_weight_nonneg v). lra.
Qed.

Lemma exp_shift_weight v c :
  lp_ok v -> xr_exp (xr_sub v (XFin c)) = XFin (xr_weight v / exp c).
Proof.
  destruct v; simpl; intros H; try contradiction.
  - f_equal. unfold Rdiv. rewrite exp_plus, exp_Ropp. reflexivity.
  - f_equal. unfold Rdiv. ring.
Qed.

Lemma np_log_pos x : 0 < x -> np_log (XFin x) = XFin (ln x).
Proof. intros H. simpl. destruct (Rlt_dec 0 x); [reflexivity|contradiction]. Qed.

Lemma ln_div_exp s c : 0 < s -> ln (s / exp c) + c = ln s.
Proof.
  intros Hs. unfold Rdiv. rewrite ln_mult by (try exact Hs; apply Rinv_0_lt_compat, exp_pos).
  rewrite ln_Rinv by apply exp_pos. rewrite ln_exp. ring.
Qed.

Lemma logsumexp_value (a : list xr) :
  Forall lp_ok a -> Exists (fun v => xr_is_fin v = true) a ->
  logsumexp a = inr (XFin (ln (rsum (map xr_weight a)))).
Proof.
  intros Hok Hfin. destruct a as [|x l]; [inversion Hfin|]. unfold logsumexp.
  set (c := match fold_left xr_max l x with XFin m => m | XNegInf | XPosInf | XNaN => 0 end).
  rewrite (map_ext_in _ (fun v => XFin (xr_weight v / exp c))).
  2: { intros v Hv. apply exp_shift_weight. rewrite Forall_forall in Hok. now apply Hok. }
  rewrite <- (map_map (fun v => xr_weight v / exp c) XFin), xr_sum_fin.
  rewrite (rsum_map_div xr_weight) by (apply Rgt_not_eq, exp_pos).
  pose proof (rsum_weights_pos _ Hfin) as Hpos.
  rewrite np_log_pos by (apply Rdiv_lt_0_compat; [exact Hpos|apply exp_pos]).
  simpl xr_add. now rewrite ln_div_exp.
Qed.

(** ** Normalisation is Bayes' rule *)

Lemma normalize_log_value (lps : dict xr) :
  Forall (fun kv => lp_ok (snd kv)) lps -> Exists (fun kv => xr_is_fin (snd kv) = true) lps ->
  normalize_log lps =
    inr (map (fun kv => (fst kv, XFin (xr_weight (snd kv) /
                                       rsum (map (fun kv => xr_weight (snd kv)) lps)))) lps).
Proof.
  intros Hok Hfin. unfold normalize_log.
  rewrite logsumexp_value by (try apply Forall_map; try apply Exists_map; assumption).
  rewrite map_map. f_equal. apply map_ext_in. intros [name lp] Hin. simpl.
  rewrite Forall_forall in Hok. rewrite exp_shift_weight by exact (Hok _ Hin).
  rewrite exp_ln; [reflexivity|]. rewrite <- map_map. apply rsum_weights_pos.
  now apply Exists_map.
Qed.

(** The log-posterior of a model with prior [p >= 0] and finite
    log-likelihood [ll] is a log-weight whose exponential is [p * exp ll]. *)
Lemma log_posterior_weight (p ll : R) :
  0 <= p -> lp_ok (xr_add (np_log (XFin p)) (XFin ll)) /\
  xr_weight (xr_add (np_log (XFin p)) (XFin ll)) = p * exp ll /\
  (0 < p -> xr_is_fin (xr_add (np_log (XFin p)) (XFin ll)) = true).
Proof.
  intros Hp. simpl np_log. destruct (Rlt_dec 0 p) as [Hlt|Hge].
  - simpl. split; [exact I|]. split; [|reflexivity].
    rewrite exp_plus, exp_ln by exact Hlt. reflexivity.
  - assert (p = 0) as -> by lra. destruct (Req_EM_T 0 0) as [_|Hne]; [|lra].
    simpl. split; [exact I|]. split; [ring|lra].
Qed.

Lemma normalized_sum_one {A} (f : A -> R) l :
  0 < rsum (map f l) -> rsum (map (fun x => f x / rsum (map f l)) l) = 1.
Proof. intros H. rewrite rsum_map_div by lra. field. lra. Qed.

Lemma div_unit_range a z : 0 <= a -> a <= z -> 0 < z -> 0 <= a / z <= 1.
Proof.
  intros Ha Haz Hz. split.
  - unfold Rdiv. apply Rmult_le_pos; [exact Ha|]. left. now apply Rinv_0_lt_compat.
  - apply (Rmult_le_reg_r z); [exact Hz|]. unfold Rdiv.
    rewrite Rmult_assoc, Rinv_l by lra. lra.
Qed.

Lemma normalized_range {A} (f : A -> R) l x :
  Forall (fun y => 0 <= f y) l -> In x l -> 0 < rsum (map f l) ->
  0 <= f x / rsum (map f l) <= 1.
Proof.
  intros Hf Hin Hz. rewrite Forall_forall in Hf.
  apply div_unit_range; [apply Hf, Hin| |exact Hz]. clear Hz. induction l as [|y l IH]; [destruct Hin|].
    simpl. destruct Hin as [->|Hin].
  - enough (0 <= rsum (map f l)) by lra. apply rsum_nonneg, Forall_forall.
    intros z Hz. apply in_map_iff in Hz as [w [<- Hw]]. apply Hf. now right.
  - pose proof (Hf y (or_introl eq_refl)). enough (f x <= rsum (map f l)) by lra.
    apply IH; [intros z Hz; apply Hf; now right|exact Hin].
Qed.

(** Bayes' rule in direct space: the prior of a model times its
    likelihood [exp ll]; the reference the log-space code implements. *)
Definition bayes_joint (prior : dict R) (n : nat) (kv : string * xr) : R :=
  dict_get_or prior (fst kv) (1 / INR n) * exp (xr_val (snd kv)).

Lemma log_posteriors_spec prior n lls :
  Forall (fun kv => xr_is_fin (snd kv) = true) lls ->
  Forall (fun kv => 0 <= dict_get_or prior (fst kv) (1 / INR n)) lls ->
  Forall (fun kv => lp_ok (snd kv)) (log_posteriors prior n lls) /\
  map (fun kv => xr_weight (snd kv)) (log_posteriors prior n lls) = map (bayes_joint prior n) lls /\
  map fst (log_posteriors prior n lls) = map fst lls.
Proof.
  induction lls as [|[name ll] lls IH]; intros Hfin Hpr; [repeat split; constructor|].
  inversion Hfin as [|? ? Hf Hfin']; inversion Hpr as [|? ? Hp Hpr']; subst.
  destruct (IH Hfin' Hpr') as (Hok & Hw & Hk).
  destruct ll as [r| | |]; try discriminate. simpl in Hp |- *.
  destruct (log_posterior_weight _ r Hp) as (Hl & Hx & _).
  split; [constructor; assumption|]. split; f_equal; assumption.
Qed.

Lemma log_posteriors_exists prior n lls :
  Forall (fun kv => xr_is_fin (snd kv) = true) lls ->
  Exists (fun kv => 0 < dict_get_or prior (fst kv) (1 / INR n)) lls ->
  Exists (fun kv => xr_is_fin (snd kv) = true) (log_posteriors prior n lls).
Proof.
  intros Hfin Hex. induction Hex as [[name ll] lls Hp|[name ll] lls _ IH].
  - inversion Hfin; subst. destruct ll as [r| | |]; try discriminate. simpl in Hp.
    apply Exists_cons_hd. exact (proj2 (proj2 (log_posterior_weight _ r (Rlt_le _ _ Hp))) Hp).
  - inversion Hfin; subst. apply Exists_cons_tl. now apply IH.
Qed.

Lemma map_pair_congr {A B C} (f : A * B -> R) (g : A * C -> R) (h : R -> xr) l1 l2 :
  map f l1 = map g l2 -> map fst l1 = map fst l2 ->
  map (fun kv => (fst kv, h (f kv))) l1 = map (fun kv => (fst kv, h (g kv))) l2.
Proof.
  revert l2; induction l1 as [|a l1 IH]; intros [|b l2]; simpl; try discriminate; [reflexivity|].
  intros Hf Hk. injection Hf as Hf1 Hf2. injection Hk as Hk1 Hk2.
  rewrite Hf1, Hk1. f_equal. now apply IH.
Qed.

Lemma posterior_value prior n lls :
  Forall (fun kv => xr_is_fin (snd kv) = true) lls ->
  Forall (fun kv => 0 <= dict_get_or prior (fst kv) (1 / INR n)) lls ->
  Exists (fun kv => 0 < dict_get_or prior (fst kv) (1 / INR n)) lls ->
  normalize_log (log_posteriors prior n lls) =
    inr (map (fun kv => (fst kv, XFin (bayes_joint prior n kv / rsum (map (bayes_joint prior n) lls))))
             lls).
Proof.
  intros Hfin Hpr Hex. destruct (log_posteriors_spec _ _ _ Hfin Hpr) as (Hok & Hw & Hk).
  rewrite normalize_log_value by (auto using log_posteriors_exists). rewrite Hw.
  f_equal. apply (map_pair_congr (fun kv => xr_weight (snd kv)) (bayes_joint prior n)
                   (fun w => XFin (w / rsum (map (bayes_joint prior n) lls)))); assumption.
Qed.

(** C4: The log-space computation of [compute_weights] is Bayes' rule.
    [scipy.special.logsumexp] with its max shift computes the reference
    [ln (sum_i exp a_i)] on log-weights that are finite or [-inf], at
    least one finite; and the weights (log prior plus log-likelihood,
    normalised by [logsumexp]) are each model's prior times its likelihood
    divided by the evidence, the sum of these products over the models. *)
Theorem posterior_bayes_rule (prior : dict R) (n : nat) (lls : dict xr) :
  (forall a : list xr, Forall lp_ok a -> Exists (fun v => xr_is_fin v = true) a ->
     logsumexp a = inr (XFin (ln (rsum (map xr_weight a))))) /\
  (Forall (fun kv => xr_is_fin (snd kv) = true) lls ->
   Forall (fun kv => 0 <= dict_get_or prior (fst kv) (1 / INR n)) lls ->
   Exists (fun kv => 0 < dict_get_or prior (fst kv) (1 / INR n)) lls ->
   normalize_log (log_posteriors prior n lls) =
     inr (map (fun kv => (fst kv, XFin (bayes_joint prior n kv / rsum (map (bayes_joint prior n) lls))))
              lls)).
Proof. split; [exact logsumexp_value|exact (posterior_value prior n lls)]. Qed.

(** ** The invariant of [compute_weights] *)

(** A variance estimate: finite and at least [1e-10]. *)
Definition var_pos (v : xr) : Prop := exists r, v = XFin r /\ var_floor <= r.

Lemma var_floor_pos : 0 < var_floor.
Proof. unfold var_floor. apply Rinv_0_lt_compat, pow_lt. lra. Qed.



Lemma np_broadcast_nonempty {A} (f : A -> A -> A) a b r :
  a <> [] -> b <> [] -> np_broadcast f a b = inr r -> r <> [].
Proof.
  intros Ha Hb. unfold np_broadcast.
  destruct a as [|x a]; [congruence|]. destruct b as [|y b]; [congruence|].
  destruct (Nat.eqb _ _); intros H; [injection H as <-; discriminate|].
  destruct a, b; simpl in H; inversion H; discriminate.
Qed.

Lemma estimate_variance_pos preds obs v :
  obs <> [] -> preds <> [] -> estimate_variance preds obs = inr v -> var_pos v.
Proof.
  intros Ho Hp. unfold estimate_variance.
  destruct (np_broadcast Rminus obs preds) as [e|res] eqn:E; [discriminate|].
  pose proof (np_broadcast_nonempty _ _ _ _ Ho Hp E).
  destruct res as [|r res]; [congruence|]. injection 1 as <-. eexists; split; [reflexivity|].
  pose proof (rvar_nonneg (r :: res)). lra.
Qed.

Lemma compute_log_likelihood_fin preds obs v ll :
  var_pos v -> compute_log_likelihood preds obs v = inr ll -> xr_is_fin ll = true.
Proof.
  intros [r [-> _]]. unfold compute_log_likelihood.
  destruct (np_broadcast _ _ _); [discriminate|]. now injection 1 as <-.
Qed.

(** The first loop keeps the variances above the floor, the
    log-likelihoods finite and the two dictionaries on the same keys, and
    adds only keys of [model_names]. *)
Lemma likelihood_loop_inv names mp obs V L V' L' :
  obs <> [] -> Forall (fun kv => snd kv <> []) mp ->
  Forall (fun kv => var_pos (snd kv)) V -> Forall (fun kv => xr_is_fin (snd kv) = true) L ->
  dict_keys V = dict_keys L ->
  likelihood_loop names mp obs V L = inr (V', L') ->
  Forall (fun kv => var_pos (snd kv)) V' /\ Forall (fun kv => xr_is_fin (snd kv) = true) L' /\
  dict_keys V' = dict_keys L' /\
  (forall k, In k (dict_keys L') -> In k (dict_keys L) \/ In k names).
Proof.
  intros Ho Hmp. revert V L. induction names as [|name rest IH]; intros V L HV HL HK; simpl.
  - injection 1 as <- <-. repeat split; auto.
  - destruct (dict_get mp name) as [preds|] eqn:Eg.
    + destruct (estimate_variance preds obs) as [e|var] eqn:Ev; [discriminate|].
      destruct (compute_log_likelihood preds obs var) as [e|ll] eqn:El; [discriminate|].
      intros Hl.
      assert (Hp : preds <> []).
      { apply dict_get_In in Eg. rewrite Forall_forall in Hmp. exact (Hmp _ Eg). }
      pose proof (estimate_variance_pos _ _ _ Ho Hp Ev) as Hvp.
      destruct (IH _ _ (dict_set_Forall var_pos _ _ _ HV Hvp)
                  (dict_set_Forall (fun v => xr_is_fin v = true) _ _ _ HL (compute_log_likelihood_fin _ _ _ _ Hvp El))
                  (dict_keys_set_same _ _ _ _ _ HK) Hl) as (H1 & H2 & H3 & H4).
      repeat split; auto. intros k Hk. destruct (H4 k Hk) as [Hin|Hin]; [|right; now right].
      destruct (dict_keys_set_In _ _ _ _ Hin) as [H| ->]; [now left|right; now left].
    + intros Hl. destruct (IH _ _ HV HL HK Hl) as (H1 & H2 & H3 & H4). repeat split; auto.
      intros k Hk. destruct (H4 k Hk); [now left|right; now right].
Qed.

Lemma compute_weights_inv mp obs prior s w s' :
  compute_weights mp obs prior s = (inr w, s') ->
  exists V L, likelihood_loop (bma_model_names s) mp obs [] [] = inr (V, L) /\
    normalize_log (log_posteriors (effective_prior prior s) (bma_n_models s) L) = inr w /\
    s' = set_weights w (set_variances V s).
Proof.
  unfold compute_weights, py_bind, py_get, py_lift, py_modify, py_ret.
  destruct (likelihood_loop _ _ _ _ _) as [e|[V L]]; [discriminate|].
  destruct (normalize_log _) as [e|w'] eqn:En; [discriminate|]. injection 1 as <- <-. eauto.
Qed.

Lemma uniform_prior_get names n k :
  dict_get_or (uniform_prior names n) k (1 / INR n) = 1 / INR n.
Proof.
  apply dict_get_or_const. unfold uniform_prior.
  enough (H : forall d, Forall (fun kv => snd kv = 1 / INR n) d ->
     Forall (fun kv => snd kv = 1 / INR n) (fold_left (fun d name => dict_set d name (1 / INR n)) names d))
    by (apply H; constructor).
  induction names as [|nm names IH]; intros d Hd; simpl; [exact Hd|].
  apply IH, (dict_set_Forall (fun v => v = 1 / INR n)); auto.
Qed.

(** A prior passed by the caller holds positive weights. *)
Definition prior_pos (prior_weights : option (dict R)) : Prop :=
  match prior_weights with
  | None => True
  | Some p => Forall (fun kv => 0 < snd kv) p
  end.

(** [n_models] is the number of names, as [__init__] sets it. *)
Definition bma_wf (s : bma_state) : Prop := bma_n_models s = length (bma_model_names s).

Lemma effective_prior_pos prior s k :
  prior_pos prior -> (0 < bma_n_models s)%nat ->
  0 < dict_get_or (effective_prior prior s) k (1 / INR (bma_n_models s)).
Proof.
  intros Hp Hn. assert (Hd : 0 < 1 / INR (bma_n_models s)).
  { apply Rdiv_lt_0_compat; [lra|now apply lt_0_INR]. }
  destruct prior as [p|]; simpl.
  - unfold dict_get_or. destruct (dict_get p k) eqn:E; [|exact Hd].
    apply dict_get_In in E. simpl in Hp. rewrite Forall_forall in Hp. exact (Hp _ E).
  - now rewrite uniform_prior_get.
Qed.


(** With positive priors and finite log-likelihoods, the weights are the
    normalised products of Bayes' rule. *)
Lemma posterior_pos_value P n L :
  (forall k, 0 < dict_get_or P k (1 / INR n)) ->
  Forall (fun kv => xr_is_fin (snd kv) = true) L -> L <> [] ->
  Forall (fun kv => 0 < bayes_joint P n kv) L /\
  normalize_log (log_posteriors P n L) =
    inr (map (fun kv => (fst kv, XFin (bayes_joint P n kv / rsum (map (bayes_joint P n) L)))) L).
Proof.
  intros Hpos Hfin Hne. split.
  - apply Forall_forall. intros kv _. apply Rmult_lt_0_compat; [apply Hpos|apply exp_pos].
  - apply posterior_value; [exact Hfin| |].
    + apply Forall_forall. intros kv _. left. apply Hpos.
    + destruct L as [|kv L]; [congruence|]. apply Exists_cons_hd. apply Hpos.
Qed.

Lemma n_models_pos s (L : dict xr) :
  bma_wf s -> L <> [] -> (forall k, In k (dict_keys L) -> In k (@nil string) \/ In k (bma_model_names s)) ->
  (0 < bma_n_models s)%nat.
Proof.
  intros Hwf HL HLk. destruct L as [|[k v] L]; [congruence|].
  destruct (HLk k (or_introl eq_refl)) as [[]|Hin].
  rewrite Hwf. destruct (bma_model_names s); [destruct Hin|simpl; lia].
Qed.

Lemma compute_weights_value mp obs prior s w s' :
  bma_wf s -> obs <> [] -> Forall (fun kv => snd kv <> []) mp -> prior_pos prior ->
  compute_weights mp obs prior s = (inr w, s') ->
  exists V L, likelihood_loop (bma_model_names s) mp obs [] [] = inr (V, L) /\ L <> [] /\
    Forall (fun kv => 0 < bayes_joint (effective_prior prior s) (bma_n_models s) kv) L /\
    w = map (fun kv => (fst kv, XFin (bayes_joint (effective_prior prior s) (bma_n_models s) kv /
          rsum (map (bayes_joint (effective_prior prior s) (bma_n_models s)) L)))) L /\
    s' = set_weights w (set_variances V s).
Proof.
  intros Hwf Ho Hmp Hp Hc. destruct (compute_weights_inv _ _ _ _ _ _ Hc) as (V & L & Hl & Hn & ->).
  destruct (likelihood_loop_inv _ _ _ _ _ _ _ Ho Hmp (Forall_nil _) (Forall_nil _) eq_refl Hl)
    as (_ & HLf & _ & HLk).
  assert (HL : L <> []) by (intros ->; cbv [normalize_log log_posteriors map logsumexp] in Hn; discriminate).
  pose proof (n_models_pos _ _ Hwf HL HLk) as Hn0.
  destruct (posterior_pos_value (effective_prior prior s) (bma_n_models s) L) as [Hj Hv];
    [intros k; now apply effective_prior_pos|exact HLf|exact HL|].
  rewrite Hv in Hn. injection Hn as <-. exists V, L. auto.
Qed.

(** C5: After a successful [compute_weights] (observations and every
    model's predictions non-empty, a caller's prior positive), the
    posterior weights are finite, each lies in [[0, 1]], and they sum to
    one. *)
Theorem compute_weights_sum_one mp obs prior s w s' :
  bma_wf s -> obs <> [] -> Forall (fun kv => snd kv <> []) mp -> prior_pos prior ->
  compute_weights mp obs prior s = (inr w, s') ->
  rsum (map (fun kv => xr_val (snd kv)) w) = 1 /\
  Forall (fun kv => exists r, snd kv = XFin r /\ 0 <= r <= 1) w.
Proof.
  intros Hwf Ho Hmp Hp Hc.
  destruct (compute_weights_value _ _ _ _ _ _ Hwf Ho Hmp Hp Hc) as (V & L & _ & HL & Hj & -> & _).
  set (f := bayes_joint (effective_prior prior s) (bma_n_models s)) in *.
  assert (Hz : 0 < rsum (map f L)).
  { apply rsum_pos; [now apply Forall_map|]. destruct L; [congruence|discriminate]. }
  split.
  - rewrite <- (normalized_sum_one f L Hz), map_map. reflexivity.
  - apply Forall_forall. intros kv Hin. apply in_map_iff in Hin as [kv0 [<- Hin]].
    eexists; split; [reflexivity|]. apply normalized_range; [|exact Hin|exact Hz].
    eapply Forall_impl; [|exact Hj]. intros; lra.
Qed.

(** ** Success and values of [compute_weights] *)

Lemma estimate_variance_ok preds obs :
  length preds = length obs -> exists v, estimate_variance preds obs = inr v.
Proof.
  intros H. unfold estimate_variance. rewrite np_broadcast_same by (symmetry; exact H).
  destruct (zip_with _ _ _); eauto.
Qed.

Lemma compute_log_likelihood_ok preds obs v :
  length preds = length obs -> exists ll, compute_log_likelihood preds obs v = inr ll.
Proof.
  intros H. unfold compute_log_likelihood. rewrite np_broadcast_same by (symmetry; exact H).
  destruct v; eauto.
Qed.

(** When every model's predictions have the observations' length, the
    first loop does not raise. *)
Lemma likelihood_loop_ok names mp obs V L :
  Forall (fun kv => length (snd kv) = length obs) mp ->
  exists V' L', likelihood_loop names mp obs V L = inr (V', L').
Proof.
  intros Hmp. revert V L. induction names as [|name rest IH]; intros V L; simpl; [eauto|].
  destruct (dict_get mp name) as [preds|] eqn:Eg; [|apply IH].
  assert (Hp : length preds = length obs).
  { apply dict_get_In in Eg. rewrite Forall_forall in Hmp. exact (Hmp _ Eg). }
  destruct (estimate_variance_ok _ _ Hp) as [v ->].
  destruct (compute_log_likelihood_ok _ _ v Hp) as [ll ->]. apply IH.
Qed.

(** The log-likelihood the first loop computes for one model. *)
Definition model_ll (preds obs : list R) : py_exn + xr :=
  match estimate_variance preds obs with
  | inl e => inl e
  | inr v => compute_log_likelihood preds obs v
  end.

Definition loop_entry (mp : dict (list R)) (obs : list R) (k : string) (ll : xr) : Prop :=
  exists p, dict_get mp k = Some p /\ model_ll p obs = inr ll.

(** Every entry the first loop writes is the log-likelihood of the model
    of that name, and every name with predictions gets an entry. *)
Lemma likelihood_loop_vals names mp obs V L V' L' :
  Forall (fun kv => loop_entry mp obs (fst kv) (snd kv)) L ->
  likelihood_loop names mp obs V L = inr (V', L') ->
  Forall (fun kv => loop_entry mp obs (fst kv) (snd kv)) L' /\
  (forall k, In k (dict_keys L) \/ (In k names /\ dict_mem mp k = true) -> In k (dict_keys L')).
Proof.
  revert V L. induction names as [|name rest IH]; intros V L HL; simpl.
  - injection 1 as <- <-. split; [exact HL|]. intros k [Hk|[[] _]]; exact Hk.
  - destruct (dict_get mp name) as [preds|] eqn:Eg.
    + destruct (estimate_variance preds obs) as [e|var] eqn:Ev; [discriminate|].
      destruct (compute_log_likelihood preds obs var) as [e|ll] eqn:El; [discriminate|].
      intros Hl.
      assert (Hm : loop_entry mp obs name ll) by (exists preds; unfold model_ll; rewrite Ev; auto).
      destruct (IH _ _ (dict_set_Forall_kv (loop_entry mp obs) _ _ _ HL Hm) Hl) as [H1 H2].
      split; [exact H1|]. intros k Hk. apply H2.
      destruct Hk as [Hk|[[<-|Hk] Hk']]; [left; apply dict_keys_set_incl; now left
                                        |left; apply dict_keys_set_incl; now right|right; now split].
    + intros Hl. destruct (IH _ _ HL Hl) as [H1 H2]. split; [exact H1|]. intros k Hk. apply H2.
      destruct Hk as [Hk|[[<-|Hk] Hk']]; [now left| |right; now split].
      unfold dict_mem in Hk'. rewrite Eg in Hk'. discriminate.
Qed.

Lemma dict_keys_get {V} (d : dict V) k : In k (dict_keys d) -> exists v, dict_get d k = Some v.
Proof.
  intros H. apply dict_mem_keys in H. unfold dict_mem in H.
  destruct (dict_get d k); [eauto|discriminate].
Qed.

Lemma likelihood_loop_get names mp obs V' L' k p :
  likelihood_loop names mp obs [] [] = inr (V', L') -> In k names -> dict_get mp k = Some p ->
  exists ll, dict_get L' k = Some ll /\ model_ll p obs = inr ll.
Proof.
  intros Hl Hk Hp. destruct (likelihood_loop_vals _ _ _ _ _ _ _ (Forall_nil _) Hl) as [H1 H2].
  destruct (dict_keys_get L' k) as [ll Hll].
  { apply H2. right. split; [exact Hk|]. unfold dict_mem. now rewrite Hp. }
  exists ll. split; [exact Hll|]. apply dict_get_In in Hll. rewrite Forall_forall in H1.
  destruct (H1 _ Hll) as [p' [Hp' Hm]]. simpl in Hp', Hm. rewrite Hp in Hp'. injection Hp' as <-. exact Hm.
Qed.

(** The Gaussian log-likelihood of the residuals [res] of [n]
    observations, with the variance estimated from the same residuals. *)
Definition gauss_ll (n : R) (res : list R) : R :=
  let v := rvar res + var_floor in
  - n / 2 * ln (2 * PI * v) - rsum (map (fun r => r ^ 2) res) / (2 * v).

Lemma model_ll_value p obs :
  length p = length obs -> obs <> [] ->
  model_ll p obs = inr (XFin (gauss_ll (INR (length obs)) (zip_with Rminus obs p))).
Proof.
  intros Hl Ho. unfold model_ll, estimate_variance, compute_log_likelihood.
  rewrite np_broadcast_same by (symmetry; exact Hl).
  destruct (zip_with Rminus obs p) as [|r res] eqn:E; [|reflexivity].
  destruct obs as [|x o]; [congruence|]. destruct p as [|y q]; [discriminate|]. discriminate E.
Qed.


Lemma zip_with_sub_self l : Forall (fun x => x = 0) (zip_with Rminus l l).
Proof. induction l; simpl; constructor; auto. ring. Qed.



Lemma zip_with_sub_ne l1 l2 :
  length l1 = length l2 -> l1 <> l2 -> Exists (fun x => x <> 0) (zip_with Rminus l1 l2).
Proof.
  revert l2; induction l1 as [|x l1 IH]; intros [|y l2] Hl Hne; simpl in *; try congruence.
  destruct (Req_dec x y) as [->|Hxy].
  - apply Exists_cons_tl, IH; [lia|congruence].
  - apply Exists_cons_hd. intros H. apply Hxy. lra.
Qed.

Lemma rss_pos l : Exists (fun x => x <> 0) l -> 0 < rsum (map (fun r => r ^ 2) l).
Proof.
  induction 1 as [x l Hx|x l _ IH]; rewrite map_cons; change (rsum (?a :: ?t)) with (a + rsum t).
  - pose proof (Rsqr_pos_lt x Hx). unfold Rsqr in *.
    enough (0 <= rsum (map (fun r => r ^ 2) l)) by nra.
    apply rsum_nonneg, Forall_forall. intros y Hy. apply in_map_iff in Hy as [z [<- _]]. apply pow2_ge_0.
  - pose proof (pow2_ge_0 x). lra.
Qed.

Lemma ln_le_mono x y : 0 < x -> x <= y -> ln x <= ln y.
Proof. intros Hx [H| ->]; [left; now apply ln_increasing|right; reflexivity]. Qed.

(** Exact residuals maximise the likelihood: with the variance floor,
    any non-zero residual lowers it strictly. *)
Lemma gauss_ll_exact_max n r0 r :
  0 <= n -> Forall (fun x => x = 0) r0 -> Exists (fun x => x <> 0) r -> gauss_ll n r < gauss_ll n r0.
Proof.
  intros Hn H0 Hr. unfold gauss_ll.
  rewrite (rvar_zeros r0 H0), (rsum_zeros _ (squares_zeros r0 H0)).
  pose proof var_floor_pos. pose proof PI_RGT_0. pose proof (rvar_nonneg r). pose proof (rss_pos r Hr).
  set (v := rvar r + var_floor) in *. set (rss := rsum (map (fun r => r ^ 2) r)) in *.
  assert (Hln : ln (2 * PI * (0 + var_floor)) <= ln (2 * PI * v)) by (apply ln_le_mono; unfold v; nra).
  assert (Hq : 0 < rss / (2 * v)) by (apply Rdiv_lt_0_compat; unfold v; lra).
  assert (Hm : 0 <= n * (ln (2 * PI * v) - ln (2 * PI * (0 + var_floor)))) by (apply Rmult_le_pos; lra).
  replace (0 / (2 * (0 + var_floor))) with 0 by (field; lra). nra.
Qed.

Lemma lengths_nonempty (mp : dict (list R)) (obs : list R) :
  obs <> [] -> Forall (fun kv => length (snd kv) = length obs) mp -> Forall (fun kv => snd kv <> []) mp.
Proof.
  intros Ho H. eapply Forall_impl; [|exact H]. intros [k p]; simpl; intros Hl ->.
  destruct obs; simpl in Hl; congruence.
Qed.

(** [compute_weights] returns when every model's predictions have the
    observations' length and some model of [model_names] has predictions. *)
Lemma compute_weights_ok mp obs prior s :
  bma_wf s -> obs <> [] -> Forall (fun kv => length (snd kv) = length obs) mp -> prior_pos prior ->
  Exists (fun name => dict_mem mp name = true) (bma_model_names s) ->
  exists V w, compute_weights mp obs prior s = (inr w, set_weights w (set_variances V s)).
Proof.
  intros Hwf Ho Hmp Hp Hex. destruct (likelihood_loop_ok (bma_model_names s) mp obs [] [] Hmp) as (V & L & Hl).
  destruct (likelihood_loop_inv _ _ _ _ _ _ _ Ho (lengths_nonempty _ _ Ho Hmp) (Forall_nil _) (Forall_nil _)
              eq_refl Hl) as (_ & HLf & _ & HLk).
  destruct (likelihood_loop_vals _ _ _ _ _ _ _ (Forall_nil _) Hl) as [_ HLin].
  assert (HL : L <> []).
  { apply Exists_exists in Hex as [k [Hk Hm]]. intros ->. exact (HLin k (or_intror (conj Hk Hm))). }
  pose proof (n_models_pos _ _ Hwf HL HLk) as Hn0.
  destruct (posterior_pos_value (effective_prior prior s) (bma_n_models s) L) as [_ Hv];
    [intros k; now apply effective_prior_pos|exact HLf|exact HL|].
  exists V. eexists. unfold compute_weights, py_bind, py_get, py_lift, py_modify, py_ret.
  rewrite Hl, Hv. reflexivity.
Qed.

(** C26: With the default uniform prior, a model whose predictions equal the
    observations gets a strictly larger posterior weight than any model
    whose predictions differ from them. *)
Theorem compute_weights_exact_model_dominates mp obs s w s' a b pb :
  bma_wf s -> obs <> [] -> Forall (fun kv => length (snd kv) = length obs) mp ->
  In a (bma_model_names s) -> In b (bma_model_names s) ->
  dict_get mp a = Some obs -> dict_get mp b = Some pb -> pb <> obs ->
  compute_weights mp obs None s = (inr w, s') ->
  exists wa wb, dict_get w a = Some (XFin wa) /\ dict_get w b = Some (XFin wb) /\ wb < wa.
Proof.
  intros Hwf Ho Hmp Ha Hb Hpa Hpb Hne Hc.
  destruct (compute_weights_value _ _ _ _ _ _ Hwf Ho (lengths_nonempty _ _ Ho Hmp) (I : prior_pos None) Hc)
    as (V & L & Hl & HL & Hj & -> & _).
  assert (Hlb : length pb = length obs).
  { apply dict_get_In in Hpb. rewrite Forall_forall in Hmp. exact (Hmp _ Hpb). }
  destruct (likelihood_loop_get _ _ _ _ _ _ _ Hl Ha Hpa) as [lla [Hla Ema]].
  destruct (likelihood_loop_get _ _ _ _ _ _ _ Hl Hb Hpb) as [llb [Hlb' Emb]].
  rewrite model_ll_value in Ema, Emb by first [reflexivity|assumption]. injection Ema as <-. injection Emb as <-.
  rewrite !dict_get_map, Hla, Hlb'. do 2 eexists. split; [reflexivity|]. split; [reflexivity|].
  assert (Hz : 0 < rsum (map (bayes_joint (effective_prior None s) (bma_n_models s)) L)).
  { apply rsum_pos; [now apply Forall_map|]. destruct L; [congruence|discriminate]. }
  assert (Hn : 0 < INR (bma_n_models s)).
  { rewrite Hwf. destruct (bma_model_names s); [destruct Ha|apply lt_0_INR; simpl; lia]. }
  unfold Rdiv at 1 2. apply Rmult_lt_compat_r; [now apply Rinv_0_lt_compat|].
  unfold bayes_joint, effective_prior. cbn [fst snd xr_val]. rewrite !uniform_prior_get.
  apply Rmult_lt_compat_l; [apply Rdiv_lt_0_compat; lra|].
  apply exp_increasing, gauss_ll_exact_max; [apply pos_INR|apply zip_with_sub_self|].
  apply zip_with_sub_ne; [now symmetry|congruence].
Qed.

(** ** Witnesses *)

(** Two models, [a] predicting the observations exactly. *)
Definition bma_demo_state : bma_state := bma_init ["a"; "b"]%string.
Definition bma_demo_mp : dict (list R) := [("a", [1; 2]); ("b", [2; 2])]%string.
Definition bma_demo_obs : list R := [1; 2].

Lemma posterior_bayes_rule_witness :
  logsumexp [XFin 0; XNegInf] = inr (XFin (ln (rsum (map xr_weight [XFin 0; XNegInf])))) /\
  normalize_log (log_posteriors [("a", 1 / 2)]%string 2 [("a", XFin 0); ("b", XFin 1)]%string) =
    inr (map (fun kv => (fst kv, XFin (bayes_joint [("a", 1 / 2)]%string 2 kv /
                 rsum (map (bayes_joint [("a", 1 / 2)]%string 2) [("a", XFin 0); ("b", XFin 1)]%string))))
             [("a", XFin 0); ("b", XFin 1)]%string).
Proof.
  destruct (posterior_bayes_rule [("a", 1 / 2)]%string 2 [("a", XFin 0); ("b", XFin 1)]%string) as [Hl Hp].
  split.
  - apply Hl; [repeat constructor|apply Exists_cons_hd; reflexivity].
  - apply Hp.
    + repeat constructor.
    + repeat constructor; unfold dict_get_or; simpl; lra.
    + apply Exists_cons_hd. unfold dict_get_or. simpl. lra.
Defined.

Lemma compute_weights_sum_one_witness :
  exists w s', compute_weights bma_demo_mp bma_demo_obs None bma_demo_state = (inr w, s') /\
    rsum (map (fun kv => xr_val (snd kv)) w) = 1 /\
    Forall (fun kv => exists r, snd kv = XFin r /\ 0 <= r <= 1) w.
Proof.
  destruct (compute_weights_ok bma_demo_mp bma_demo_obs None bma_demo_state) as (V & w & E);
    [reflexivity|discriminate|repeat constructor|exact I|apply Exists_cons_hd; reflexivity|].
  do 2 eexists. split; [exact E|].
  apply (compute_weights_sum_one bma_demo_mp bma_demo_obs None bma_demo_state w (set_weights w (set_variances V bma_demo_state)));
    [reflexivity|discriminate|repeat constructor; discriminate|exact I|exact E].
Defined.

Lemma compute_weights_exact_model_dominates_witness :
  exists w s', compute_weights bma_demo_mp bma_demo_obs None bma_demo_state = (inr w, s') /\
    exists wa wb, dict_get w "a"%string = Some (XFin wa) /\ dict_get w "b"%string = Some (XFin wb) /\
    wb < wa.
Proof.
  destruct (compute_weights_ok bma_demo_mp bma_demo_obs None bma_demo_state) as (V & w & E);
    [reflexivity|discriminate|repeat constructor|exact I|apply Exists_cons_hd; reflexivity|].
  do 2 eexists. split; [exact E|].
  apply (compute_weights_exact_model_dominates bma_demo_mp bma_demo_obs bma_demo_state w (set_weights w (set_variances V bma_demo_state)) _ _ [2; 2]);
    [reflexivity|discriminate|repeat constructor|simpl; auto|simpl; auto|reflexivity|reflexivity| |exact E].
  intros H. injection H as H1. lra.
Defined.

(** ** [predict] reads the rows of [all_preds] by the wrong index *)

Lemma variance_loop_app W V rows mean i l1 l2 wi bt :
  variance_loop W V rows mean i (l1 ++ l2) wi bt =
  match variance_loop W V rows mean i l1 wi bt with
  | inl e => inl e
  | inr (wi', bt') => variance_loop W V rows mean (i + length l1) l2 wi' bt'
  end.
Proof.
  revert i wi bt. induction l1 as [|k l1 IH]; intros i wi bt; simpl; [now rewrite Nat.add_0_r|].
  destruct (dict_get W k) as [w|]; [destruct V as [Vd|]; [destruct (nth_error rows i) as [row|]|]|];
    try reflexivity; rewrite IH; replace (i + S (length l1))%nat with (S i + length l1)%nat by lia; reflexivity.
Qed.

Lemma variance_loop_error W Vd rows mean i keys wi bt e :
  variance_loop W (Some Vd) rows mean i keys wi bt = inl e -> e = IndexError.
Proof.
  revert i wi bt. induction keys as [|k keys IH]; intros i wi bt; simpl; [discriminate|].
  destruct (dict_get W k) as [w|]; [destruct (nth_error rows i) as [row|]|]; intros H;
    first [exact (IH _ _ _ H)|injection H as <-; reflexivity].
Qed.

(** The number of keys that have a posterior weight. *)
Definition n_weighted (W : dict xr) (keys : list string) : nat := length (filter (dict_mem W) keys).

Lemma n_weighted_cons W k keys :
  n_weighted W (k :: keys) = ((if dict_mem W k then 1 else 0) + n_weighted W keys)%nat.
Proof. unfold n_weighted. simpl. destruct (dict_mem W k); reflexivity. Qed.

Lemma n_weighted_app W l1 l2 : n_weighted W (l1 ++ l2) = (n_weighted W l1 + n_weighted W l2)%nat.
Proof. unfold n_weighted. now rewrite filter_app, length_app. Qed.

Lemma n_weighted_le W keys : (n_weighted W keys <= length keys)%nat.
Proof. induction keys as [|k keys IH]; [reflexivity|]. rewrite n_weighted_cons. simpl. destruct (dict_mem W k); lia. Qed.

(** Once the index [i] is ahead of the rows still to be read, a weighted
    key further on reads past the end of [all_preds]. *)
Lemma variance_loop_deficit W Vd rows mean i keys wi bt :
  (0 < n_weighted W keys)%nat -> (length rows < i + n_weighted W keys)%nat ->
  variance_loop W (Some Vd) rows mean i keys wi bt = inl IndexError.
Proof.
  revert i wi bt. induction keys as [|k keys IH]; intros i wi bt Hpos Hlt; [inversion Hpos|].
  rewrite n_weighted_cons in Hpos, Hlt. simpl. unfold dict_mem in Hpos, Hlt.
  destruct (dict_get W k) as [w|].
  - destruct (nth_error rows i) as [row|] eqn:En; [|reflexivity].
    destruct (n_weighted W keys) eqn:Hn.
    + assert (nth_error rows i = None) by (apply nth_error_None; lia). congruence.
    + apply IH; lia.
  - apply IH; lia.
Qed.

Lemma length_filter_fst {B} (f : string -> bool) (l : list (string * B)) :
  length (filter (fun kv => f (fst kv)) l) = length (filter f (map fst l)).
Proof. induction l as [|[k v] l IH]; simpl; [reflexivity|]. destruct (f k); simpl; auto. Qed.

Lemma rows_shape_uniform rows m :
  rows <> [] -> Forall (fun r => length r = m) rows -> rows_shape rows = inr m.
Proof.
  intros Hne H. destruct H as [|r rs Hr Hrs]; [congruence|]. simpl.
  replace (forallb _ rs) with true; [now rewrite Hr|]. symmetry. apply forallb_forall.
  intros r' Hr'. rewrite Forall_forall in Hrs. apply Nat.eqb_eq. rewrite Hrs, Hr by exact Hr'. reflexivity.
Qed.

(** The second loop of [predict] numbers the keys of [models_predictions]
    but reads the rows of [all_preds], which holds only the weighted
    models: a model without a posterior weight before one with a weight
    makes it raise [IndexError]. *)
Lemma predict_misaligned_index_error mp s W Vd pre k p post m :
  bma_posterior_weights s = Some W -> bma_model_variances s = Some Vd ->
  mp = pre ++ (k, p) :: post -> dict_mem W k = false ->
  Exists (fun kv => dict_mem W (fst kv) = true) post ->
  Forall (fun kv => length (snd kv) = m) mp ->
  predict mp s = (inl IndexError, s).
Proof.
  intros HW HV Hmp Hk Hpost Hlen.
  unfold predict, py_bind, py_get, py_lift, py_ret. rewrite HW, HV. cbv beta zeta.
  set (rows := map snd (filter (fun kv => dict_mem W (fst kv)) mp)).
  assert (Hwp : (0 < n_weighted W (map fst post))%nat).
  { apply Exists_exists in Hpost as [[k' p'] [Hin Hm]]. unfold n_weighted.
    destruct (filter (dict_mem W) (map fst post)) eqn:E; [|simpl; lia].
    assert (In k' (filter (dict_mem W) (map fst post))) as Hf
      by (apply filter_In; split; [apply in_map_iff; now exists (k', p')|exact Hm]).
    rewrite E in Hf. destruct Hf. }
  assert (Hrows : rows_shape rows = inr m).
  { apply rows_shape_uniform.
    - unfold rows. apply Exists_exists in Hpost as [kv [Hin Hm]]. intros E.
      apply map_eq_nil in E. assert (In kv (filter (fun kv => dict_mem W (fst kv)) mp)) as Hf.
      { apply filter_In. split; [rewrite Hmp; apply in_or_app; right; now right|exact Hm]. }
      rewrite E in Hf. destruct Hf.
    - unfold rows. apply Forall_map, Forall_forall. intros kv Hkv. apply filter_In in Hkv as [Hkv _].
      rewrite Forall_forall in Hlen. exact (Hlen _ Hkv). }
  rewrite Hrows.
  rewrite Hmp at 2. rewrite map_app, variance_loop_app.
  destruct (variance_loop _ _ _ _ _ (map fst pre) _ _) as [e|[wi bt]] eqn:Epre.
  - apply variance_loop_error in Epre. now subst.
  - simpl map. simpl variance_loop. unfold dict_mem in Hk. destruct (dict_get W k) eqn:Eg; [discriminate|].
    rewrite variance_loop_deficit; [reflexivity|exact Hwp|].
    unfold rows. rewrite length_map, length_filter_fst, Hmp, map_app.
    change (length (filter (dict_mem W) ?l)) with (n_weighted W l).
    rewrite n_weighted_app. simpl map. rewrite n_weighted_cons. unfold dict_mem at 1. rewrite Eg.
    pose proof (n_weighted_le W (map fst pre)). rewrite length_map in *. lia.
Qed.

(** The state after [compute_weights] on a single model ["b"], which then
    meets predictions that also hold a model ["a"]. *)
Definition bma_demo_weighted : bma_state :=
  {| bma_model_names := ["b"]%string; bma_n_models := 1;
     bma_posterior_weights := Some [("b", XFin 1)]%string;
     bma_model_variances := Some [("b", XFin 1)]%string |}.

(** C20: the error paths of [predict].  Before [compute_weights] it
    raises [ValueError("Weights must be computed first")].  After it, the
    second loop numbers the keys of [models_predictions] but reads the rows
    of [all_preds], which holds only the weighted models: when a model
    without a posterior weight comes before one with a weight, [predict]
    raises [IndexError] instead of skipping it, whatever the predictions
    (all of one length).  Either way the object is unchanged. *)
Theorem predict_error_paths mp s :
  (bma_posterior_weights s = None ->
   predict mp s = (inl (ValueError "Weights must be computed first"%string), s)) /\
  (forall W Vd pre k p post m,
   bma_posterior_weights s = Some W -> bma_model_variances s = Some Vd ->
   mp = pre ++ (k, p) :: post -> dict_mem W k = false ->
   Exists (fun kv => dict_mem W (fst kv) = true) post ->
   Forall (fun kv => length (snd kv) = m) mp ->
   predict mp s = (inl IndexError, s)).
Proof.
  split.
  - intros H. unfold predict, py_bind, py_get. rewrite H. reflexivity.
  - intros W Vd pre k p post m. apply predict_misaligned_index_error.
Qed.

Lemma predict_error_paths_witness :
  predict bma_demo_mp bma_demo_state =
    (inl (ValueError "Weights must be computed first"%string), bma_demo_state) /\
  predict bma_demo_mp bma_demo_weighted = (inl IndexError, bma_demo_weighted).
Proof.
  split.
  - apply (proj1 (predict_error_paths bma_demo_mp bma_demo_state)). reflexivity.
  - apply (proj2 (predict_error_paths bma_demo_mp bma_demo_weighted) [("b", XFin 1)]%string
             [("b", XFin 1)]%string [] "a"%string [1; 2] [("b"%string, [2; 2])] 2%nat); try reflexivity.
    + apply Exists_cons_hd. reflexivity.
    + repeat constructor.
Defined.

(** ** The BMA mean on aligned input *)

Lemma length_weighted_sum ws rows m :
  Forall (fun r => length r = m) rows -> length (weighted_sum ws rows m) = m.
Proof.
  unfold weighted_sum. revert rows; induction ws as [|w ws IH]; intros [|r rows] Hr; simpl;
    try apply repeat_length.
  inversion Hr; subst. rewrite length_zip_with, length_map, IH by assumption. apply Nat.min_id.
Qed.

Lemma weighted_sum_nth ws rows m j :
  length ws = length rows -> Forall (fun r => length r = m) rows -> (j < m)%nat ->
  nth_error (weighted_sum ws rows m) j = Some (rsum (zip_with (fun w r => w * nth j r 0) ws rows)).
Proof.
  unfold weighted_sum. revert rows; induction ws as [|w ws IH]; intros [|r rows] Hl Hr Hj;
    simpl in Hl; try discriminate.
  - now apply nth_error_repeat.
  - inversion Hr; subst. simpl. apply nth_error_zip_with; [|apply IH; [lia|assumption|lia]].
    rewrite nth_error_map, (nth_error_nth' r 0) by lia. reflexivity.
Qed.

(** A combination with non-negative weights of values in [[lo, hi]]. *)
Lemma convex_comb (ws : list R) (rows : list (list R)) j lo hi :
  length ws = length rows -> Forall (fun w => 0 <= w) ws ->
  Forall (fun r => lo <= nth j r 0 <= hi) rows ->
  lo * rsum ws <= rsum (zip_with (fun w r => w * nth j r 0) ws rows) <= hi * rsum ws.
Proof.
  revert rows; induction ws as [|w ws IH]; intros [|r rows] Hl Hw Hr; cbn [length zip_with] in *;
    try discriminate; [change (rsum []) with 0; lra|].
  inversion Hw; inversion Hr; subst. destruct (IH rows) as [Hlo Hhi]; [lia|assumption|assumption|].
  repeat change (rsum (?a :: ?t)) with (a + rsum t). nra.
Qed.

Lemma variance_loop_aligned W Vd rows mean (l : dict (list R)) i wi bt :
  Forall (fun kv => dict_mem W (fst kv) = true) l ->
  (forall j kv, nth_error l j = Some kv -> nth_error rows (i + j)%nat = Some (snd kv)) ->
  exists r, variance_loop W (Some Vd) rows mean i (map fst l) wi bt = inr r.
Proof.
  revert i wi bt. induction l as [|[k p] l IH]; intros i wi bt Hw Hr; simpl; [eauto|].
  inversion Hw as [|? ? Hk Hl]; subst. simpl in Hk. unfold dict_mem in Hk.
  destruct (dict_get W k) as [w|]; [|discriminate].
  assert (Hi : nth_error rows i = Some p) by (rewrite <- (Nat.add_0_r i); exact (Hr 0%nat (k, p) eq_refl)).
  rewrite Hi. apply IH; [exact Hl|]. intros j kv Hj.
  replace (S i + j)%nat with (i + S j)%nat by lia. exact (Hr (S j) kv Hj).
Qed.

(** When every model of [models_predictions] has a finite,
    non-negative posterior weight, the weights of these models sum to one,
    and all predictions have one length, [predict] succeeds and the BMA
    mean [sum_k w_k * mu_k] is finite at every index and lies within the
    range of the models' predictions there. *)
Theorem predict_mean_convex mp s W Vd m :
  bma_posterior_weights s = Some W -> bma_model_variances s = Some Vd -> mp <> [] ->
  Forall (fun kv => length (snd kv) = m) mp ->
  Forall (fun kv => exists r, dict_get W (fst kv) = Some (XFin r) /\ 0 <= r) mp ->
  rsum (map (fun kv => xr_val (dict_get_or W (fst kv) XNaN)) mp) = 1 ->
  exists out, predict mp s = (inr out, s) /\
    forall j lo hi, Forall (fun kv => forall y, nth_error (snd kv) j = Some y -> lo <= y <= hi) mp ->
    forall x, nth_error (out_mean out) j = Some x -> exists r, x = XFin r /\ lo <= r <= hi.
Proof.
  intros HW HV Hne Hlen Hwt Hsum.
  assert (Hmem : Forall (fun kv => dict_mem W (fst kv) = true) mp).
  { eapply Forall_impl; [|exact Hwt]. intros kv [r [E _]]. unfold dict_mem. now rewrite E. }
  assert (Hf : filter (fun kv => dict_mem W (fst kv)) mp = mp).
  { apply forallb_filter_id, forallb_forall. rewrite Forall_forall in Hmem. exact Hmem. }
  set (ws := map (fun kv => dict_get_or W (fst kv) XNaN) mp).
  assert (Hfin : forallb xr_is_fin ws = true).
  { apply forallb_forall. intros x Hx. apply in_map_iff in Hx as [kv [<- Hin]].
    rewrite Forall_forall in Hwt. destruct (Hwt _ Hin) as [r [E _]]. unfold dict_get_or. now rewrite E. }
  assert (Hrlen : Forall (fun r => length r = m) (map snd mp)) by now apply Forall_map.
  assert (Hrows : rows_shape (map snd mp) = inr m).
  { apply rows_shape_uniform; [destruct mp; [congruence|discriminate]|exact Hrlen]. }
  unfold predict, py_bind, py_get, py_lift, py_ret. rewrite HW, HV. cbv beta zeta. rewrite Hf, Hrows.
  fold ws. set (mean := weighted_sum (map xr_val ws) (map snd mp) m).
  destruct (variance_loop_aligned W Vd (map snd mp) mean mp 0 (repeat 0 m) (repeat 0 m) Hmem)
    as [[wi bt] E]; [intros j kv Hj; simpl; now rewrite nth_error_map, Hj|].
  rewrite E, Hfin. eexists. split; [reflexivity|].
  intros j lo hi Hb x Hx. cbn [out_mean fin_or_nan] in Hx. rewrite nth_error_map in Hx.
  destruct (nth_error mean j) as [y|] eqn:Ey; [|discriminate]. injection Hx as <-.
  assert (Hlw : length (map xr_val ws) = length (map snd mp)) by (unfold ws; now rewrite !length_map).
  assert (Hj : (j < m)%nat).
  { rewrite <- (length_weighted_sum (map xr_val ws) (map snd mp) m Hrlen). apply nth_error_Some. fold mean. congruence. }
  unfold mean in Ey. rewrite weighted_sum_nth in Ey by assumption. injection Ey as <-.
  eexists; split; [reflexivity|].
  assert (Hs : rsum (map xr_val ws) = 1) by (unfold ws; rewrite map_map; exact Hsum).
  pose proof (convex_comb (map xr_val ws) (map snd mp) j lo hi Hlw) as Hc. rewrite Hs in Hc.
  assert (Hc' : lo * 1 <= rsum (zip_with (fun w r => w * nth j r 0) (map xr_val ws) (map snd mp)) <= hi * 1).
  2: lra.
  apply Hc.
  - unfold ws. rewrite map_map. apply Forall_map. eapply Forall_impl; [|exact Hwt].
    intros kv [r [E' Hr]]. unfold dict_get_or. now rewrite E'.
  - apply Forall_map. rewrite Forall_forall in Hb, Hlen |- *. intros kv Hin.
    apply (Hb kv Hin). apply nth_error_nth'. now rewrite (Hlen kv Hin).
Qed.

(** The state after [compute_weights] gave both models weight [1/2]. *)
Definition bma_demo_even : bma_state :=
  {| bma_model_names := ["a"; "b"]%string; bma_n_models := 2;
     bma_posterior_weights := Some [("a", XFin (1 / 2)); ("b", XFin (1 / 2))]%string;
     bma_model_variances := Some [("a", XFin 1); ("b", XFin 1)]%string |}.

(** ** The weights and the variances cover the same models *)

Lemma normalize_log_keys lps w : normalize_log lps = inr w -> dict_keys w = dict_keys lps.
Proof.
  unfold normalize_log. destruct (logsumexp _); [discriminate|]. injection 1 as <-.
  unfold dict_keys. rewrite map_map. apply map_ext. intros [k v]. reflexivity.
Qed.

Lemma log_posteriors_keys prior n lls : dict_keys (log_posteriors prior n lls) = dict_keys lls.
Proof. unfold dict_keys, log_posteriors. rewrite map_map. apply map_ext. intros [k v]. reflexivity. Qed.

(** After a successful [compute_weights] (observations and every
    model's predictions non-empty), [posterior_weights] and
    [model_variances] are both set, on the same model names, and every
    variance is finite and at least [1e-10], as the spec's state
    invariant requires. *)
Theorem compute_weights_same_keys mp obs prior s w s' :
  obs <> [] -> Forall (fun kv => snd kv <> []) mp ->
  compute_weights mp obs prior s = (inr w, s') ->
  bma_posterior_weights s' = Some w /\
  exists V, bma_model_variances s' = Some V /\ dict_keys V = dict_keys w /\
            Forall (fun kv => exists r, snd kv = XFin r /\ var_floor <= r) V.
Proof.
  intros Ho Hmp Hc. destruct (compute_weights_inv _ _ _ _ _ _ Hc) as (V & L & Hl & Hn & ->).
  destruct (likelihood_loop_inv _ _ _ _ _ _ _ Ho Hmp (Forall_nil _) (Forall_nil _) eq_refl Hl)
    as (HV & _ & HK & _).
  split; [reflexivity|]. exists V. split; [reflexivity|]. split; [|exact HV].
  rewrite (normalize_log_keys _ _ Hn), log_posteriors_keys. exact HK.
Qed.

(** ** The values [predict] computes on aligned input *)

(** The weight and the variance [predict] reads for a model. *)
Definition wt (W : dict xr) (kv : string * list R) : R := xr_val (dict_get_or W (fst kv) XNaN).
Definition vr (Vd : dict xr) (kv : string * list R) : R := xr_val (dict_get_or Vd (fst kv) (XFin 1)).

Lemma variance_loop_values W Vd rows mean m (l : dict (list R)) i wi bt :
  Forall (fun kv => dict_mem W (fst kv) = true) l ->
  (forall j kv, nth_error l j = Some kv -> nth_error rows (i + j)%nat = Some (snd kv)) ->
  Forall (fun kv => length (snd kv) = m) l -> length mean = m -> length wi = m -> length bt = m ->
  exists wi' bt', variance_loop W (Some Vd) rows mean i (map fst l) wi bt = inr (wi', bt') /\
    length wi' = m /\ length bt' = m /\
    forall j, (j < m)%nat ->
      nth j wi' 0 = nth j wi 0 + rsum (map (fun kv => wt W kv * vr Vd kv) l) /\
      nth j bt' 0 = nth j bt 0 + rsum (map (fun kv => wt W kv * (nth j (snd kv) 0 - nth j mean 0) ^ 2) l).
Proof.
  revert i wi bt. induction l as [|[k p] l IH]; intros i wi bt Hw Hr Hl Hm Hwi Hbt; cbn [map fst variance_loop].
  - exists wi, bt. split; [reflexivity|]. split; [exact Hwi|]. split; [exact Hbt|].
    intros j _. change (rsum []) with 0. split; ring.
  - apply Forall_cons_iff in Hw as [Hk Hw']. apply Forall_cons_iff in Hl as [Hp Hl']. simpl in Hk, Hp.
    unfold dict_mem in Hk. destruct (dict_get W k) as [w|] eqn:Eg; [|discriminate].
    assert (Hi : nth_error rows i = Some p) by (rewrite <- (Nat.add_0_r i); exact (Hr 0%nat (k, p) eq_refl)).
    rewrite Hi.
    set (v := dict_get_or Vd k (XFin 1)).
    set (wi1 := map (fun x => x + xr_val w * xr_val v) wi).
    set (bt1 := zip_with (fun b d => b + xr_val w * d ^ 2) bt (zip_with Rminus p mean)).
    destruct (IH (S i) wi1 bt1) as (wi' & bt' & E & Hwi' & Hbt' & Hv); [exact Hw'| |exact Hl'|exact Hm| | |].
    + intros j kv Hj. replace (S i + j)%nat with (i + S j)%nat by lia. exact (Hr (S j) kv Hj).
    + unfold wi1. now rewrite length_map.
    + unfold bt1. rewrite !length_zip_with. lia.
    + exists wi', bt'. split; [exact E|]. split; [exact Hwi'|]. split; [exact Hbt'|].
      intros j Hj. destruct (Hv j Hj) as [H1 H2].
      assert (Hwt : wt W (k, p) = xr_val w) by (unfold wt, dict_get_or; simpl; now rewrite Eg).
      change (rsum (?a :: ?t)) with (a + rsum t). rewrite H1, H2, Hwt. unfold wi1, bt1.
      rewrite (nth_map_lt _ _ _ _ 0) by lia.
      rewrite (nth_zip_with _ _ _ _ 0 0) by (rewrite ?length_zip_with; lia).
      rewrite (nth_zip_with _ _ _ _ 0 0) by lia. replace (vr Vd (k, p)) with (xr_val v) by reflexivity. change (snd (k, p)) with p. split; ring.
Qed.

Lemma predict_values mp s W Vd m :
  bma_posterior_weights s = Some W -> bma_model_variances s = Some Vd -> mp <> [] ->
  Forall (fun kv => length (snd kv) = m) mp ->
  Forall (fun kv => exists r, dict_get W (fst kv) = Some (XFin r)) mp ->
  Forall (fun kv => exists v, dict_get_or Vd (fst kv) (XFin 1) = XFin v) mp ->
  exists out, predict mp s = (inr out, s) /\
    length (out_mean out) = m /\ length (out_std out) = m /\
    forall j, (j < m)%nat ->
      nth j (out_mean out) XNaN = XFin (rsum (map (fun kv => wt W kv * nth j (snd kv) 0) mp)) /\
      nth j (out_std out) XNaN =
        XFin (sqrt (rsum (map (fun kv => wt W kv * vr Vd kv) mp) +
                    rsum (map (fun kv => wt W kv * (nth j (snd kv) 0 -
                            rsum (map (fun kv' => wt W kv' * nth j (snd kv') 0) mp)) ^ 2) mp))).
Proof.
  intros HW HV Hne Hlen Hwt Hvf.
  assert (Hmem : Forall (fun kv => dict_mem W (fst kv) = true) mp).
  { eapply Forall_impl; [|exact Hwt]. intros kv [r E]. unfold dict_mem. now rewrite E. }
  assert (Hf : filter (fun kv => dict_mem W (fst kv)) mp = mp).
  { apply forallb_filter_id, forallb_forall. rewrite Forall_forall in Hmem. exact Hmem. }
  set (ws := map (fun kv => dict_get_or W (fst kv) XNaN) mp).
  assert (Hws : map xr_val ws = map (wt W) mp) by (unfold ws; now rewrite map_map).
  assert (Hfin : forallb xr_is_fin ws = true).
  { apply forallb_forall. intros x Hx. apply in_map_iff in Hx as [kv [<- Hin]].
    rewrite Forall_forall in Hwt. destruct (Hwt _ Hin) as [r E]. unfold dict_get_or. now rewrite E. }
  assert (Hvok : forallb (fun kv => xr_is_fin (dict_get_or Vd (fst kv) (XFin 1))) mp = true).
  { apply forallb_forall. intros kv Hin. rewrite Forall_forall in Hvf. destruct (Hvf _ Hin) as [v E].
    now rewrite E. }
  assert (Hrlen : Forall (fun r => length r = m) (map snd mp)) by now apply Forall_map.
  assert (Hrows : rows_shape (map snd mp) = inr m).
  { apply rows_shape_uniform; [destruct mp; [congruence|discriminate]|exact Hrlen]. }
  unfold predict, py_bind, py_get, py_lift, py_ret. rewrite HW, HV. cbv beta iota zeta.
  rewrite Hf, Hrows. fold ws. set (mean := weighted_sum (map xr_val ws) (map snd mp) m).
  assert (Hml : length mean = m) by exact (length_weighted_sum _ _ _ Hrlen).
  destruct (variance_loop_values W Vd (map snd mp) mean m mp 0 (repeat 0 m) (repeat 0 m) Hmem)
    as (wi & bt & E & Hwil & Hbtl & Hv);
    [intros j kv Hj; simpl; now rewrite nth_error_map, Hj|exact Hlen|exact Hml|apply repeat_length..|].
  rewrite E, Hfin, Hvok. eexists. split; [reflexivity|]. cbn [out_mean out_std fin_or_nan andb].
  split; [now rewrite length_map|]. split; [now rewrite !length_map, length_zip_with, Hwil, Hbtl, Nat.min_id|].
  intros j Hj.
  assert (Hmj : nth j mean 0 = rsum (map (fun kv => wt W kv * nth j (snd kv) 0) mp)).
  { apply nth_error_nth. unfold mean. rewrite weighted_sum_nth by (rewrite ?Hws, ?length_map; auto).
    rewrite Hws, zip_with_map. reflexivity. }
  destruct (Hv j Hj) as [H1 H2].
  split.
  - rewrite (nth_map_lt _ _ _ _ 0) by lia. now rewrite Hmj.
  - rewrite (nth_map_lt _ _ _ _ 0) by (rewrite length_map, length_zip_with; lia).
    rewrite (nth_map_lt _ _ _ _ 0) by (rewrite length_zip_with; lia).
    rewrite (nth_zip_with _ _ _ _ 0 0) by lia. rewrite H1, H2, Hmj, !nth_repeat.
    do 2 f_equal. ring.
Qed.

(** Expanding the square: with weights summing to one, the weighted
    spread around the weighted mean is the weighted mean of squares minus
    the square of the mean. *)
Lemma weighted_spread {A} (w f : A -> R) l M :
  rsum (map (fun x => w x * (f x - M) ^ 2) l) =
  rsum (map (fun x => w x * f x ^ 2) l) - 2 * M * rsum (map (fun x => w x * f x) l) +
  M ^ 2 * rsum (map w l).
Proof.
  induction l as [|x l IH]; [simpl; ring|]. rewrite !map_cons.
  change (rsum (?a :: ?t)) with (a + rsum t). repeat change (rsum (?a :: ?t)) with (a + rsum t).
  rewrite IH. ring.
Qed.


(** On aligned input ([predict] called with the models it weighted,
    their weights finite and summing to one, their variances finite, all
    predictions of one length [m]), [predict] returns at every index [j]
    the mixture mean [mu = sum_k w_k * mu_k] and the standard deviation of
    the mixture, [sqrt (sum_k w_k * (sigma_k^2 + mu_k^2) - mu^2)]: the
    within- plus between-model variance is the law of total variance. *)
Theorem predict_mixture_variance mp s W Vd m :
  bma_posterior_weights s = Some W -> bma_model_variances s = Some Vd -> mp <> [] ->
  Forall (fun kv => length (snd kv) = m) mp ->
  Forall (fun kv => exists r, dict_get W (fst kv) = Some (XFin r)) mp ->
  Forall (fun kv => exists v, dict_get_or Vd (fst kv) (XFin 1) = XFin v) mp ->
  rsum (map (wt W) mp) = 1 ->
  exists out, predict mp s = (inr out, s) /\
    forall j, (j < m)%nat ->
      let mu := rsum (map (fun kv => wt W kv * nth j (snd kv) 0) mp) in
      nth j (out_mean out) XNaN = XFin mu /\
      nth j (out_std out) XNaN =
        XFin (sqrt (rsum (map (fun kv => wt W kv * (vr Vd kv + nth j (snd kv) 0 ^ 2)) mp) - mu ^ 2)).
Proof.
  intros HW HV Hne Hlen Hwt Hvf Hsum.
  destruct (predict_values mp s W Vd m HW HV Hne Hlen Hwt Hvf) as (out & Hp & _ & _ & Hv).
  exists out. split; [exact Hp|]. intros j Hj mu. destruct (Hv j Hj) as [Hm Hs].
  split; [exact Hm|]. rewrite Hs. fold mu. do 2 f_equal.
  rewrite (weighted_spread (wt W) (fun kv => nth j (snd kv) 0) mp mu), Hsum.
  rewrite (map_ext (fun kv => wt W kv * (vr Vd kv + nth j (snd kv) 0 ^ 2))
                   (fun kv => wt W kv * vr Vd kv + wt W kv * nth j (snd kv) 0 ^ 2)) by (intros; ring).
  rewrite (rsum_map_add (fun kv => wt W kv * vr Vd kv) (fun kv => wt W kv * nth j (snd kv) 0 ^ 2)).
  fold mu. ring.
Qed.

(** C25: [predict] on aligned input (every model of [models_predictions]
    weighted, predictions of one length [m], weights summing to one):
    with non-negative weights each BMA mean lies within the models'
    predictions at that index, and with finite variances the mean is the
    mixture mean [sum w_k mu_k] and the standard deviation the mixture's
    [sqrt (sum w_k (sigma_k^2 + mu_k^2) - mu^2)]. *)
Theorem predict_aligned_contract mp s W Vd m :
  bma_posterior_weights s = Some W -> bma_model_variances s = Some Vd -> mp <> [] ->
  Forall (fun kv => length (snd kv) = m) mp ->
  (Forall (fun kv => exists r, dict_get W (fst kv) = Some (XFin r) /\ 0 <= r) mp ->
   rsum (map (fun kv => xr_val (dict_get_or W (fst kv) XNaN)) mp) = 1 ->
   exists out, predict mp s = (inr out, s) /\
     forall j lo hi, Forall (fun kv => forall y, nth_error (snd kv) j = Some y -> lo <= y <= hi) mp ->
     forall x, nth_error (out_mean out) j = Some x -> exists r, x = XFin r /\ lo <= r <= hi) /\
  (Forall (fun kv => exists r, dict_get W (fst kv) = Some (XFin r)) mp ->
   Forall (fun kv => exists v, dict_get_or Vd (fst kv) (XFin 1) = XFin v) mp ->
   rsum (map (wt W) mp) = 1 ->
   exists out, predict mp s = (inr out, s) /\
     forall j, (j < m)%nat ->
       let mu := rsum (map (fun kv => wt W kv * nth j (snd kv) 0) mp) in
       nth j (out_mean out) XNaN = XFin mu /\
       nth j (out_std out) XNaN =
         XFin (sqrt (rsum (map (fun kv => wt W kv * (vr Vd kv + nth j (snd kv) 0 ^ 2)) mp) - mu ^ 2))).
Proof.
  intros HW HV Hne Hm. split; intros.
  - apply (predict_mean_convex mp s W Vd m); assumption.
  - apply (predict_mixture_variance mp s W Vd m); assumption.
Qed.

(** ** The spec's scenario with two exact models *)

(** The scenario of the spec: two identical models that are exact. *)
Definition scen_mp : dict (list R) := [("A", [20; 21; 22]); ("B", [20; 21; 22])]%string.
Definition scen_obs : list R := [20; 21; 22].
Definition scen_state : bma_state := bma_init ["A"; "B"]%string.

(** The spec's concrete scenario: two models ["A"] and ["B"] whose
    predictions [[20; 21; 22]] both equal the observations, with the
    uniform prior.  [compute_weights] gives each the weight [1/2] exactly
    and stores the variances; [predict] then returns the mean
    [[20; 21; 22]] and at every point the standard deviation
    [sqrt 1e-10], the square root of the variance floor. *)
Lemma bma_identical_exact_models :
  exists w s', compute_weights scen_mp scen_obs None scen_state = (inr w, s') /\
    w = [("A", XFin (1 / 2)); ("B", XFin (1 / 2))]%string /\ (exists V, bma_model_variances s' = Some V) /\
    exists out, predict scen_mp s' = (inr out, s') /\
      out_mean out = map XFin scen_obs /\ out_std out = repeat (XFin (sqrt var_floor)) 3.
Proof.
  destruct (compute_weights_ok scen_mp scen_obs None scen_state) as (V & w & E);
    [reflexivity|discriminate|repeat constructor|exact I|apply Exists_cons_hd; reflexivity|].
  assert (Hob : scen_obs <> []) by discriminate.
  assert (Hmp : Forall (fun kv => snd kv <> []) scen_mp) by (repeat constructor; discriminate).
  destruct (compute_weights_value scen_mp scen_obs None scen_state w _ eq_refl Hob Hmp I E)
    as (V' & L & Hl & _ & Hj & Hw & Hs).
  set (v0 := rvar [20 - 20; 21 - 21; 22 - 22] + var_floor).
  set (ll0 := XFin (- INR 3 / 2 * ln (2 * PI * v0) -
                    rsum (map (fun r : R => r ^ 2) [20 - 20; 21 - 21; 22 - 22]) / (2 * v0))).
  assert (Hloop : likelihood_loop (bma_model_names scen_state) scen_mp scen_obs [] [] =
                  inr ([("A", XFin v0); ("B", XFin v0)]%string, [("A", ll0); ("B", ll0)]%string))
    by reflexivity.
  rewrite Hloop in Hl. injection Hl as <- <-.
  assert (Hv0 : v0 = var_floor) by (unfold v0; rewrite rvar_zeros; [ring|repeat constructor; ring]).
  set (c := 1 / INR 2 * exp (xr_val ll0)).
  assert (Hc : 0 < c) by (unfold c; apply Rmult_lt_0_compat; [simpl; lra|apply exp_pos]).
  assert (Hw' : w = [("A", XFin (1 / 2)); ("B", XFin (1 / 2))]%string).
  { rewrite Hw. unfold bayes_joint, effective_prior. cbn [map fst snd].
    rewrite !uniform_prior_get. change (bma_n_models scen_state) with 2%nat. fold c.
    change (rsum [c; c]) with (c + (c + 0)).
    assert (Hh : c / (c + (c + 0)) = 1 / 2) by (field; lra). now rewrite Hh.
  }
  exists w. eexists. split; [exact E|]. split; [exact Hw'|].
  rewrite Hs, Hw'. split; [eexists; reflexivity|].
  destruct (predict_values scen_mp (set_weights [("A", XFin (1 / 2)); ("B", XFin (1 / 2))]%string
              (set_variances [("A", XFin v0); ("B", XFin v0)]%string scen_state))
              [("A", XFin (1 / 2)); ("B", XFin (1 / 2))]%string [("A", XFin v0); ("B", XFin v0)]%string 3)
    as (out & Hp & Hml & Hsl & Hv); [reflexivity|reflexivity|discriminate|repeat constructor|
      repeat constructor; eexists; reflexivity|repeat constructor; eexists; reflexivity|].
  exists out. split; [exact Hp|]. split.
  - apply (nth_ext _ _ XNaN XNaN); [rewrite Hml; reflexivity|]. intros j Hjm. rewrite Hml in Hjm.
    destruct (Hv j Hjm) as [Hm _]. rewrite Hm, (nth_map_lt _ _ _ _ 0) by (simpl; lia). f_equal.
    unfold wt. cbn. lra.
  - apply (nth_ext _ _ XNaN XNaN); [rewrite Hsl, repeat_length; reflexivity|]. intros j Hjm. rewrite Hsl in Hjm.
    destruct (Hv j Hjm) as [_ Hsd]. rewrite Hsd, (nth_indep _ XNaN (XFin (sqrt var_floor))) by (rewrite repeat_length; lia).
    rewrite nth_repeat. do 2 f_equal. unfold wt, vr, scen_mp. cbn [map snd fst]. generalize (nth j [20; 21; 22] 0). intros r.
    cbn [map rsum fold_right dict_get_or dict_get xr_val String.eqb Ascii.eqb Bool.eqb fst snd]. rewrite Hv0. field.
Qed.

Lemma predict_aligned_contract_witness :
  (exists out, predict bma_demo_mp bma_demo_even = (inr out, bma_demo_even) /\
    forall j lo hi,
      Forall (fun kv => forall y, nth_error (snd kv) j = Some y -> lo <= y <= hi) bma_demo_mp ->
      forall x, nth_error (out_mean out) j = Some x -> exists r, x = XFin r /\ lo <= r <= hi) /\
  (exists out, predict bma_demo_mp bma_demo_even = (inr out, bma_demo_even) /\
    forall j, (j < 2)%nat ->
      let mu := rsum (map (fun kv => wt [("a", XFin (1 / 2)); ("b", XFin (1 / 2))]%string kv * nth j (snd kv) 0)
                          bma_demo_mp) in
      nth j (out_mean out) XNaN = XFin mu /\
      nth j (out_std out) XNaN =
        XFin (sqrt (rsum (map (fun kv => wt [("a", XFin (1 / 2)); ("b", XFin (1 / 2))]%string kv *
                                          (vr [("a", XFin 1); ("b", XFin 1)]%string kv + nth j (snd kv) 0 ^ 2))
                              bma_demo_mp) - mu ^ 2))).
Proof.
  destruct (predict_aligned_contract bma_demo_mp bma_demo_even [("a", XFin (1 / 2)); ("b", XFin (1 / 2))]%string
              [("a", XFin 1); ("b", XFin 1)]%string 2 eq_refl eq_refl ltac:(discriminate) ltac:(repeat constructor))
    as [H1 H2].
  split.
  - apply H1.
    + repeat constructor; exists (1 / 2); split; [reflexivity|lra|reflexivity|lra].
    + simpl. lra.
  - apply H2; [repeat constructor; eexists; reflexivity|repeat constructor; eexists; reflexivity|].
    unfold wt. cbn [map rsum fold_right dict_get_or dict_get xr_val String.eqb Ascii.eqb Bool.eqb fst snd bma_demo_mp].
    lra.
Defined.
