(* ===== verification/BMAReport.v ===== *)
(** Model of [run_bma] in [algorithms/scientific/bayesian_ensemble.py]:
    the entry point that builds a [BayesianModelAveraging] object, calls
    [compute_weights] and [predict] (modelled in [BMA.v]) and reports the
    per-model and combined error metrics.  The metrics are numpy floats:
    [np.mean] of an empty array is [nan] and a float division by zero gives
    [inf] or [nan] without raising, so they are values of [xr]. *)

From Stdlib Require Import String.
From Stdlib Require Import List Arith Lia Reals Lra.
From S2P Require Import Prelude RNum BMA.
Import ListNotations.
Open Scope R_scope.

(** ** numpy float arithmetic on [xr] *)

Definition xr_abs (a : xr) : xr :=
  match a with XFin x => XFin (Rabs x) | XNaN => XNaN | _ => XPosInf end.

Definition xr_sq (a : xr) : xr :=
  match a with XFin x => XFin (x ^ 2) | XNaN => XNaN | _ => XPosInf end.

(** [np.sqrt]: [nan] below zero. *)
Definition xr_sqrt (a : xr) : xr :=
  match a with
  | XFin x => if Rle_dec 0 x then XFin (sqrt x) else XNaN
  | XPosInf => XPosInf
  | _ => XNaN
  end.

(** [np.mean]: [nan] on an empty array. *)
Definition xr_mean (l : list xr) : xr :=
  match l with
  | [] => XNaN
  | _ => match xr_sum l with XFin s => XFin (s / INR (length l)) | v => v end
  end.

(** [np.mean(X, axis=1)] of a two-dimensional array: [nan] for an empty
    row. *)
Definition row_means (X : list (list R)) : list xr :=
  map (fun row => xr_mean (map XFin row)) X.

(** Division of numpy floats: [inf] or [nan] instead of
    [ZeroDivisionError]. *)
Definition xr_div (a b : xr) : xr :=
  match a, b with
  | XNaN, _ | _, XNaN => XNaN
  | XFin x, XFin y =>
      if Req_EM_T y 0 then
        (if Rlt_dec 0 x then XPosInf else if Rlt_dec x 0 then XNegInf else XNaN)
      else XFin (x / y)
  | XFin _, _ => XFin 0
  | _, XFin y => if Rlt_dec 0 y then a else if Rlt_dec y 0 then xr_neg a else a
  | _, _ => XNaN
  end.

Module RunBMA.

(** The entry [model_metrics[name]]. *)
Record model_metric : Type := mk_metric { mae : xr; rmse : xr; bias : xr; variance : xr }.

(** The metrics loop: [errors = obs_array - preds] (broadcast),
    [self.model_variances.get(name, 0)]. *)
Fixpoint metrics_loop (names : list string) (mp : dict (list R)) (obs : list R)
  (V : option (dict xr)) (acc : dict model_metric) : py_exn + dict model_metric :=
  match names with
  | [] => inr acc
  | name :: rest =>
      match dict_get mp name with
      | None => inl (KeyError name)
      | Some preds =>
          match np_broadcast Rminus obs preds with
          | inl e => inl e
          | inr errs =>
              let errors := map XFin errs in
              match V with
              | None => inl (AttributeError "get")
              | Some Vd =>
                  metrics_loop rest mp obs V
                    (dict_set acc name
                       (mk_metric (xr_mean (map xr_abs errors)) (xr_sqrt (xr_mean (map xr_sq errors)))
                                  (xr_mean errors) (dict_get_or Vd name (XFin 0))))
              end
          end
      end
  end.

(** [[model_metrics[m] for m in model_names]]. *)
Fixpoint lookup_all {V} (names : list string) (d : dict V) : py_exn + list V :=
  match names with
  | [] => inr []
  | name :: rest =>
      match dict_get d name, lookup_all rest d with
      | None, _ => inl (KeyError name)
      | _, inl e => inl e
      | Some v, inr vs => inr (v :: vs)
      end
  end.

Record bma_report : Type := mk_report
  { posterior_weights : dict xr; prior_weights_out : dict R;
    model_metrics : dict model_metric; bma_prediction : bma_output;
    bma_mae : xr; bma_rmse : xr; skill_improvement : xr;
    n_models : nat; n_observations : nat }.

(** [prior_weights or {name: 1.0/len(model_names) for name in model_names}]:
    an empty dictionary is falsy. *)
Definition reported_prior (prior_weights : option (dict R)) (model_names : list string) : dict R :=
  match prior_weights with
  | Some (_ :: _ as p) => p
  | _ => map (fun name => (name, 1 / INR (length model_names))) model_names
  end.

Definition run_bma (models_predictions : dict (list R)) (observations : list R)
  (prior_weights : option (dict R)) : py_exn + bma_report :=
  let model_names := map fst models_predictions in
  match compute_weights models_predictions observations prior_weights (bma_init model_names) with
  | (inl e, _) => inl e
  | (inr weights, s1) =>
      match predict models_predictions s1 with
      | (inl e, _) => inl e
      | (inr prediction, s2) =>
          match metrics_loop model_names models_predictions observations (bma_model_variances s2) [] with
          | inl e => inl e
          | inr mm =>
              let bma_mean := out_mean prediction in
              match np_broadcast xr_sub (map XFin observations) (firstn (length observations) bma_mean) with
              | inl e => inl e
              | inr bma_errors =>
                  match lookup_all model_names mm with
                  | inl e => inl e
                  | inr ms =>
                      let mse := xr_mean (map xr_sq bma_errors) in
                      inr (mk_report weights (reported_prior prior_weights model_names) mm prediction
                             (xr_mean (map xr_abs bma_errors)) (xr_sqrt mse)
                             (xr_sub (XFin 1) (xr_div mse (xr_mean (map (fun m => xr_sq (rmse m)) ms))))
                             (length model_names) (length observations))
                  end
              end
          end
      end
  end.

End RunBMA.

(** ** The spec's scenario *)

Module RunBMAFacts.
Import RunBMA.

Lemma xr_mean_zeros l : Forall (fun x => x = 0) l -> l <> [] -> xr_mean (map XFin l) = XFin 0.
Proof.
  intros Hall Hne. destruct l as [|x t]; [contradiction|]. unfold xr_mean.
  assert (Hs : xr_sum (map XFin (x :: t)) = XFin 0).
  { clear Hne. induction Hall as [|y t' Hy _ IH]; [reflexivity|]. cbn [map xr_sum fold_right] in *.
    change (fold_right xr_add (XFin 0) (map XFin t')) with (xr_sum (map XFin t')). rewrite IH, Hy.
    cbn. f_equal. ring. }
  change (map XFin (x :: t)) with (XFin x :: map XFin t) in *. rewrite Hs. f_equal. unfold Rdiv. ring.
Qed.

Lemma xr_sqrt_zero : xr_sqrt (XFin 0) = XFin 0.
Proof. unfold xr_sqrt. destruct (Rle_dec 0 0) as [_|]; [rewrite sqrt_0; reflexivity|lra]. Qed.

Lemma xr_div_zero_zero : xr_div (XFin 0) (XFin 0) = XNaN.
Proof.
  unfold xr_div. destruct (Req_EM_T 0 0) as [_|]; [|lra].
  destruct (Rlt_dec 0 0); [lra|]. destruct (Rlt_dec 0 0); [lra|reflexivity].
Qed.

(** The per-model error metrics of an exact model. *)
Lemma exact_model_metrics obs :
  obs <> [] ->
  xr_mean (map xr_abs (map XFin (zip_with Rminus obs obs))) = XFin 0 /\
  xr_mean (map xr_sq (map XFin (zip_with Rminus obs obs))) = XFin 0.
Proof.
  intros Hne.
  assert (Hz : Forall (fun x => x = 0) (zip_with Rminus obs obs))
    by (clear Hne; induction obs; constructor; [ring|assumption]).
  assert (Hzne : zip_with Rminus obs obs <> []) by (destruct obs; [contradiction|discriminate]).
  rewrite !map_map. split.
  - change (fun x => xr_abs (XFin x)) with (fun x => XFin (Rabs x)). rewrite <- (map_map Rabs XFin).
    apply xr_mean_zeros; [|rewrite <- length_zero_iff_nil, length_map, length_zero_iff_nil; exact Hzne].
    rewrite Forall_map. eapply Forall_impl; [|exact Hz]. intros x ->. apply Rabs_R0.
  - change (fun x => xr_sq (XFin x)) with (fun x => XFin (x ^ 2)). rewrite <- (map_map (fun x => x ^ 2) XFin).
    apply xr_mean_zeros; [|rewrite <- length_zero_iff_nil, length_map, length_zero_iff_nil; exact Hzne].
    rewrite Forall_map. eapply Forall_impl; [|exact Hz]. intros x ->. ring.
Qed.


Lemma zip_xr_sub_self l : zip_with xr_sub (map XFin l) (map XFin l) = map XFin (zip_with Rminus l l).
Proof. induction l as [|x t IH]; [reflexivity|]. cbn. rewrite IH. reflexivity. Qed.

(** C27: the spec's scenario end to end: [run_bma] on two models ["A"]
    and ["B"] that both predict the observations [[20; 21; 22]], with the
    uniform prior, gives each model the weight [1/2], predicts the mean
    [[20; 21; 22]] with standard deviation [sqrt 1e-10] (the variance
    floor), and reports a combined MAE of [0]; its [skill_improvement]
    divides [0] by the models' mean squared RMSE [0] and is [nan]. *)
Theorem run_bma_spec_scenario :
  exists rep, run_bma scen_mp scen_obs None = inr rep /\
    posterior_weights rep = [("A", XFin (1 / 2)); ("B", XFin (1 / 2))]%string /\
    out_mean (bma_prediction rep) = map XFin scen_obs /\
    out_std (bma_prediction rep) = repeat (XFin (sqrt var_floor)) 3 /\
    bma_mae rep = XFin 0 /\ skill_improvement rep = XNaN.
Proof.
  destruct bma_identical_exact_models as (w & s' & E & Hw & [V HV] & out & Hp & Hm & Hs).
  destruct (exact_model_metrics scen_obs ltac:(discriminate)) as [Hmae Hmse].
  unfold run_bma. change (bma_init (map fst scen_mp)) with scen_state. rewrite E, Hp, HV.
  cbn [metrics_loop map fst scen_mp dict_get String.eqb Ascii.eqb Bool.eqb].
  rewrite np_broadcast_same by reflexivity. fold scen_obs.
  replace (zip_with Rminus scen_obs [20; 21; 22]) with (zip_with Rminus scen_obs scen_obs) by reflexivity.
  rewrite Hmse, xr_sqrt_zero. cbn [dict_set lookup_all dict_get String.eqb Ascii.eqb Bool.eqb rmse].
  rewrite Hm. replace (firstn (length scen_obs) (map XFin scen_obs)) with (map XFin scen_obs) by reflexivity.
  rewrite np_broadcast_same by reflexivity. rewrite zip_xr_sub_self, Hmae, Hmse.
  eexists. split; [reflexivity|]. cbn [posterior_weights bma_prediction bma_mae skill_improvement].
  split; [exact Hw|]. split; [exact Hm|]. split; [exact Hs|]. split; [reflexivity|].
  cbn [map rmse xr_sq]. change [XFin (0 ^ 2); XFin (0 ^ 2)] with (map XFin [0 ^ 2; 0 ^ 2]).
  rewrite xr_mean_zeros, xr_div_zero_zero; [reflexivity| |discriminate].
  repeat constructor; ring.
Qed.

End RunBMAFacts.
