(* ===== verification/Arima.v ===== *)
(** Model of [algorithms/scientific/arima_model.py]: the class
    [WeatherARIMA] ([fit], [forecast], [diagnostics], [get_equation]) and
    the module-level [run_forecast].  The statsmodels routines the class
    calls ([ARIMA], its [fit], [get_forecast], [adfuller], [acf], [pacf],
    [acorr_ljungbox]) are given by the class [StatsModels]; the one fact
    of their contract the theorems use, that the fitted model has one
    residual per observation, is the law of [StatsModelsLaws].  numpy's
    element-wise division is modelled with its broadcasting rule and the
    [ValueError] it raises on shapes that do not broadcast. *)

From Stdlib Require Import String.
From Stdlib Require Import List Arith ZArith Bool Lia Reals Lra.
From S2P Require Import Prelude RNum BMA.
Import ListNotations.
Open Scope R_scope.

(** ** numpy on one-dimensional arrays *)

(** [np.diff(a)]: the differences of consecutive elements. *)
Definition np_diff (a : list R) : list R := zip_with Rminus (tl a) a.

(** [a / b] on two 1-d arrays: shapes [(n,)] and [(m,)] broadcast when
    they are equal or one of them is [1]; otherwise numpy raises. *)
Definition np_divide (a b : list R) : py_exn + list R :=
  let n := length a in
  let m := length b in
  if Nat.eqb n m then inr (zip_with Rdiv a b)
  else if Nat.eqb n 1 then inr (map (fun y => hd 0 a / y) b)
  else if Nat.eqb m 1 then inr (map (fun x => x / hd 0 b) a)
  else inl (ValueError ("operands could not be broadcast together with shapes ("
                        ++ string_of_nat n ++ ",) (" ++ string_of_nat m ++ ",) ")%string).

(** [np.all(a != 0)]. *)
Definition all_nonzero (a : list R) : bool :=
  forallb (fun x => if Req_EM_T x 0 then false else true) a.

(** ** The statsmodels interface *)

(** The result of [adfuller(data, autolag='AIC')]: the statistic, the
    p-value, the lags used, the number of observations and the critical
    values at 1%, 5% and 10%. *)
Record adf_result : Type := mk_adf
  { adf_statistic : R; adf_pvalue : R; adf_usedlag : Z; adf_nobs : Z;
    crit_1 : R; crit_5 : R; crit_10 : R }.

Class StatsModels : Type := {
  sm_model : Type;
  sm_results : Type;
  sm_forecast : Type;
  (** [ARIMA(data, order=order)] and [model.fit()]. *)
  ARIMA : list R -> Z * Z * Z -> py_exn + sm_model;
  sm_fit : sm_model -> py_exn + sm_results;
  (** The attributes of the results object the code reads. *)
  sm_aic : sm_results -> R;
  sm_bic : sm_results -> R;
  sm_hqic : sm_results -> R;
  sm_llf : sm_results -> R;
  sm_arparams : sm_results -> list R;
  sm_maparams : sm_results -> list R;
  sm_params : sm_results -> list R;
  sm_resid : sm_results -> list R;
  sm_fittedvalues : sm_results -> list R;
  (** [get_forecast(steps=steps)], its [predicted_mean],
      [conf_int(alpha)] (lower and upper columns) and [var_pred_mean]. *)
  sm_get_forecast : sm_results -> Z -> py_exn + sm_forecast;
  predicted_mean : sm_forecast -> list R;
  conf_int : sm_forecast -> R -> list (R * R);
  var_pred_mean : sm_forecast -> list R;
  (** [adfuller], [acf(nlags=, fft=True)], [pacf(nlags=)] and the
      p-value of [acorr_ljungbox(residuals, lags=[10])]. *)
  adfuller : list R -> py_exn + adf_result;
  sm_acf : list R -> Z -> py_exn + list R;
  sm_pacf : list R -> Z -> py_exn + list R;
  ljungbox_pvalue : list R -> py_exn + R }.

(** statsmodels' [ARIMA] estimates the differenced model in state-space
    form on the undifferenced series ([simple_differencing=False]), so the
    fitted results have one residual per observation. *)
Class StatsModelsLaws `{StatsModels} : Prop := {
  sm_resid_length : forall data order m r,
    ARIMA data order = inr m -> sm_fit m = inr r -> length (sm_resid r) = length data }.

Module WeatherARIMA.
Section WithStatsModels.
Context `{StatsModels}.

(** The attributes [order], [model], [fitted] and [data]; [None] is
    Python's [None] before [fit]. *)
Record arima : Type := mk_arima
  { order : Z * Z * Z; model : option sm_model; fitted : option sm_results;
    data : option (list R) }.

(** [__init__(order=(2, 1, 1))]. *)
Definition init (o : Z * Z * Z) : arima := mk_arima o None None None.

Definition default_order : Z * Z * Z := (2, 1, 1)%Z.

(** The dictionary [fit] returns. *)
Record fit_stats : Type := mk_fit_stats
  { aic : R; bic : R; hqic : R; log_likelihood : R;
    ar_coefficients : list R; ma_coefficients : list R; sigma2 : R }.

(** [fit(data)]: [self.data], [self.model] and [self.fitted] are assigned
    in this order, so an error of the constructor or of [fit] leaves the
    earlier assignments in place.  [hasattr(self.fitted, 'params')] holds
    for every results object, so [sigma2] is [params[-1]]. *)
Definition fit (d : list R) : PyM arima fit_stats :=
  (py_modify (fun s => mk_arima (order s) (model s) (fitted s) (Some d)) ;;
   s <- py_get ;;
   m <- py_lift (ARIMA d (order s)) ;;
   py_modify (fun s => mk_arima (order s) (Some m) (fitted s) (data s)) ;;
   r <- py_lift (sm_fit m) ;;
   py_modify (fun s => mk_arima (order s) (model s) (Some r) (data s)) ;;
   sig <- py_lift (py_last (sm_params r)) ;;
   py_ret (mk_fit_stats (sm_aic r) (sm_bic r) (sm_hqic r) (sm_llf r)
             (if Nat.ltb 0 (length (sm_arparams r)) then sm_arparams r else [])
             (if Nat.ltb 0 (length (sm_maparams r)) then sm_maparams r else [])
             sig))%py.

(** The dictionary [forecast] returns. *)
Record forecast_out : Type := mk_forecast_out
  { forecast_mean : list R; lower_bound_95 : list R; upper_bound_95 : list R;
    forecast_variance : list R }.

(** [forecast(steps)]: the 95% interval is [conf_int(alpha=0.05)]. *)
Definition forecast (steps : Z) : PyM arima forecast_out :=
  (s <- py_get ;;
   match fitted s with
   | None => py_raise (ValueError "Model must be fitted first"%string)
   | Some r =>
       fr <- py_lift (sm_get_forecast r steps) ;;
       let ci := conf_int fr (5 / 100) in
       py_ret (mk_forecast_out (predicted_mean fr) (map fst ci) (map snd ci)
                 (var_pred_mean fr))
   end)%py.

(** The residual statistics of [diagnostics]; all [None] before [fit].
    Skewness and kurtosis divide by the residuals' standard deviation: when
    it is zero every term is [0 / 0] and numpy returns [nan]. *)
Record resid_stats : Type := mk_resid_stats
  { resid_mean : R; resid_std : R; resid_skew : xr; resid_kurtosis : xr;
    ljung_box_pvalue : R }.

Record stationarity : Type := mk_stationarity
  { adf : adf_result; is_stationary : bool }.

Record diagnostics_out : Type := mk_diagnostics
  { stationarity_test : stationarity; acf : list R; pacf : list R;
    residuals : option resid_stats; is_white_noise : option bool }.

(** [n_lags = min(10, len(data) // 2 - 1)]. *)
Definition n_lags (d : list R) : Z := Z.min 10 (Z.of_nat (length d) / 2 - 1).

(** [np.mean(((residuals - resid_mean) / resid_std) ** k)]. *)
Definition std_moment (res : list R) (k : nat) : xr :=
  let m := rmean res in
  let sd := np_std res in
  if Req_EM_T sd 0 then XNaN else XFin (rmean (map (fun x => ((x - m) / sd) ^ k) res)).

Definition kurtosis_of (res : list R) : xr :=
  match std_moment res 4 with XFin k => XFin (k - 3) | e => e end.

(** [lb_pvalue > 0.05 if lb_pvalue else None]: a p-value of [0.0] is
    falsy, so it gives [None] as an unfitted model does. *)
Definition white_noise (lb : option R) : option bool :=
  match lb with
  | None => None
  | Some p => if Req_EM_T p 0 then None else Some (if Rlt_dec (5 / 100) p then true else false)
  end.

(** [diagnostics(data)]: reads the state and does not change it. *)
Definition diagnostics (d : list R) : PyM arima diagnostics_out :=
  (a <- py_lift (adfuller d) ;;
   acf_values <- py_lift (sm_acf d (n_lags d)) ;;
   pacf_values <- py_lift (sm_pacf d (n_lags d)) ;;
   s <- py_get ;;
   rs <- match fitted s with
         | None => py_ret None
         | Some r =>
             let res := sm_resid r in
             lb <- py_lift (ljungbox_pvalue res) ;;
             py_ret (Some (mk_resid_stats (rmean res) (np_std res) (std_moment res 3)
                             (kurtosis_of res) lb))
         end ;;
   py_ret (mk_diagnostics
             (mk_stationarity a (if Rlt_dec (adf_pvalue a) (5 / 100) then true else false))
             acf_values pacf_values rs
             (white_noise (option_map ljung_box_pvalue rs))))%py.

(** [get_equation()]; [format_4f] is Python's [format(x, '.4f')]. *)
Definition ar_term (format_4f : R -> string) (ps : list R) (i : nat) : string :=
  (format_4f (nth i ps 0) ++ "*y_{t-" ++ string_of_nat (i + 1) ++ "}")%string.

Definition ma_term (format_4f : R -> string) (ps : list R) (i : nat) : string :=
  (format_4f (nth i ps 0) ++ "*ε_{t-" ++ string_of_nat (i + 1) ++ "}")%string.

Definition get_equation (format_4f : R -> string) (s : arima) : string :=
  match fitted s with
  | None => "Model not fitted yet"%string
  | Some r =>
      let '(p, d, q) := order s in
      let ar_params := if Nat.ltb 0 (length (sm_arparams r)) then sm_arparams r else [] in
      let ma_params := if Nat.ltb 0 (length (sm_maparams r)) then sm_maparams r else [] in
      let equation := ("ARIMA(" ++ string_of_Z p ++ "," ++ string_of_Z d ++ ","
                       ++ string_of_Z q ++ "): ")%string in
      let equation :=
        if Nat.ltb 0 (length ar_params) then
          (equation ++ "y_t = "
           ++ py_join " + " (map (ar_term format_4f ar_params) (seq 0 (length ar_params))))%string
        else (equation ++ "y_t = ")%string in
      let equation :=
        if Nat.ltb 0 (length ma_params) then
          (equation ++ " + "
           ++ py_join " + " (map (ma_term format_4f ma_params) (seq 0 (length ma_params))))%string
        else equation in
      (equation ++ " + ε_t")%string
  end.

End WithStatsModels.
End WeatherARIMA.

Module ArimaForecast.
Import WeatherARIMA.
Section WithStatsModels.
Context `{StatsModels} (format_4f : R -> string).

(** The [trend] label from [np.mean(np.diff(data))]. *)
Definition trend_label (md : R) : string :=
  if Rlt_dec 0 md then "increasing"%string
  else if Rlt_dec md 0 then "decreasing"%string
  else "stable"%string.

(** The dictionary [run_forecast] returns; the constant strings
    ([algorithm], [library], [version], [reference], the descriptions and
    the three formula templates) are left out. *)
Record report : Type := mk_report
  { full_equation : string; p : Z; d : Z; q : Z;
    fit_statistics : fit_stats; forecast_result : forecast_out;
    diagnostics_result : diagnostics_out;
    mae : R; rmse : R; mape : option R; n_observations : nat;
    trend : string;
    data_mean : R; data_std : R; data_min : R; data_max : R }.

(** [mape]: computed only when [np.all(data_array[1:] != 0)]; the division
    [residuals / data_array[1:]] is numpy's. *)
Definition mape_of (res data : list R) : py_exn + option R :=
  if all_nonzero (tl data) then
    match np_divide res (tl data) with
    | inl e => inl e
    | inr q => inr (Some (rmean (map Rabs q) * 100))
    end
  else inr None.

(** The body of [run_forecast] after the length check, on a fresh
    [WeatherARIMA(order=order)]. *)
Definition forecast_body (data : list R) (steps : Z) : PyM arima report :=
  (fit_stats <- fit data ;;
   fc <- forecast steps ;;
   dg <- diagnostics data ;;
   s <- py_get ;;
   match fitted s with
   | None => py_raise (AttributeError "fittedvalues"%string)
   | Some r =>
       let res := sm_resid r in
       let m_abs := rmean (map Rabs res) in
       let m_sq := sqrt (rmean (map (fun x => x ^ 2) res)) in
       mp <- py_lift (mape_of res data) ;;
       mn <- py_lift (np_min data) ;;
       mx <- py_lift (np_max data) ;;
       let '(p, d, q) := order s in
       py_ret (mk_report (get_equation format_4f s) p d q fit_stats fc dg
                 m_abs m_sq mp (length data) (trend_label (rmean (np_diff data)))
                 (rmean data) (np_std data) mn mx)
   end)%py.

(** [run_forecast(data, order=(2, 1, 1), forecast_steps=7)]. *)
Definition run_forecast (data : list R) (o : Z * Z * Z) (steps : Z) : py_exn + report :=
  if Nat.ltb (length data) 10 then
    inl (ValueError "At least 10 data points required for ARIMA"%string)
  else fst (forecast_body data steps (init o)).

End WithStatsModels.
End ArimaForecast.

Module ArimaFacts.
Import WeatherARIMA ArimaForecast.

(** ** numpy facts *)

Lemma np_diff_cons2 x y t : np_diff (x :: y :: t) = (y - x) :: np_diff (y :: t).
Proof. reflexivity. Qed.

Lemma np_diff_length a : length (np_diff a) = (length a - 1)%nat.
Proof.
  destruct a as [|x t]; [reflexivity|]. unfold np_diff. cbn [tl].
  rewrite length_zip_with. cbn [length]. lia.
Qed.

Lemma last_cons_default_irrel {A} (z : A) t a b : last (z :: t) a = last (z :: t) b.
Proof.
  revert z. induction t as [|w t IH]; intros z; [reflexivity|].
  change (last (w :: t) a = last (w :: t) b). apply IH.
Qed.

(** [np.diff] telescopes: its sum is the last element minus the first. *)
Lemma rsum_np_diff x t : rsum (np_diff (x :: t)) = last t x - x.
Proof.
  revert x. induction t as [|y t IH]; intros x.
  - change (rsum [] = x - x). unfold rsum. cbn [fold_right]. lra.
  - rewrite np_diff_cons2, rsum_cons, IH. destruct t as [|z t]; [cbn [last]; lra|].
    rewrite (last_cons_default_irrel z t y x).
    change (last (y :: z :: t) x) with (last (z :: t) x). lra.
Qed.

Lemma trend_label_scale x c : 0 < c -> trend_label (x / c) = trend_label x.
Proof.
  intros Hc. unfold trend_label.
  assert (E : x / c = x * / c) by reflexivity. pose proof (Rinv_0_lt_compat c Hc).
  destruct (Rlt_dec 0 (x / c)), (Rlt_dec 0 x); try reflexivity.
  - exfalso. rewrite E in *. nra.
  - exfalso. rewrite E in *. nra.
  - destruct (Rlt_dec (x / c) 0), (Rlt_dec x 0); try reflexivity; exfalso; rewrite E in *; nra.
Qed.

(** The [trend] of a series of at least two values is the sign of its
    last value minus its first. *)
Lemma trend_of_endpoints a :
  (2 <= length a)%nat -> trend_label (rmean (np_diff a)) = trend_label (last a 0 - hd 0 a).
Proof.
  intros Ha. destruct a as [|x t]; [cbn in Ha; lia|].
  unfold rmean. rewrite rsum_np_diff, np_diff_length.
  replace (last (x :: t) 0) with (last t x)
    by (destruct t as [|y t]; [cbn in Ha; lia|]; change (last (x :: y :: t) 0) with (last (y :: t) 0); apply last_cons_default_irrel).
  apply trend_label_scale, lt_0_INR. cbn [length] in *. lia.
Qed.

(** Shapes [(n,)] and [(n - 1,)] with [n >= 3] do not broadcast. *)
Lemma np_divide_off_by_one a b :
  (3 <= length a)%nat -> length b = (length a - 1)%nat ->
  np_divide a b = inl (ValueError ("operands could not be broadcast together with shapes ("
                        ++ string_of_nat (length a) ++ ",) (" ++ string_of_nat (length a - 1) ++ ",) ")%string).
Proof.
  intros Ha Hb. unfold np_divide. rewrite Hb.
  destruct (Nat.eqb_spec (length a) (length a - 1)); [lia|].
  destruct (Nat.eqb_spec (length a) 1); [lia|].
  destruct (Nat.eqb_spec (length a - 1) 1); [lia|]. reflexivity.
Qed.

(** The mean absolute value is at most the root mean square. *)
Lemma rmean_abs_le_rms l : rmean (map Rabs l) <= sqrt (rmean (map (fun x => x ^ 2) l)).
Proof.
  destruct l as [|x t]; [unfold rmean; cbn [map rsum fold_right length INR]; unfold Rdiv; rewrite Rmult_0_l, sqrt_0; lra|].
  set (n := INR (length (x :: t))).
  assert (Hn : 0 < n) by (apply lt_0_INR; cbn; lia).
  assert (Hsq : map (fun y => y ^ 2) (map Rabs (x :: t)) = map (fun y => y ^ 2) (x :: t)).
  { rewrite map_map. apply map_ext. intros y. rewrite <- !Rsqr_pow2. symmetry. apply Rsqr_abs. }
  pose proof (rsum_sq_bound (map Rabs (x :: t))) as Hcs. rewrite Hsq, length_map in Hcs.
  unfold rmean. rewrite !length_map. fold n.
  assert (H0 : 0 <= rsum (map Rabs (x :: t))).
  { apply rsum_nonneg, Forall_forall. intros y Hy. apply in_map_iff in Hy.
    destruct Hy as (z & <- & _). apply Rabs_pos. }
  apply Rsqr_incr_0_var; [|apply sqrt_pos].
  rewrite Rsqr_sqrt.
  - unfold Rsqr. apply (Rmult_le_reg_l (n * n)); [nra|].
    replace (n * n * (rsum (map Rabs (x :: t)) / n * (rsum (map Rabs (x :: t)) / n)))
      with (rsum (map Rabs (x :: t)) ^ 2) by (field; lra).
    replace (n * n * (rsum (map (fun y => y ^ 2) (x :: t)) / n))
      with (n * rsum (map (fun y => y ^ 2) (x :: t))) by (field; lra).
    exact Hcs.
  - apply Rdiv_nonneg; [|lra]. apply rsum_nonneg, Forall_forall. intros y Hy.
    apply in_map_iff in Hy. destruct Hy as (z & <- & _). apply pow2_ge_0.
Qed.

Lemma rmean_abs_nonneg l : 0 <= rmean (map Rabs l).
Proof.
  unfold rmean. apply Rdiv_nonneg; [|apply pos_INR]. apply rsum_nonneg, Forall_forall.
  intros y Hy. apply in_map_iff in Hy. destruct Hy as (z & <- & _). apply Rabs_pos.
Qed.

Lemma all_nonzero_true l : Forall (fun x => x <> 0) l -> all_nonzero l = true.
Proof.
  intros Hl. apply forallb_forall. intros x Hx. rewrite Forall_forall in Hl.
  destruct (Req_EM_T x 0); [now apply Hl in Hx|reflexivity].
Qed.

Lemma all_nonzero_false l : In 0 l -> all_nonzero l = false.
Proof.
  intros Hl. apply not_true_iff_false. intros Ht. unfold all_nonzero in Ht.
  rewrite forallb_forall in Ht. specialize (Ht 0 Hl). now destruct (Req_EM_T 0 0).
Qed.

(** ** Runs of the methods *)

Section Runs.
Context `{StatsModels}.

Ltac py_unfold := unfold py_bind, py_modify, py_get, py_lift, py_ret, py_raise in *.

Lemma fit_inv dt s fs s' :
  fit dt s = (inr fs, s') ->
  exists m r, ARIMA dt (order s) = inr m /\ sm_fit m = inr r /\
    s' = mk_arima (order s) (Some m) (Some r) (Some dt).
Proof.
  unfold fit. py_unfold. simpl.
  destruct (ARIMA dt (order s)) as [e|m] eqn:Hm; [discriminate|].
  destruct (sm_fit m) as [e|r] eqn:Hr; [discriminate|].
  destruct (py_last (sm_params r)); [discriminate|]. intros [= _ <-]. now exists m, r.
Qed.

Lemma fit_run dt s m r sig :
  ARIMA dt (order s) = inr m -> sm_fit m = inr r -> py_last (sm_params r) = inr sig ->
  exists fs, fit dt s = (inr fs, mk_arima (order s) (Some m) (Some r) (Some dt)).
Proof. intros Hm Hr Hs. unfold fit. py_unfold. simpl. rewrite Hm, Hr, Hs. eauto. Qed.

Lemma forecast_inv steps s fc s' : forecast steps s = (inr fc, s') -> s' = s.
Proof.
  unfold forecast. py_unfold. simpl. destruct (fitted s) as [r|]; [|discriminate].
  destruct (sm_get_forecast r steps); [discriminate|]. now intros [= _ <-].
Qed.

Lemma arima_forecast_run steps s r fr :
  fitted s = Some r -> sm_get_forecast r steps = inr fr -> exists fc, forecast steps s = (inr fc, s).
Proof. intros Hf Hg. unfold forecast. py_unfold. simpl. rewrite Hf, Hg. eauto. Qed.

Lemma diagnostics_inv dt s dg s' : diagnostics dt s = (inr dg, s') -> s' = s.
Proof.
  unfold diagnostics. py_unfold. simpl.
  destruct (adfuller dt); [discriminate|]. destruct (sm_acf dt (n_lags dt)); [discriminate|].
  destruct (sm_pacf dt (n_lags dt)); [discriminate|].
  destruct (fitted s) as [r|]; [destruct (ljungbox_pvalue (sm_resid r)); [discriminate|]|];
    now intros [= _ <-].
Qed.

Lemma diagnostics_run dt s r a ac pc lb :
  adfuller dt = inr a -> sm_acf dt (n_lags dt) = inr ac -> sm_pacf dt (n_lags dt) = inr pc ->
  fitted s = Some r -> ljungbox_pvalue (sm_resid r) = inr lb ->
  exists dg, diagnostics dt s = (inr dg, s).
Proof. intros Ha Hac Hpc Hf Hlb. unfold diagnostics. py_unfold. simpl. rewrite Ha, Hac, Hpc, Hf, Hlb. eauto. Qed.

(** What a successful [run_forecast] body computed its metrics from. *)
Lemma forecast_body_inv fmt dt steps o rep s' :
  forecast_body fmt dt steps (init o) = (inr rep, s') ->
  exists m r, ARIMA dt o = inr m /\ sm_fit m = inr r /\
    mape_of (sm_resid r) dt = inr (mape rep) /\
    mae rep = rmean (map Rabs (sm_resid r)) /\
    rmse rep = sqrt (rmean (map (fun x => x ^ 2) (sm_resid r))) /\
    trend rep = trend_label (rmean (np_diff dt)) /\
    n_observations rep = length dt.
Proof.
  unfold forecast_body. intros Hrun.
  apply py_bind_inr_inv in Hrun as (fs & s1 & Hfit & Hrun). apply fit_inv in Hfit as (m & r & Hm & Hr & ->).
  apply py_bind_inr_inv in Hrun as (fc & s2 & Hfc & Hrun). apply forecast_inv in Hfc as ->.
  apply py_bind_inr_inv in Hrun as (dg & s3 & Hdg & Hrun). apply diagnostics_inv in Hdg as ->.
  apply py_bind_inr_inv in Hrun as (s4 & s5 & Hget & Hrun). injection Hget as <- <-. simpl in Hrun.
  apply py_bind_inr_inv in Hrun as (mp & s6 & Hmp & Hrun). injection Hmp as Hmp <-.
  apply py_bind_inr_inv in Hrun as (mn & s7 & Hmn & Hrun). injection Hmn as _ <-.
  apply py_bind_inr_inv in Hrun as (mx & s8 & Hmx & Hrun). injection Hmx as _ <-.
  destruct o as [[p0 d0] q0]. injection Hrun as <- _.
  exists m, r. cbn. repeat split; auto.
Qed.

(** Once the library calls succeed, [run_forecast]'s body fails exactly
    when the [mape] division does. *)
Lemma forecast_body_mape fmt dt steps o m r fr a ac pc lb :
  ARIMA dt o = inr m -> sm_fit m = inr r -> sm_params r <> [] ->
  sm_get_forecast r steps = inr fr -> adfuller dt = inr a ->
  sm_acf dt (n_lags dt) = inr ac -> sm_pacf dt (n_lags dt) = inr pc ->
  ljungbox_pvalue (sm_resid r) = inr lb -> dt <> [] ->
  (forall e, mape_of (sm_resid r) dt = inl e -> fst (forecast_body fmt dt steps (init o)) = inl e) /\
  (forall mp, mape_of (sm_resid r) dt = inr mp -> exists rep, fst (forecast_body fmt dt steps (init o)) = inr rep).
Proof.
  intros Hm Hr Hp Hg Ha Hac Hpc Hlb Hd.
  destruct (py_last_ok _ Hp) as [sig Hsig].
  destruct (fit_run dt (init o) m r sig Hm Hr Hsig) as [fs Hfit].
  set (s1 := mk_arima (order (init o)) (Some m) (Some r) (Some dt)) in *.
  destruct (arima_forecast_run steps s1 r fr eq_refl Hg) as [fc Hfc].
  destruct (diagnostics_run dt s1 r a ac pc lb Ha Hac Hpc eq_refl Hlb) as [dg Hdg].
  unfold forecast_body. rewrite (py_bind_inr _ _ _ _ _ Hfit), (py_bind_inr _ _ _ _ _ Hfc),
    (py_bind_inr _ _ _ _ _ Hdg).
  destruct dt as [|x t]; [congruence|]. py_unfold. cbn [fitted s1 fst].
  split; [intros e He; now rewrite He|intros mp Hmp; rewrite Hmp]. destruct o as [[p0 d0] q0]. unfold s1. cbn [np_min np_max order init fst]. eexists; reflexivity.
Qed.

(** C6: run_forecast never succeeds on data whose values after the first
    are all non-zero.  The fitted ARIMA model has one residual per
    observation, and [residuals / data_array[1:]] divides arrays of lengths
    n and n - 1, which numpy cannot broadcast.  So on at least ten points
    with non-zero data[1:], once the statsmodels calls succeed,
    run_forecast raises the ValueError 'operands could not be broadcast
    together with shapes (n,) (n-1,) '. *)
Theorem run_forecast_mape_broadcast_error {HL : StatsModelsLaws} fmt dt o steps m r fr a ac pc lb :
  (10 <= length dt)%nat -> all_nonzero (tl dt) = true ->
  ARIMA dt o = inr m -> sm_fit m = inr r -> sm_params r <> [] ->
  sm_get_forecast r steps = inr fr -> adfuller dt = inr a ->
  sm_acf dt (n_lags dt) = inr ac -> sm_pacf dt (n_lags dt) = inr pc ->
  ljungbox_pvalue (sm_resid r) = inr lb ->
  run_forecast fmt dt o steps =
    inl (ValueError ("operands could not be broadcast together with shapes ("
           ++ string_of_nat (length dt) ++ ",) (" ++ string_of_nat (length dt - 1) ++ ",) ")%string).
Proof.
  intros Hn Hz Hm Hr Hp Hg Ha Hac Hpc Hlb.
  assert (Hd : dt <> []) by (intros ->; cbn in Hn; lia).
  pose proof (sm_resid_length _ _ _ _ Hm Hr) as Hlen.
  unfold run_forecast. destruct (Nat.ltb_spec (length dt) 10); [lia|].
  apply (forecast_body_mape fmt dt steps o m r fr a ac pc lb); auto.
  unfold mape_of. rewrite Hz, np_divide_off_by_one, Hlen; [reflexivity|lia|].
  rewrite Hlen. destruct dt; [congruence|]. cbn. lia.
Qed.

(** C15: what a successful run_forecast reports.  The input had at least
    ten points; n_observations is their number; some value after the first
    is zero and mape is None (with non-zero values the run fails, see
    run_forecast_mape_broadcast_error); the trend label is the sign of
    data[-1] - data[0], since the mean of np.diff telescopes; and
    0 <= mae <= rmse. *)
Theorem run_forecast_success_contract {HL : StatsModelsLaws} fmt dt o steps rep :
  run_forecast fmt dt o steps = inr rep ->
  (10 <= length dt)%nat /\ n_observations rep = length dt /\
  all_nonzero (tl dt) = false /\ mape rep = None /\
  trend rep = trend_label (last dt 0 - hd 0 dt) /\
  0 <= mae rep <= rmse rep.
Proof.
  unfold run_forecast. destruct (Nat.ltb_spec (length dt) 10); [discriminate|].
  destruct (forecast_body fmt dt steps (init o)) as [res s'] eqn:E. cbn [fst]. intros ->.
  apply forecast_body_inv in E as (m & r & Hm & Hr & Hmp & Hmae & Hrmse & Htr & Hn).
  pose proof (sm_resid_length _ _ _ _ Hm Hr) as Hlen.
  unfold mape_of in Hmp. destruct (all_nonzero (tl dt)) eqn:Hz.
  - rewrite np_divide_off_by_one in Hmp; [discriminate|lia|].
    rewrite Hlen. destruct dt; [cbn in *; lia|]. cbn. lia.
  - injection Hmp as Hmp. rewrite Htr, trend_of_endpoints, Hmae, Hrmse by lia.
    repeat split; auto using rmean_abs_nonneg, rmean_abs_le_rms.
Qed.

End Runs.

(** ** A statsmodels stand-in for the witnesses

    A model that fits its series exactly: the residuals are zero, one per
    observation, as statsmodels returns them. *)
#[local] Instance arima_stand_in : StatsModels := {|
  sm_model := list R; sm_results := list R; sm_forecast := list R;
  ARIMA := fun dt _ => inr dt; sm_fit := fun m => inr m;
  sm_aic := fun _ => 0; sm_bic := fun _ => 0; sm_hqic := fun _ => 0; sm_llf := fun _ => 0;
  sm_arparams := fun _ => []; sm_maparams := fun _ => []; sm_params := fun _ => [1];
  sm_resid := fun r => map (fun _ => 0) r; sm_fittedvalues := fun r => r;
  sm_get_forecast := fun r _ => inr r; predicted_mean := fun f => f;
  conf_int := fun f _ => map (fun x => (x, x)) f; var_pred_mean := fun f => map (fun _ => 0) f;
  adfuller := fun _ => inr (mk_adf 0 0 0 0 0 0 0); sm_acf := fun _ _ => inr [];
  sm_pacf := fun _ _ => inr []; ljungbox_pvalue := fun _ => inr 1 |}.

#[local] Instance arima_stand_in_laws : StatsModelsLaws.
Proof.
  constructor. intros dt o m r Hm Hr. cbn in *. injection Hm as <-. injection Hr as <-.
  apply length_map.
Qed.

Definition arima_fmt (_ : R) : string := "0.0000"%string.

(** Ten temperatures, none of them zero. *)
Definition arima_temps : list R := [20; 21; 22; 43 / 2; 23; 45 / 2; 24; 23; 25; 24].

(** Ten values crossing zero. *)
Definition arima_crossing : list R := [3; 2; 1; 0; -1; 0; 1; 2; 3; 4].

Lemma run_forecast_mape_broadcast_error_witness :
  run_forecast arima_fmt arima_temps default_order 7 =
    inl (ValueError "operands could not be broadcast together with shapes (10,) (9,) "%string).
Proof.
  apply (@run_forecast_mape_broadcast_error arima_stand_in arima_stand_in_laws arima_fmt arima_temps default_order 7
           arima_temps arima_temps arima_temps (mk_adf 0 0 0 0 0 0 0) [] [] 1);
    try reflexivity.
  - apply all_nonzero_true. repeat constructor; lra.
  - discriminate.
Defined.

Lemma run_forecast_success_contract_witness :
  exists rep, run_forecast arima_fmt arima_crossing default_order 7 = inr rep /\
  (10 <= length arima_crossing)%nat /\ n_observations rep = length arima_crossing /\
  all_nonzero (tl arima_crossing) = false /\ mape rep = None /\
  trend rep = trend_label (last arima_crossing 0 - hd 0 arima_crossing) /\
  0 <= mae rep <= rmse rep.
Proof.
  destruct (proj2 (@forecast_body_mape arima_stand_in arima_fmt arima_crossing 7 default_order
                     arima_crossing arima_crossing arima_crossing (mk_adf 0 0 0 0 0 0 0) [] [] 1
                     eq_refl eq_refl ltac:(discriminate) eq_refl eq_refl eq_refl eq_refl eq_refl
                     ltac:(discriminate)) None) as [rep Hrep].
  - unfold mape_of. rewrite all_nonzero_false; [reflexivity|]. cbn. tauto.
  - assert (Hrun : run_forecast arima_fmt arima_crossing default_order 7 = inr rep) by exact Hrep.
    exists rep. split; [exact Hrun|]. exact (@run_forecast_success_contract arima_stand_in arima_stand_in_laws arima_fmt _ _ _ rep Hrun).
Defined.

End ArimaFacts.
