(* ===== verification/Processor.v ===== *)
(** Model of [services/weather_processor.py]: [normalize_features] (a
    z-score with [1e-8] added to the standard deviation) and
    [create_sequences] (the sliding windows of [seq_length] values and the
    value that follows each).  Arrays are lists of reals, slices and
    indices follow Python's rules for negative bounds, and [np.array] of
    the windows raises [ValueError] on rows of different lengths. *)

From Stdlib Require Import String.
From Stdlib Require Import List Arith ZArith Lia Reals Lra.
From S2P Require Import Prelude RNum.
Import ListNotations.
Open Scope R_scope.

Module WeatherProcessor.

(** The [1e-8] added to the standard deviation. *)
Definition norm_eps : R := / 10 ^ 8.

(** [normalize_features(data)] on a one-dimensional array. *)
Definition normalize_features (data : list R) : list R :=
  map (fun x => (x - rmean data) / (np_std data + norm_eps)) data.

(** [np.array(rows)] of a list of rows: numpy (1.24 and later) raises on
    rows of different lengths. *)
Definition np_array2 (rows : list (list R)) : py_exn + list (list R) :=
  match rows with
  | [] => inr []
  | r :: t =>
      if forallb (fun r' => Nat.eqb (length r') (length r)) t then inr rows
      else inl (ValueError ("setting an array element with a sequence. The requested array has an inhomogeneous shape after 1 dimensions. The detected shape was ("
                            ++ string_of_nat (length rows) ++ ",) + inhomogeneous part.")%string)
  end.

(** The loop [for i in range(...)] from index [i], [count] iterations:
    [X.append(data[i:i+seq_length])] and [y.append(data[i+seq_length])]. *)
Fixpoint windows (data : list R) (seq_length : Z) (i count : nat)
  : py_exn + (list (list R) * list R) :=
  match count with
  | O => inr ([], [])
  | S c =>
      match py_index data (Z.of_nat i + seq_length) with
      | inl e => inl e
      | inr v =>
          match windows data seq_length (S i) c with
          | inl e => inl e
          | inr (X, y) => inr (py_slice data (Z.of_nat i) (Z.of_nat i + seq_length) :: X, v :: y)
          end
      end
  end.

(** [create_sequences(data, seq_length=24)]: [range(len(data) - seq_length)]
    is empty when the difference is not positive. *)
Definition create_sequences (data : list R) (seq_length : Z)
  : py_exn + (list (list R) * list R) :=
  match windows data seq_length 0 (Z.to_nat (Z.of_nat (length data) - seq_length)) with
  | inl e => inl e
  | inr (X, y) =>
      match np_array2 X with
      | inl e => inl e
      | inr X' => inr (X', y)
      end
  end.

Definition default_seq_length : Z := 24.

End WeatherProcessor.

Module ProcessorFacts.
Import WeatherProcessor.

(** ** Slices and indices inside the array *)

Lemma slice_bound_in n k : (0 <= k <= n)%Z -> slice_bound n k = k.
Proof.
  intros Hk. unfold slice_bound. destruct (Z.ltb_spec k 0); [lia|]. lia.
Qed.

Lemma py_slice_window (data : list R) i s :
  (i + s <= length data)%nat ->
  py_slice data (Z.of_nat i) (Z.of_nat (i + s)) = firstn s (skipn i data).
Proof.
  intros H. unfold py_slice. rewrite !slice_bound_in by lia.
  f_equal; [lia|]. f_equal. lia.
Qed.

Lemma length_window (data : list R) i s :
  (i + s <= length data)%nat -> length (firstn s (skipn i data)) = s.
Proof. intros H. rewrite length_firstn, length_skipn. lia. Qed.

(** The loop in closed form while every window lies inside the array. *)
Lemma windows_in data s i count :
  (i + count + s <= length data)%nat ->
  windows data (Z.of_nat s) i count =
    inr (map (fun j => firstn s (skipn j data)) (seq i count),
         map (fun j => nth (j + s) data 0) (seq i count)).
Proof.
  revert i. induction count as [|c IH]; intros i H; [reflexivity|].
  cbn [windows]. rewrite <- Nat2Z.inj_add, py_index_in by lia.
  rewrite IH by lia. rewrite py_slice_window by lia.
  rewrite Nat2Z.id. reflexivity.
Qed.

Lemma np_array2_uniform rows s :
  Forall (fun r => length r = s) rows -> np_array2 rows = inr rows.
Proof.
  intros H. destruct H as [|r t Hr Ht]; [reflexivity|]. cbn [np_array2].
  replace (forallb _ t) with true; [reflexivity|]. symmetry. apply forallb_forall.
  intros r' Hr'. apply Nat.eqb_eq. rewrite Forall_forall in Ht. rewrite Ht, Hr by exact Hr'. reflexivity.
Qed.

(** [l[s:]] read index by index. *)
Lemma map_nth_skipn (l : list R) s :
  map (fun j => nth (j + s) l 0) (seq 0 (length l - s)) = skipn s l.
Proof.
  apply nth_ext with (d := 0) (d' := 0).
  - rewrite length_map, length_seq, length_skipn. reflexivity.
  - intros k Hk. rewrite length_map, length_seq in Hk.
    rewrite nth_skipn, (nth_indep _ 0 ((fun j => nth (j + s) l 0) 0%nat))
      by (rewrite length_map, length_seq; lia).
    rewrite (map_nth (fun j => nth (j + s) l 0) (seq 0 _) 0%nat k), seq_nth by lia. f_equal. lia.
Qed.

Lemma firstn_S_snoc (l : list R) s :
  (s < length l)%nat -> firstn (S s) l = firstn s l ++ [nth s l 0].
Proof.
  revert l. induction s as [|s IH]; intros [|x l] H; cbn in *; try lia; [reflexivity|].
  f_equal. apply IH. lia.
Qed.

(** ** Affine maps of a sample *)

Lemma rsum_affine (l : list R) a b :
  rsum (map (fun x => a * x + b) l) = a * rsum l + INR (length l) * b.
Proof.
  induction l as [|x l IH]; [cbn; lra|].
  cbn [map length]. rewrite !rsum_cons, IH, S_INR. ring.
Qed.

Lemma rmean_affine (l : list R) a b :
  l <> [] -> rmean (map (fun x => a * x + b) l) = a * rmean l + b.
Proof.
  intros Hl. assert (Hn : 0 < INR (length l)) by (apply lt_0_INR; destruct l; [congruence|cbn; lia]).
  unfold rmean. rewrite length_map, rsum_affine. field. lra.
Qed.

Lemma rvar_affine (l : list R) a b :
  l <> [] -> rvar (map (fun x => a * x + b) l) = a ^ 2 * rvar l.
Proof.
  intros Hl. unfold rvar at 1. rewrite rmean_affine by exact Hl. rewrite map_map.
  replace (map (fun x => (a * x + b - (a * rmean l + b)) ^ 2) l)
    with (map (fun x => a ^ 2 * x + 0) (map (fun x => (x - rmean l) ^ 2) l))
    by (rewrite map_map; apply map_ext; intros; ring).
  rewrite rmean_affine; [unfold rvar; ring|]. destruct l; [congruence|discriminate].
Qed.

Lemma norm_eps_pos : 0 < norm_eps.
Proof. unfold norm_eps. apply Rinv_0_lt_compat, pow_lt. lra. Qed.

(** [normalize_features] is the affine map [x / c - m / c]. *)
Lemma normalize_features_affine data :
  normalize_features data =
    map (fun x => / (np_std data + norm_eps) * x + - (rmean data / (np_std data + norm_eps))) data.
Proof.
  pose proof (np_std_nonneg data). pose proof norm_eps_pos.
  unfold normalize_features. apply map_ext. intros x. field. lra.
Qed.

Lemma nth_map_seq {A} (f : nat -> A) c i d : (i < c)%nat -> nth i (map f (seq 0 c)) d = f i.
Proof.
  intros H. rewrite (nth_indep _ d (f 0%nat)) by (rewrite length_map, length_seq; exact H).
  rewrite map_nth, seq_nth by exact H. reflexivity.
Qed.

(** create_sequences with a window length s >= 0 succeeds and
    returns len(data) - s windows of s values and as many targets; each
    window followed by its target is data[i : i + s + 1]; and when the
    series is longer than the window, the first window followed by all
    the targets gives back the series. *)
Lemma create_sequences_roundtrip data s :
  (0 <= s)%Z ->
  exists X y, create_sequences data s = inr (X, y) /\
    length X = (length data - Z.to_nat s)%nat /\ length y = length X /\
    Forall (fun w => length w = Z.to_nat s) X /\
    (forall i, (i < length X)%nat -> nth i X [] ++ [nth i y 0] = firstn (S (Z.to_nat s)) (skipn i data)) /\
    ((Z.to_nat s < length data)%nat -> hd [] X ++ y = data).
Proof.
  intros Hs. set (k := Z.to_nat s). replace s with (Z.of_nat k) by (unfold k; lia).
  unfold create_sequences. set (n := length data).
  replace (Z.to_nat (Z.of_nat n - Z.of_nat k)) with (n - k)%nat by lia.
  destruct (Nat.le_gt_cases k n) as [Hk|Hk].
  - rewrite windows_in by lia.
    rewrite (np_array2_uniform _ k).
    2:{ apply Forall_forall. intros w Hw. apply in_map_iff in Hw as (j & <- & Hj).
        apply in_seq in Hj. apply length_window. lia. }
    eexists _, _. split; [reflexivity|]. rewrite !length_map, !length_seq.
    split; [reflexivity|]. split; [reflexivity|]. split.
    + apply Forall_forall. intros w Hw. apply in_map_iff in Hw as (j & <- & Hj).
      apply in_seq in Hj. apply length_window. lia.
    + split.
      * intros i Hi. rewrite !nth_map_seq by exact Hi.
        rewrite firstn_S_snoc by (rewrite length_skipn; lia). rewrite nth_skipn; repeat f_equal; lia.
      * intros Hlt.
        replace (hd [] (map (fun j => firstn k (skipn j data)) (seq 0 (n - k)))) with (firstn k data)
          by (destruct (n - k)%nat eqn:E; [lia|reflexivity]).
        unfold n. rewrite map_nth_skipn. apply firstn_skipn.
  - replace (n - k)%nat with O by lia. cbn. eexists _, _. split; [reflexivity|].
    repeat split; auto; intros; cbn in *; lia.
Qed.

(** normalize_features standardises a non-empty series: the result
    has mean exactly 0 and a standard deviation sigma / (sigma + 1e-8),
    which lies in [0, 1). *)
Lemma normalize_features_standardized data :
  data <> [] ->
  rmean (normalize_features data) = 0 /\
  np_std (normalize_features data) = np_std data / (np_std data + norm_eps) /\
  0 <= np_std (normalize_features data) < 1.
Proof.
  intros Hd. pose proof (np_std_nonneg data) as Hs. pose proof norm_eps_pos as He.
  set (c := np_std data + norm_eps). assert (Hc : 0 < c) by (unfold c; lra).
  assert (Hstd : np_std (normalize_features data) = np_std data / c).
  { rewrite normalize_features_affine. fold c. unfold np_std at 1. rewrite rvar_affine by exact Hd.
    replace ((/ c) ^ 2 * rvar data) with ((np_std data / c) ^ 2)
      by (rewrite <- np_std_sq; field; lra).
    apply sqrt_pow2. apply Rdiv_nonneg; lra. }
  split; [|split; [exact Hstd|]].
  - rewrite normalize_features_affine, rmean_affine by exact Hd. fold c. field. lra.
  - rewrite Hstd. split; [apply Rdiv_nonneg; lra|].
    apply (Rmult_lt_reg_r c); [exact Hc|]. unfold Rdiv. rewrite Rmult_assoc, Rinv_l by lra.
    unfold c. lra.
Qed.

(** C8: the contract of the preprocessing of [WeatherProcessor]:
    [create_sequences] with a window length [s >= 0] succeeds and returns
    [len(data) - s] windows of [s] values and as many targets, each window
    followed by its target is [data[i : i + s + 1]], and when the series is
    longer than the window the first window followed by all the targets
    gives back the series; and [normalize_features] standardises a
    non-empty series: mean exactly 0 and standard deviation
    [sigma / (sigma + 1e-8)], which lies in [[0, 1)]. *)
Theorem weather_processor_contract data s :
  ((0 <= s)%Z ->
   exists X y, create_sequences data s = inr (X, y) /\
     length X = (length data - Z.to_nat s)%nat /\ length y = length X /\
     Forall (fun w => length w = Z.to_nat s) X /\
     (forall i, (i < length X)%nat -> nth i X [] ++ [nth i y 0] = firstn (S (Z.to_nat s)) (skipn i data)) /\
     ((Z.to_nat s < length data)%nat -> hd [] X ++ y = data)) /\
  (data <> [] ->
   rmean (normalize_features data) = 0 /\
   np_std (normalize_features data) = np_std data / (np_std data + norm_eps) /\
   0 <= np_std (normalize_features data) < 1).
Proof. split; [apply create_sequences_roundtrip|apply normalize_features_standardized]. Qed.

Definition processor_temps : list R := [20; 21; 22; 23; 24].

Lemma weather_processor_contract_witness :
  (exists X y, create_sequences processor_temps 3 = inr (X, y) /\
    length X = (length processor_temps - Z.to_nat 3)%nat /\ length y = length X /\
    Forall (fun w => length w = Z.to_nat 3) X /\
    (forall i, (i < length X)%nat ->
       nth i X [] ++ [nth i y 0] = firstn (S (Z.to_nat 3)) (skipn i processor_temps)) /\
    ((Z.to_nat 3 < length processor_temps)%nat -> hd [] X ++ y = processor_temps)) /\
  (rmean (normalize_features processor_temps) = 0 /\
   np_std (normalize_features processor_temps) =
     np_std processor_temps / (np_std processor_temps + norm_eps) /\
   0 <= np_std (normalize_features processor_temps) < 1).
Proof.
  destruct (weather_processor_contract processor_temps 3) as [H1 H2].
  split; [apply H1; lia|apply H2; discriminate].
Defined.

End ProcessorFacts.
