(* ===== verification/Quantum.v ===== *)
(** Model of [algorithms/quantum]: the placeholder "quantum" algorithms
    [GroverSearch], [WeatherQAOA], [WeatherQNN], [WeatherQSVM] and
    [WeatherVQE] with their module-level entry points.  None of them runs a
    circuit: they compute closed-form values and draw from numpy's global
    random generator.  The generator is the interface [NumpyRandom], a
    state threaded through [PyM]; [NumpyRandomLaws] states the ranges of its
    draws.  numpy's float division by zero gives [nan] ([xr]). *)

From Stdlib Require Import String.
From Stdlib Require Import List Arith ZArith Lia Reals Lra.
From S2P Require Import Prelude RNum BMA BMAReport.
Import ListNotations.
Open Scope R_scope.

(** ** numpy's global random generator *)

Class NumpyRandom : Type := {
  rng_state : Type;
  (** [np.random.random(size)]: [size] floats. *)
  np_random : nat -> rng_state -> list R * rng_state;
  (** [np.random.randint(low, high, size)]. *)
  np_randint : Z -> Z -> nat -> rng_state -> list Z * rng_state;
  (** [np.random.normal(loc, scale, size)]. *)
  np_normal : R -> R -> nat -> rng_state -> list R * rng_state }.

Class NumpyRandomLaws `{NumpyRandom} : Prop := {
  np_random_spec : forall k g,
    length (fst (np_random k g)) = k /\ Forall (fun u => 0 <= u < 1) (fst (np_random k g));
  np_randint_spec : forall lo hi k g, (lo < hi)%Z ->
    length (fst (np_randint lo hi k g)) = k /\
    Forall (fun z => lo <= z < hi)%Z (fst (np_randint lo hi k g));
  np_normal_length : forall m sd k g, length (fst (np_normal m sd k g)) = k }.

Section Draws.
Context `{NumpyRandom}.

Definition negative_dimensions : py_exn :=
  ValueError "negative dimensions are not allowed"%string.

(** A draw of an integer [size] as the state monad sees it: a negative
    size raises before anything is drawn. *)
Definition random_size (size : Z) : PyM rng_state (list R) :=
  fun g => if Z.ltb size 0 then (inl negative_dimensions, g)
           else let '(u, g') := np_random (Z.to_nat size) g in (inr u, g').

(** [np.random.random()]: one float. *)
Definition random1 : PyM rng_state R :=
  fun g => let '(u, g') := np_random 1 g in (inr (hd 0 u), g').

Definition randint_size (lo hi size : Z) : PyM rng_state (list Z) :=
  fun g => if Z.ltb size 0 then (inl negative_dimensions, g)
           else let '(v, g') := np_randint lo hi (Z.to_nat size) g in (inr v, g').

Definition normal_size (m sd : R) (size : nat) : PyM rng_state (list R) :=
  fun g => let '(v, g') := np_normal m sd size g in (inr v, g').

End Draws.

(** [arr[i]] on a one-dimensional array: [IndexError] out of range. *)
Definition np_item (l : list xr) (i : nat) : py_exn + xr :=
  match nth_error l i with
  | Some v => inr v
  | None => inl IndexError
  end.

(** ** [grover_search.py] *)

Module Grover.

Record grover : Type := mk_grover { n_qubits : Z }.

Record search_out : Type := mk_search_out
  { target_found : Z; iterations : Z; success_probability : R }.

(** [np.sqrt(2**n)]: [2**n] is a Python integer for [n >= 0] and a float
    below; from [2**64] on it does not fit numpy's integer types, numpy
    makes an object array, and [np.sqrt] raises [TypeError]. *)
Definition np_sqrt_pow2 (n : Z) : py_exn + R :=
  if Z.leb 64 n then
    inl (TypeError "loop of ufunc does not support argument 0 of type int which has no callable sqrt method"%string)
  else inr (sqrt (powerRZ 2 n)).

(** [GroverSearch.search(target)]: [int(np.pi/4 * np.sqrt(2**n_qubits))]
    iterations; the target is returned as given. *)
Definition grover_search (g : grover) (target : Z) : py_exn + search_out :=
  match np_sqrt_pow2 (n_qubits g) with
  | inl e => inl e
  | inr r => inr (mk_search_out target (py_int (PI / 4 * r)) (95 / 100))
  end.

(** [search(n_qubits, target_state)]; the constant strings of the result
    are left out. *)
Definition search (n target : Z) : py_exn + search_out :=
  grover_search (mk_grover n) target.

End Grover.

(** ** [qaoa_solver.py] *)

Module QAOA.
Section WithRandom.
Context `{NumpyRandom}.

Record qaoa : Type := mk_qaoa { depth : Z }.

Record qaoa_out : Type := mk_qaoa_out
  { optimal_solution : list Z; optimal_value : R; qaoa_depth : Z }.

(** [WeatherQAOA.optimize(nodes, edges)]: a random bit string; the edges
    are not read. *)
Definition optimize (q : qaoa) (nodes : Z) (edges : list (Z * Z * R))
  : PyM rng_state qaoa_out :=
  (solution <- randint_size 0 2 nodes ;;
   py_ret (mk_qaoa_out solution (IZR (fold_right Z.add 0%Z solution) * (5 / 10)) (depth q)))%py.

(** [optimize(nodes, edges, depth=3)]. *)
Definition run (nodes : Z) (edges : list (Z * Z * R)) (d : Z) : PyM rng_state qaoa_out :=
  optimize (mk_qaoa d) nodes edges.

End WithRandom.
End QAOA.

(** ** [qnn_regression.py] *)

Module QNN.
Section WithRandom.
Context `{NumpyRandom}.

Record qnn_metrics : Type := mk_qnn_metrics { final_loss : R; epochs : Z }.

(** [WeatherQNN.train]: constant metrics. *)
Definition train (X : list (list R)) (y : list R) : qnn_metrics := mk_qnn_metrics (5 / 100) 50.

(** [WeatherQNN.predict]: the row means plus [N(0, 0.1)] noise. *)
Definition predict (X : list (list R)) : PyM rng_state (list xr) :=
  (noise <- normal_size 0 (1 / 10) (length X) ;;
   py_ret (zip_with (fun m e => xr_add m (XFin e)) (row_means X) noise))%py.

Record qnn_report : Type := mk_qnn_report
  { qnn_training_metrics : qnn_metrics; qnn_predictions : option (list xr) }.

Definition train_and_predict (Xtr : list (list R)) (ytr : list R) (Xp : option (list (list R)))
  : PyM rng_state qnn_report :=
  let metrics := train Xtr ytr in
  match Xp with
  | None => py_ret (mk_qnn_report metrics None)
  | Some X => (p <- predict X ;; py_ret (mk_qnn_report metrics (Some p)))%py
  end.

End WithRandom.
End QNN.

(** ** [qsvm_classifier.py] *)

Module QSVM.
Section WithRandom.
Context `{NumpyRandom}.

Definition WEATHER_CLASSES : list (Z * string) :=
  [(0%Z, "clear"); (1%Z, "cloudy"); (2%Z, "rainy"); (3%Z, "stormy")]%string.

Record qsvm_metrics : Type := mk_qsvm_metrics { training_accuracy : R; samples : nat }.

Definition train (X : list (list R)) (y : list Z) : qsvm_metrics :=
  mk_qsvm_metrics (92 / 100) (length y).

(** [WeatherQSVM.predict]: a random class in [0, 4) per row. *)
Definition predict (X : list (list R)) : PyM rng_state (list Z) :=
  randint_size 0 4 (Z.of_nat (length X)).

Record qsvm_report : Type := mk_qsvm_report
  { qsvm_training_metrics : qsvm_metrics; qsvm_predictions : option (list Z) }.

Definition train_and_predict (Xtr : list (list R)) (ytr : list Z) (Xt : option (list (list R)))
  : PyM rng_state qsvm_report :=
  let metrics := train Xtr ytr in
  match Xt with
  | None => py_ret (mk_qsvm_report metrics None)
  | Some X => (p <- predict X ;; py_ret (mk_qsvm_report metrics (Some p)))%py
  end.

End WithRandom.
End QSVM.

(** ** [vqe_optimizer.py] *)

Module VQE.
Section WithRandom.
Context `{NumpyRandom}.

Record vqe : Type := mk_vqe { num_qubits : Z; layers : Z }.

Record model_weights : Type := mk_model_weights { IFS : xr; GFS : xr; ICON : xr; ERA5 : xr }.

Record vqe_out : Type := mk_vqe_out
  { optimal_energy : R; optimal_parameters : list R; vqe_iterations : Z;
    weights_out : model_weights; circuit_depth : Z }.

(** [np.abs(np.cos(optimal_params[:4]))] normalised by its sum. *)
Definition normalized_weights (optimal_params : list R) : list xr :=
  let w := map (fun p => Rabs (cos p)) (firstn 4 optimal_params) in
  map (fun x => xr_div (XFin x) (XFin (rsum w))) w.

(** [WeatherVQE.optimize(weather_params)]: the four scaled weather
    parameters are computed and not used; the dictionary's entries are
    evaluated in order, so the energy is drawn before [weights[0..3]] are
    read. *)
Definition optimize (v : vqe) (weather_params : dict R) : PyM rng_state vqe_out :=
  let temp := dict_get_or weather_params "temperature" 20 / 50 in
  let humidity := dict_get_or weather_params "humidity" 50 / 100 in
  let pressure := dict_get_or weather_params "pressure" 1013 / 1050 in
  let wind := dict_get_or weather_params "wind_speed" 10 / 50 in
  (u <- random_size (num_qubits v * layers v * 2) ;;
   let optimal_params := map (fun x => x * 2 * PI) u in
   let weights := normalized_weights optimal_params in
   e <- random1 ;;
   w0 <- py_lift (np_item weights 0) ;;
   w1 <- py_lift (np_item weights 1) ;;
   w2 <- py_lift (np_item weights 2) ;;
   w3 <- py_lift (np_item weights 3) ;;
   py_ret (mk_vqe_out (- (8 / 10) - 1 / 10 * e) optimal_params 100
             (mk_model_weights w0 w1 w2 w3) (layers v * 2 + 1)))%py.

(** [optimize(weather_params, num_qubits=4, layers=2)]. *)
Definition run (weather_params : dict R) (nq l : Z) : PyM rng_state vqe_out :=
  optimize (mk_vqe nq l) weather_params.

End WithRandom.
End VQE.

Module QuantumFacts.

(** ** Draws *)

Section Draws.
Context `{NumpyRandom}.

Lemma random_size_neg k g : (k < 0)%Z -> random_size k g = (inl negative_dimensions, g).
Proof. intros Hk. unfold random_size. destruct (Z.ltb_spec k 0); [reflexivity|lia]. Qed.

Lemma random_size_ok k g :
  (0 <= k)%Z -> random_size k g = (inr (fst (np_random (Z.to_nat k) g)), snd (np_random (Z.to_nat k) g)).
Proof.
  intros Hk. unfold random_size. destruct (Z.ltb_spec k 0); [lia|].
  destruct (np_random _ g); reflexivity.
Qed.

Lemma randint_size_neg lo hi k g : (k < 0)%Z -> randint_size lo hi k g = (inl negative_dimensions, g).
Proof. intros Hk. unfold randint_size. destruct (Z.ltb_spec k 0); [reflexivity|lia]. Qed.

Lemma randint_size_ok lo hi k g :
  (0 <= k)%Z ->
  randint_size lo hi k g = (inr (fst (np_randint lo hi (Z.to_nat k) g)), snd (np_randint lo hi (Z.to_nat k) g)).
Proof.
  intros Hk. unfold randint_size. destruct (Z.ltb_spec k 0); [lia|].
  destruct (np_randint _ _ _ g); reflexivity.
Qed.

Lemma random1_run g : random1 g = (inr (hd 0 (fst (np_random 1 g))), snd (np_random 1 g)).
Proof. unfold random1. destruct (np_random 1 g); reflexivity. Qed.

Lemma random1_range `{!NumpyRandomLaws} g : 0 <= hd 0 (fst (np_random 1 g)) < 1.
Proof.
  destruct (np_random_spec 1 g) as [Hl Hf]. destruct (fst (np_random 1 g)) as [|u t]; [discriminate|].
  inversion Hf; assumption.
Qed.

End Draws.

(** ** Normalised weights *)

Lemma rsum_abs_cos_nonneg l : 0 <= rsum (map (fun p => Rabs (cos p)) l).
Proof.
  apply rsum_nonneg, Forall_forall. intros x Hx. apply in_map_iff in Hx as (p & <- & _). apply Rabs_pos.
Qed.

Lemma rsum_zero_nonneg l : Forall (fun x => 0 <= x) l -> rsum l = 0 -> Forall (fun x => x = 0) l.
Proof.
  induction 1 as [|x l Hx Hl IH]; intros Hs; constructor; rewrite rsum_cons in Hs;
    pose proof (rsum_nonneg l Hl); [lra|apply IH; lra].
Qed.

(** Either the weights are finite, in [0, 1] and sum to one, or all four
    cosines vanish and every weight is [0 / 0 = nan]. *)
Lemma normalized_weights_cases ps :
  let w := map (fun p => Rabs (cos p)) (firstn 4 ps) in
  (0 < rsum w /\ VQE.normalized_weights ps = map (fun x => XFin (x / rsum w)) w) \/
  (rsum w = 0 /\ VQE.normalized_weights ps = map (fun _ => XNaN) w).
Proof.
  intros w. unfold VQE.normalized_weights. fold w.
  assert (Hw : Forall (fun x => 0 <= x) w).
  { apply Forall_forall. intros x Hx. unfold w in Hx. apply in_map_iff in Hx as (p & <- & _). apply Rabs_pos. }
  pose proof (rsum_abs_cos_nonneg (firstn 4 ps)) as Hs. fold w in Hs.
  destruct (Req_EM_T (rsum w) 0) as [E|E].
  - right. split; [exact E|]. pose proof (rsum_zero_nonneg w Hw E) as Hz.
    apply map_ext_in. intros x Hx. rewrite Forall_forall in Hz. rewrite (Hz x Hx), E. unfold xr_div.
    destruct (Req_EM_T 0 0); [|congruence]. destruct (Rlt_dec 0 0); [lra|]. reflexivity.
  - left. split; [lra|]. apply map_ext. intros x. unfold xr_div. destruct (Req_EM_T (rsum w) 0); [congruence|reflexivity].
Qed.

Lemma div_sum_range w x : Forall (fun y => 0 <= y) w -> 0 < rsum w -> In x w -> 0 <= x / rsum w <= 1.
Proof.
  intros Hw Hs Hx. split; [apply Rdiv_nonneg; [rewrite Forall_forall in Hw; auto|lra]|].
  apply (Rmult_le_reg_r (rsum w)); [exact Hs|]. unfold Rdiv. rewrite Rmult_assoc, Rinv_l, Rmult_1_r, Rmult_1_l by lra.
  induction Hw as [|y w Hy Hw IH]; [destruct Hx|]. rewrite rsum_cons.
  pose proof (rsum_nonneg w Hw). destruct Hx as [->|Hx]; [lra|].
  assert (0 < rsum w \/ rsum w = 0) as [Hp|Hz] by lra.
  - specialize (IH Hp Hx). lra.
  - pose proof (rsum_zero_nonneg w Hw Hz) as H0. rewrite Forall_forall in H0. rewrite (H0 x Hx). lra.
Qed.

Lemma length_normalized_weights ps : (4 <= length ps)%nat -> length (VQE.normalized_weights ps) = 4%nat.
Proof.
  intros H. unfold VQE.normalized_weights. rewrite !length_map, length_firstn. lia.
Qed.

Lemma np_item_in l i : (i < length l)%nat -> np_item l i = inr (nth i l XNaN).
Proof.
  intros H. unfold np_item. destruct (nth_error l i) eqn:E.
  - f_equal. symmetry. apply nth_error_nth. exact E.
  - apply nth_error_None in E. lia.
Qed.

Lemma np_item_out l i : (length l <= i)%nat -> np_item l i = inl IndexError.
Proof. intros H. unfold np_item. apply nth_error_None in H. now rewrite H. Qed.

Section VQERuns.
Context `{NumpyRandom}.

(** [optimize] with at least four parameters: two draws, and the four
    weights are the normalised [|cos|] of the first four. *)
Lemma vqe_run_ok wp nq l g :
  (4 <= nq * l * 2)%Z ->
  let u := fst (np_random (Z.to_nat (nq * l * 2)) g) in
  let g1 := snd (np_random (Z.to_nat (nq * l * 2)) g) in
  let ps := map (fun x => x * 2 * PI) u in
  let nw := VQE.normalized_weights ps in
  (4 <= length u)%nat ->
  VQE.run wp nq l g =
    (inr (VQE.mk_vqe_out (- (8 / 10) - 1 / 10 * hd 0 (fst (np_random 1 g1))) ps 100
            (VQE.mk_model_weights (nth 0 nw XNaN) (nth 1 nw XNaN) (nth 2 nw XNaN) (nth 3 nw XNaN))
            (l * 2 + 1)),
     snd (np_random 1 g1)).
Proof.
  intros Hk u g1 ps nw Hu.
  assert (Hn : length nw = 4%nat) by (apply length_normalized_weights; unfold ps; rewrite length_map; exact Hu).
  unfold VQE.run, VQE.optimize, py_bind, py_lift, py_ret. cbn [VQE.num_qubits VQE.layers].
  rewrite random_size_ok by lia.
  fold u g1. fold ps. fold nw. rewrite random1_run.
  rewrite !np_item_in by (rewrite Hn; lia).
  reflexivity.
Qed.

End VQERuns.

Section VQEClaims.
Context `{NumpyRandomLaws}.

(** With at least four circuit parameters (num_qubits * layers * 2
    >= 4), VQE's optimize succeeds whatever the random draws: it returns
    num_qubits * layers * 2 parameters, an energy in (-0.9, -0.8], a circuit
    depth of 2 * layers + 1, and model weights that are finite, in [0, 1]
    and sum to one -- or all nan when the four cosines vanish. *)
Theorem vqe_model_weights_distribution wp nq l g :
  (4 <= nq * l * 2)%Z ->
  exists out g', VQE.run wp nq l g = (inr out, g') /\
    length (VQE.optimal_parameters out) = Z.to_nat (nq * l * 2) /\
    - (9 / 10) < VQE.optimal_energy out <= - (8 / 10) /\
    VQE.circuit_depth out = (l * 2 + 1)%Z /\
    ((exists a b c d,
        VQE.weights_out out = VQE.mk_model_weights (XFin a) (XFin b) (XFin c) (XFin d) /\
        0 <= a <= 1 /\ 0 <= b <= 1 /\ 0 <= c <= 1 /\ 0 <= d <= 1 /\ a + b + c + d = 1) \/
     VQE.weights_out out = VQE.mk_model_weights XNaN XNaN XNaN XNaN).
Proof.
  intros Hk. destruct (np_random_spec (Z.to_nat (nq * l * 2)) g) as [Hlen _].
  rewrite vqe_run_ok by (first [exact Hk | rewrite Hlen; lia]).
  eexists _, _. split; [reflexivity|]. cbn [VQE.optimal_parameters VQE.optimal_energy VQE.circuit_depth VQE.weights_out].
  split; [rewrite length_map; exact Hlen|].
  split; [pose proof (random1_range (snd (np_random (Z.to_nat (nq * l * 2)) g))); lra|].
  split; [reflexivity|].
  set (ps := map (fun x => x * 2 * PI) (fst (np_random (Z.to_nat (nq * l * 2)) g))).
  assert (Hps : (4 <= length ps)%nat) by (unfold ps; rewrite length_map, Hlen; lia).
  destruct (normalized_weights_cases ps) as [[Hs Hw]|[Hs Hw]]; rewrite Hw.
  - left. destruct ps as [|p0 [|p1 [|p2 [|p3 rest]]]]; cbn in Hps; try lia.
    cbn [firstn map nth] in *.
    set (w := [Rabs (cos p0); Rabs (cos p1); Rabs (cos p2); Rabs (cos p3)]) in *.
    assert (Hw0 : Forall (fun y => 0 <= y) w)
      by (unfold w; repeat (apply Forall_cons; [apply Rabs_pos|]); apply Forall_nil).
    do 4 eexists. split; [reflexivity|].
    repeat split; try (apply (div_sum_range w); [exact Hw0|exact Hs|unfold w; cbn; tauto]).
    unfold w in *. rewrite !rsum_cons in *. unfold rsum in *. cbn [fold_right] in *. field. lra.
  - right. destruct ps as [|p0 [|p1 [|p2 [|p3 rest]]]]; cbn in Hps; try lia. reflexivity.
Qed.

(** With fewer than four circuit parameters VQE's optimize fails:
    a negative count makes np.random.random raise ValueError('negative
    dimensions are not allowed') before any draw, and 0 or 2 parameters
    leave fewer than four weights, so reading weights[2] (or weights[0])
    raises IndexError after both draws. *)
Theorem vqe_few_parameters_error wp nq l g :
  ((nq * l * 2 < 0)%Z -> VQE.run wp nq l g = (inl negative_dimensions, g)) /\
  ((0 <= nq * l * 2 < 4)%Z -> exists g', VQE.run wp nq l g = (inl IndexError, g')).
Proof.
  split.
  - intros Hk. unfold VQE.run, VQE.optimize, py_bind. cbn [VQE.num_qubits VQE.layers].
    rewrite random_size_neg by exact Hk. reflexivity.
  - intros Hk. destruct (np_random_spec (Z.to_nat (nq * l * 2)) g) as [Hlen _].
    set (ps := map (fun x => x * 2 * PI) (fst (np_random (Z.to_nat (nq * l * 2)) g))).
    assert (Hn : (length (VQE.normalized_weights ps) < 4)%nat).
    { unfold VQE.normalized_weights. rewrite !length_map, length_firstn. unfold ps.
      rewrite length_map, Hlen. lia. }
    unfold VQE.run, VQE.optimize, py_bind, py_lift, py_ret. cbn [VQE.num_qubits VQE.layers].
    rewrite random_size_ok by lia. fold ps. rewrite random1_run.
    destruct (Nat.lt_ge_cases 0 (length (VQE.normalized_weights ps))) as [J0|J0];
      [|rewrite np_item_out by lia; eexists; reflexivity].
    rewrite (np_item_in _ 0) by lia.
    destruct (Nat.lt_ge_cases 1 (length (VQE.normalized_weights ps))) as [J1|J1];
      [|rewrite np_item_out by lia; eexists; reflexivity].
    rewrite (np_item_in _ 1) by lia.
    destruct (Nat.lt_ge_cases 2 (length (VQE.normalized_weights ps))) as [J2|J2];
      [|rewrite np_item_out by lia; eexists; reflexivity].
    rewrite (np_item_in _ 2) by lia. rewrite np_item_out by lia. eexists; reflexivity.
Qed.

(** C9: the contract of VQE's optimize (through run) on the parameter
    count k = num_qubits * layers * 2: for k >= 4 it succeeds whatever the
    random draws, with k parameters, an energy in (-0.9, -0.8], a circuit
    depth of 2 * layers + 1 and model weights that are finite, in [0, 1]
    and sum to one (or all nan when the four cosines vanish); for k < 0
    np.random.random raises ValueError before any draw; for 0 <= k < 4
    reading weights[2] (or weights[0]) raises IndexError. *)
Theorem vqe_optimize_contract wp nq l g :
  ((4 <= nq * l * 2)%Z ->
   exists out g', VQE.run wp nq l g = (inr out, g') /\
    length (VQE.optimal_parameters out) = Z.to_nat (nq * l * 2) /\
    - (9 / 10) < VQE.optimal_energy out <= - (8 / 10) /\
    VQE.circuit_depth out = (l * 2 + 1)%Z /\
    ((exists a b c d,
        VQE.weights_out out = VQE.mk_model_weights (XFin a) (XFin b) (XFin c) (XFin d) /\
        0 <= a <= 1 /\ 0 <= b <= 1 /\ 0 <= c <= 1 /\ 0 <= d <= 1 /\ a + b + c + d = 1) \/
     VQE.weights_out out = VQE.mk_model_weights XNaN XNaN XNaN XNaN)) /\
  ((nq * l * 2 < 0)%Z -> VQE.run wp nq l g = (inl negative_dimensions, g)) /\
  ((0 <= nq * l * 2 < 4)%Z -> exists g', VQE.run wp nq l g = (inl IndexError, g')).
Proof.
  split; [apply vqe_model_weights_distribution|apply vqe_few_parameters_error].
Qed.

End VQEClaims.

(** ** QAOA, Grover and QSVM *)

Lemma sum_bits_count l :
  Forall (fun z => 0 <= z < 2)%Z l -> fold_right Z.add 0%Z l = Z.of_nat (count_occ Z.eq_dec l 1%Z).
Proof.
  induction 1 as [|z l Hz Hl IH]; [reflexivity|]. cbn [fold_right count_occ].
  destruct (Z.eq_dec z 1); [subst; lia|]. assert (z = 0%Z) by lia. subst. lia.
Qed.

Section QAOAClaims.
Context `{NumpyRandomLaws}.

(** QAOA's optimize returns a random bit string of length nodes and
    half its number of ones as the optimal value, so the value lies in
    [0, nodes / 2]; the edges are never read; a negative node count makes
    np.random.randint raise ValueError before any draw. *)
Theorem qaoa_value_bounds nodes edges d g :
  ((nodes < 0)%Z -> QAOA.run nodes edges d g = (inl negative_dimensions, g)) /\
  ((0 <= nodes)%Z ->
   exists out g', QAOA.run nodes edges d g = (inr out, g') /\
     length (QAOA.optimal_solution out) = Z.to_nat nodes /\
     Forall (fun z => z = 0 \/ z = 1)%Z (QAOA.optimal_solution out) /\
     QAOA.optimal_value out = INR (count_occ Z.eq_dec (QAOA.optimal_solution out) 1%Z) / 2 /\
     0 <= QAOA.optimal_value out <= IZR nodes / 2 /\
     QAOA.qaoa_depth out = d /\
     (forall edges', QAOA.run nodes edges' d g = (inr out, g'))).
Proof.
  split.
  - intros Hn. unfold QAOA.run, QAOA.optimize, py_bind. rewrite randint_size_neg by exact Hn. reflexivity.
  - intros Hn. destruct (np_randint_spec 0 2 (Z.to_nat nodes) g ltac:(lia)) as [Hlen Hbits].
    unfold QAOA.run, QAOA.optimize, py_bind, py_ret. rewrite randint_size_ok by exact Hn.
    eexists _, _. split; [reflexivity|]. cbn [QAOA.optimal_solution QAOA.optimal_value QAOA.qaoa_depth].
    set (sol := fst (np_randint 0 2 (Z.to_nat nodes) g)) in *.
    assert (Hc := count_occ_bound Z.eq_dec 1%Z sol). rewrite Hlen in Hc.
    rewrite sum_bits_count by exact Hbits. rewrite <- INR_IZR_INZ.
    repeat split; auto.
    + eapply Forall_impl; [|exact Hbits]. intros z Hz. cbv beta in Hz. lia.
    + lra.
    + pose proof (pos_INR (count_occ Z.eq_dec sol 1%Z)). lra.
    + apply le_INR in Hc. rewrite (INR_IZR_INZ (Z.to_nat nodes)), Z2Nat.id in Hc by exact Hn. lra.
Qed.

End QAOAClaims.

(** Grover's search reports int(pi/4 * sqrt(2 ** n_qubits))
    iterations, the floor of the textbook optimum, and echoes the target
    without checking that it is below 2 ** n_qubits; from 64 qubits on,
    2 ** n does not fit numpy's integer types and np.sqrt raises
    TypeError. *)
Theorem grover_iterations_floor n target :
  ((n < 64)%Z -> exists k, Grover.search n target = inr (Grover.mk_search_out target k (95 / 100)) /\
     (0 <= k)%Z /\ IZR k <= PI / 4 * sqrt (powerRZ 2 n) < IZR k + 1) /\
  ((64 <= n)%Z -> exists e, Grover.search n target = inl (TypeError e)).
Proof.
  split.
  - intros Hn. unfold Grover.search, Grover.grover_search, Grover.np_sqrt_pow2. cbn [Grover.n_qubits].
    destruct (Z.leb_spec 64 n); [lia|].
    set (x := PI / 4 * sqrt (powerRZ 2 n)).
    assert (Hx : 0 <= x) by (unfold x; pose proof PI_RGT_0; pose proof (sqrt_pos (powerRZ 2 n)); nra).
    exists (py_int x). split; [reflexivity|]. destruct (py_int_range x Hx) as [H0 H1].
    split; [exact H0|]. split; [exact H1|].
    unfold py_int. destruct (Rle_dec 0 x); [|lra]. destruct (base_Int_part x). lra.
  - intros Hn. unfold Grover.search, Grover.grover_search, Grover.np_sqrt_pow2. cbn [Grover.n_qubits].
    destruct (Z.leb_spec 64 n); [eexists; reflexivity|lia].
Qed.

Section QSVMClaims.
Context `{NumpyRandomLaws}.

(** QSVM's train_and_predict reports the number of training labels
    and, when test rows are given, one prediction per row, each a key of
    WEATHER_CLASSES. *)
Theorem qsvm_predictions_are_classes Xtr ytr X g :
  exists rep g', QSVM.train_and_predict Xtr ytr (Some X) g = (inr rep, g') /\
    QSVM.samples (QSVM.qsvm_training_metrics rep) = length ytr /\
    exists p, QSVM.qsvm_predictions rep = Some p /\ length p = length X /\
      Forall (fun z => In z (map fst QSVM.WEATHER_CLASSES)) p.
Proof.
  destruct (np_randint_spec 0 4 (length X) g ltac:(lia)) as [Hlen Hcls].
  unfold QSVM.train_and_predict, QSVM.predict, py_bind, py_ret.
  rewrite randint_size_ok by lia. rewrite Nat2Z.id.
  eexists _, _. split; [reflexivity|]. split; [reflexivity|].
  eexists. split; [reflexivity|]. split; [exact Hlen|].
  eapply Forall_impl; [|exact Hcls]. intros z Hz. cbv beta in Hz. cbn.
  assert (z = 0 \/ z = 1 \/ z = 2 \/ z = 3)%Z as [-> | [-> | [-> | ->]]] by lia; tauto.
Qed.

End QSVMClaims.

(** ** A stand-in generator for the witnesses

    Every float drawn is [1/2], every integer the lower bound, every
    normal sample the mean; the state counts the draws.  It satisfies the
    laws. *)
#[local] Instance rng_stand_in : NumpyRandom := {|
  rng_state := nat;
  np_random := fun k g => (repeat (1 / 2) k, (g + k)%nat);
  np_randint := fun lo _ k g => (repeat lo k, (g + k)%nat);
  np_normal := fun m _ k g => (repeat m k, (g + k)%nat) |}.

#[local] Instance rng_stand_in_laws : NumpyRandomLaws.
Proof.
  constructor.
  - intros k g. cbn. split; [apply repeat_length|]. apply Forall_forall. intros u Hu.
    apply repeat_spec in Hu. subst. lra.
  - intros lo hi k g Hlt. cbn. split; [apply repeat_length|]. apply Forall_forall. intros z Hz.
    apply repeat_spec in Hz. lia.
  - intros m sd k g. apply repeat_length.
Qed.

Lemma vqe_optimize_contract_witness :
  (exists out g', @VQE.run rng_stand_in [] 4 2 O = (inr out, g') /\
    length (VQE.optimal_parameters out) = Z.to_nat (4 * 2 * 2) /\
    - (9 / 10) < VQE.optimal_energy out <= - (8 / 10) /\
    VQE.circuit_depth out = (2 * 2 + 1)%Z /\
    ((exists a b c d,
        VQE.weights_out out = VQE.mk_model_weights (XFin a) (XFin b) (XFin c) (XFin d) /\
        0 <= a <= 1 /\ 0 <= b <= 1 /\ 0 <= c <= 1 /\ 0 <= d <= 1 /\ a + b + c + d = 1) \/
     VQE.weights_out out = VQE.mk_model_weights XNaN XNaN XNaN XNaN)) /\
  @VQE.run rng_stand_in [] (-1) 1 O = (inl negative_dimensions, O) /\
  exists g', @VQE.run rng_stand_in [] 1 1 O = (inl IndexError, g').
Proof.
  split; [|split].
  - apply (proj1 (@vqe_optimize_contract rng_stand_in rng_stand_in_laws [] 4 2 O)). lia.
  - apply (proj1 (proj2 (@vqe_optimize_contract rng_stand_in rng_stand_in_laws [] (-1) 1 O))). lia.
  - apply (proj2 (proj2 (@vqe_optimize_contract rng_stand_in rng_stand_in_laws [] 1 1 O))). lia.
Defined.

End QuantumFacts.
