(* ===== verification/LSTM.v ===== *)
(** Model of [algorithms/ml/lstm_predictor.py]: [WeatherLSTM]
    ([__init__], [train], [predict], [get_architecture], the simulated
    training used without TensorFlow) and [train_and_predict], which takes
    the request as a dictionary.  The arrays the request's lists become
    are numpy arrays of dimension 0 ([np.array(None)]) to 3, with the
    shape lookups and indexings that raise on the wrong dimension.
    [_build_model]'s layer stack is data ([build_layers]); TensorFlow/Keras
    (building and compiling that stack, [fit], [predict], [count_params])
    is the interface [Keras]; [HAS_TF] is whether its import succeeded. *)

From Stdlib Require Import String.
From Stdlib Require Import List Arith ZArith Bool Lia Reals Lra.
From S2P Require Import Prelude RNum BMA BMAReport Processor.
Import ListNotations.
Open Scope R_scope.

(** ** numpy arrays of dimension 0 to 3 *)

Inductive ndarray : Type :=
| Arr0None                              (** [np.array(None)]: shape [()] *)
| Arr1 (v : list R)                     (** shape [(n,)] *)
| Arr2 (rows : list (list R))           (** shape [(n, k)], [n >= 1] *)
| Arr3 (f : nat) (X : list (list (list R))).  (** shape [(n, k, f)] *)

(** [arr.shape] as a list ([k] is the length of the first row). *)
Definition shape (a : ndarray) : list nat :=
  match a with
  | Arr0None => []
  | Arr1 v => [length v]
  | Arr2 rows => [length rows; match rows with r :: _ => length r | [] => O end]
  | Arr3 f X => [length X; match X with s :: _ => length s | [] => O end; f]
  end.

(** [shape[i]]: [IndexError('tuple index out of range')] past the end. *)
Definition shape_at (a : ndarray) (i : nat) : py_exn + nat :=
  match nth_error (shape a) i with Some d => inr d | None => inl IndexError end.

(** [np.array(rows)] for a list of lists: an empty list is the
    one-dimensional [array([])]; ragged rows raise. *)
Definition np_array_rows (L : list (list R)) : py_exn + ndarray :=
  match WeatherProcessor.np_array2 L with
  | inl e => inl e
  | inr [] => inr (Arr1 [])
  | inr L' => inr (Arr2 L')
  end.

(** [np.array(request["X_predict"])] of an optional list of rows. *)
Definition np_array_opt (L : option (list (list R))) : py_exn + ndarray :=
  match L with None => inr Arr0None | Some L' => np_array_rows L' end.

(** [X.reshape((X.shape[0], X.shape[1], 1))] of a two-dimensional array. *)
Definition reshape3 (a : ndarray) : ndarray :=
  match a with Arr2 rows => Arr3 1 (map (map (fun x => [x])) rows) | _ => a end.

(** [if len(X.shape) == 2: X = X.reshape(...)]. *)
Definition ensure3 (a : ndarray) : ndarray :=
  if Nat.eqb (length (shape a)) 2 then reshape3 a else a.

(** [np.mean(X[:, -1, :], axis=1)]: a three-dimensional array only; the
    last time step of every sample must exist. *)
Definition last_step_means (a : ndarray) : py_exn + list xr :=
  match a with
  | Arr3 _ X =>
      if existsb (fun s => Nat.eqb (length s) 0) X then inl IndexError
      else inr (map (fun s => xr_mean (map XFin (last s []))) X)
  | _ => inl IndexError
  end.

(** ** The layer stack of [_build_model] *)

(** The Keras layers [_build_model] stacks; activations by name. *)
Inductive layer : Type :=
| InputLayer (seq nf : Z)                          (** [Input(shape=(seq, nf))] *)
| LSTMLayer (units : Z) (return_sequences : bool)  (** [activation='tanh'], [recurrent_activation='sigmoid'] *)
| BatchNormalization
| Dropout (rate : R)
| Dense (units : Z) (activation : option string).

(** [Sequential([...])] of [_build_model], for the two LSTM widths
    [hidden_units[0]] and [hidden_units[1]]. *)
Definition build_layers (seq nf h0 h1 : Z) : list layer :=
  [InputLayer seq nf;
   LSTMLayer h0 true; BatchNormalization; Dropout (2 / 10);
   LSTMLayer h1 false; BatchNormalization; Dropout (2 / 10);
   Dense 16 (Some "relu"%string); Dense 1 None].

(** ** The Keras interface *)

Record history : Type := mk_history
  { h_loss : list R; h_val_loss : list R; h_mae : list R; h_val_mae : list R }.

Class Keras : Type := {
  HAS_TF : bool;
  keras_model : Type;
  (** [Sequential(layers)] followed by [model.compile(optimizer=Adam(learning_rate=0.001),
      loss='mse', metrics=['mae'])]. *)
  build_model : list layer -> py_exn + keras_model;
  (** [model.fit(X, y, epochs, batch_size, validation_split=0.2,
      callbacks=[EarlyStopping(...)])]: the trained model and its history. *)
  keras_fit : keras_model -> ndarray -> list R -> Z -> Z -> py_exn + (keras_model * history);
  (** [model.predict(X, verbose=0).flatten()]. *)
  keras_predict : keras_model -> ndarray -> py_exn + list R;
  count_params : keras_model -> Z }.

(** [l[i]] on a Python list of integers. *)
Definition list_index (l : list Z) (i : nat) : py_exn + Z :=
  match nth_error l i with Some v => inr v | None => inl IndexError end.

Module WeatherLSTM.
Section WithKeras.
Context `{Keras}.

(** The attributes [sequence_length], [n_features], [hidden_units] and
    [model] ([None] without TensorFlow). *)
Record lstm : Type := mk_lstm
  { sequence_length : Z; n_features : Z; hidden_units : list Z; model : option keras_model }.

(** [WeatherLSTM.__init__(sequence_length=24, n_features=4,
    hidden_units=[64, 32])]: [_build_model] reads [hidden_units[0]] and
    [hidden_units[1]]. *)
Definition init (seq nf : Z) (hu : list Z) : py_exn + lstm :=
  if HAS_TF then
    match list_index hu 0, list_index hu 1 with
    | inr h0, inr h1 =>
        match build_model (build_layers seq nf h0 h1) with
        | inl e => inl e
        | inr m => inr (mk_lstm seq nf hu (Some m))
        end
    | inl e, _ | _, inl e => inl e
    end
  else inr (mk_lstm seq nf hu None).

Definition default_hidden_units : list Z := [64; 32]%Z.

(** The two shapes of [train]'s result. *)
Inductive train_report : Type :=
| Simulated (epochs_trained : Z) (loss val_loss : list R)
| Trained (epochs_trained : nat) (final_loss final_val_loss final_mae final_val_mae best_val_loss : R)
          (hist : history) (early_stopped : bool).

(** [_simulate_training(X, y, epochs)]: the losses [0.5 * 0.9 ** i] and
    [0.6 * 0.9 ** i] for [i in range(epochs)] (the other fields are
    constants). *)
Definition simulate_training (epochs : Z) : train_report :=
  Simulated epochs (map (fun i => 1 / 2 * (9 / 10) ^ i) (seq 0 (Z.to_nat epochs)))
    (map (fun i => 6 / 10 * (9 / 10) ^ i) (seq 0 (Z.to_nat epochs))).

(** [train(X, y, epochs=50, batch_size=32)]: [model.fit] trains the model
    in place; [history['loss'][-1]] and [min(history['val_loss'])] raise on
    an empty history. *)
Definition train (X : ndarray) (y : list R) (epochs batch_size : Z) : PyM lstm train_report :=
  if negb HAS_TF then py_ret (simulate_training epochs) else
  (s <- py_get ;;
   match model s with
   | None => py_raise (AttributeError "fit"%string)
   | Some m =>
       mh <- py_lift (keras_fit m X y epochs batch_size) ;;
       let '(m', h) := mh in
       py_put (mk_lstm (sequence_length s) (n_features s) (hidden_units s) (Some m')) ;;
       fl <- py_lift (py_last (h_loss h)) ;;
       fvl <- py_lift (py_last (h_val_loss h)) ;;
       fm <- py_lift (py_last (h_mae h)) ;;
       fvm <- py_lift (py_last (h_val_mae h)) ;;
       bvl <- py_lift (py_min (h_val_loss h)) ;;
       py_ret (Trained (length (h_loss h)) fl fvl fm fvm bvl h
                 (Z.ltb (Z.of_nat (length (h_loss h))) epochs))
   end)%py.

(** [predict(X)]: without TensorFlow, the mean over the features of each
    sample's last time step. *)
Definition predict (X : ndarray) : PyM lstm (list xr) :=
  (s <- py_get ;;
   match HAS_TF, model s with
   | true, Some m => p <- py_lift (keras_predict m X) ;; py_ret (map XFin p)
   | _, _ => py_lift (last_step_means X)
   end)%py.

Record architecture : Type := mk_architecture
  { layers : list string; input_shape : Z * Z; total_params : option Z }.

(** [get_architecture()]: the layer descriptions with the two widths;
    [total_params] is ["N/A"] ([None]) without TensorFlow. *)
Definition get_architecture (s : lstm) : py_exn + architecture :=
  match list_index (hidden_units s) 0, list_index (hidden_units s) 1 with
  | inr h0, inr h1 =>
      inr (mk_architecture
             [("LSTM(" ++ string_of_Z h0 ++ ", return_sequences=True)")%string;
              "BatchNormalization()"%string; "Dropout(0.2)"%string;
              ("LSTM(" ++ string_of_Z h1 ++ ")")%string;
              "BatchNormalization()"%string; "Dropout(0.2)"%string;
              "Dense(16, relu)"%string; "Dense(1)"%string]
             (sequence_length s, n_features s)
             (match HAS_TF, model s with true, Some m => Some (count_params m) | _, _ => None end))
  | inl e, _ | _, inl e => inl e
  end.

End WithKeras.
End WeatherLSTM.

Module LSTMPredictor.
Import WeatherLSTM.
Section WithKeras.
Context `{Keras}.

(** The request dictionary: [None] for a key that is absent; the value of
    ["X_predict"] may itself be [None]. *)
Record request : Type := mk_request
  { X_train_key : option (list (list R)); y_train_key : option (list R);
    X_predict_key : option (option (list (list R))); epochs_key : option Z }.

Definition get_or {A} (o : option A) (d : A) : A := match o with Some a => a | None => d end.

Record lstm_result : Type := mk_lstm_result
  { architecture_of : architecture; training_metrics : train_report;
    input_samples : nat; input_sequence_length : nat; input_features : nat;
    predictions : option (list xr) }.

(** [train_and_predict(request)]. *)
Definition train_and_predict (req : request) : py_exn + lstm_result :=
  match np_array_rows (get_or (X_train_key req) []) with
  | inl e => inl e
  | inr X0 =>
      let y := get_or (y_train_key req) [] in
      let epochs := get_or (epochs_key req) 50%Z in
      let X := ensure3 X0 in
      match shape_at X 1, shape_at X 2 with
      | inl e, _ | _, inl e => inl e
      | inr seq, inr nf =>
          match init (Z.of_nat seq) (Z.of_nat nf) default_hidden_units with
          | inl e => inl e
          | inr l =>
              fst ((tm <- train X y epochs 32 ;;
                    s <- py_get ;;
                    arch <- py_lift (get_architecture s) ;;
                    n <- py_lift (shape_at X 0) ;;
                    match X_predict_key req with
                    | None => py_ret (mk_lstm_result arch tm n seq nf None)
                    | Some xp =>
                        Xp0 <- py_lift (np_array_opt xp) ;;
                        p <- predict (ensure3 Xp0) ;;
                        py_ret (mk_lstm_result arch tm n seq nf (Some p))
                    end)%py l)
          end
      end
  end.

End WithKeras.
End LSTMPredictor.

Module LSTMFacts.
Import WeatherLSTM LSTMPredictor.

Lemma last_map_ne {A B} (f : A -> B) (l : list A) d d' :
  l <> [] -> last (map f l) d' = f (last l d).
Proof.
  induction l as [|a l IH]; intros Hl; [congruence|].
  destruct l as [|b l]; [reflexivity|]. cbn [map]. change (last (f b :: map f l) d' = f (last (b :: l) d)).
  apply IH. discriminate.
Qed.

Lemma np_array_rows_uniform (L : list (list R)) k :
  L <> [] -> Forall (fun r => length r = k) L -> np_array_rows L = inr (Arr2 L).
Proof.
  intros Hne HL. unfold np_array_rows. rewrite (ProcessorFacts.np_array2_uniform L k HL).
  destruct L; [congruence|reflexivity].
Qed.

Lemma xr_mean_single v : xr_mean [XFin v] = XFin v.
Proof. cbn. f_equal. field. Qed.

(** Without TensorFlow, the last step of a reshaped row is its last
    value. *)
Lemma last_step_means_rows (L : list (list R)) :
  Forall (fun r => r <> []) L ->
  last_step_means (reshape3 (Arr2 L)) = inr (map (fun r => XFin (last r 0)) L).
Proof.
  intros HL. cbn [reshape3 last_step_means].
  replace (existsb _ _) with false.
  2:{ symmetry. apply not_true_iff_false. intros Hx. apply existsb_exists in Hx as (s & Hs & Hz).
      apply in_map_iff in Hs as (r & <- & Hr). rewrite Forall_forall in HL.
      apply Nat.eqb_eq in Hz. rewrite length_map in Hz. destruct r; [exact (HL _ Hr eq_refl)|discriminate]. }
  f_equal. rewrite map_map. apply map_ext_in. intros r Hr. rewrite Forall_forall in HL.
  rewrite (last_map_ne (fun x => [x]) r 0) by exact (HL r Hr). apply xr_mean_single.
Qed.

Section NoTF.
Context `{Keras}.
Hypothesis no_tf : HAS_TF = false.

(** The run of [train_and_predict] without TensorFlow on well-formed
    training rows, up to the prediction step. *)
Lemma train_and_predict_no_tf X y xp e k :
  X <> [] -> Forall (fun r => length r = k) X ->
  train_and_predict (mk_request (Some X) (Some y) xp (Some e)) =
    match xp with
    | None => inr (mk_lstm_result (mk_architecture
                 ["LSTM(64, return_sequences=True)"; "BatchNormalization()"; "Dropout(0.2)";
                  "LSTM(32)"; "BatchNormalization()"; "Dropout(0.2)"; "Dense(16, relu)"; "Dense(1)"]%string
                 (Z.of_nat k, 1%Z) None) (simulate_training e) (length X) k 1 None)
    | Some v =>
        match np_array_opt v with
        | inl err => inl err
        | inr Xp0 =>
            match last_step_means (ensure3 Xp0) with
            | inl err => inl err
            | inr p => inr (mk_lstm_result (mk_architecture
                 ["LSTM(64, return_sequences=True)"; "BatchNormalization()"; "Dropout(0.2)";
                  "LSTM(32)"; "BatchNormalization()"; "Dropout(0.2)"; "Dense(16, relu)"; "Dense(1)"]%string
                 (Z.of_nat k, 1%Z) None) (simulate_training e) (length X) k 1 (Some p))
            end
        end
    end.
Proof.
  intros Hne HX. unfold train_and_predict. cbn [X_train_key y_train_key epochs_key X_predict_key get_or].
  rewrite (np_array_rows_uniform X k Hne HX).
  assert (Hk : match map (map (fun x => [x])) X with s :: _ => length s | [] => O end = k).
  { destruct X as [|r X']; [congruence|]. inversion HX. cbn. rewrite length_map. assumption. }
  unfold ensure3, shape_at. cbn [shape reshape3 length Nat.eqb nth_error]. rewrite Hk.
  unfold init, train, get_architecture, predict, py_bind, py_get, py_lift, py_ret. rewrite no_tf.
  cbn [negb model hidden_units sequence_length n_features default_hidden_units list_index nth_error].
  rewrite length_map. destruct xp as [v|]; [|reflexivity].
  destruct (np_array_opt v); [reflexivity|]. destruct (last_step_means _); reflexivity.
Qed.

(** C24: without TensorFlow, train_and_predict on well-formed training
    rows returns the simulated training (losses 0.5 * 0.9 ** i for
    i < epochs) and predicts, for every non-empty prediction row, its last
    value: a persistence forecast. *)
Theorem lstm_no_tf_persistence X y Xp e k k' :
  X <> [] -> Forall (fun r => length r = k) X ->
  Xp <> [] -> Forall (fun r => length r = S k') Xp ->
  exists r, train_and_predict (mk_request (Some X) (Some y) (Some (Some Xp)) (Some e)) = inr r /\
    training_metrics r = simulate_training e /\
    predictions r = Some (map (fun row => XFin (last row 0)) Xp).
Proof.
  intros Hne HX Hpne HXp. rewrite (train_and_predict_no_tf X y _ e k Hne HX).
  cbn [np_array_opt]. rewrite (np_array_rows_uniform Xp (S k') Hpne HXp).
  unfold ensure3. cbn [shape length Nat.eqb].
  rewrite last_step_means_rows.
  - eexists. split; [reflexivity|]. split; reflexivity.
  - eapply Forall_impl; [|exact HXp]. intros r Hr Hnil. subst. discriminate.
Qed.

End NoTF.

(** A Keras whose import failed, for the witnesses. *)
#[local] Instance keras_missing : Keras := {|
  HAS_TF := false; keras_model := unit;
  build_model := fun _ => inr tt;
  keras_fit := fun m _ _ _ _ => inr (m, mk_history [] [] [] []);
  keras_predict := fun _ _ => inr [];
  count_params := fun _ => 0%Z |}.

Definition lstm_demo_rows : list (list R) := [[20; 21; 22]; [21; 22; 23]].

Lemma lstm_no_tf_persistence_witness :
  exists r, @train_and_predict keras_missing
              (mk_request (Some lstm_demo_rows) (Some [23; 24]) (Some (Some [[22; 23; 24]])) (Some 5%Z)) = inr r /\
    training_metrics r = simulate_training 5 /\
    predictions r = Some (map (fun row => XFin (last row 0)) [[22; 23; 24]]).
Proof.
  apply (@lstm_no_tf_persistence keras_missing eq_refl lstm_demo_rows [23; 24] [[22; 23; 24]] 5 3 2).
  - discriminate.
  - repeat constructor.
  - discriminate.
  - repeat constructor.
Defined.

End LSTMFacts.
