(* ===== verification/Ensemble.v ===== *)
(** Model of [algorithms/ml/ensemble_voting.py]: the class
    [WeatherEnsembleVoting] (constructor, [train], [predict],
    [predict_all_models]) and [train_and_predict].  scikit-learn is a
    library the source calls: the estimators' [fit] and [predict],
    [train_test_split] and [cross_val_score] are the interface [SkLearn];
    [VotingRegressor]'s checks in [fit] and its weighted average in
    [predict] (scikit-learn 1.4) and the three metric functions are
    written out.  The object's attributes are the state of [PyM]. *)

From Stdlib Require Import String.
From Stdlib Require Import List Arith Lia Reals Lra.
From S2P Require Import Prelude RNum.
Import ListNotations.
Open Scope R_scope.

(** The estimators the constructor can build, with their arguments. *)
Inductive estimator : Type :=
| RandomForestRegressor (n_estimators max_depth random_state : nat)
| GradientBoostingRegressor (n_estimators max_depth random_state : nat)
| Ridge (alpha : R)
| AdaBoostRegressor (n_estimators random_state : nat)
| ElasticNet (alpha l1_ratio : R).

(** A feature matrix as its rows. *)
Definition matrix : Type := list (list R).

Class SkLearn : Type := {
  fitted : Type;
  sk_fit : estimator -> matrix -> list R -> py_exn + fitted;
  (** [est.predict(X)]: raises [ValueError] on input it rejects (no
      rows, or a feature count other than the one it was fitted on). *)
  sk_predict : fitted -> matrix -> py_exn + list R;
  (** [iter(f)]: [None] when the object is not iterable; a fitted forest
      or boosting ensemble iterates over its sub-estimators. *)
  sk_iter : fitted -> option (list fitted);
  (** [train_test_split(X, y, test_size=0.2, random_state=42)] *)
  train_test_split : matrix -> list R -> py_exn + (matrix * matrix * list R * list R);
  (** [cross_val_score(VotingRegressor(estimators, weights), X, y, cv=5,
      scoring='neg_mean_absolute_error')] *)
  cross_val_score : list (string * estimator) -> option (list R) -> matrix -> list R -> py_exn + list R }.

(** ** scikit-learn's metrics *)

Definition mean_absolute_error (y p : list R) : R := rmean (map Rabs (zip_with Rminus y p)).
Definition mean_squared_error (y p : list R) : R := rmean (map (fun d => d ^ 2) (zip_with Rminus y p)).

(** [r2_score] ([force_finite=True]): [1 - SS_res / SS_tot], [1.0] or
    [0.0] when [SS_tot = 0]; [nan] ([None]) with fewer than two samples. *)
Definition r2_score (y p : list R) : option R :=
  if Nat.ltb (length y) 2 then None else
  let ss_res := rsum (map (fun d => d ^ 2) (zip_with Rminus y p)) in
  let ss_tot := rsum (map (fun v => (v - rmean y) ^ 2) y) in
  if Req_EM_T ss_tot 0 then Some (if Req_EM_T ss_res 0 then 1 else 0)
  else Some (1 - ss_res / ss_tot).

(** Whether a list of names has no repetition. *)
Fixpoint names_unique (l : list string) : bool :=
  match l with
  | [] => true
  | x :: t => negb (existsb (String.eqb x) t) && names_unique t
  end.

Section Voting.
Context `{SkLearn}.

(** The loop of [VotingRegressor.fit] over its estimators, in order. *)
Fixpoint fit_all (estimators : list (string * estimator)) (X : matrix) (y : list R)
  : py_exn + list fitted :=
  match estimators with
  | [] => inr []
  | (_, est) :: rest =>
      match sk_fit est X y with
      | inl e => inl e
      | inr f => match fit_all rest X y with
                 | inl e => inl e
                 | inr fs => inr (f :: fs)
                 end
      end
  end.

(** [VotingRegressor.fit]: a non-empty estimator list with unique names,
    as many weights as estimators, then every estimator fitted in order;
    the result is [estimators_], the list of the fitted estimators.  (The
    names and counts scikit-learn formats into two of the messages are left
    out of them.) *)
Definition voting_fit (estimators : list (string * estimator)) (weights : option (list R))
  (X : matrix) (y : list R) : py_exn + list fitted :=
  match estimators with
  | [] => inl (ValueError "Invalid 'estimators' attribute, 'estimators' should be a non-empty list of (string, estimator) tuples.")
  | _ =>
      if negb (names_unique (map fst estimators)) then inl (ValueError "Names provided are not unique")
      else if match weights with Some w => negb (Nat.eqb (length w) (length estimators)) | None => false end
      then inl (ValueError "Number of `estimators` and weights must be equal")
      else fit_all estimators X y
  end.

(** [[est.predict(X) for est in self.estimators_]]: the first estimator
    that rejects [X] raises. *)
Fixpoint predict_each (fits : list fitted) (X : matrix) : py_exn + list (list R) :=
  match fits with
  | [] => inr []
  | f :: rest =>
      match sk_predict f X with
      | inl e => inl e
      | inr p => match predict_each rest X with
                 | inl e => inl e
                 | inr ps => inr (p :: ps)
                 end
      end
  end.

(** [VotingRegressor.predict]: the estimators' predictions, then
    [np.average] of them with the weights ([ZeroDivisionError] when they
    sum to zero). *)
Definition voting_predict (fits : list fitted) (weights : option (list R)) (X : matrix)
  : py_exn + list R :=
  match predict_each fits X with
  | inl e => inl e
  | inr preds =>
      let w := match weights with Some w => w | None => repeat 1 (length fits) end in
      let wsum := rsum w in
      if Req_EM_T wsum 0 then inl ZeroDivisionError
      else inr (map (fun i => rsum (zip_with (fun wk p => wk * nth i p 0) w preds) / wsum)
                    (seq 0 (length X)))
  end.

(** [for name, model in estimators_]: each element of [estimators_] is
    unpacked into two values, iterating over it. *)
Definition unpack2 (f : fitted) : py_exn + (fitted * fitted) :=
  match sk_iter f with
  | None => inl (TypeError "cannot unpack non-iterable object")
  | Some [a; b] => inr (a, b)
  | Some l => if Nat.ltb 2 (length l) then inl (ValueError "too many values to unpack (expected 2)")
              else inl (ValueError "not enough values to unpack (expected 2)")
  end.

End Voting.

Module EnsembleVoting.
Local Open Scope string_scope.
Section WithSk.
Context `{SkLearn}.

(** The attributes: [self.models], [self.weights], the
    [VotingRegressor]'s estimators and weights, its [estimators_] once
    fitted, and [self.is_trained]. *)
Record ens_state : Type := mk_ens
  { models : list string; weights : option (list R);
    estimators : list (string * estimator); estimators_ : option (list fitted);
    is_trained : bool }.

(** The loop of the constructor: one estimator per known name, unknown
    names skipped. *)
Fixpoint build_estimators (names : list string) : list (string * estimator) :=
  match names with
  | [] => []
  | name :: rest =>
      let e :=
        if String.eqb name "random_forest" then [("rf", RandomForestRegressor 50 8 42)]
        else if String.eqb name "gradient_boosting" then [("gb", GradientBoostingRegressor 50 4 42)]
        else if String.eqb name "ridge" then [("ridge", Ridge 1)]
        else if String.eqb name "adaboost" then [("ada", AdaBoostRegressor 50 42)]
        else if String.eqb name "elastic_net" then [("enet", ElasticNet (1 / 10) (1 / 2))]
        else [] in
      (e ++ build_estimators rest)%list
  end.

Definition default_models : list string := ["random_forest"; "gradient_boosting"; "ridge"; "adaboost"].

(** [WeatherEnsembleVoting.__init__]. *)
Definition init (models_arg : option (list string)) (weights_arg : option (list R)) : ens_state :=
  let ms := match models_arg with Some m => m | None => default_models end in
  mk_ens ms weights_arg (build_estimators ms) None false.

Record metrics : Type := mk_metrics { m_mae : R; m_rmse : R; m_r2 : option R }.

Definition metrics_of (y p : list R) : metrics :=
  mk_metrics (mean_absolute_error y p) (sqrt (mean_squared_error y p)) (r2_score y p).

(** The loop [for name, model in self.ensemble.estimators_] of [train]:
    [individual_metrics[name]] for the unpacked pair, in insertion order
    (the keys are the unpacked objects). *)
Fixpoint individual_loop (fits : list fitted) (X_test : matrix) (y_test : list R)
  : py_exn + list (fitted * metrics) :=
  match fits with
  | [] => inr []
  | f :: rest =>
      match unpack2 f with
      | inl e => inl e
      | inr (name, model) =>
          match sk_predict model X_test with
          | inl e => inl e
          | inr p =>
              match individual_loop rest X_test y_test with
              | inl e => inl e
              | inr ms => inr ((name, metrics_of y_test p) :: ms)
              end
          end
      end
  end.

Record train_report : Type := mk_train_report
  { n_samples : nat; n_features : nat; n_models : nat; model_names : list string;
    rep_weights : option (list R); cv_scores : list R; cv_mean : R; cv_std : R;
    ensemble_metrics : metrics; individual_metrics : list (fitted * metrics);
    improvement_over_best : R }.

(** [X.shape[1]]. *)
Definition n_cols (X : matrix) : nat := match X with r :: _ => length r | [] => O end.

(** [train]: split, fit the ensemble ([is_trained] is set right after),
    predict the test rows, the metrics of every unpacked estimator, the
    cross-validation scores and the report. *)
Definition train (X : matrix) (y : list R) : PyM ens_state train_report :=
  (s <- py_get ;;
   sp <- py_lift (train_test_split X y) ;;
   let '(X_train, X_test, y_train, y_test) := sp in
   fits <- py_lift (voting_fit (estimators s) (weights s) X_train y_train) ;;
   py_put (mk_ens (models s) (weights s) (estimators s) (Some fits) true) ;;
   y_pred <- py_lift (voting_predict fits (weights s) X_test) ;;
   individual <- py_lift (individual_loop fits X_test y_test) ;;
   cv <- py_lift (cross_val_score (estimators s) (weights s) X y) ;;
   best <- py_lift (py_min (map (fun kv => m_mae (snd kv)) individual)) ;;
   py_ret (mk_train_report (length y) (n_cols X) (length (models s)) (models s) (weights s)
             (map Ropp cv) (- rmean cv) (sqrt (rvar cv)) (metrics_of y_test y_pred) individual
             (best - mean_absolute_error y_test y_pred)))%py.

(** [predict] *)
Definition predict (X : matrix) : PyM ens_state (list R) :=
  (s <- py_get ;;
   if negb (is_trained s) then py_raise (ValueError "Model must be trained first") else
   match estimators_ s with
   | None => py_raise (AttributeError "estimators_")
   | Some fits => py_lift (voting_predict fits (weights s) X)
   end)%py.

(** The keys of [predict_all_models]' dictionary: the unpacked objects and
    ["ensemble"]. *)
Definition pred_key : Type := (fitted + string)%type.

Fixpoint all_models_loop (fits : list fitted) (X : matrix) : py_exn + list (pred_key * list R) :=
  match fits with
  | [] => inr []
  | f :: rest =>
      match unpack2 f with
      | inl e => inl e
      | inr (name, model) =>
          match sk_predict model X with
          | inl e => inl e
          | inr p =>
              match all_models_loop rest X with
              | inl e => inl e
              | inr ps => inr ((inl name, p) :: ps)
              end
          end
      end
  end.

(** [predict_all_models]. *)
Definition predict_all_models (X : matrix) : PyM ens_state (list (pred_key * list R)) :=
  (s <- py_get ;;
   if negb (is_trained s) then py_raise (ValueError "Model must be trained first") else
   match estimators_ s with
   | None => py_raise (AttributeError "estimators_")
   | Some fits =>
       predictions <- py_lift (all_models_loop fits X) ;;
       ens <- py_lift (voting_predict fits (weights s) X) ;;
       py_ret (predictions ++ [(inr "ensemble", ens)])%list
   end)%py.

(** [train_and_predict]. *)
Definition train_and_predict (X_train : matrix) (y_train : list R) (X_predict : option matrix)
  : py_exn + (train_report * option (list (pred_key * list R))) :=
  match train X_train y_train (init None None) with
  | (inl e, _) => inl e
  | (inr tm, s) =>
      match X_predict with
      | None => inr (tm, None)
      | Some Xp =>
          match predict_all_models Xp s with
          | (inl e, _) => inl e
          | (inr preds, _) => inr (tm, Some preds)
          end
      end
  end.

End WithSk.
End EnsembleVoting.

(** What the theorems use of scikit-learn: a fitted random forest is a
    [BaseEnsemble], and iterating over it yields its [n_estimators] trees. *)
Class SkLearnLaws `{SkLearn} : Prop := {
  forest_iter : forall n d r X y f,
    sk_fit (RandomForestRegressor n d r) X y = inr f -> exists l, sk_iter f = Some l /\ length l = n;
  (** a fitted estimator predicts, one value per row, on rows of the
      width of its training rows *)
  predict_width : forall est X y f Xp,
    sk_fit est X y = inr f -> Xp <> [] -> Forall (fun r => length r = EnsembleVoting.n_cols X) Xp ->
    exists p, sk_predict f Xp = inr p /\ length p = length Xp;
  (** [train_test_split] returns non-empty parts made of the given rows *)
  split_rows : forall X y Xtr Xte ytr yte,
    train_test_split X y = inr (Xtr, Xte, ytr, yte) ->
    Xtr <> [] /\ Xte <> [] /\ incl Xtr X /\ incl Xte X }.

Module EnsembleFacts.
Import EnsembleVoting.
Local Open Scope string_scope.

Section Facts.
Context `{SkLearnLaws}.

Lemma voting_fit_cons name est rest w X y fits :
  voting_fit ((name, est) :: rest) w X y = inr fits ->
  exists f fs, fits = f :: fs /\ sk_fit est X y = inr f.
Proof.
  intros E. unfold voting_fit in E.
  repeat (match type of E with context [if ?c then _ else _] => destruct c end; [discriminate E|]).
  cbn [fit_all] in E. destruct (sk_fit est X y) as [e|f]; [discriminate E|].
  destruct (fit_all rest X y); [discriminate E|]. injection E as <-. eauto.
Qed.

(** Every estimator [VotingRegressor.fit] returns was fitted on [X]. *)
Definition fitted_on (X : matrix) (y : list R) (f : fitted) : Prop := exists est, sk_fit est X y = inr f.

Lemma fit_all_fitted_on ests X y fits :
  fit_all ests X y = inr fits -> Forall (fitted_on X y) fits.
Proof.
  revert fits. induction ests as [|[name est] rest IH]; intros fits E; cbn [fit_all] in E.
  - injection E as <-. constructor.
  - destruct (sk_fit est X y) as [e|f] eqn:Ef; [discriminate E|].
    destruct (fit_all rest X y) as [e|fs]; [discriminate E|]. injection E as <-.
    constructor; [exists est; exact Ef|apply IH; reflexivity].
Qed.

Lemma voting_fit_fitted_on ests w X y fits :
  voting_fit ests w X y = inr fits -> Forall (fitted_on X y) fits.
Proof.
  unfold voting_fit. destruct ests; [discriminate|].
  repeat (match goal with |- context [if ?c then _ else _] => destruct c end; [discriminate|]).
  apply fit_all_fitted_on.
Qed.

Lemma predict_each_width fits X y Xp :
  Forall (fitted_on X y) fits -> Xp <> [] ->
  Forall (fun r => length r = EnsembleVoting.n_cols X) Xp ->
  exists ps, predict_each fits Xp = inr ps.
Proof.
  intros Hf Hne Hw. induction Hf as [|f fs [est Hest] _ IH]; [eexists; reflexivity|].
  destruct (predict_width _ _ _ _ _ Hest Hne Hw) as [p [Hp _]]. destruct IH as [ps Hps].
  cbn [predict_each]. rewrite Hp, Hps. eexists. reflexivity.
Qed.

(** The equal weights of [weights=None] never sum to zero, so the
    average succeeds whenever every estimator accepts the rows. *)
Lemma voting_predict_default fits X y Xp :
  fits <> [] -> Forall (fitted_on X y) fits -> Xp <> [] ->
  Forall (fun r => length r = EnsembleVoting.n_cols X) Xp ->
  exists p, voting_predict fits None Xp = inr p.
Proof.
  intros Hne Hf Hxp Hw. destruct (predict_each_width fits X y Xp Hf Hxp Hw) as [ps Hps].
  unfold voting_predict. rewrite Hps. destruct (Req_EM_T _ 0) as [E|_]; [|eexists; reflexivity].
  exfalso. destruct fits as [|f fs]; [contradiction|]. cbn [length repeat] in E.
  assert (0 <= rsum (repeat 1 (length fs))) by (apply rsum_nonneg, Forall_forall; intros x Hx;
    apply repeat_spec in Hx; lra).
  rewrite rsum_cons in E. lra.
Qed.

(** Rows taken from a matrix of width [n_cols X] have that width. *)
Lemma rows_width_incl (X Z : matrix) :
  Forall (fun r => length r = EnsembleVoting.n_cols X) X -> incl Z X ->
  Forall (fun r => length r = EnsembleVoting.n_cols X) Z.
Proof.
  intros HX HZ. apply Forall_forall. intros r Hr. exact (proj1 (Forall_forall _ _) HX r (HZ r Hr)).
Qed.

Lemma n_cols_incl (X Z : matrix) :
  Forall (fun r => length r = EnsembleVoting.n_cols X) X -> Z <> [] -> incl Z X ->
  EnsembleVoting.n_cols Z = EnsembleVoting.n_cols X.
Proof.
  intros HX Hne HZ. destruct Z as [|r Z]; [contradiction|]. cbn [EnsembleVoting.n_cols].
  exact (proj1 (Forall_forall _ _) HX r (HZ r (or_introl eq_refl))).
Qed.

Lemma unpack_forest f X y :
  sk_fit (RandomForestRegressor 50 8 42) X y = inr f -> unpack2 f = inl (ValueError "too many values to unpack (expected 2)").
Proof.
  intros Hf. destruct (forest_iter _ _ _ _ _ _ Hf) as [l [Hl Hlen]]. unfold unpack2. rewrite Hl.
  destruct l as [|a [|b [|c l']]]; try (cbn in Hlen; lia). reflexivity.
Qed.

(** C22: [for name, model in self.ensemble.estimators_] unpacks each
    fitted estimator, and a fitted random forest iterates over its 50
    trees: with the default models, once the split and the fit of a
    feature matrix succeed, [train] always raises
    [ValueError("too many values to unpack")] -- after setting
    [is_trained].  So [predict] on rows of the training width, which
    raises [ValueError("Model must be trained first")] on the object the
    constructor built, succeeds on the object whose training reported an
    error. *)
Theorem train_default_unpack_error X y Xtr Xte ytr yte fits Xp :
  Forall (fun r => length r = n_cols X) X ->
  train_test_split X y = inr (Xtr, Xte, ytr, yte) ->
  voting_fit (estimators (init None None)) None Xtr ytr = inr fits ->
  Xp <> [] -> Forall (fun r => length r = n_cols X) Xp ->
  predict Xp (init None None) = (inl (ValueError "Model must be trained first"), init None None) /\
  exists s', train X y (init None None) = (inl (ValueError "too many values to unpack (expected 2)"), s') /\
    is_trained s' = true /\ exists p, predict Xp s' = (inr p, s').
Proof.
  intros HX Hsplit Hfit Hxp Hw.
  destruct (split_rows _ _ _ _ _ _ Hsplit) as (Htr & Hte & Itr & Ite).
  pose proof (n_cols_incl X Xtr HX Htr Itr) as Hcols.
  pose proof (voting_fit_fitted_on _ _ _ _ _ Hfit) as Hon.
  destruct (voting_fit_cons _ _ _ _ _ _ _ Hfit) as [f [fs [-> Hf]]].
  destruct (voting_predict_default (f :: fs) Xtr ytr Xte ltac:(discriminate) Hon Hte)
    as [p Hp]; [rewrite Hcols; exact (rows_width_incl X Xte HX Ite)|].
  destruct (voting_predict_default (f :: fs) Xtr ytr Xp ltac:(discriminate) Hon Hxp)
    as [p' Hp']; [rewrite Hcols; exact Hw|].
  split; [reflexivity|]. eexists. split.
  - cbv [train py_bind py_get py_lift py_put py_ret]. rewrite Hsplit. cbn beta iota.
    change (weights (init None None)) with (@None (list R)). rewrite Hfit. cbn beta iota. rewrite Hp.
    cbn [individual_loop]. rewrite (unpack_forest f Xtr ytr Hf). reflexivity.
  - split; [reflexivity|]. exists p'. cbv [predict py_bind py_get py_lift py_raise].
    cbn [is_trained estimators_ negb weights]. rewrite Hp'. reflexivity.
Qed.

End Facts.


(** ** Witness *)

(** A stand-in for scikit-learn: a "fitted" estimator is the number of
    its sub-estimators, and iterating over it yields that many.  It
    satisfies the law above. *)
Definition sk_stand_in : SkLearn :=
  {| fitted := nat;
     sk_fit := fun est _ _ => inr (match est with
                                   | RandomForestRegressor n _ _ | GradientBoostingRegressor n _ _
                                   | AdaBoostRegressor n _ => n
                                   | _ => O
                                   end);
     sk_predict := fun _ X => match X with
                              | [] => inl (ValueError "Found array with 0 sample(s)")
                              | _ => inr (map (fun _ => 0) X)
                              end;
     sk_iter := fun f => Some (repeat O f);
     train_test_split := fun X y => match X with
                                    | [] => inl (ValueError "empty train set")
                                    | _ => inr (X, X, y, y)
                                    end;
     cross_val_score := fun _ _ _ _ => inr [] |}.

Lemma sk_stand_in_laws : @SkLearnLaws sk_stand_in.
Proof.
  split.
  - intros n d r X y f Hf. cbn in Hf. injection Hf as <-. exists (repeat O n).
    split; [reflexivity|apply repeat_length].
  - intros est X y f Xp _ Hne _. destruct Xp as [|r Xp]; [contradiction|].
    eexists. split; [reflexivity|apply length_map].
  - intros X y Xtr Xte ytr yte H. destruct X as [|r X]; [discriminate|].
    injection H as <- <- _ _. repeat split; try discriminate; apply incl_refl.
Qed.

Lemma train_default_unpack_error_witness :
  @predict sk_stand_in [[2]] (@init sk_stand_in None None) =
    (inl (ValueError "Model must be trained first"), @init sk_stand_in None None) /\
  exists s', @train sk_stand_in [[1]] [1] (@init sk_stand_in None None) =
               (inl (ValueError "too many values to unpack (expected 2)"), s') /\
    is_trained s' = true /\ exists p, @predict sk_stand_in [[2]] s' = (inr p, s').
Proof.
  apply (@train_default_unpack_error sk_stand_in sk_stand_in_laws [[1]] [1] [[1]] [[1]] [1] [1] [50; 50; O; 50]%nat);
    try reflexivity; try discriminate; repeat constructor.
Defined.

End EnsembleFacts.
