(* ===== verification/MLModels.v ===== *)
(** Model of the single-model wrappers of [algorithms/ml]:
    [random_forest.py] ([WeatherRandomForest]: [train], [predict],
    [predict_with_uncertainty], [train_and_predict]),
    [gradient_boosting.py] ([WeatherGradientBoosting]) and
    [xgboost_predictor.py] ([WeatherXGBoost], with and without the
    [xgboost] package).  Each wrapper keeps its estimator and
    [is_trained] as the state of [PyM]; the fitted estimators are library
    objects, given by the classes [ForestLib], [BoostLib] and [XGBLib]
    (their laws in [ForestLaws] and [BoostLaws]); [train_test_split] is the
    one of [Ensemble.v]'s [SkLearn], and the metrics are written out
    there. *)

From Stdlib Require Import String.
From Stdlib Require Import List Arith ZArith Lia Reals Lra.
From S2P Require Import Prelude RNum BMA BMAReport Ensemble.
Import ListNotations.
Open Scope R_scope.

(** ** Shared pieces of the wrappers *)

(** [self.feature_names]. *)
Definition feature_names : list string :=
  ["temperature_lag1"; "temperature_lag2"; "humidity"; "pressure"; "wind_speed";
   "day_of_year"; "month"]%string.

(** [dict(zip(self.feature_names[:n_features], importances))] with
    [n_features = min(X.shape[1], len(self.feature_names))]: [zip] stops
    at the shorter list. *)
Definition feature_importance (ncols : nat) (importances : list R) : list (string * R) :=
  combine (firstn (Nat.min ncols (length feature_names)) feature_names) importances.

(** [np.mean(np.abs((y_test - y_pred) / y_test)) * 100] when
    [np.all(y_test != 0)], else [None]. *)
Definition test_mape (y p : list R) : option R :=
  if forallb (fun v => if Req_EM_T v 0 then false else true) y then
    Some (rmean (map Rabs (zip_with Rdiv (zip_with Rminus y p) y)) * 100)
  else None.

(** The cross-validation block: [(-cv_scores).tolist()], [-mean] and
    [std] of the (negative) scores. *)
Record cv_report : Type := mk_cv_report { cv_scores : list R; cv_mean : R; cv_std : R }.

Definition cv_report_of (scores : list R) : cv_report :=
  mk_cv_report (map Ropp scores) (- rmean scores) (np_std scores).

(** [list(map(f, l))] where [f] may raise: the first error. *)
Fixpoint map_err {A B} (f : A -> py_exn + B) (l : list A) : py_exn + list B :=
  match l with
  | [] => inr []
  | x :: t =>
      match f x with
      | inl e => inl e
      | inr y => match map_err f t with inl e => inl e | inr ys => inr (y :: ys) end
      end
  end.

(** [np.mean(P, axis=0)] and [np.std(P, axis=0)] of the rows [P], one per
    column [j < ncols]. *)
Definition column (P : list (list R)) (j : nat) : list R := map (fun p => nth j p 0) P.

Definition col_means (P : list (list R)) (ncols : nat) : list R :=
  map (fun j => rmean (column P j)) (seq 0 ncols).

Definition col_stds (P : list (list R)) (ncols : nat) : list R :=
  map (fun j => np_std (column P j)) (seq 0 ncols).

(** ** [random_forest.py] *)

(** [RandomForestRegressor(n_estimators, max_depth, min_samples_split,
    min_samples_leaf=2, max_features='sqrt', random_state=42, n_jobs=-1,
    oob_score=True)]: the arguments the constructor passes through. *)
Record rf_config : Type := mk_rf_config
  { rf_n_estimators : Z; rf_max_depth : Z; rf_min_samples_split : Z }.

Class ForestLib : Type := {
  forest : Type;
  tree : Type;
  rf_fit : rf_config -> matrix -> list R -> py_exn + forest;
  rf_predict : forest -> matrix -> py_exn + list R;
  (** [estimators_] and [tree.predict]. *)
  rf_trees : forest -> list tree;
  tree_predict : tree -> matrix -> py_exn + list R;
  rf_importances : forest -> list R;
  rf_oob_score : forest -> R;
  (** [cross_val_score(self.model, X, y, cv=5, scoring='neg_mean_absolute_error')]. *)
  rf_cv : rf_config -> matrix -> list R -> py_exn + list R }.

(** A fitted forest has at least one tree; on non-empty rows of the
    width of its training rows (scikit-learn rejects any other input)
    each tree predicts one value per row, and the forest's prediction is
    the mean of its trees'. *)
Class ForestLaws `{ForestLib} : Prop := {
  rf_trees_predict : forall cfg X y f Xp,
    rf_fit cfg X y = inr f -> Xp <> [] -> Forall (fun r => length r = EnsembleVoting.n_cols X) Xp ->
    exists P, map_err (fun t => tree_predict t Xp) (rf_trees f) = inr P /\ P <> [] /\
    Forall (fun p => length p = length Xp) P /\
    rf_predict f Xp = inr (col_means P (length Xp)) }.

Module RandomForest.
Section WithLibs.
Context `{SkLearn} `{ForestLib}.

(** [self.model] (the configuration, fitted once [train] has run) and
    [self.is_trained]. *)
Record rf_state : Type := mk_rf_state
  { config : rf_config; model : option forest; is_trained : bool }.

(** [WeatherRandomForest.__init__(n_estimators=100, max_depth=10,
    min_samples_split=5)]. *)
Definition init (n_estimators max_depth min_samples_split : Z) : rf_state :=
  mk_rf_state (mk_rf_config n_estimators max_depth min_samples_split) None false.

Record test_metrics : Type := mk_test_metrics
  { mae : R; rmse : R; r2 : option R; mape : option R }.

Record train_report : Type := mk_train_report
  { n_samples : nat; n_features : nat; cross_validation : cv_report;
    metrics : test_metrics; oob_score : R; importance : list (string * R);
    model_params : rf_config }.

(** [train(X, y)]: split, fit (the estimator is now fitted and
    [is_trained] set), cross-validate, predict the test rows. *)
Definition train (X : matrix) (y : list R) : PyM rf_state train_report :=
  (s <- py_get ;;
   sp <- py_lift (train_test_split X y) ;;
   let '(X_train, X_test, y_train, y_test) := sp in
   f <- py_lift (rf_fit (config s) X_train y_train) ;;
   py_put (mk_rf_state (config s) (Some f) true) ;;
   cv <- py_lift (rf_cv (config s) X y) ;;
   y_pred <- py_lift (rf_predict f X_test) ;;
   py_ret (mk_train_report (length y) (EnsembleVoting.n_cols X) (cv_report_of cv)
             (mk_test_metrics (mean_absolute_error y_test y_pred)
                (sqrt (mean_squared_error y_test y_pred)) (r2_score y_test y_pred)
                (test_mape y_test y_pred))
             (rf_oob_score f) (feature_importance (EnsembleVoting.n_cols X) (rf_importances f))
             (config s)))%py.

(** [predict(X)]. *)
Definition predict (X : matrix) : PyM rf_state (list R) :=
  (s <- py_get ;;
   if negb (is_trained s) then py_raise (ValueError "Model must be trained first"%string) else
   match model s with
   | None => py_raise (AttributeError "estimators_"%string)
   | Some f => py_lift (rf_predict f X)
   end)%py.

Record uncertainty : Type := mk_uncertainty
  { u_mean : list R; u_std : list R; lower_ci : list R; upper_ci : list R }.

(** [predict_with_uncertainty(X)]: the trees' predictions stacked by
    [np.array], their mean and standard deviation per row, and the band
    [mean -/+ 1.96 std]. *)
Definition predict_with_uncertainty (X : matrix) : PyM rf_state uncertainty :=
  (s <- py_get ;;
   if negb (is_trained s) then py_raise (ValueError "Model must be trained first"%string) else
   match model s with
   | None => py_raise (AttributeError "estimators_"%string)
   | Some f =>
       P <- py_lift (map_err (fun t => tree_predict t X) (rf_trees f)) ;;
       let n := match P with p :: _ => length p | [] => O end in
       let m := col_means P n in
       let sd := col_stds P n in
       py_ret (mk_uncertainty m sd (zip_with (fun a b => a - 196 / 100 * b) m sd)
                 (zip_with (fun a b => a + 196 / 100 * b) m sd))
   end)%py.

Record rf_result : Type := mk_rf_result
  { training_metrics : train_report; predictions : option uncertainty }.

(** [train_and_predict(X_train, y_train, X_predict=None)] with the fixed
    configuration (100, 10, 5). *)
Definition train_and_predict (X_train : matrix) (y_train : list R) (X_predict : option matrix)
  : py_exn + rf_result :=
  fst ((tm <- train X_train y_train ;;
        match X_predict with
        | None => py_ret (mk_rf_result tm None)
        | Some Xp => (u <- predict_with_uncertainty Xp ;; py_ret (mk_rf_result tm (Some u)))
        end)%py (init 100 10 5)).

End WithLibs.
End RandomForest.

(** ** [gradient_boosting.py] *)

(** [GradientBoostingRegressor(n_estimators, max_depth, learning_rate,
    subsample, min_samples_split=5, min_samples_leaf=2, random_state=42)]. *)
Record gb_config : Type := mk_gb_config
  { gb_n_estimators : Z; gb_max_depth : Z; gb_learning_rate : R; gb_subsample : R }.

Class BoostLib : Type := {
  booster : Type;
  gb_fit : gb_config -> matrix -> list R -> py_exn + booster;
  gb_predict : booster -> matrix -> py_exn + list R;
  (** [staged_predict(X)]: the prediction after each stage. *)
  gb_staged_predict : booster -> matrix -> list (list R);
  gb_importances : booster -> list R;
  (** [score(X, y)] (the R^2 of the fitted model). *)
  gb_score : booster -> matrix -> list R -> R;
  (** [oob_improvement_], present when [subsample < 1]. *)
  gb_oob_improvement : booster -> option (list R);
  gb_cv : gb_config -> matrix -> list R -> py_exn + list R }.

(** A booster fitted with [n_estimators] stages yields one staged
    prediction per stage. *)
Class BoostLaws `{BoostLib} : Prop := {
  gb_staged_length : forall cfg X y b X',
    gb_fit cfg X y = inr b -> length (gb_staged_predict b X') = Z.to_nat (gb_n_estimators cfg) }.

(** The elements of [enumerate(l)] whose index is a multiple of ten,
    from index [i]. *)
Fixpoint every_tenth_from {A} (i : nat) (l : list A) : list A :=
  match l with
  | [] => []
  | x :: t => if Nat.eqb (i mod 10) 0 then x :: every_tenth_from (S i) t else every_tenth_from (S i) t
  end.

Module GradientBoosting.
Section WithLibs.
Context `{SkLearn} `{BoostLib}.

Record gb_state : Type := mk_gb_state
  { config : gb_config; model : option booster; is_trained : bool }.

(** [WeatherGradientBoosting.__init__(n_estimators=100, max_depth=5,
    learning_rate=0.1, subsample=0.8)]. *)
Definition init (cfg : gb_config) : gb_state := mk_gb_state cfg None false.

Definition default_config : gb_config := mk_gb_config 100 5 (1 / 10) (8 / 10).

Record test_metrics : Type := mk_test_metrics { mae : R; rmse : R; r2 : option R }.

Record train_report : Type := mk_train_report
  { n_samples : nat; n_features : nat; cross_validation : cv_report;
    metrics : test_metrics; importance : list (string * R);
    staged_test_mse : list R; train_score : R; oob_improvement : option (list R) }.

(** [train(X, y)]: the learning curve keeps the test MSE of every tenth
    stage; [oob_improvement_.tolist()[-5:]] when the attribute exists. *)
Definition train (X : matrix) (y : list R) : PyM gb_state train_report :=
  (s <- py_get ;;
   sp <- py_lift (train_test_split X y) ;;
   let '(X_train, X_test, y_train, y_test) := sp in
   b <- py_lift (gb_fit (config s) X_train y_train) ;;
   py_put (mk_gb_state (config s) (Some b) true) ;;
   cv <- py_lift (gb_cv (config s) X y) ;;
   y_pred <- py_lift (gb_predict b X_test) ;;
   let test_scores := map (mean_squared_error y_test) (every_tenth_from 0 (gb_staged_predict b X_test)) in
   py_ret (mk_train_report (length y) (EnsembleVoting.n_cols X) (cv_report_of cv)
             (mk_test_metrics (mean_absolute_error y_test y_pred)
                (sqrt (mean_squared_error y_test y_pred)) (r2_score y_test y_pred))
             (feature_importance (EnsembleVoting.n_cols X) (gb_importances b))
             test_scores (gb_score b X_train y_train)
             (option_map (py_slice_last 5) (gb_oob_improvement b))))%py.

Definition predict (X : matrix) : PyM gb_state (list R) :=
  (s <- py_get ;;
   if negb (is_trained s) then py_raise (ValueError "Model must be trained first"%string) else
   match model s with
   | None => py_raise (AttributeError "estimators_"%string)
   | Some b => py_lift (gb_predict b X)
   end)%py.

Record gb_result : Type := mk_gb_result
  { training_metrics : train_report; predictions : option (list R) }.

(** [train_and_predict(X_train, y_train, X_predict=None)]. *)
Definition train_and_predict (X_train : matrix) (y_train : list R) (X_predict : option matrix)
  : py_exn + gb_result :=
  fst ((tm <- train X_train y_train ;;
        match X_predict with
        | None => py_ret (mk_gb_result tm None)
        | Some Xp => (p <- predict Xp ;; py_ret (mk_gb_result tm (Some p)))
        end)%py (init default_config)).

End WithLibs.
End GradientBoosting.

(** ** [xgboost_predictor.py] *)

(** [self.params]: the constructor's four arguments and the fixed
    [colsample_bytree=0.8], [reg_alpha=0.1], [reg_lambda=1.0],
    [random_state=42], [n_jobs=-1]. *)
Record xgb_params : Type := mk_xgb_params
  { xgb_n_estimators : Z; xgb_max_depth : Z; xgb_learning_rate : R; xgb_subsample : R;
    colsample_bytree : R; reg_alpha : R; reg_lambda : R; xgb_random_state : Z; n_jobs : Z }.

Class XGBLib : Type := {
  (** [HAS_XGB]: whether [import xgboost] succeeded. *)
  HAS_XGB : bool;
  xgb_model : Type;
  (** [XGBRegressor] built from [self.params], then
      [fit(X_train, y_train, eval_set=[(X_test, y_test)])]. *)
  xgb_fit : xgb_params -> matrix -> list R -> matrix -> list R -> py_exn + xgb_model;
  xgb_predict : xgb_model -> matrix -> py_exn + list R;
  xgb_importances : xgb_model -> list R;
  (** [best_iteration], an attribute only after early stopping. *)
  xgb_best_iteration : xgb_model -> option Z;
  xgb_cv : xgb_params -> matrix -> list R -> py_exn + list R }.

Module XGBoost.
Section WithLibs.
Context `{SkLearn} `{XGBLib}.

(** [self.params], [self.model] (the fitted model once trained; [None]
    without the package) and [self.is_trained]. *)
Record xgb_state : Type := mk_xgb_state
  { params : xgb_params; model : option xgb_model; is_trained : bool }.

Definition make_params (n_estimators max_depth : Z) (learning_rate subsample : R) : xgb_params :=
  mk_xgb_params n_estimators max_depth learning_rate subsample (8 / 10) (1 / 10) 1 42 (-1).

(** [WeatherXGBoost.__init__(n_estimators=100, max_depth=6,
    learning_rate=0.1, subsample=0.8)]. *)
Definition init (p : xgb_params) : xgb_state := mk_xgb_state p None false.

Definition default_params : xgb_params := make_params 100 6 (1 / 10) (8 / 10).

Record test_metrics : Type := mk_test_metrics { mae : R; rmse : R; r2 : option R }.

(** The two shapes of [train]'s result: the simulated one without the
    package, and the real one. *)
Inductive train_report : Type :=
| Simulated (n_samples : nat) (sim_metrics : test_metrics)
| Trained (n_samples n_features : nat) (cross_validation : cv_report) (metrics : test_metrics)
          (importance : list (string * R)) (best_iteration : Z).

(** [_simulate_training]: fixed metrics. *)
Definition simulate_training (X : matrix) (y : list R) : train_report :=
  Simulated (length y) (mk_test_metrics (15 / 10) 2 (Some (85 / 100))).

Definition train (X : matrix) (y : list R) : PyM xgb_state train_report :=
  if negb HAS_XGB then py_ret (simulate_training X y) else
  (s <- py_get ;;
   sp <- py_lift (train_test_split X y) ;;
   let '(X_train, X_test, y_train, y_test) := sp in
   m <- py_lift (xgb_fit (params s) X_train y_train X_test y_test) ;;
   py_put (mk_xgb_state (params s) (Some m) true) ;;
   cv <- py_lift (xgb_cv (params s) X y) ;;
   y_pred <- py_lift (xgb_predict m X_test) ;;
   py_ret (Trained (length y) (EnsembleVoting.n_cols X) (cv_report_of cv)
             (mk_test_metrics (mean_absolute_error y_test y_pred)
                (sqrt (mean_squared_error y_test y_pred)) (r2_score y_test y_pred))
             (feature_importance (EnsembleVoting.n_cols X) (xgb_importances m))
             (match xgb_best_iteration m with Some k => k | None => xgb_n_estimators (params s) end)))%py.

(** [a * 0.5] on a numpy float. *)
Definition xr_half (a : xr) : xr := match a with XFin x => XFin (x * (1 / 2)) | v => v end.

(** [np.mean(X, axis=1) * 0.5 + 20]. *)
Definition fallback_prediction (X : matrix) : list xr :=
  map (fun m => xr_add (xr_half m) (XFin 20)) (row_means X).

(** [predict(X)]: without the package, or before [train], the fallback;
    it never raises ValueError as the other wrappers do. *)
Definition predict (X : matrix) : PyM xgb_state (list xr) :=
  (s <- py_get ;;
   if orb (negb HAS_XGB) (negb (is_trained s)) then py_ret (fallback_prediction X) else
   match model s with
   | None => py_raise (AttributeError "predict"%string)
   | Some m => p <- py_lift (xgb_predict m X) ;; py_ret (map XFin p)
   end)%py.

Record xgb_result : Type := mk_xgb_result
  { model_config : xgb_params; training_metrics : train_report; predictions : option (list xr) }.

(** [train_and_predict(X_train, y_train, X_predict=None)]. *)
Definition train_and_predict (X_train : matrix) (y_train : list R) (X_predict : option matrix)
  : py_exn + xgb_result :=
  fst ((tm <- train X_train y_train ;;
        match X_predict with
        | None => py_ret (mk_xgb_result default_params tm None)
        | Some Xp => (p <- predict Xp ;; py_ret (mk_xgb_result default_params tm (Some p)))
        end)%py (init default_params)).

End WithLibs.
End XGBoost.

Module MLFacts.

(** ** Random forest *)

Lemma zip_with_le_sub (m sd : list R) c :
  0 <= c -> Forall (fun x => 0 <= x) sd -> length m = length sd ->
  Forall2 Rle (zip_with (fun a b => a - c * b) m sd) m /\
  Forall2 Rle m (zip_with (fun a b => a + c * b) m sd).
Proof.
  intros Hc Hsd. revert m. induction Hsd as [|b sd Hb Hsd IH]; intros [|a m] Hl; try discriminate.
  - split; constructor.
  - injection Hl as Hl. destruct (IH m Hl) as [H1 H2].
    split; constructor; auto; pose proof (Rmult_le_pos c b Hc Hb); lra.
Qed.

Lemma col_stds_nonneg P n : Forall (fun x => 0 <= x) (col_stds P n).
Proof. apply Forall_forall. intros x Hx. apply in_map_iff in Hx as (j & <- & _). apply np_std_nonneg. Qed.

Section Forest.
Context `{SkLearn} `{ForestLib}.
Import RandomForest.

Lemma rf_train_inv X y s0 tm s :
  train X y s0 = (inr tm, s) ->
  exists f Xtr Xte ytr yte, train_test_split X y = inr (Xtr, Xte, ytr, yte) /\
    rf_fit (config s0) Xtr ytr = inr f /\ s = mk_rf_state (config s0) (Some f) true.
Proof.
  unfold train, py_bind, py_get, py_lift, py_put, py_ret.
  destruct (train_test_split X y) as [e|[[[Xtr Xte] ytr] yte]] eqn:Es; [discriminate|].
  destruct (rf_fit (config s0) Xtr ytr) as [e|f] eqn:Ef; [discriminate|].
  destruct (rf_cv (config s0) X y); [discriminate|].
  destruct (rf_predict f Xte); [discriminate|]. intros [= _ <-]. eauto 10.
Qed.

(** C23: after a successful train on a feature matrix [X],
    predict_with_uncertainty succeeds on any non-empty rows of the width
    of [X]: its mean is the forest's own prediction (what predict
    returns), one value per row, the standard deviations are non-negative
    and the band mean -/+ 1.96 std contains the mean. *)
Theorem rf_uncertainty_band `{!SkLearnLaws} `{!ForestLaws} X y s0 tm s Xp :
  Forall (fun r => length r = EnsembleVoting.n_cols X) X ->
  train X y s0 = (inr tm, s) -> Xp <> [] ->
  Forall (fun r => length r = EnsembleVoting.n_cols X) Xp ->
  exists u, predict_with_uncertainty Xp s = (inr u, s) /\
    predict Xp s = (inr (u_mean u), s) /\
    length (u_mean u) = length Xp /\ Forall (fun x => 0 <= x) (u_std u) /\
    Forall2 Rle (lower_ci u) (u_mean u) /\ Forall2 Rle (u_mean u) (upper_ci u).
Proof.
  intros HX Htr Hxp Hw. apply rf_train_inv in Htr as (f & Xtr & Xte & ytr & yte & Hs & Hf & ->).
  destruct (split_rows _ _ _ _ _ _ Hs) as (Htr & _ & Itr & _).
  rewrite <- (EnsembleFacts.n_cols_incl X Xtr HX Htr Itr) in Hw.
  destruct (rf_trees_predict _ _ _ _ Xp Hf Hxp Hw) as (P & HP & Hne & Hlen & Hpred).
  assert (Hn : match P with p :: _ => length p | [] => O end = length Xp)
    by (destruct P as [|p P']; [congruence|inversion Hlen; assumption]).
  unfold predict_with_uncertainty, predict, py_bind, py_get, py_lift, py_ret.
  cbn [is_trained model negb]. rewrite HP, Hpred, Hn.
  eexists. split; [reflexivity|]. split; [reflexivity|]. cbn [u_mean u_std lower_ci upper_ci].
  split; [unfold col_means; rewrite length_map, length_seq; reflexivity|].
  split; [apply col_stds_nonneg|].
  apply zip_with_le_sub; [lra|apply col_stds_nonneg|].
  unfold col_means, col_stds. rewrite !length_map. reflexivity.
Qed.

End Forest.

(** ** XGBoost *)

(** ** Stand-in libraries for the witnesses

    A forest of two constant trees (predicting 1 and 3), an xgboost that
    is not installed. *)
#[local] Instance forest_stand_in : ForestLib := {|
  forest := unit; tree := R;
  rf_fit := fun _ _ _ => inr tt;
  rf_predict := fun _ X => inr (col_means [map (fun _ => 1) X; map (fun _ => 3) X] (length X));
  rf_trees := fun _ => [1; 3];
  tree_predict := fun c X => inr (map (fun _ => c) X);
  rf_importances := fun _ => [];
  rf_oob_score := fun _ => 0;
  rf_cv := fun _ _ _ => inr [1; 2] |}.

#[local] Instance forest_stand_in_laws : ForestLaws.
Proof.
  constructor. intros cfg X0 y f X _ _ _. exists [map (fun _ => 1) X; map (fun _ => 3) X].
  split; [reflexivity|]. split; [discriminate|].
  split; [repeat constructor; apply length_map|reflexivity].
Qed.

#[local] Instance xgb_missing : XGBLib := {|
  HAS_XGB := false; xgb_model := unit;
  xgb_fit := fun _ _ _ _ _ => inr tt; xgb_predict := fun _ X => inr (map (fun _ => 0) X);
  xgb_importances := fun _ => []; xgb_best_iteration := fun _ => None;
  xgb_cv := fun _ _ _ => inr [] |}.

Lemma rf_uncertainty_band_witness :
  exists tm s, @RandomForest.train EnsembleFacts.sk_stand_in forest_stand_in [[1]; [2]] [1; 2]
                 (RandomForest.init 100 10 5) = (inr tm, s) /\
  exists u, RandomForest.predict_with_uncertainty [[5]; [6]; [7]] s = (inr u, s) /\
    RandomForest.predict [[5]; [6]; [7]] s = (inr (RandomForest.u_mean u), s) /\
    length (RandomForest.u_mean u) = length [[5]; [6]; [7]] /\
    Forall (fun x => 0 <= x) (RandomForest.u_std u) /\
    Forall2 Rle (RandomForest.lower_ci u) (RandomForest.u_mean u) /\
    Forall2 Rle (RandomForest.u_mean u) (RandomForest.upper_ci u).
Proof.
  eexists _, _. split; [reflexivity|].
  eapply (@rf_uncertainty_band EnsembleFacts.sk_stand_in forest_stand_in
            EnsembleFacts.sk_stand_in_laws forest_stand_in_laws [[1]; [2]] [1; 2] (RandomForest.init 100 10 5));
    [repeat constructor|reflexivity|discriminate|repeat constructor].
Defined.

End MLFacts.
