(* ===== verification/CorrectionReport.v ===== *)
(** The report half of [algorithms/scientific/bias_correction.py]: the
    method [QuantileMappingCorrection.compute_statistics], numpy's
    [np.percentile] (default linear method) and the entry point
    [run_correction], which fits a corrector, corrects the predictions it
    was fitted on, and reports statistics, percentiles and a distribution
    summary.

    The arrays the report reads may hold [nan] (the normal method divides
    by a zero standard deviation), so numpy's reductions are modelled on
    [fq] arrays: a non-finite element makes the result non-finite.  The
    two-sample Kolmogorov-Smirnov test of scipy is a library call whose
    p-value is not rational; it is the interface [KS2Samp]. *)

From Stdlib Require Import String Arith ZArith QArith Qminmax Qabs Qround Lqa List Sorted Permutation Lia.
From S2P Require Import Prelude QNum Interp QuantileMapping.
Import ListNotations.
Open Scope Q_scope.

(** [stats.ks_2samp(a, b)]: its statistic and p-value, or the
    [ValueError] scipy raises on an empty sample. *)
Class KS2Samp := {
  ks_2samp : list fq -> list fq -> py_exn + (fq * fq)
}.

Class KS2SampLaws `{KS2Samp} := {
  ks_2samp_ok : forall a b, a <> [] -> b <> [] -> exists r, ks_2samp a b = inr r
}.

(** ** numpy reductions over arrays that may hold [nan] *)

(** The finite values of an array, when all of its elements are finite. *)
Fixpoint fq_all (l : list fq) : option (list Q) :=
  match l with
  | [] => Some []
  | Fin q :: l' => option_map (cons q) (fq_all l')
  | NonFinite :: _ => None
  end.

(** [np.mean(a)] *)
Definition np_mean_a (l : list fq) : fq :=
  match fq_all l with Some qs => np_mean_f qs | None => NonFinite end.

(** [np.var(a)] *)
Definition np_var_a (l : list fq) : fq :=
  match fq_all l with Some qs => np_var_f qs | None => NonFinite end.

Definition fq_abs (a : fq) : fq := match a with Fin v => Fin (Qabs v) | NonFinite => NonFinite end.

Definition fq_sq (a : fq) : fq := fq_mul a a.

(** [np.min(a)] and [np.max(a)]: [ValueError] on an empty array. *)
Definition np_min_a (l : list fq) : py_exn + fq :=
  match l with
  | [] => inl (ValueError "zero-size array to reduction operation minimum which has no identity"%string)
  | _ => match fq_all l with
         | Some (q :: qs) => inr (Fin (fold_left Qmin qs q))
         | _ => inr NonFinite
         end
  end.

Definition np_max_a (l : list fq) : py_exn + fq :=
  match l with
  | [] => inl (ValueError "zero-size array to reduction operation maximum which has no identity"%string)
  | _ => match fq_all l with
         | Some (q :: qs) => inr (Fin (fold_left Qmax qs q))
         | _ => inr NonFinite
         end
  end.

(** ** [np.percentile(a, p)], linear method

    On the sorted array of length [n] the virtual index is
    [h = (n - 1) * p / 100]; the result interpolates linearly between the
    elements at [floor h] and [floor h + 1] (the last one when [floor h]
    is the last index).  An empty array raises [IndexError]; an array
    holding [nan] gives [nan]. *)
Definition percentile_sorted (a : list Q) (p : Q) : Q :=
  let h := inject_Z (Z.of_nat (length a - 1)) * (p / 100) in
  let lo := Z.to_nat (Qfloor h) in
  let g := h - inject_Z (Z.of_nat lo) in
  let x0 := nth lo a 0 in
  let x1 := nth (Nat.min (S lo) (length a - 1)) a 0 in
  x0 + g * (x1 - x0).

Definition np_percentile (a : list fq) (p : Q) : py_exn + fq :=
  match a with
  | [] => inl IndexError
  | _ => match fq_all a with
         | Some qs => inr (Fin (percentile_sorted (np_sort qs) p))
         | None => inr NonFinite
         end
  end.

(** [[float(np.percentile(a, p)) for p in percentiles]] *)
Fixpoint percentile_list (a : list fq) (ps : list Q) : py_exn + list fq :=
  match ps with
  | [] => inr []
  | p :: ps' =>
      match np_percentile a p with
      | inl e => inl e
      | inr v => match percentile_list a ps' with
                 | inl e => inl e
                 | inr vs => inr (v :: vs)
                 end
      end
  end.

(** [percentiles = [10, 25, 50, 75, 90]] *)
Definition report_percentiles : list Q := [10; 25; 50; 75; 90].

Section Report.
Context `{SciPyStats} `{KS2Samp}.

(** [np.sqrt] on a float that may be [nan]. *)
Definition fq_sqrt (a : fq) : fq := match a with Fin v => Fin (np_sqrt v) | NonFinite => NonFinite end.

(** ** [compute_statistics] *)

Record qm_stats := {
  bias_before : fq;
  bias_after : fq;
  bias_reduction_percent : fq;
  rmse_before : fq;
  rmse_after : fq;
  rmse_reduction_percent : fq;
  var_ratio_before : fq;
  var_ratio_after : fq;
  ks_before : fq * fq;
  ks_after : fq * fq
}.

(** [float((1 - abs(bias_after) / abs(bias_before)) * 100) if bias_before != 0 else 100];
    [nan != 0] holds, so a [nan] bias goes to the arithmetic. *)
Definition bias_reduction (bb ba : fq) : fq :=
  match bb with
  | Fin b => if Qeq_bool b 0 then Fin 100
             else fq_mul (fq_sub (Fin 1) (fq_div (fq_abs ba) (fq_abs bb))) (Fin 100)
  | NonFinite => NonFinite
  end.

(** [float((1 - rmse_after / rmse_before) * 100) if rmse_before > 0 else 0];
    an RMSE is [nan] or a square root, never [inf], and [nan > 0] fails. *)
Definition rmse_reduction (rb ra : fq) : fq :=
  match rb with
  | Fin r => if Qle_bool r 0 then Fin 0 else fq_mul (fq_sub (Fin 1) (fq_div ra rb)) (Fin 100)
  | NonFinite => Fin 0
  end.

(** [np.sqrt(np.mean((a - b) ** 2))] *)
Definition rmse_of (d : list fq) : fq := fq_sqrt (np_mean_a (map fq_sq d)).

Definition compute_statistics (model_data obs_data : list Q) (corrected_data : list fq)
  : py_exn + qm_stats :=
  let m := map Fin model_data in
  let o := map Fin obs_data in
  let bb := fq_sub (np_mean_a m) (np_mean_a o) in
  let ba := fq_sub (np_mean_a corrected_data) (np_mean_a o) in
  match np_broadcast fq_sub m o with
  | inl e => inl e
  | inr d_before =>
  match np_broadcast fq_sub corrected_data o with
  | inl e => inl e
  | inr d_after =>
  let rb := rmse_of d_before in
  let ra := rmse_of d_after in
  let vb := fq_div (np_var_a m) (np_var_a o) in
  let va := fq_div (np_var_a corrected_data) (np_var_a o) in
  match ks_2samp m o with
  | inl e => inl e
  | inr ksb =>
  match ks_2samp corrected_data o with
  | inl e => inl e
  | inr ksa =>
  inr {| bias_before := bb; bias_after := ba; bias_reduction_percent := bias_reduction bb ba;
         rmse_before := rb; rmse_after := ra; rmse_reduction_percent := rmse_reduction rb ra;
         var_ratio_before := vb; var_ratio_after := va; ks_before := ksb; ks_after := ksa |}
  end end end end.

(** ** [run_correction] *)

(** [method_map.get(method, "empirical")] *)
Definition method_map (method : string) : string :=
  dict_get_or [("quantile", "empirical"); ("linear", "parametric_normal");
               ("gamma", "parametric_gamma"); ("empirical", "empirical")]%string method "empirical"%string.

(** [mean], [std], [min] and [max] of the distribution summary. *)
Definition summary (a : list fq) : py_exn + (fq * fq * fq * fq) :=
  match np_min_a a with
  | inl e => inl e
  | inr mn => match np_max_a a with
              | inl e => inl e
              | inr mx => inr (np_mean_a a, fq_sqrt (np_var_a a), mn, mx)
              end
  end.

Record correction_report := {
  rc_method : string;
  rc_corrected : list fq;
  rc_statistics : qm_stats;
  rc_pct_observations : list fq;
  rc_pct_model_raw : list fq;
  rc_pct_model_corrected : list fq;
  rc_summary_observations : fq * fq * fq * fq;
  rc_summary_model_raw : fq * fq * fq * fq;
  rc_summary_model_corrected : fq * fq * fq * fq
}.

(** The steps of [run_correction] in their order; the constant strings of
    the returned dictionary are left out. *)
Definition run_correction (predictions observations : list Q) (method : string)
  : py_exn + correction_report :=
  let qm := qm_init (method_map method) in
  match qm_fit predictions observations qm with
  | (inl e, _) => inl e
  | (inr _, qm1) =>
  match qm_transform predictions qm1 with
  | (inl e, _) => inl e
  | (inr corrected, _) =>
  match compute_statistics predictions observations corrected with
  | inl e => inl e
  | inr st =>
  match percentile_list (map Fin observations) report_percentiles with
  | inl e => inl e
  | inr po =>
  match percentile_list (map Fin predictions) report_percentiles with
  | inl e => inl e
  | inr pr =>
  match percentile_list corrected report_percentiles with
  | inl e => inl e
  | inr pc =>
  match summary (map Fin observations) with
  | inl e => inl e
  | inr so =>
  match summary (map Fin predictions) with
  | inl e => inl e
  | inr sr =>
  match summary corrected with
  | inl e => inl e
  | inr sc =>
  inr {| rc_method := method; rc_corrected := corrected; rc_statistics := st;
         rc_pct_observations := po; rc_pct_model_raw := pr; rc_pct_model_corrected := pc;
         rc_summary_observations := so; rc_summary_model_raw := sr;
         rc_summary_model_corrected := sc |}
  end end end end end end end end end.

End Report.

(** ** Reductions on finite arrays *)

Lemma fq_all_map_Fin l : fq_all (map Fin l) = Some l.
Proof. induction l as [|x l IH]; simpl; [reflexivity|now rewrite IH]. Qed.

Lemma np_mean_a_Fin l : np_mean_a (map Fin l) = np_mean_f l.
Proof. unfold np_mean_a. now rewrite fq_all_map_Fin. Qed.

Lemma np_percentile_ok a p : a <> [] -> exists v, np_percentile a p = inr v.
Proof. intros Ha. unfold np_percentile. destruct a; [congruence|]. destruct (fq_all _); eauto. Qed.

Lemma percentile_list_ok a ps : a <> [] -> exists vs, percentile_list a ps = inr vs.
Proof.
  intros Ha. induction ps as [|p ps [vs IH]]; simpl; [eauto|].
  destruct (np_percentile_ok a p Ha) as [v ->]. rewrite IH. eauto.
Qed.

Lemma np_min_max_ok a : a <> [] -> (exists v, np_min_a a = inr v) /\ (exists v, np_max_a a = inr v).
Proof.
  intros Ha. unfold np_min_a, np_max_a. destruct a; [congruence|].
  destruct (fq_all _) as [[|q qs]|]; split; eauto.
Qed.

Lemma Forall2_Qeq_refl l : Forall2 Qeq l l.
Proof. induction l; constructor; [reflexivity|assumption]. Qed.

(** Sorted rearrangements of one array have the same percentiles. *)
Lemma percentile_sorted_eqv a b p : Forall2 Qeq a b -> percentile_sorted a p == percentile_sorted b p.
Proof.
  intros H. unfold percentile_sorted. cbv zeta. rewrite (Forall2_length H).
  rewrite !(Forall2_Qeq_nth _ _ H). reflexivity.
Qed.

Lemma np_percentile_perm l1 l2 p v1 v2 :
  Permutation l1 l2 -> np_percentile (map Fin l1) p = inr v1 -> np_percentile (map Fin l2) p = inr v2 ->
  fq_eq v1 v2.
Proof.
  intros Hp. unfold np_percentile. rewrite !fq_all_map_Fin.
  destruct l1 as [|x1 l1]; [discriminate|]. destruct l2 as [|x2 l2].
  { apply Permutation_sym, Permutation_nil in Hp. discriminate. }
  simpl map. cbv iota. injection 1 as <-. injection 1 as <-. simpl.
  apply percentile_sorted_eqv, (sorted_perm_eqv _ (np_sort (x2 :: l2))); [apply np_sort_sorted..| |].
  - rewrite <- np_sort_perm, <- np_sort_perm. exact Hp.
  - apply Forall2_Qeq_refl.
Qed.

Lemma percentile_list_perm l1 l2 ps vs1 vs2 :
  Permutation l1 l2 -> percentile_list (map Fin l1) ps = inr vs1 ->
  percentile_list (map Fin l2) ps = inr vs2 -> Forall2 fq_eq vs1 vs2.
Proof.
  intros Hp. revert vs1 vs2. induction ps as [|p ps IH]; intros vs1 vs2; simpl.
  - injection 1 as <-. injection 1 as <-. constructor.
  - destruct (np_percentile (map Fin l1) p) as [e|v1] eqn:E1; [discriminate|].
    destruct (percentile_list (map Fin l1) ps) as [e|r1] eqn:R1; [discriminate|].
    destruct (np_percentile (map Fin l2) p) as [e|v2] eqn:E2; [discriminate|].
    destruct (percentile_list (map Fin l2) ps) as [e|r2] eqn:R2; [discriminate|].
    injection 1 as <-. injection 1 as <-. constructor; [exact (np_percentile_perm _ _ _ _ _ Hp E1 E2)|].
    now apply IH.
Qed.

(** The mean of the normal correction is the observations' mean. *)
Lemma inject_Z_S n : inject_Z (Z.of_nat (S n)) == inject_Z (Z.of_nat n) + 1.
Proof. rewrite Nat2Z.inj_succ. unfold Z.succ. rewrite inject_Z_plus. reflexivity. Qed.

Lemma qsum_normal m sd os om l :
  qsum (map (fun x => (x - m) / sd * os + om) l) ==
    (qsum l - m * inject_Z (Z.of_nat (length l))) / sd * os + om * inject_Z (Z.of_nat (length l)).
Proof.
  induction l as [|x l IH]; unfold qsum in *; cbn [map fold_right length].
  - change (inject_Z (Z.of_nat 0)) with 0. unfold Qdiv. ring.
  - rewrite IH, inject_Z_S. unfold Qdiv. ring.
Qed.

Lemma np_mean_normal sd os om l :
  l <> [] -> ~ sd == 0 -> np_mean (map (fun x => (x - np_mean l) / sd * os + om) l) == om.
Proof.
  intros Hne Hsd. unfold np_mean at 1. rewrite qsum_normal, length_map. unfold np_mean.
  assert (Hn : ~ inject_Z (Z.of_nat (length l)) == 0).
  { destruct l as [|x l]; [congruence|]. change (length (x :: l)) with (S (length l)). rewrite inject_Z_S.
    assert (0 <= inject_Z (Z.of_nat (length l))) by (change 0 with (inject_Z 0); rewrite <- Zle_Qle; apply Zle_0_nat).
    lra. }
  field. split; assumption.
Qed.

(** When [bias_after] is zero the reported reduction is [100] percent. *)
Lemma bias_reduction_zero b0 b : b == 0 -> exists p, bias_reduction (Fin b0) (Fin b) = Fin p /\ p == 100.
Proof.
  intros Hb. unfold bias_reduction. destruct (Qeq_bool b0 0) eqn:E; [eexists; split; reflexivity|].
  assert (Ha : Qeq_bool (Qabs b0) 0 = false).
  { apply not_true_iff_false. intros Habs. apply Qeq_bool_iff in Habs.
    apply not_true_iff_false in E. apply E, Qeq_bool_iff.
    destruct (Qlt_le_dec b0 0) as [Hl|Hl]; [rewrite Qabs_neg in Habs by lra|rewrite Qabs_pos in Habs by lra]; lra. }
  cbn [fq_abs fq_div fq_sub fq_mul fq_lift2]. rewrite Ha. eexists. split; [reflexivity|].
  rewrite Hb. simpl Qabs. unfold Qdiv. ring.
Qed.

Lemma map_Fin_ne (l : list Q) : l <> [] -> map Fin l <> [].
Proof. destruct l; [congruence|discriminate]. Qed.

Lemma length_ne {A B} (l : list A) (l' : list B) : length l = length l' -> l' <> [] -> l <> [].
Proof. intros H Hne ->. destruct l'; [congruence|discriminate]. Qed.

Section ReportTheory.
Context {St : SciPyStats} {Ks : KS2Samp} {KsL : @KS2SampLaws Ks}.

Lemma compute_statistics_ok md od cd :
  md <> [] -> od <> [] -> length md = length od -> length cd = length od ->
  exists st, compute_statistics md od cd = inr st /\
    bias_before st = fq_sub (np_mean_f md) (np_mean_f od) /\
    bias_after st = fq_sub (np_mean_a cd) (np_mean_f od) /\
    bias_reduction_percent st = bias_reduction (bias_before st) (bias_after st).
Proof.
  intros Hm Ho Hl Hc. unfold compute_statistics. cbv zeta.
  rewrite !np_broadcast_same by (rewrite ?length_map; assumption).
  destruct (ks_2samp_ok (map Fin md) (map Fin od)) as [ksb ->]; [now apply map_Fin_ne..|].
  destruct (ks_2samp_ok cd (map Fin od)) as [ksa ->];
    [exact (length_ne _ _ (eq_trans Hc (eq_sym (length_map Fin od))) (map_Fin_ne _ Ho))|now apply map_Fin_ne|].
  eexists. split; [reflexivity|]. cbn. rewrite !np_mean_a_Fin. auto.
Qed.

(** The steps of a [run_correction] whose fit and transform succeed. *)
Lemma run_correction_steps preds obs method s1 s2 cd :
  preds <> [] -> obs <> [] -> length preds = length obs -> length cd = length obs ->
  qm_fit preds obs (qm_init (method_map method)) = (inr tt, s1) ->
  qm_transform preds s1 = (inr cd, s2) ->
  exists r st po pc, run_correction preds obs method = inr r /\
    rc_corrected r = cd /\ rc_statistics r = st /\
    compute_statistics preds obs cd = inr st /\
    rc_pct_observations r = po /\ percentile_list (map Fin obs) report_percentiles = inr po /\
    rc_pct_model_corrected r = pc /\ percentile_list cd report_percentiles = inr pc.
Proof.
  intros Hp Ho Hl Hc Hfit Htr.
  assert (Hcd : cd <> []) by exact (length_ne _ _ Hc Ho).
  destruct (compute_statistics_ok preds obs cd Hp Ho Hl Hc) as [st [Hst _]].
  destruct (percentile_list_ok (map Fin obs) report_percentiles (map_Fin_ne _ Ho)) as [po Hpo].
  destruct (percentile_list_ok (map Fin preds) report_percentiles (map_Fin_ne _ Hp)) as [pr Hpr].
  destruct (percentile_list_ok cd report_percentiles Hcd) as [pc Hpc].
  destruct (np_min_max_ok _ (map_Fin_ne _ Ho)) as [[mno Hmno] [mxo Hmxo]].
  destruct (np_min_max_ok _ (map_Fin_ne _ Hp)) as [[mnp Hmnp] [mxp Hmxp]].
  destruct (np_min_max_ok _ Hcd) as [[mnc Hmnc] [mxc Hmxc]].
  unfold run_correction, summary. cbv zeta. rewrite Hfit, Htr, Hst, Hpo, Hpr, Hpc.
  rewrite Hmno, Hmxo, Hmnp, Hmxp, Hmnc, Hmxc.
  do 4 eexists. repeat split; first [reflexivity|eassumption].
Qed.

End ReportTheory.

Lemma np_mean_f_ne (l : list Q) : l <> [] -> np_mean_f l = Fin (np_mean l).
Proof. destruct l; [congruence|reflexivity]. Qed.

Section ReportClaims.
Context {St : SciPyStats} {StL : @SciPyStatsLaws St} {Ks : KS2Samp} {KsL : @KS2SampLaws Ks}.

(** [run_correction] with method ["linear"] (the normal method) on
    non-empty series of one length, the predictions not constant, succeeds
    and reports a bias after correction of zero and a bias reduction of
    [100] percent: the corrected series has the observations' mean. *)
Theorem run_correction_linear_unbiased preds obs :
  preds <> [] -> obs <> [] -> length preds = length obs -> ~ np_var preds == 0 ->
  exists r, run_correction preds obs "linear" = inr r /\
    (exists b, bias_after (rc_statistics r) = Fin b /\ b == 0) /\
    (exists p, bias_reduction_percent (rc_statistics r) = Fin p /\ p == 100).
Proof.
  intros Hp Ho Hl Hv.
  set (sd := np_sqrt (np_var preds)).
  assert (Hsd : ~ sd == 0) by (unfold sd; rewrite np_sqrt_zero; [exact Hv|apply np_var_nonneg]).
  set (g := fun x => (x - np_mean preds) / sd * np_sqrt (np_var obs) + np_mean obs).
  set (p := (np_mean_f preds, np_std_f preds, np_mean_f obs, np_std_f obs)).
  pose proof (qm_fit_normal preds obs (qm_init (method_map "linear")) eq_refl) as Hfit.
  set (s1 := set_fitted _) in Hfit.
  assert (Htr : qm_transform preds s1 = (inr (map (normal_correct p) preds), s1))
    by (apply qm_transform_normal; reflexivity).
  assert (Hcd : map (normal_correct p) preds = map Fin (map g preds)).
  { rewrite map_map. apply map_ext. intros x. unfold p.
    rewrite !np_std_f_nonempty, !np_mean_f_ne by assumption.
    unfold normal_correct. cbn [fq_add fq_mul fq_sub fq_div fq_lift2]. fold sd.
    destruct (Qeq_bool sd 0) eqn:E; [apply Qeq_bool_iff in E; contradiction|reflexivity]. }
  assert (Hlc : length (map (normal_correct p) preds) = length obs) by (rewrite length_map; exact Hl).
  destruct (run_correction_steps preds obs "linear" s1 s1 _ Hp Ho Hl Hlc Hfit Htr)
    as (r & st & po & pc & Hr & _ & Hst & Hcs & _).
  destruct (compute_statistics_ok preds obs _ Hp Ho Hl Hlc) as [st' [Hcs' [Hbb [Hba Hbr]]]].
  rewrite Hcs in Hcs'. injection Hcs' as <-.
  exists r. split; [exact Hr|]. rewrite Hst.
  rewrite Hcd, np_mean_a_Fin, !np_mean_f_ne in Hba by (try apply map_Fin_ne; try (destruct preds; [congruence|discriminate]); assumption).
  rewrite !np_mean_f_ne in Hbb by assumption.
  assert (Hz : np_mean (map g preds) - np_mean obs == 0) by (unfold g; rewrite np_mean_normal by assumption; ring).
  split; [eexists; split; [exact Hba|exact Hz]|].
  rewrite Hbr, Hbb, Hba. now apply bias_reduction_zero.
Qed.

(** [run_correction] with method ["quantile"] (the empirical method)
    on series of one length, the predictions pairwise distinct, succeeds;
    the corrected series is a rearrangement of the observations, so the
    bias after correction is zero, the bias reduction is [100] percent and
    the reported percentiles of the corrected series equal those of the
    observations. *)
Theorem run_correction_quantile_matches_obs preds obs :
  StronglySorted Qlt (np_sort preds) -> length preds = length obs -> preds <> [] ->
  exists r, run_correction preds obs "quantile" = inr r /\
    Permutation (rc_corrected r) (map Fin obs) /\
    (exists b, bias_after (rc_statistics r) = Fin b /\ b == 0) /\
    (exists p, bias_reduction_percent (rc_statistics r) = Fin p /\ p == 100) /\
    Forall2 fq_eq (rc_pct_model_corrected r) (rc_pct_observations r).
Proof.
  intros Hs Hl Hp.
  assert (Ho : obs <> []) by exact (length_ne _ _ (eq_sym Hl) Hp).
  destruct (qm_fit_empirical_ok preds obs (qm_init (method_map "quantile")) eq_refl Hl Hp) as [s1 Hfit].
  pose proof (qm_fit_empirical_inv preds obs (qm_init (method_map "quantile")) s1 eq_refl Hfit) as He.
  pose proof (qm_transform_emp _ _ _ preds He) as Htr.
  destruct He as (_ & _ & _ & _ & Hls & _).
  set (T := empirical_correct _ _) in Htr.
  assert (Hperm : Permutation (map T preds) obs).
  { rewrite (Permutation_map T (np_sort_perm preds)).
    unfold T. rewrite (empirical_correct_sorted _ _ Hs Hls). symmetry. apply np_sort_perm. }
  assert (Hcd : map (fun x => Fin (T x)) preds = map Fin (map T preds)) by (now rewrite map_map).
  rewrite Hcd in Htr.
  assert (Hlc : length (map Fin (map T preds)) = length obs) by (rewrite !length_map; exact Hl).
  destruct (run_correction_steps preds obs "quantile" s1 s1 _ Hp Ho Hl Hlc Hfit Htr)
    as (r & st & po & pc & Hr & Hc & Hst & Hcs & Hpo & Hpo' & Hpc & Hpc').
  destruct (compute_statistics_ok preds obs _ Hp Ho Hl Hlc) as [st' [Hcs' [Hbb [Hba Hbr]]]].
  rewrite Hcs in Hcs'. injection Hcs' as <-.
  assert (HTne : map T preds <> []) by (destruct preds; [congruence|discriminate]).
  rewrite np_mean_a_Fin, !np_mean_f_ne in Hba by assumption.
  rewrite !np_mean_f_ne in Hbb by assumption.
  assert (Hz : np_mean (map T preds) - np_mean obs == 0) by (rewrite (np_mean_perm _ _ Hperm); ring).
  exists r. split; [exact Hr|]. rewrite Hc, Hst, Hpc, Hpo. split; [now apply Permutation_map|].
  split; [eexists; split; [exact Hba|exact Hz]|]. split.
  - rewrite Hbr, Hbb, Hba. now apply bias_reduction_zero.
  - exact (percentile_list_perm _ _ _ _ _ Hperm Hpc' Hpo').
Qed.

(** C28: [run_correction] on equal-length non-empty series: with method
    ["linear"] (the normal method) and non-constant predictions it
    succeeds with zero bias after correction and a 100 percent bias
    reduction; with method ["quantile"] (the empirical method) and
    distinct predictions it succeeds, the corrected series is a
    rearrangement of the observations, the bias after is zero, the
    reduction 100 percent, and the corrected percentiles are the
    observed ones. *)
Theorem run_correction_contract preds obs :
  length preds = length obs -> preds <> [] ->
  (~ np_var preds == 0 ->
   exists r, run_correction preds obs "linear" = inr r /\
     (exists b, bias_after (rc_statistics r) = Fin b /\ b == 0) /\
     (exists p, bias_reduction_percent (rc_statistics r) = Fin p /\ p == 100)) /\
  (StronglySorted Qlt (np_sort preds) ->
   exists r, run_correction preds obs "quantile" = inr r /\
     Permutation (rc_corrected r) (map Fin obs) /\
     (exists b, bias_after (rc_statistics r) = Fin b /\ b == 0) /\
     (exists p, bias_reduction_percent (rc_statistics r) = Fin p /\ p == 100) /\
     Forall2 fq_eq (rc_pct_model_corrected r) (rc_pct_observations r)).
Proof.
  intros Hl Hne. split; intros H.
  - apply run_correction_linear_unbiased; auto.
    intros ->. destruct preds; [congruence|discriminate].
  - apply run_correction_quantile_matches_obs; auto.
Qed.
End ReportClaims.

(** ** A rational instance of the Kolmogorov-Smirnov interface

    The two-sample statistic [D = max_z |F_a(z) - F_b(z)|] over the pooled
    sample, computed exactly; its p-value needs the Kolmogorov
    distribution and is left non-finite.  The instance satisfies the law,
    and lets the witnesses below run [run_correction]. *)

(** The empirical CDF of [l] at [z]. *)
Definition ecdf (l : list Q) (z : Q) : Q :=
  inject_Z (Z.of_nat (length (filter (fun y => Qle_bool y z) l))) / inject_Z (Z.of_nat (length l)).

Definition ks_statistic (a b : list Q) : Q :=
  fold_left (fun acc z => Qmax acc (Qabs (ecdf a z - ecdf b z))) (a ++ b) 0.

Definition ks_rational (a b : list fq) : py_exn + (fq * fq) :=
  match a, b with
  | [], _ | _, [] => inl (ValueError "Data passed to ks_2samp must not be empty"%string)
  | _, _ => match fq_all a, fq_all b with
            | Some qa, Some qb => inr (Fin (ks_statistic qa qb), NonFinite)
            | _, _ => inr (NonFinite, NonFinite)
            end
  end.

#[local] Instance ks_rational_inst : KS2Samp := {| ks_2samp := ks_rational |}.

Lemma ks_rational_ok a b : a <> [] -> b <> [] -> exists r, ks_rational a b = inr r.
Proof.
  intros Ha Hb. unfold ks_rational. destruct a; [congruence|]. destruct b; [congruence|].
  destruct (fq_all (f :: a)), (fq_all (f0 :: b)); eauto.
Qed.

#[local] Instance ks_rational_laws : KS2SampLaws := {| ks_2samp_ok := ks_rational_ok |}.

#[local] Existing Instance rational_stats.
#[local] Existing Instance rational_stats_laws.

Lemma run_correction_contract_witness :
  (exists r, run_correction [1; 2; 3] [2; 4; 7] "linear" = inr r /\
    (exists b, bias_after (rc_statistics r) = Fin b /\ b == 0) /\
    (exists p, bias_reduction_percent (rc_statistics r) = Fin p /\ p == 100)) /\
  (exists r, run_correction [3; 1; 2] [10; 30; 20] "quantile" = inr r /\
    Permutation (rc_corrected r) (map Fin [10; 30; 20]) /\
    (exists b, bias_after (rc_statistics r) = Fin b /\ b == 0) /\
    (exists p, bias_reduction_percent (rc_statistics r) = Fin p /\ p == 100) /\
    Forall2 fq_eq (rc_pct_model_corrected r) (rc_pct_observations r)).
Proof.
  split.
  - apply (proj1 (run_correction_contract [1; 2; 3] [2; 4; 7] eq_refl ltac:(discriminate))).
    intros H. vm_compute in H. discriminate.
  - apply (proj2 (run_correction_contract [3; 1; 2] [10; 30; 20] eq_refl ltac:(discriminate))).
    vm_compute. repeat constructor.
Defined.
