(* ===== verification/Api.v ===== *)
(** Model of [main.py], the FastAPI service: the request models with
    their defaults, the sixteen algorithm endpoints, each of which calls a
    component modelled in its own file inside [try ... except Exception as
    e: raise HTTPException(status_code=500, detail=str(e))], the
    [health_check] and [list_algorithms] listings and
    [get_algorithm_code].  An endpoint's answer is an [http_result]: the
    component's result, a 500 carrying the exception whose [str] is the
    detail, or a 404 with its detail.  numpy's global random generator is
    the server state the quantum endpoints thread.  The routes, the
    application and the start-up are in [Server.v]. *)

From Stdlib Require Import String.
From Stdlib Require Import List Arith ZArith QArith Lia Reals Lra.
From S2P Require Import Prelude RNum QuantileMapping CorrectionReport Kalman Trend Anomaly.
From S2P Require Import BMA BMAReport Arima Processor Quantum LSTM Ensemble MLModels.
Import ListNotations.
Open Scope R_scope.

(** ** Answers of an endpoint *)

Inductive http_result (A : Type) : Type :=
| Ok (a : A)
| Http500 (e : py_exn)            (** [HTTPException(500, detail=str(e))] *)
| Http404 (detail : string).
Arguments Ok {A} a.
Arguments Http500 {A} e.
Arguments Http404 {A} detail.

(** [try: result = f(...); return result
    except Exception as e: raise HTTPException(status_code=500, detail=str(e))]. *)
Definition wrap500 {A} (r : py_exn + A) : http_result A :=
  match r with inl e => Http500 e | inr a => Ok a end.

(** The same around a call that draws from the random generator. *)
Definition wrap500_rng {S A} (m : PyM S A) (g : S) : http_result A * S :=
  let '(r, g') := m g in (wrap500 r, g').

(** [np.array(X) if X else None]: an absent or empty list gives [None]. *)
Definition truthy_array (X : option (list (list R))) : py_exn + option (list (list R)) :=
  match X with
  | Some ((_ :: _) as rows) =>
      match WeatherProcessor.np_array2 rows with inl e => inl e | inr r => inr (Some r) end
  | _ => inr None
  end.

(** [np.array(X_train)] of a list of rows. *)
Definition np_array_train (X : list (list R)) : py_exn + list (list R) := WeatherProcessor.np_array2 X.

Definition get_or {A} (o : option A) (d : A) : A := match o with Some a => a | None => d end.

(** ** Request models: [None] for a field the client left out *)

Record KalmanRequest : Type := mk_KalmanRequest
  { k_data : list R; k_process_noise : option R; k_measurement_noise : option R }.
Record ARIMARequest : Type := mk_ARIMARequest
  { a_data : list R; a_order : option (Z * Z * Z); a_forecast_steps : option Z }.
Record BayesianRequest : Type := mk_BayesianRequest
  { b_models_predictions : dict (list R); b_observations : list R; b_prior_weights : option (dict R) }.
(** Every float is a rational, so the bias-correction lists are [Q]. *)
Record BiasRequest : Type := mk_BiasRequest
  { bc_predictions : list Q; bc_observations : list Q; bc_method : option string }.
Record AnomalyRequest : Type := mk_AnomalyRequest
  { an_data : list R; an_method : option string; an_threshold : option R }.
Record TrendRequest : Type := mk_TrendRequest { t_data : list R }.
(** [RandomForestRequest], [XGBoostRequest], [GradientBoostingRequest],
    [EnsembleRequest] and [QNNRequest] have the same fields. *)
Record MLRequest : Type := mk_MLRequest
  { X_train : list (list R); y_train : list R; X_predict : option (list (list R)) }.
Record LSTMRequest : Type := mk_LSTMRequest
  { l_X_train : list (list R); l_y_train : list R; l_X_predict : option (list (list R));
    l_epochs : option Z }.
Record VQERequest : Type := mk_VQERequest
  { v_weather_params : dict R; v_num_qubits : option Z; v_layers : option Z }.
Record QAOARequest : Type := mk_QAOARequest
  { q_nodes : option Z; q_edges : option (list (Z * Z * R)); q_depth : option Z }.
Record QSVMRequest : Type := mk_QSVMRequest
  { s_X_train : list (list R); s_y_train : list Z; s_X_test : option (list (list R)) }.
Record GroverRequest : Type := mk_GroverRequest { g_n_qubits : option Z; g_target_state : option Z }.

Module Main.
Section Endpoints.
Context `{SciPyStats} `{KS2Samp} `{NormalDist} `{TrendLibs} `{StatsModels}
  `{SkLearn} `{ForestLib} `{BoostLib} `{XGBLib} `{Keras} `{NumpyRandom}.
(** Python's [format(x, '.4f')], used by the ARIMA equation. *)
Variable format_4f : R -> string.

(** *** Scientific endpoints *)

Definition run_kalman (r : KalmanRequest) :=
  wrap500 (KalmanReport.run_filter (k_data r) (get_or (k_process_noise r) (1 / 10))
             (get_or (k_measurement_noise r) 1)).

Definition run_arima (r : ARIMARequest) :=
  wrap500 (ArimaForecast.run_forecast format_4f (a_data r)
             (get_or (a_order r) WeatherARIMA.default_order) (get_or (a_forecast_steps r) 7%Z)).

Definition run_bayesian (r : BayesianRequest) :=
  wrap500 (RunBMA.run_bma (b_models_predictions r) (b_observations r) (b_prior_weights r)).

Definition run_bias_correction (r : BiasRequest) :=
  wrap500 (run_correction (bc_predictions r) (bc_observations r)
             (get_or (bc_method r) "quantile"%string)).

Definition run_anomaly_detection (r : AnomalyRequest) :=
  wrap500 (AnomalyReport.detect (an_data r) (get_or (an_method r) "zscore"%string)
             (get_or (an_threshold r) 3)).

Definition run_trend_analysis (r : TrendRequest) := wrap500 (TrendReport.analyze (t_data r)).

(** *** Machine-learning endpoints: [np.array] of the lists first *)

Definition ml_call {A} (f : matrix -> list R -> option matrix -> py_exn + A) (r : MLRequest)
  : py_exn + A :=
  match np_array_train (X_train r) with
  | inl e => inl e
  | inr Xt =>
      match truthy_array (X_predict r) with
      | inl e => inl e
      | inr Xp => f Xt (y_train r) Xp
      end
  end.

Definition run_random_forest (r : MLRequest) := wrap500 (ml_call RandomForest.train_and_predict r).
Definition run_xgboost (r : MLRequest) := wrap500 (ml_call XGBoost.train_and_predict r).
Definition run_gradient_boosting (r : MLRequest) := wrap500 (ml_call GradientBoosting.train_and_predict r).
Definition run_ensemble (r : MLRequest) := wrap500 (ml_call EnsembleVoting.train_and_predict r).

(** The dictionary [run_lstm] passes: every key is present, and
    ["X_predict"] is [request.X_predict], [None] when the client sent
    none. *)
Definition lstm_request_dict (r : LSTMRequest) : LSTMPredictor.request :=
  LSTMPredictor.mk_request (Some (l_X_train r)) (Some (l_y_train r)) (Some (l_X_predict r))
    (Some (get_or (l_epochs r) 50%Z)).

Definition run_lstm (r : LSTMRequest) :=
  wrap500 (LSTMPredictor.train_and_predict (lstm_request_dict r)).

(** *** Quantum endpoints *)

Definition run_vqe (r : VQERequest) :=
  wrap500_rng (VQE.run (v_weather_params r) (get_or (v_num_qubits r) 4%Z) (get_or (v_layers r) 2%Z)).

Definition run_qaoa (r : QAOARequest) :=
  wrap500_rng (QAOA.run (get_or (q_nodes r) 4%Z) (get_or (q_edges r) []) (get_or (q_depth r) 3%Z)).

Definition run_qsvm (r : QSVMRequest) (g : rng_state) :=
  match np_array_train (s_X_train r), truthy_array (s_X_test r) with
  | inl e, _ | _, inl e => (Http500 e, g)
  | inr Xt, inr Xs => wrap500_rng (QSVM.train_and_predict Xt (s_y_train r) Xs) g
  end.

Definition run_qnn (r : MLRequest) (g : rng_state) :=
  match np_array_train (X_train r), truthy_array (X_predict r) with
  | inl e, _ | _, inl e => (Http500 e, g)
  | inr Xt, inr Xp => wrap500_rng (QNN.train_and_predict Xt (y_train r) Xp) g
  end.

Definition run_grover (r : GroverRequest) :=
  wrap500 (Grover.search (get_or (g_n_qubits r) 4%Z) (get_or (g_target_state r) 0%Z)).

End Endpoints.

(** ** Listings and the code endpoint *)

Local Open Scope string_scope.

(** [health_check()]'s ["algorithms"]; the timestamp is the caller's. *)
Definition health_algorithms : list (string * list string) :=
  [("scientific", ["kalman_filter"; "arima"; "bayesian_ensemble"; "bias_correction";
                   "anomaly_detection"; "trend_analysis"]);
   ("ml", ["random_forest"; "xgboost"; "lstm"; "gradient_boosting"; "ensemble_voting"]);
   ("quantum", ["vqe"; "qaoa"; "qsvm"; "qnn"; "grover"])].

Record health : Type := mk_health
  { status : string; version : string; timestamp : string; algorithms : list (string * list string) }.

Definition health_check (now : string) : health := mk_health "healthy" "1.0.0" now health_algorithms.

Record algorithm_info : Type := mk_info
  { name : string; description : string; library : string; reference : string }.

(** [list_algorithms()]. *)
Definition list_algorithms : list (string * list (string * algorithm_info)) :=
  [("scientific",
    [("kalman_filter", mk_info "Kalman Filter" "State estimation and noise reduction" "filterpy" "Kalman, R.E. (1960)");
     ("arima", mk_info "ARIMA" "Time series forecasting" "statsmodels" "Box & Jenkins (1970)");
     ("bayesian_ensemble", mk_info "Bayesian Model Averaging" "Probabilistic model combination" "scipy" "Hoeting et al. (1999)");
     ("bias_correction", mk_info "Quantile Mapping" "Systematic bias correction" "scipy" "Themeßl et al. (2011)");
     ("anomaly_detection", mk_info "Anomaly Detection" "Z-score and IQR methods" "numpy/scipy" "Standard statistical methods");
     ("trend_analysis", mk_info "Mann-Kendall Test" "Non-parametric trend detection" "pymannkendall" "Mann (1945), Kendall (1975)")]);
   ("ml",
    [("random_forest", mk_info "Random Forest" "Ensemble of decision trees" "scikit-learn" "Breiman (2001)");
     ("lstm", mk_info "LSTM Neural Network" "Long Short-Term Memory RNN" "TensorFlow/Keras" "Hochreiter & Schmidhuber (1997)");
     ("xgboost", mk_info "XGBoost" "Extreme Gradient Boosting" "xgboost" "Chen & Guestrin (2016)");
     ("gradient_boosting", mk_info "Gradient Boosting" "Sequential ensemble method" "scikit-learn" "Friedman (2001)");
     ("ensemble_voting", mk_info "Voting Regressor" "Model averaging ensemble" "scikit-learn" "scikit-learn documentation")]);
   ("quantum",
    [("vqe", mk_info "VQE" "Variational Quantum Eigensolver" "Qiskit" "Peruzzo et al. (2014)");
     ("qaoa", mk_info "QAOA" "Quantum Approximate Optimization" "Qiskit" "Farhi et al. (2014)");
     ("qsvm", mk_info "QSVM" "Quantum Support Vector Machine" "qiskit-machine-learning" "Havlíček et al. (2019)");
     ("qnn", mk_info "QNN" "Quantum Neural Network" "qiskit-machine-learning" "Schuld et al. (2020)");
     ("grover", mk_info "Grover's Algorithm" "Quantum search algorithm" "Qiskit" "Grover (1996)")])].

(** [code_mapping] of [get_algorithm_code]: each key names the module
    whose [get_source_code] it calls. *)
Definition code_mapping : list (string * list (string * string)) :=
  [("scientific", [("kalman", "kalman_filter"); ("arima", "arima_model");
                   ("bayesian", "bayesian_ensemble"); ("bias_correction", "bias_correction");
                   ("anomaly", "anomaly_detection"); ("trend", "trend_analysis")]);
   ("ml", [("random_forest", "random_forest"); ("lstm", "lstm_predictor");
           ("xgboost", "xgboost_predictor"); ("gradient_boosting", "gradient_boosting");
           ("ensemble", "ensemble_voting")]);
   ("quantum", [("vqe", "vqe_optimizer"); ("qaoa", "qaoa_solver"); ("qsvm", "qsvm_classifier");
                ("qnn", "qnn_regression"); ("grover", "grover_search")])].

Record code_answer : Type := mk_code_answer { category : string; algorithm : string; code : string }.

(** [get_algorithm_code(category, algorithm)]; [source_of m] is
    [m.get_source_code()], the source text of the module's class. *)
Definition get_algorithm_code (source_of : string -> string) (c a : string) : http_result code_answer :=
  match dict_get code_mapping c with
  | None => Http404 ("Category '" ++ c ++ "' not found")
  | Some algos =>
      match dict_get algos a with
      | None => Http404 ("Algorithm '" ++ a ++ "' not found")
      | Some m => Ok (mk_code_answer c a (source_of m))
      end
  end.

End Main.

Module MainFacts.
Import Main.

(** ** The LSTM endpoint *)

(** C7: run_lstm always puts the key 'X_predict' in the dictionary it
    passes, with the value None when the client sent no prediction rows,
    and lstm_predictor.train_and_predict tests "'X_predict' in request":
    it then predicts on np.array(None), a 0-d array, where X[:, -1, :]
    raises IndexError.  So without TensorFlow every LSTM request with
    well-formed training rows and no prediction rows is answered with
    HTTP 500, while train_and_predict called without the key succeeds. *)
Theorem run_lstm_without_predict_500 `{Keras} (no_tf : HAS_TF = false) X y e k :
  X <> [] -> Forall (fun r => length r = k) X ->
  run_lstm (mk_LSTMRequest X y None e) = Http500 IndexError /\
  exists r, LSTMPredictor.train_and_predict
              (LSTMPredictor.mk_request (Some X) (Some y) None (Some (get_or e 50%Z))) = inr r.
Proof.
  intros Hne HX. unfold run_lstm, lstm_request_dict. cbn [l_X_train l_y_train l_X_predict l_epochs].
  rewrite !(LSTMFacts.train_and_predict_no_tf no_tf X y _ _ k Hne HX).
  split; [reflexivity|eexists; reflexivity].
Qed.

Lemma run_lstm_without_predict_500_witness :
  @run_lstm LSTMFacts.keras_missing (mk_LSTMRequest LSTMFacts.lstm_demo_rows [23; 24] None None)
    = Http500 IndexError /\
  exists r, @LSTMPredictor.train_and_predict LSTMFacts.keras_missing
              (LSTMPredictor.mk_request (Some LSTMFacts.lstm_demo_rows) (Some [23; 24]) None
                 (Some (get_or None 50%Z))) = inr r.
Proof.
  apply (@run_lstm_without_predict_500 LSTMFacts.keras_missing eq_refl LSTMFacts.lstm_demo_rows
           [23; 24] None 3).
  - discriminate.
  - repeat constructor.
Defined.

(** ** Listings against the code endpoint *)

Local Open Scope string_scope.

Definition is_404 {A} (r : http_result A) : bool := match r with Http404 _ => true | _ => false end.

(** The names a category lists, in [health_check] and in
    [list_algorithms]. *)
Definition health_names (c : string) : list string := get_or (dict_get health_algorithms c) [].
Definition listed_names (c : string) : list string :=
  map fst (get_or (dict_get list_algorithms c) []).

(** The listed names [get_algorithm_code] does not know. *)
Definition names_without_code (source_of : string -> string) : list (string * string) :=
  flat_map (fun '(c, names) =>
              map (fun a => (c, a)) (filter (fun a => is_404 (get_algorithm_code source_of c a)) names))
           health_algorithms.

(** C10: health_check and list_algorithms advertise the same algorithm
    names in each category, but get_algorithm_code keys five of them
    differently ('kalman', 'bayesian', 'anomaly', 'trend', 'ensemble'), so
    asking for the code of kalman_filter, bayesian_ensemble,
    anomaly_detection, trend_analysis or ensemble_voting under the names
    the service lists answers 404; every other listed name has its code. *)
Theorem listed_names_code_mismatch source_of :
  (forall c, incl (health_names c) (listed_names c) /\ incl (listed_names c) (health_names c)) /\
  names_without_code source_of =
    [("scientific", "kalman_filter"); ("scientific", "bayesian_ensemble");
     ("scientific", "anomaly_detection"); ("scientific", "trend_analysis");
     ("ml", "ensemble_voting")].
Proof.
  split; [|reflexivity].
  intros c. unfold health_names, listed_names.
  destruct (String.eqb_spec c "scientific") as [->|Hs]; [split; intros a Ha; cbn in *; tauto|].
  destruct (String.eqb_spec c "ml") as [->|Hm]; [split; intros a Ha; cbn in *; tauto|].
  destruct (String.eqb_spec c "quantum") as [->|Hq]; [split; intros a Ha; cbn in *; tauto|].
  cbn. rewrite <- !String.eqb_neq in *. rewrite Hs, Hm, Hq. cbn. split; intros a [].
Qed.

End MainFacts.
