(* ===== verification/Server.v ===== *)
(** Model of the application layer of [main.py]: the [FastAPI] application
    and its CORS middleware (their configuration), the route table the
    decorators [@app.get] and [@app.post] build, the dispatch of a request
    to a route as Starlette's router performs it (first full match, 405
    when only the method differs, a 307 redirect when only a trailing
    slash differs, 404 otherwise), the whole service [serve] from a
    request to its status code, and the [__main__] start-up
    ([int(os.getenv("PORT", 8000))] and [uvicorn.run]).  Request bodies
    arrive decoded: a body of the wrong shape is pydantic's 422. *)

From Stdlib Require Import String Ascii List Bool Arith ZArith Lia Reals.
From S2P Require Import Prelude PyInt RNum QuantileMapping CorrectionReport Kalman Trend.
From S2P Require Import Anomaly BMA Arima Quantum LSTM Ensemble MLModels Api.
Import ListNotations.

Module App.

Local Open Scope string_scope.

(** [app = FastAPI(title=..., version="1.0.0", docs_url="/docs",
    redoc_url="/redoc")] (the description is documentation only). *)
Record app_config : Type := mk_app
  { title : string; version : string; docs_url : string; redoc_url : string }.

Definition app : app_config :=
  mk_app "QANWP-AI Python Backend" "1.0.0" "/docs" "/redoc".

(** [app.add_middleware(CORSMiddleware, allow_origins=["*"],
    allow_credentials=True, allow_methods=["*"], allow_headers=["*"])]. *)
Record cors_config : Type := mk_cors
  { allow_origins : list string; allow_credentials : bool;
    allow_methods : list string; allow_headers : list string }.

Definition cors : cors_config := mk_cors ["*"] true ["*"] ["*"].

(** ** Routes *)

Inductive http_method : Type := GET | POST | PUT | DELETE | PATCH | HEAD | OPTIONS.

Definition http_method_eq_dec (a b : http_method) : {a = b} + {a <> b}.
Proof. decide equality. Defined.

(** The handler functions of [main.py]. *)
Inductive endpoint : Type :=
| health_check | run_kalman | run_arima | run_bayesian | run_bias_correction
| run_anomaly_detection | run_trend_analysis | run_random_forest | run_lstm
| run_xgboost | run_gradient_boosting | run_ensemble | run_vqe | run_qaoa
| run_qsvm | run_qnn | run_grover | get_algorithm_code | list_algorithms.

Definition endpoint_eq_dec (a b : endpoint) : {a = b} + {a <> b}.
Proof. decide equality. Defined.

(** A path template, split at ['/']: a literal segment or a [{param}]
    (Starlette compiles it to [[^/]+]). *)
Inductive seg : Type := Lit (s : string) | Param (name : string).

Definition seg_eq_dec (a b : seg) : {a = b} + {a <> b}.
Proof. decide equality; apply string_dec. Defined.

Record route : Type := mk_route { r_method : http_method; r_path : list seg; r_endpoint : endpoint }.

Definition route_eq_dec (a b : route) : {a = b} + {a <> b}.
Proof.
  decide equality; [apply endpoint_eq_dec|apply (list_eq_dec seg_eq_dec)|apply http_method_eq_dec].
Defined.

(** The decorators, in the order of the file. *)
Definition routes : list route :=
  [mk_route GET [Lit "health"] health_check;
   mk_route POST [Lit "api"; Lit "scientific"; Lit "kalman"] run_kalman;
   mk_route POST [Lit "api"; Lit "scientific"; Lit "arima"] run_arima;
   mk_route POST [Lit "api"; Lit "scientific"; Lit "bayesian"] run_bayesian;
   mk_route POST [Lit "api"; Lit "scientific"; Lit "bias-correction"] run_bias_correction;
   mk_route POST [Lit "api"; Lit "scientific"; Lit "anomaly"] run_anomaly_detection;
   mk_route POST [Lit "api"; Lit "scientific"; Lit "trend"] run_trend_analysis;
   mk_route POST [Lit "api"; Lit "ml"; Lit "random-forest"] run_random_forest;
   mk_route POST [Lit "api"; Lit "ml"; Lit "lstm"] run_lstm;
   mk_route POST [Lit "api"; Lit "ml"; Lit "xgboost"] run_xgboost;
   mk_route POST [Lit "api"; Lit "ml"; Lit "gradient-boosting"] run_gradient_boosting;
   mk_route POST [Lit "api"; Lit "ml"; Lit "ensemble"] run_ensemble;
   mk_route POST [Lit "api"; Lit "quantum"; Lit "vqe"] run_vqe;
   mk_route POST [Lit "api"; Lit "quantum"; Lit "qaoa"] run_qaoa;
   mk_route POST [Lit "api"; Lit "quantum"; Lit "qsvm"] run_qsvm;
   mk_route POST [Lit "api"; Lit "quantum"; Lit "qnn"] run_qnn;
   mk_route POST [Lit "api"; Lit "quantum"; Lit "grover"] run_grover;
   mk_route GET [Lit "api"; Lit "code"; Param "category"; Param "algorithm"] get_algorithm_code;
   mk_route GET [Lit "api"; Lit "algorithms"] list_algorithms].

(** ** Starlette's router *)

(** The segments of a path: [None] unless it starts with ['/']. *)
Fixpoint split_segs (l : list ascii) : list (list ascii) :=
  match l with
  | [] => [[]]
  | c :: t =>
      let segs := split_segs t in
      if Ascii.eqb c "/" then [] :: segs
      else match segs with
           | s :: r => (c :: s) :: r
           | [] => [[c]]
           end
  end.

Definition path_segments (p : string) : option (list string) :=
  match split_segs (list_ascii_of_string p) with
  | [] :: segs => Some (map string_of_list_ascii segs)
  | _ => None
  end.

(** The path parameters when the template matches. *)
Fixpoint match_segs (pat : list seg) (segs : list string) : option (list (string * string)) :=
  match pat, segs with
  | [], [] => Some []
  | Lit a :: pat', s :: segs' => if String.eqb a s then match_segs pat' segs' else None
  | Param x :: pat', s :: segs' =>
      if String.eqb s "" then None
      else match match_segs pat' segs' with
           | Some ps => Some ((x, s) :: ps)
           | None => None
           end
  | _, _ => None
  end.

Inductive routed : Type :=
| Routed (e : endpoint) (params : list (string * string))
| NotAllowed                    (** 405: the path matched, the method did not *)
| Redirect (path : string)      (** 307: the path with the trailing slash toggled matches *)
| NotFound.

(** [Router.app]: the first route that matches path and method; the first
    route that matches the path only is remembered. *)
Fixpoint first_match (rs : list route) (m : http_method) (segs : list string) (partial : bool)
  : routed :=
  match rs with
  | [] => if partial then NotAllowed else NotFound
  | r :: rs' =>
      match match_segs (r_path r) segs with
      | Some ps =>
          if http_method_eq_dec (r_method r) m then Routed (r_endpoint r) ps
          else first_match rs' m segs true
      | None => first_match rs' m segs partial
      end
  end.

(** [redirect_slashes]: the path with its trailing slash removed or
    added. *)
Definition toggle_slash (p : string) : string :=
  let l := list_ascii_of_string p in
  match rev l with
  | "/"%char :: r => string_of_list_ascii (rev r)
  | _ => p ++ "/"
  end.

Definition path_matches_some (p : string) : bool :=
  match path_segments p with
  | Some segs => existsb (fun r => match match_segs (r_path r) segs with Some _ => true | None => false end) routes
  | None => false
  end.

Definition dispatch (m : http_method) (p : string) : routed :=
  match path_segments p with
  | None => NotFound
  | Some segs =>
      match first_match routes m segs false with
      | NotFound =>
          if negb (String.eqb p "/") && path_matches_some (toggle_slash p)
          then Redirect (toggle_slash p) else NotFound
      | r => r
      end
  end.

(** ** The whole service: a request to its status code *)

(** The decoded body of a request: one of the pydantic models, or none.
    [MLRequest] stands for the five models with the fields [X_train],
    [y_train] and [X_predict]. *)
Inductive body : Type :=
| NoBody
| KalmanBody (r : KalmanRequest) | ARIMABody (r : ARIMARequest) | BayesianBody (r : BayesianRequest)
| BiasBody (r : BiasRequest) | AnomalyBody (r : AnomalyRequest) | TrendBody (r : TrendRequest)
| MLBody (r : MLRequest) | LSTMBody (r : LSTMRequest) | VQEBody (r : VQERequest)
| QAOABody (r : QAOARequest) | QSVMBody (r : QSVMRequest) | GroverBody (r : GroverRequest).

Definition status_of {A} (r : http_result A) : Z :=
  match r with Ok _ => 200 | Http500 _ => 500 | Http404 _ => 404 end%Z.

Section Serve.
Context `{SciPyStats} `{KS2Samp} `{NormalDist} `{TrendLibs} `{StatsModels}
  `{SkLearn} `{ForestLib} `{BoostLib} `{XGBLib} `{Keras} `{NumpyRandom}.
(** Python's [format(x, '.4f')] and [inspect.getsource] of a module's class. *)
Variable format_4f : R -> string.
Variable source_of : string -> string.

(** The handler a route names, on the body FastAPI decoded (422 when the
    body does not validate against the handler's model); the quantum
    handlers draw from numpy's generator [g]. *)
Definition handle (e : endpoint) (ps : list (string * string)) (b : body) (g : rng_state)
  : Z * rng_state :=
  match e, b with
  | health_check, _ | list_algorithms, _ => (200%Z, g)
  | get_algorithm_code, _ =>
      (status_of (Main.get_algorithm_code source_of (get_or (dict_get ps "category") "")
                    (get_or (dict_get ps "algorithm") "")), g)
  | run_kalman, KalmanBody r => (status_of (Main.run_kalman r), g)
  | run_arima, ARIMABody r => (status_of (Main.run_arima format_4f r), g)
  | run_bayesian, BayesianBody r => (status_of (Main.run_bayesian r), g)
  | run_bias_correction, BiasBody r => (status_of (Main.run_bias_correction r), g)
  | run_anomaly_detection, AnomalyBody r => (status_of (Main.run_anomaly_detection r), g)
  | run_trend_analysis, TrendBody r => (status_of (Main.run_trend_analysis r), g)
  | run_random_forest, MLBody r => (status_of (Main.run_random_forest r), g)
  | run_xgboost, MLBody r => (status_of (Main.run_xgboost r), g)
  | run_gradient_boosting, MLBody r => (status_of (Main.run_gradient_boosting r), g)
  | run_ensemble, MLBody r => (status_of (Main.run_ensemble r), g)
  | run_lstm, LSTMBody r => (status_of (Main.run_lstm r), g)
  | run_vqe, VQEBody r => let '(res, g') := Main.run_vqe r g in (status_of res, g')
  | run_qaoa, QAOABody r => let '(res, g') := Main.run_qaoa r g in (status_of res, g')
  | run_qsvm, QSVMBody r => let '(res, g') := Main.run_qsvm r g in (status_of res, g')
  | run_qnn, MLBody r => let '(res, g') := Main.run_qnn r g in (status_of res, g')
  | run_grover, GroverBody r => (status_of (Main.run_grover r), g)
  | _, _ => (422%Z, g)
  end.

Definition serve (m : http_method) (p : string) (b : body) (g : rng_state) : Z * rng_state :=
  match dispatch m p with
  | Routed e ps => handle e ps b g
  | NotAllowed => (405%Z, g)
  | Redirect _ => (307%Z, g)
  | NotFound => (404%Z, g)
  end.

End Serve.

(** ** Start-up: [if __name__ == "__main__"] *)

(** [port = int(os.getenv("PORT", 8000))]: the default is the integer
    8000, which [int] returns unchanged. *)
Definition startup_port (getenv : string -> option string) : py_exn + Z :=
  match getenv "PORT" with
  | None => inr 8000%Z
  | Some s => py_int_of_string s
  end.

Record uvicorn_run : Type := mk_uvicorn { app_ref : string; host : string; port : Z; reload : bool }.

(** [uvicorn.run("main:app", host="0.0.0.0", port=port, reload=True)]. *)
Definition main (getenv : string -> option string) : py_exn + uvicorn_run :=
  match startup_port getenv with
  | inl e => inl e
  | inr p => inr (mk_uvicorn "main:app" "0.0.0.0" p true)
  end.

End App.

Module ServerFacts.
Import App.
Local Open Scope string_scope.

(** ** No two routes of the same method share a path *)

(** Two templates some path matches both: same length, and equal
    literals wherever both are literal. *)
Fixpoint segs_overlap (p1 p2 : list seg) : bool :=
  match p1, p2 with
  | [], [] => true
  | Lit a :: t1, Lit b :: t2 => String.eqb a b && segs_overlap t1 t2
  | _ :: t1, _ :: t2 => segs_overlap t1 t2
  | _, _ => false
  end.

Lemma match_segs_overlap p1 p2 segs ps1 ps2 :
  match_segs p1 segs = Some ps1 -> match_segs p2 segs = Some ps2 -> segs_overlap p1 p2 = true.
Proof.
  revert p2 segs ps1 ps2.
  induction p1 as [|[a|x] t1 IH]; intros [|[b|y] t2] [|s segs] ps1 ps2; cbn; try discriminate; auto;
    repeat match goal with
           | |- context [String.eqb ?u ?v] => destruct (String.eqb_spec u v)
           | |- context [match match_segs ?p ?l with _ => _ end] => destruct (match_segs p l) eqn:?
           end; subst; cbn; try discriminate; intros; eauto.
Qed.

Definition route_pair_ok (r1 r2 : route) : bool :=
  if route_eq_dec r1 r2 then true
  else if http_method_eq_dec (r_method r1) (r_method r2) then negb (segs_overlap (r_path r1) (r_path r2))
  else true.

Lemma routes_pairwise : forallb (fun r1 => forallb (route_pair_ok r1) routes) routes = true.
Proof. vm_compute. reflexivity. Qed.

(** At most one route matches a request. *)
Lemma route_unique r1 r2 m segs ps1 ps2 :
  In r1 routes -> In r2 routes -> r_method r1 = m -> r_method r2 = m ->
  match_segs (r_path r1) segs = Some ps1 -> match_segs (r_path r2) segs = Some ps2 -> r1 = r2.
Proof.
  intros I1 I2 M1 M2 S1 S2. pose proof routes_pairwise as Hp.
  rewrite forallb_forall in Hp. specialize (Hp r1 I1). rewrite forallb_forall in Hp.
  specialize (Hp r2 I2). unfold route_pair_ok in Hp.
  destruct (route_eq_dec r1 r2) as [E|]; [exact E|].
  destruct (http_method_eq_dec (r_method r1) (r_method r2)) as [_|N]; [|congruence].
  rewrite (match_segs_overlap _ _ _ _ _ S1 S2) in Hp. discriminate.
Qed.

Lemma first_match_routed rs m segs b e ps :
  first_match rs m segs b = Routed e ps ->
  exists r, In r rs /\ r_method r = m /\ r_endpoint r = e /\ match_segs (r_path r) segs = Some ps.
Proof.
  revert b. induction rs as [|r rs IH]; intros b; cbn.
  - destruct b; discriminate.
  - destruct (match_segs (r_path r) segs) as [ps'|] eqn:Hm.
    + destruct (http_method_eq_dec (r_method r) m) as [Em|].
      * intros H. injection H as <- <-. exists r. auto.
      * intros H. destruct (IH _ H) as (r' & ? & ?). exists r'. auto.
    + intros H. destruct (IH _ H) as (r' & ? & ?). exists r'. auto.
Qed.

Lemma first_match_unique rs m segs b r ps :
  In r rs -> r_method r = m -> match_segs (r_path r) segs = Some ps ->
  (forall r' ps', In r' rs -> r_method r' = m -> match_segs (r_path r') segs = Some ps' -> r' = r) ->
  first_match rs m segs b = Routed (r_endpoint r) ps.
Proof.
  revert b. induction rs as [|r0 rs IH]; intros b Hin Hm Hs Hu; [destruct Hin|]. cbn.
  destruct (match_segs (r_path r0) segs) as [ps0|] eqn:H0.
  - destruct (http_method_eq_dec (r_method r0) m) as [E|N].
    + assert (r0 = r) as -> by (apply (Hu r0 ps0); [left; reflexivity|exact E|exact H0]).
      congruence.
    + destruct Hin as [->|Hin]; [congruence|]. apply IH; auto. intros r' ps' I. apply Hu. now right.
  - destruct Hin as [->|Hin]; [congruence|]. apply IH; auto. intros r' ps' I. apply Hu. now right.
Qed.

(** C17: routing is deterministic: a request is dispatched to handler [e]
    with path parameters [ps] exactly when its path splits into segments
    that the template of one of [e]'s routes matches with [ps] and the
    route's method is the request's; since no two routes of a method
    share a path, the order of the decorators does not matter. *)
Theorem dispatch_routes_exactly m p e ps :
  dispatch m p = Routed e ps <->
  exists segs r, path_segments p = Some segs /\ In r routes /\ r_method r = m /\
    r_endpoint r = e /\ match_segs (r_path r) segs = Some ps.
Proof.
  split.
  - unfold dispatch. destruct (path_segments p) as [segs|]; [|discriminate].
    destruct (first_match routes m segs false) eqn:F; intros H.
    + injection H as <- <-. destruct (first_match_routed _ _ _ _ _ _ F) as (r & ?). eauto.
    + discriminate.
    + discriminate.
    + destruct (_ && _); discriminate.
  - intros (segs & r & Hp & Hin & Hm & <- & Hs). unfold dispatch. rewrite Hp.
    rewrite (first_match_unique routes m segs false r ps Hin Hm Hs); [reflexivity|].
    intros r' ps' I' M' S'. exact (route_unique r' r m segs ps' ps I' Hin M' Hm S' Hs).
Qed.

(** ** The service end to end *)

(** The path a template without parameters stands for. *)
Definition render (pat : list seg) : string :=
  fold_right (fun s acc => "/" ++ match s with Lit a => a | Param x => "{" ++ x ++ "}" end ++ acc)
    "" pat.

Section ServeFacts.
Context `{SciPyStats} `{KS2Samp} `{NormalDist} `{TrendLibs} `{StatsModels}
  `{SkLearn} `{ForestLib} `{BoostLib} `{XGBLib} `{Keras} `{NumpyRandom}.
Variable format_4f : R -> string.
Variable source_of : string -> string.

(** C16: the service composed of routing, validation and handlers: without
    TensorFlow, a POST to /api/ml/lstm with well-formed training rows and
    no prediction rows answers 500 (main.py passes X_predict=None); a GET
    of /api/code/c/a for a name a the health check lists under c answers
    404 exactly for the listed names the code mapping keys differently,
    200 for the others; every POST route answers 405 to a GET and 307 (a
    redirect) to a POST with a trailing slash. *)
Theorem serve_contract g :
  (HAS_TF = false -> forall X y e k, X <> [] -> Forall (fun r => length r = k) X ->
     serve format_4f source_of POST "/api/ml/lstm" (LSTMBody (mk_LSTMRequest X y None e)) g
       = (500%Z, g)) /\
  (forall c a, In a (MainFacts.health_names c) ->
     serve format_4f source_of GET ("/api/code/" ++ c ++ "/" ++ a) NoBody g =
       ((if existsb (fun ca => String.eqb (fst ca) c && String.eqb (snd ca) a)
              (MainFacts.names_without_code source_of) then 404 else 200)%Z, g)) /\
  (forall r b, In r routes -> r_method r = POST ->
     serve format_4f source_of GET (render (r_path r)) b g = (405%Z, g) /\
     serve format_4f source_of POST (render (r_path r) ++ "/") b g = (307%Z, g)).
Proof.
  split; [|split].
  - intros no_tf X y e k Hne HX. unfold serve.
    replace (dispatch POST "/api/ml/lstm") with (Routed run_lstm []) by (vm_compute; reflexivity).
    cbn [handle]. unfold Main.run_lstm, Main.lstm_request_dict. cbn [l_X_train l_y_train l_X_predict l_epochs].
    rewrite (LSTMFacts.train_and_predict_no_tf no_tf X y _ _ k Hne HX). reflexivity.
  - intros c a. unfold MainFacts.health_names.
    destruct (String.eqb_spec c "scientific") as [->|Hs];
      [intros Ha; repeat (destruct Ha as [<-|Ha]; [vm_compute; reflexivity|]); destruct Ha|].
    destruct (String.eqb_spec c "ml") as [->|Hm];
      [intros Ha; repeat (destruct Ha as [<-|Ha]; [vm_compute; reflexivity|]); destruct Ha|].
    destruct (String.eqb_spec c "quantum") as [->|Hq];
      [intros Ha; repeat (destruct Ha as [<-|Ha]; [vm_compute; reflexivity|]); destruct Ha|].
    cbn. rewrite <- !String.eqb_neq in *. rewrite Hs, Hm, Hq. intros [].
  - intros r b Hin Hm.
    repeat (destruct Hin as [<-|Hin]; [try discriminate Hm; split; vm_compute; reflexivity|]).
    destruct Hin.
Qed.

End ServeFacts.

(** ** Start-up *)

(** C19: the start-up reads the port back from the environment: with PORT
    unset, uvicorn runs main:app on 0.0.0.0:8000 with reload; with PORT set
    to str(z) for any integer z it runs on port z (int() reads back what
    str() prints; no range check, so a negative port or one above 65535
    reaches uvicorn); an empty PORT raises int()'s ValueError before
    uvicorn starts. *)
Theorem main_port_roundtrip getenv :
  (getenv "PORT" = None -> main getenv = inr (mk_uvicorn "main:app" "0.0.0.0" 8000 true)) /\
  (forall z, getenv "PORT" = Some (string_of_Z z) ->
     main getenv = inr (mk_uvicorn "main:app" "0.0.0.0" z true)) /\
  (getenv "PORT" = Some "" -> main getenv = inl (int_error "")).
Proof.
  unfold main, startup_port. split; [|split].
  - intros ->. reflexivity.
  - intros z ->. rewrite py_int_of_Z_string. reflexivity.
  - intros ->. reflexivity.
Qed.

(** ** The theorems on concrete runs *)

(** Libraries without a stand-in elsewhere: pymannkendall missing and a
    booster that never fits. *)
#[local] Instance trend_libs_missing : TrendLibs := {|
  HAS_MK := false;
  mk_original_test := fun _ => mk_pmk "no trend" false 1 0 0 0 0 0;
  mk_seasonal_test := fun _ => None;
  linregress := fun _ _ => (0, 0, 0, 1, 0)%R |}.

#[local] Instance boost_missing : BoostLib := {|
  booster := unit; gb_fit := fun _ _ _ => inl (ValueError "no booster");
  gb_predict := fun _ _ => inr []; gb_staged_predict := fun _ _ => [];
  gb_importances := fun _ => []; gb_score := fun _ _ _ => 0%R;
  gb_oob_improvement := fun _ => None; gb_cv := fun _ _ _ => inr [] |}.

#[local] Existing Instances rational_stats ks_rational_inst TrendFacts.cdf_stand_in
  ArimaFacts.arima_stand_in EnsembleFacts.sk_stand_in MLFacts.forest_stand_in MLFacts.xgb_missing
  LSTMFacts.keras_missing QuantumFacts.rng_stand_in.

Definition port_env (v : option string) : string -> option string :=
  fun k => if String.eqb k "PORT" then v else None.

Lemma main_port_roundtrip_witness :
  main (port_env None) = inr (mk_uvicorn "main:app" "0.0.0.0" 8000 true) /\
  main (port_env (Some "8080")) = inr (mk_uvicorn "main:app" "0.0.0.0" 8080 true) /\
  main (port_env (Some "")) = inl (int_error "").
Proof.
  split; [|split].
  - exact (proj1 (main_port_roundtrip (port_env None)) eq_refl).
  - exact (proj1 (proj2 (main_port_roundtrip (port_env (Some "8080")))) 8080%Z eq_refl).
  - exact (proj2 (proj2 (main_port_roundtrip (port_env (Some "")))) eq_refl).
Defined.

Definition g0 : @rng_state QuantumFacts.rng_stand_in := O.

Lemma serve_contract_witness :
  serve (fun _ => "") (fun _ => "") POST "/api/ml/lstm"
    (LSTMBody (mk_LSTMRequest LSTMFacts.lstm_demo_rows [23; 24]%R None None)) g0 = (500%Z, g0) /\
  serve (fun _ => "") (fun _ => "") GET "/api/code/scientific/kalman_filter" NoBody g0 = (404%Z, g0) /\
  serve (fun _ => "") (fun _ => "") GET "/api/code/scientific/arima" NoBody g0 = (200%Z, g0) /\
  serve (fun _ => "") (fun _ => "") GET "/api/ml/lstm" NoBody g0 = (405%Z, g0) /\
  serve (fun _ => "") (fun _ => "") POST "/api/ml/lstm/" NoBody g0 = (307%Z, g0).
Proof.
  destruct (serve_contract (fun _ => "") (fun _ => "") g0) as (H1 & H2 & H3).
  split; [apply (H1 eq_refl _ _ _ 3%nat); [discriminate|repeat constructor]|].
  split; [apply (H2 "scientific" "kalman_filter"); cbn; tauto|].
  split; [apply (H2 "scientific" "arima"); cbn; tauto|].
  apply (H3 (mk_route POST [Lit "api"; Lit "ml"; Lit "lstm"] run_lstm)); [cbn; tauto|reflexivity].
Defined.

End ServerFacts.
