(* ===== verification/Packages.v ===== *)
(** The package initialisers [algorithms/__init__.py],
    [algorithms/scientific/__init__.py], [algorithms/ml/__init__.py] and
    [algorithms/quantum/__init__.py], the import statements of [main.py]
    (lines 21 to 43) that load them, and
    [services/ibm_quantum_service.py]; and the [get_source_code] function
    of each algorithm module, which [get_algorithm_code] calls.

    The imports run on a model of Python's import system
    ([importlib._bootstrap]): [sys.modules] is the state, a module is
    registered before its body runs and removed if the body raises, a
    parent package is imported before its submodules, and a loaded
    submodule is bound in its parent's namespace.  [from P import a] is
    [_handle_fromlist] (a name [P] does not bind is imported as the
    submodule [P.a], a missing one being ignored there) followed by
    [IMPORT_FROM] (a name still unbound raises [ImportError]).  The
    recursion of the import system carries a fuel argument; this file
    shows that more fuel never changes a result, and how much is enough. *)

From Stdlib Require Import String List Bool Arith Lia.
From S2P Require Import Prelude Api.
Import ListNotations.
Open Scope py_scope.

Module Imports.

Local Open Scope string_scope.

(** ** Monadic [for] and [try] *)

Fixpoint py_for {S A} (f : A -> PyM S unit) (l : list A) : PyM S unit :=
  match l with
  | [] => py_ret tt
  | x :: t => f x ;; py_for f t
  end.

Definition py_try {S A} (m : PyM S A) (h : py_exn -> PyM S A) : PyM S A :=
  fun s => match m s with
           | (inl e, s') => h e s'
           | r => r
           end.

(** ** The source tree *)

(** A module's dotted name, as the list of its components. *)
Definition modname := list string.

Definition dotted (n : modname) : string := py_join "." n.

Definition parent (n : modname) : option modname :=
  match n with
  | [] | [_] => None
  | _ => Some (removelast n)
  end.

(** The statements of the package initialisers: [from . import a, ...]
    and [__all__ = [...]] (their docstrings are inert). *)
Inductive stmt : Type :=
| FromRelImport (names : list string)
| SetAll (names : list string).

(** What the path finder finds under a dotted name: a directory with an
    [__init__.py] and its body, a directory without one ([services/]),
    or a source file, whose body (class and function definitions and the
    imports of numpy, scipy and the like) is not executed here. *)
Inductive node : Type :=
| RegularPackage (body : list stmt)
| NamespacePackage
| SourceFile.

Definition algorithms_init : list stmt :=
  [FromRelImport ["scientific"]; FromRelImport ["ml"]; FromRelImport ["quantum"];
   SetAll ["scientific"; "ml"; "quantum"]].

Definition scientific_init : list stmt :=
  [FromRelImport ["kalman_filter"]; FromRelImport ["arima_model"];
   FromRelImport ["bayesian_ensemble"]; FromRelImport ["bias_correction"];
   FromRelImport ["anomaly_detection"]; FromRelImport ["trend_analysis"];
   SetAll ["kalman_filter"; "arima_model"; "bayesian_ensemble"; "bias_correction";
           "anomaly_detection"; "trend_analysis"]].

Definition ml_init : list stmt :=
  [FromRelImport ["random_forest"]; FromRelImport ["lstm_predictor"];
   FromRelImport ["xgboost_predictor"]; FromRelImport ["gradient_boosting"];
   FromRelImport ["ensemble_voting"];
   SetAll ["random_forest"; "lstm_predictor"; "xgboost_predictor"; "gradient_boosting";
           "ensemble_voting"]].

Definition quantum_init : list stmt :=
  [FromRelImport ["vqe_optimizer"]; FromRelImport ["qaoa_solver"];
   FromRelImport ["qsvm_classifier"]; FromRelImport ["qnn_regression"];
   FromRelImport ["grover_search"];
   SetAll ["vqe_optimizer"; "qaoa_solver"; "qsvm_classifier"; "qnn_regression";
           "grover_search"]].

Definition source_files (pkg : string) (files : list string) : dict node :=
  map (fun f => (pkg ++ "." ++ f, SourceFile)) files.

(** The directories and files of [src/python-backend], in the order of
    a directory listing. *)
Definition source_tree : dict node :=
  ([("algorithms", RegularPackage algorithms_init);
   ("algorithms.ml", RegularPackage ml_init);
   ("algorithms.quantum", RegularPackage quantum_init);
   ("algorithms.scientific", RegularPackage scientific_init);
   ("services", NamespacePackage)] ++
  source_files "algorithms.ml"
    ["ensemble_voting"; "gradient_boosting"; "lstm_predictor"; "random_forest"; "xgboost_predictor"] ++
  source_files "algorithms.quantum"
    ["grover_search"; "qaoa_solver"; "qnn_regression"; "qsvm_classifier"; "vqe_optimizer"] ++
  source_files "algorithms.scientific"
    ["anomaly_detection"; "arima_model"; "bayesian_ensemble"; "bias_correction"; "kalman_filter";
     "trend_analysis"] ++
  source_files "services" ["ibm_quantum_service"; "weather_processor"])%list.

(** ** [sys.modules] *)

(** A module object: the names its namespace binds (other than
    [__all__]), and [__all__] once assigned. *)
Record module : Type := mk_module { mod_attrs : list string; mod_all : option (list string) }.

Definition sys_modules := dict module.

Definition add_name (a : string) (l : list string) : list string :=
  if existsb (String.eqb a) l then l else l ++ [a].

Definition has_attr (sm : sys_modules) (n : modname) (a : string) : bool :=
  match dict_get sm (dotted n) with
  | Some m => existsb (String.eqb a) (mod_attrs m)
  | None => false
  end.

Definition update_module (n : modname) (f : module -> module) (sm : sys_modules) : sys_modules :=
  match dict_get sm (dotted n) with
  | Some m => dict_set sm (dotted n) (f m)
  | None => sm
  end.

(** [setattr(module, a, ...)] *)
Definition bind_name (n : modname) (a : string) : PyM sys_modules unit :=
  py_modify (update_module n (fun m => mk_module (add_name a (mod_attrs m)) (mod_all m))).

(** [__all__ = l] *)
Definition set_all (n : modname) (l : list string) : PyM sys_modules unit :=
  py_modify (update_module n (fun m => mk_module (mod_attrs m) (Some l))).

(** [del sys.modules[name]] *)
Definition dict_del {V} (k : string) (d : dict V) : dict V :=
  filter (fun kv => negb (String.eqb (fst kv) k)) d.

(** ** The import system *)

Section ImportStep.

(** The recursive call of [_find_and_load]. *)
Variable import_rec : modname -> PyM sys_modules unit.

(** [_handle_fromlist(module, [a])]. *)
Definition handle_fromlist (pkg : modname) (a : string) : PyM sys_modules unit :=
  sm <- py_get ;;
  if has_attr sm pkg a then py_ret tt
  else py_try (import_rec (pkg ++ [a])%list)
         (fun e => match e with
                   | ModuleNotFoundError nm =>
                       if String.eqb nm (dotted (pkg ++ [a])%list) then py_ret tt else py_raise e
                   | _ => py_raise e
                   end).

(** [IMPORT_FROM a] *)
Definition import_from (pkg : modname) (a : string) : PyM sys_modules unit :=
  sm <- py_get ;;
  if has_attr sm pkg a then py_ret tt
  else py_raise (ImportError ("cannot import name '" ++ a ++ "' from '" ++ dotted pkg ++ "'")).

(** [from pkg import a1, ..., an]: the package, then the fromlist, then
    the names one by one. *)
Definition from_import (pkg : modname) (names : list string) : PyM sys_modules unit :=
  import_rec pkg ;; py_for (handle_fromlist pkg) names ;; py_for (import_from pkg) names.

(** A statement of the body of the package [pkg]; [from . import a]
    binds [a] in the package's own namespace. *)
Definition exec_stmt (pkg : modname) (st : stmt) : PyM sys_modules unit :=
  match st with
  | FromRelImport names => from_import pkg names ;; py_for (bind_name pkg) names
  | SetAll l => set_all pkg l
  end.

Definition exec_node (n : modname) (nd : node) : PyM sys_modules unit :=
  match nd with
  | RegularPackage body => py_for (exec_stmt n) body
  | NamespacePackage | SourceFile => py_ret tt
  end.

(** [_find_and_load(name)]. *)
Definition import_step (n : modname) : PyM sys_modules unit :=
  sm <- py_get ;;
  if dict_mem sm (dotted n) then py_ret tt else
  match parent n with Some p => import_rec p | None => py_ret tt end ;;
  sm1 <- py_get ;;
  if dict_mem sm1 (dotted n) then py_ret tt else
  match dict_get source_tree (dotted n) with
  | None => py_raise (ModuleNotFoundError (dotted n))
  | Some nd =>
      py_modify (fun sm2 => dict_set sm2 (dotted n) (mk_module [] None)) ;;
      py_try (exec_node n nd) (fun e => py_modify (dict_del (dotted n)) ;; py_raise e) ;;
      match parent n with
      | Some p => bind_name p (last n EmptyString)
      | None => py_ret tt
      end
  end.

(** The import statements of [main.py], lines 21 to 43: each
    [from P import ...] runs and binds its names in [main]'s namespace,
    returned in the order of binding. *)
Fixpoint run_imports (stmts : list (modname * list string)) (globals : list string)
    : PyM sys_modules (list string) :=
  match stmts with
  | [] => py_ret globals
  | (pkg, names) :: rest =>
      from_import pkg names ;; run_imports rest (fold_left (fun g a => add_name a g) names globals)
  end.

End ImportStep.

Fixpoint import_module (fuel : nat) (n : modname) : PyM sys_modules unit :=
  match fuel with
  | O => py_raise RecursionError
  | S f => import_step (import_module f) n
  end.

Definition main_imports : list (modname * list string) :=
  [(["algorithms"; "scientific"],
    ["kalman_filter"; "arima_model"; "bayesian_ensemble"; "bias_correction";
     "anomaly_detection"; "trend_analysis"]);
   (["algorithms"; "ml"],
    ["lstm_predictor"; "random_forest"; "xgboost_predictor"; "gradient_boosting"; "ensemble_voting"]);
   (["algorithms"; "quantum"],
    ["vqe_optimizer"; "qaoa_solver"; "qsvm_classifier"; "qnn_regression"; "grover_search"]);
   (["services"], ["ibm_quantum_service"; "weather_processor"])].

Definition main_import_run (fuel : nat) : PyM sys_modules (list string) :=
  run_imports (import_module fuel) main_imports [].

End Imports.

(** ** Fuel *)

Module ImportFacts.
Import Imports.

Local Open Scope string_scope.

(** [m2] does what [m1] does whenever [m1] does not run out of fuel. *)
Definition fuel_le {A} (m1 m2 : PyM sys_modules A) : Prop :=
  forall s r s', m1 s = (r, s') -> r <> inl RecursionError -> m2 s = (r, s').

Lemma fuel_le_refl {A} (m : PyM sys_modules A) : fuel_le m m.
Proof. intros s r s' H _. exact H. Qed.

Lemma fuel_le_trans {A} (m1 m2 m3 : PyM sys_modules A) :
  fuel_le m1 m2 -> fuel_le m2 m3 -> fuel_le m1 m3.
Proof. intros H12 H23 s r s' H Hr. exact (H23 _ _ _ (H12 _ _ _ H Hr) Hr). Qed.

Lemma fuel_le_bind {A B} (m1 m2 : PyM sys_modules A) (k1 k2 : A -> PyM sys_modules B) :
  fuel_le m1 m2 -> (forall a, fuel_le (k1 a) (k2 a)) -> fuel_le (py_bind m1 k1) (py_bind m2 k2).
Proof.
  intros Hm Hk s r s'. unfold py_bind.
  destruct (m1 s) as [[e|a] s1] eqn:E1; intros H Hr.
  - injection H as <- <-.
    assert (He : inl e <> (inl RecursionError : py_exn + A)) by congruence.
    now rewrite (Hm _ _ _ E1 He).
  - rewrite (Hm _ _ _ E1 ltac:(discriminate)). exact (Hk a _ _ _ H Hr).
Qed.

(** A handler that lets [RecursionError] through. *)
Lemma fuel_le_try {A} (m1 m2 : PyM sys_modules A) h :
  (forall s, fst (h RecursionError s) = inl RecursionError) ->
  fuel_le m1 m2 -> fuel_le (py_try m1 h) (py_try m2 h).
Proof.
  intros Hh Hm s r s'. unfold py_try.
  destruct (m1 s) as [[e|a] s1] eqn:E1; intros H Hr.
  - assert (He : inl e <> (inl RecursionError : py_exn + A)).
    { intros Heq. injection Heq as ->. pose proof (Hh s1) as H1. rewrite H in H1. contradiction. }
    now rewrite (Hm _ _ _ E1 He).
  - now rewrite (Hm _ _ _ E1 ltac:(discriminate)).
Qed.

Lemma fuel_le_for {A} (f1 f2 : A -> PyM sys_modules unit) l :
  (forall x, fuel_le (f1 x) (f2 x)) -> fuel_le (py_for f1 l) (py_for f2 l).
Proof.
  intros Hf. induction l as [|x l IH]; [apply fuel_le_refl|].
  apply fuel_le_bind; [apply Hf|intros; exact IH].
Qed.

(** Tactic: the two sides differ only in the recursive call. *)
Ltac fuel_mono :=
  repeat match goal with
  | |- forall _, _ => intro
  | |- fuel_le (py_bind _ _) (py_bind _ _) => apply fuel_le_bind
  | |- fuel_le (py_try _ _) (py_try _ _) => apply fuel_le_try; [intros; reflexivity|]
  | |- fuel_le (py_for _ _) (py_for _ _) => apply fuel_le_for
  | |- fuel_le (if ?b then _ else _) _ => destruct b
  | |- fuel_le ?m ?m => apply fuel_le_refl
  | H : forall n, fuel_le (?i1 n) (?i2 n) |- fuel_le (?i1 _) (?i2 _) => apply H
  end.

Section Mono.
Variables i1 i2 : modname -> PyM sys_modules unit.
Hypothesis Hi : forall n, fuel_le (i1 n) (i2 n).

Lemma from_import_mono pkg names : fuel_le (from_import i1 pkg names) (from_import i2 pkg names).
Proof. unfold from_import, handle_fromlist. fuel_mono. Qed.

Lemma import_step_mono n : fuel_le (import_step i1 n) (import_step i2 n).
Proof.
  unfold import_step, exec_node.
  destruct (parent n), (dict_get source_tree (dotted n)) as [[body| |]|]; fuel_mono;
    unfold exec_stmt; match goal with |- context [match ?x with FromRelImport _ => _ | SetAll _ => _ end] => destruct x end;
    fuel_mono; apply from_import_mono.
Qed.

Lemma run_imports_mono stmts g : fuel_le (run_imports i1 stmts g) (run_imports i2 stmts g).
Proof.
  revert g. induction stmts as [|[pkg names] stmts IH]; intros g; [apply fuel_le_refl|].
  apply fuel_le_bind; [apply from_import_mono|intros; apply IH].
Qed.

End Mono.

Lemma import_module_succ f n : fuel_le (import_module f n) (import_module (S f) n).
Proof.
  revert n. induction f as [|f IH]; intros n.
  - intros s r s' H Hr. injection H as <- _. contradiction.
  - apply import_step_mono, IH.
Qed.

(** More fuel never changes the outcome of an import that did not run
    out of fuel. *)
Lemma import_module_fuel f f' n : f <= f' -> fuel_le (import_module f n) (import_module f' n).
Proof.
  induction 1 as [|f' _ IH]; [apply fuel_le_refl|].
  exact (fuel_le_trans _ _ _ IH (import_module_succ f' n)).
Qed.

Lemma main_import_run_fuel f f' : f <= f' -> fuel_le (main_import_run f) (main_import_run f').
Proof. intros H. apply run_imports_mono. intros n. now apply import_module_fuel. Qed.

Lemma In_of_existsb (a : string) l : existsb (String.eqb a) l = true -> In a l.
Proof.
  intros H. apply existsb_exists in H as [x [Hx Hax]].
  apply String.eqb_eq in Hax. now subst.
Qed.

Lemma incl_of_forallb (l1 l2 : list string) :
  forallb (fun a => existsb (String.eqb a) l2) l1 = true -> incl l1 l2.
Proof.
  intros H a Ha. rewrite forallb_forall in H. exact (In_of_existsb _ _ (H a Ha)).
Qed.

(** The namespace of a package after [import algorithms] agrees with
    its [__all__] and with the modules [get_algorithm_code] maps the
    category [c] to. *)
Definition exports_agree (sm : sys_modules) (c : string) : Prop :=
  exists md l algos, dict_get sm (dotted ["algorithms"; c]) = Some md /\ mod_all md = Some l /\
    incl l (mod_attrs md) /\ incl (mod_attrs md) l /\
    dict_get Main.code_mapping c = Some algos /\ incl (map snd algos) l /\ incl l (map snd algos).

Definition names_agree (l1 l2 : list string) : bool :=
  forallb (fun a => existsb (String.eqb a) l2) l1 && forallb (fun a => existsb (String.eqb a) l1) l2.

Lemma names_agree_incl l1 l2 : names_agree l1 l2 = true -> incl l1 l2 /\ incl l2 l1.
Proof. unfold names_agree. rewrite andb_true_iff. intros [H1 H2]. split; now apply incl_of_forallb. Qed.

Definition exports_agree_b (sm : sys_modules) (c : string) : bool :=
  match dict_get sm (dotted ["algorithms"; c]), dict_get Main.code_mapping c with
  | Some md, Some algos =>
      match mod_all md with
      | Some l => names_agree l (mod_attrs md) && names_agree (map snd algos) l
      | None => false
      end
  | _, _ => false
  end.

Lemma exports_agree_b_spec sm c : exports_agree_b sm c = true -> exports_agree sm c.
Proof.
  unfold exports_agree_b, exports_agree.
  destruct (dict_get sm _) as [md|] eqn:Em, (dict_get Main.code_mapping c) as [algos|] eqn:Ea;
    try discriminate.
  destruct (mod_all md) as [l|] eqn:El; [|discriminate]. rewrite andb_true_iff.
  intros [H1 H2]. apply names_agree_incl in H1 as [H1 H1']. apply names_agree_incl in H2 as [H2 H2'].
  exists md, l, algos. repeat split; assumption.
Qed.

Lemma code_modules_bound_spec (g : list string) :
  forallb (fun '(_, algos) => forallb (fun '(_, m) => existsb (String.eqb m) g) algos)
    Main.code_mapping = true ->
  Forall (fun '(_, algos) => Forall (fun '(_, m) => In m g) algos) Main.code_mapping.
Proof.
  intros H. apply Forall_forall. intros [c algos] Hc. rewrite forallb_forall in H.
  specialize (H _ Hc). cbv beta iota in H. rewrite forallb_forall in H.
  apply Forall_forall. intros [a m] Ha. apply In_of_existsb, (H _ Ha).
Qed.

(** C18: Package initialisation and the imports of main.py: with any
    fuel of at least 5 for the import recursion, [import algorithms]
    (the first step of main's first import) succeeds, and each of the
    packages [algorithms.scientific], [algorithms.ml] and
    [algorithms.quantum] then binds exactly the names of its [__all__],
    which are exactly the modules [get_algorithm_code] maps the category
    to; and main's four [from ... import ...] statements succeed and bind
    every module that [code_mapping] names. *)
Theorem main_imports_bind_code_modules f :
  5 <= f ->
  (exists sm, import_module f ["algorithms"] [] = (inr tt, sm) /\
     Forall (exports_agree sm) ["scientific"; "ml"; "quantum"]) /\
  (exists g sm, main_import_run f [] = (inr g, sm) /\
     Forall (fun '(_, algos) => Forall (fun '(_, m) => In m g) algos) Main.code_mapping).
Proof.
  intros Hf. split.
  - destruct (import_module 5 ["algorithms"] []) as [r sm] eqn:E.
    pose proof (import_module_fuel 5 f _ Hf _ _ _ E) as E'. vm_compute in E.
    injection E as <- <-. rewrite (E' ltac:(discriminate)).
    eexists. split; [reflexivity|].
    repeat apply Forall_cons; try apply Forall_nil; apply exports_agree_b_spec; vm_compute; reflexivity.
  - destruct (main_import_run 5 []) as [r sm] eqn:E.
    pose proof (main_import_run_fuel 5 f Hf _ _ _ E) as E'. vm_compute in E.
    injection E as <- <-. rewrite (E' ltac:(discriminate)).
    do 2 eexists. split; [reflexivity|].
    apply code_modules_bound_spec. vm_compute. reflexivity.
Qed.

Lemma main_imports_bind_code_modules_witness :
  (exists sm, import_module 6 ["algorithms"] [] = (inr tt, sm) /\
     Forall (exports_agree sm) ["scientific"; "ml"; "quantum"]) /\
  (exists g sm, main_import_run 6 [] = (inr g, sm) /\
     Forall (fun '(_, algos) => Forall (fun '(_, m) => In m g) algos) Main.code_mapping).
Proof. apply (main_imports_bind_code_modules 6). lia. Defined.

End ImportFacts.

(** ** The [get_source_code] functions of the algorithm modules

    Each returns [inspect.getsource] of its module's class; [getsource]
    stands for [inspect.getsource], a function of the class's name. *)

Module SourceCode.

Local Open Scope string_scope.

Definition kalman_filter_get_source_code (getsource : string -> string) : string :=
  getsource "WeatherKalmanFilter".

Definition arima_model_get_source_code (getsource : string -> string) : string :=
  getsource "WeatherARIMA".

Definition bayesian_ensemble_get_source_code (getsource : string -> string) : string :=
  getsource "BayesianModelAveraging".

Definition bias_correction_get_source_code (getsource : string -> string) : string :=
  getsource "QuantileMappingCorrection".

Definition anomaly_detection_get_source_code (getsource : string -> string) : string :=
  getsource "WeatherAnomalyDetector".

Definition trend_analysis_get_source_code (getsource : string -> string) : string :=
  getsource "TrendAnalyzer".

Definition random_forest_get_source_code (getsource : string -> string) : string :=
  getsource "WeatherRandomForest".

Definition lstm_predictor_get_source_code (getsource : string -> string) : string :=
  getsource "WeatherLSTM".

Definition xgboost_predictor_get_source_code (getsource : string -> string) : string :=
  getsource "WeatherXGBoost".

Definition gradient_boosting_get_source_code (getsource : string -> string) : string :=
  getsource "WeatherGradientBoosting".

Definition ensemble_voting_get_source_code (getsource : string -> string) : string :=
  getsource "WeatherEnsembleVoting".

Definition vqe_optimizer_get_source_code (getsource : string -> string) : string :=
  getsource "WeatherVQE".

Definition qaoa_solver_get_source_code (getsource : string -> string) : string :=
  getsource "WeatherQAOA".

Definition qsvm_classifier_get_source_code (getsource : string -> string) : string :=
  getsource "WeatherQSVM".

Definition qnn_regression_get_source_code (getsource : string -> string) : string :=
  getsource "WeatherQNN".

Definition grover_search_get_source_code (getsource : string -> string) : string :=
  getsource "GroverSearch".

(** The function [m.get_source_code] of the module [m] that [main.py]
    imported. *)
Definition module_get_source_code (getsource : string -> string) (m : string) : option string :=
  match m with
  | "kalman_filter" => Some (kalman_filter_get_source_code getsource)
  | "arima_model" => Some (arima_model_get_source_code getsource)
  | "bayesian_ensemble" => Some (bayesian_ensemble_get_source_code getsource)
  | "bias_correction" => Some (bias_correction_get_source_code getsource)
  | "anomaly_detection" => Some (anomaly_detection_get_source_code getsource)
  | "trend_analysis" => Some (trend_analysis_get_source_code getsource)
  | "random_forest" => Some (random_forest_get_source_code getsource)
  | "lstm_predictor" => Some (lstm_predictor_get_source_code getsource)
  | "xgboost_predictor" => Some (xgboost_predictor_get_source_code getsource)
  | "gradient_boosting" => Some (gradient_boosting_get_source_code getsource)
  | "ensemble_voting" => Some (ensemble_voting_get_source_code getsource)
  | "vqe_optimizer" => Some (vqe_optimizer_get_source_code getsource)
  | "qaoa_solver" => Some (qaoa_solver_get_source_code getsource)
  | "qsvm_classifier" => Some (qsvm_classifier_get_source_code getsource)
  | "qnn_regression" => Some (qnn_regression_get_source_code getsource)
  | "grover_search" => Some (grover_search_get_source_code getsource)
  | _ => None
  end.

(** [code_mapping[category][algorithm]()]: [get_algorithm_code] with the
    modules' own [get_source_code]. *)
Definition source_of (getsource : string -> string) (m : string) : string :=
  match module_get_source_code getsource m with Some src => src | None => EmptyString end.

End SourceCode.

Module SourceFacts.
Import SourceCode.

Local Open Scope string_scope.

(** Every module [code_mapping] names has a [get_source_code], so
    [get_algorithm_code] answers each listed key with the source of a
    class; with an injective [inspect.getsource] the sixteen keys answer
    sixteen different texts: no module returns another one's class. *)
Lemma code_sources_distinct (getsource : string -> string) :
  (forall x y, getsource x = getsource y -> x = y) ->
  Forall (fun '(_, algos) => Forall (fun '(_, m) => module_get_source_code getsource m <> None) algos)
    Main.code_mapping /\
  NoDup (map (fun am => source_of getsource (snd am)) (concat (map snd Main.code_mapping))).
Proof.
  intros Hinj. split.
  - repeat constructor; discriminate.
  - change (map (fun am => source_of getsource (snd am)) (concat (map snd Main.code_mapping)))
      with (map getsource (map (fun am => source_of (fun c => c) (snd am)) (concat (map snd Main.code_mapping)))).
    apply Finite.Injective_map_NoDup; [exact Hinj|].
    vm_compute. repeat constructor; simpl; intuition discriminate.
Qed.

End SourceFacts.

(** ** [services/ibm_quantum_service.py] *)

Module IBMQuantumService.

Local Open Scope string_scope.

(** The module's globals, read from the environment when it is imported. *)
Record ibm_globals : Type := mk_ibm_globals
  { IBM_QUANTUM_TOKEN : option string; IBM_QUANTUM_INSTANCE : string }.

Definition ibm_module_init (getenv : string -> option string) : ibm_globals :=
  mk_ibm_globals (getenv "IBM_QUANTUM_TOKEN")
    (match getenv "IBM_QUANTUM_INSTANCE" with Some v => v | None => "ibm-q/open/main" end).

Record backend_info : Type := mk_backend { backend : string; status : string; qubits : nat }.

(** [get_backend()] *)
Definition get_backend : backend_info := mk_backend "ibm_brisbane" "available" 127.

End IBMQuantumService.
